(** * vs-codebench: the ordered hierarchical stores of todos and bookmarks

    A shallow embedding of [TodoService], [TodoValidator],
    [BookmarkValidator] and [BookmarkService], of the callers that gate
    them ([TodosProvider.addSubTodo], [TodoDragAndDropController],
    [BookmarksProvider.addFolder], the commands 'vs-codebench.addTodo',
    'vs-codebench.addBookmark' and 'vs-codebench.toggleBookmark'), and
    the properties of their ordering, nesting, cascade, count-ceiling
    and edit-reconciliation logic.

    Conventions of the embedding.
    - A JavaScript [number] that is an order, a line or a timestamp is a
      [Z]; counters that start at 0 or 1 and are only incremented (depth,
      item count) are [nat].
    - [string | undefined] is [option string]; JavaScript's truthiness of
      such a value is [truthy]: [undefined] and the empty string are falsy.
    - An object of the store is a record; the arrays [this.todos],
      [this.bookmarks] and [this.folders] are lists of records.  Ids are
      UUIDs, so an object is identified by its id: a write through a
      reference ([item.order = index]) is an update of the records
      carrying that id.  Theorems that depend on it assume unique ids.
    - [Date.now()] and [uuidv4()] are arguments of the operations.
    - A loop or recursion that the source does not bound takes [fuel];
      running out of fuel is [None] (or [Diverges]).
    - What a command reads of the editor and what an input box returns
      are arguments of the command. *)

From Stdlib Require Import List String Ascii ZArith Lia Bool Arith Permutation FinFun
  DecimalString.
Import ListNotations.
Local Open Scope string_scope.
Local Open Scope nat_scope.
Local Open Scope list_scope.

Set Implicit Arguments.

(** ** JavaScript helpers *)

Module JS.

(** [a === b] on [string | undefined]. *)
Definition optEq (a b : option string) : bool :=
  match a, b with
  | Some x, Some y => String.eqb x y
  | None, None => true
  | _, _ => false
  end.

(** Truthiness of a [string | undefined]. *)
Definition truthy (a : option string) : bool :=
  match a with
  | Some s => negb (String.eqb s "")
  | None => false
  end.

(** [const x = arr.find(p); if (x) { mutate x }]: the first match is
    updated in place. *)
Fixpoint updateFirst {A : Type} (p : A -> bool) (f : A -> A) (l : list A) : list A :=
  match l with
  | [] => []
  | x :: r => if p x then f x :: r else x :: updateFirst p f r
  end.

(** [arr.findIndex(p)], [None] standing for -1. *)
Fixpoint findIndex {A : Type} (p : A -> bool) (l : list A) : option nat :=
  match l with
  | [] => None
  | x :: r => if p x then Some 0
              else match findIndex p r with
                   | Some i => Some (S i)
                   | None => None
                   end
  end.

(** [arr.splice(i, 0, x)]: insertion before position [i] (at the end
    when [i] is past the end). *)
Definition spliceIn {A : Type} (i : nat) (x : A) (l : list A) : list A :=
  firstn i l ++ x :: skipn i l.

(** [arr.splice(i, 1)]: the array without position [i]. *)
Definition spliceOut {A : Type} (i : nat) (l : list A) : list A :=
  firstn i l ++ skipn (S i) l.

(** A [Set<string>] in insertion order. *)
Definition setHas (x : string) (s : list string) : bool :=
  existsb (String.eqb x) s.

Definition setAdd (x : string) (s : list string) : list string :=
  if setHas x s then s else s ++ [x].

(** [text.split('\n')]. *)
Definition newline : ascii := Ascii.ascii_of_nat 10.

Fixpoint splitNewline (s : string) : list string :=
  match s with
  | EmptyString => [EmptyString]
  | String c r =>
      if Ascii.eqb c newline then EmptyString :: splitNewline r
      else match splitNewline r with
           | h :: t => String c h :: t
           | [] => [String c EmptyString]
           end
  end.

(** The outcome of a method that may throw: the store it leaves in
    memory is part of the outcome in both cases. *)
Inductive Outcome (S : Type) : Type :=
| Returned (s : S)
| Thrown (msg : string) (s : S)
| Diverges.

Arguments Diverges {S}.

End JS.
Import JS.

(** ** Parent-pointer forests

    Todos and folders are kept in flat arrays; the tree is given by the
    [parentId] of each element. *)

Module Forest.
Section Forest.

Variable A : Type.
Variable key : A -> string.
Variable parent : A -> option string.

(** [descendant l a x]: following [parentId] from the element with id
    [x], one reaches [a]. *)
Inductive descendant (l : list A) (a : string) : string -> Prop :=
| desc_child : forall c,
    In c l -> parent c = Some a -> descendant l a (key c)
| desc_up : forall c m,
    In c l -> parent c = Some m -> descendant l a m ->
    descendant l a (key c).

(** The subtree of [a]: [a] and its descendants. *)
Definition inSubtree (l : list A) (a x : string) : Prop :=
  x = a \/ descendant l a x.

(** No cycles: some rank grows along every parent link. *)
Definition acyclic (l : list A) : Prop :=
  exists rank : string -> nat,
    forall c p, In c l -> parent c = Some p -> rank (key c) < rank p.

End Forest.
End Forest.

(** ** Dense orders *)

(** Sorted ascending, [orders] reads 0,1,...,k-1 with no gap and no
    duplicate: it is a permutation of that sequence. *)
Definition dense (orders : list Z) : Prop :=
  Permutation orders (map Z.of_nat (seq 0 (List.length orders))).

(** ** The todo store *)

Module Todos.

Record Todo : Type := mkTodo {
  id : string;
  text : string;
  done : bool;
  createdAt : Z;
  updatedAt : Z;
  order : Z;
  parentId : option string
}.

Definition setDone (t : Todo) (d : bool) (now : Z) : Todo :=
  mkTodo (id t) (text t) d (createdAt t) now (order t) (parentId t).

Definition setText (t : Todo) (s : string) (now : Z) : Todo :=
  mkTodo (id t) s (done t) (createdAt t) now (order t) (parentId t).

Definition setOrder (t : Todo) (o : Z) : Todo :=
  mkTodo (id t) (text t) (done t) (createdAt t) (updatedAt t) o (parentId t).

Definition hasId (i : string) (t : Todo) : bool := String.eqb (id t) i.

Definition childOf (p : option string) (t : Todo) : bool := optEq (parentId t) p.

(** [TodoValidator.validateTotalCount]. *)
Definition validateTotalCount (todos : list Todo) : option string :=
  if 100 <=? List.length todos then Some "Total Todo count cannot exceed 100."
  else None.

Section Service.

(** [String.prototype.trim], a function of the host. *)
Variable trim : string -> string.

(** [TodoService.addTodo]: the new todo and the store after the push. *)
Definition addTodo (newId : string) (now1 now2 : Z) (txt : string)
    (parent : option string) (todos : list Todo) : Todo * list Todo :=
  let newTodo := mkTodo newId (trim txt) false now1 now2
                        (Z.of_nat (List.length todos)) parent in
  (newTodo, todos ++ [newTodo]).

Definition toggleTodo (now : Z) (i : string) (todos : list Todo) : list Todo :=
  updateFirst (hasId i) (fun t => setDone t (negb (done t)) now) todos.

Definition renameTodo (now : Z) (i : string) (txt : string) (todos : list Todo) : list Todo :=
  updateFirst (hasId i) (fun t => setText t (trim txt) now) todos.

End Service.

(** [TodoService.deleteTodo]: [deleteRecursive] removes the children
    found in the current array, then the todo itself. *)
Fixpoint deleteRecursive (fuel : nat) (todoId : string) (todos : list Todo)
    : option (list Todo) :=
  match fuel with
  | 0 => None
  | S n =>
      let children := filter (childOf (Some todoId)) todos in
      match fold_left (fun acc child =>
                         match acc with
                         | Some ts => deleteRecursive n (id child) ts
                         | None => None
                         end) children (Some todos) with
      | Some ts => Some (filter (fun t => negb (hasId todoId t)) ts)
      | None => None
      end
  end.

Definition deleteTodo (fuel : nat) (i : string) (todos : list Todo) : option (list Todo) :=
  deleteRecursive fuel i todos.

(** [TodoService.clearCheckedTodos]: [markForDeletion] adds the id and
    recurses into the children, whether or not the id was in the set
    already. *)
Fixpoint markForDeletion (fuel : nat) (todos : list Todo) (todoId : string)
    (toDelete : list string) : option (list string) :=
  match fuel with
  | 0 => None
  | S n =>
      let children := filter (childOf (Some todoId)) todos in
      fold_left (fun acc child =>
                   match acc with
                   | Some s => markForDeletion n todos (id child) s
                   | None => None
                   end) children (Some (setAdd todoId toDelete))
  end.

Definition markChecked (fuel : nat) (todos : list Todo) : option (list string) :=
  fold_left (fun acc t =>
               match acc with
               | Some s => if done t then markForDeletion fuel todos (id t) s else Some s
               | None => None
               end) todos (Some []).

Definition clearCheckedTodos (fuel : nat) (todos : list Todo) : option (list Todo) :=
  match markChecked fuel todos with
  | None => None
  | Some toDelete =>
      if List.length toDelete =? 0 then Some todos
      else Some (filter (fun t => negb (setHas (id t) toDelete)) todos)
  end.

(** [TodoService.reorderTodo]: the dragged todo is spliced out and back in at the
    target's old index, and every todo takes its array index as order. *)
Fixpoint indexOrders (index : nat) (todos : list Todo) : list Todo :=
  match todos with
  | [] => []
  | t :: r => setOrder t (Z.of_nat index) :: indexOrders (S index) r
  end.

Definition reorderTodo (draggedId targetId : string) (todos : list Todo) : list Todo :=
  match findIndex (hasId draggedId) todos, findIndex (hasId targetId) todos with
  | Some draggedIndex, Some targetIndex =>
      match nth_error todos draggedIndex with
      | Some draggedTodo =>
          indexOrders 0 (spliceIn targetIndex draggedTodo (spliceOut draggedIndex todos))
      | None => todos
      end
  | _, _ => todos
  end.

(** The orders of the children of a parent. *)
Definition siblingOrders (p : option string) (todos : list Todo) : list Z :=
  map order (filter (childOf p) todos).

Definition denseAt (p : option string) (todos : list Todo) : Prop :=
  dense (siblingOrders p todos).

Definition descendant := Forest.descendant id parentId.
Definition inSubtree := Forest.inSubtree id parentId.
Definition acyclic := Forest.acyclic id parentId.

End Todos.

(** ** The bookmark store *)

Module Bookmarks.

Record Bookmark : Type := mkBookmark {
  b_id : string;
  fileUri : string;
  line : Z;
  b_text : string;
  b_createdAt : Z;
  b_updatedAt : Z;
  b_order : Z;
  color : option string;
  b_parentId : option string
}.

Record BookmarkFolder : Type := mkFolder {
  f_id : string;
  name : string;
  f_parentId : option string;
  f_createdAt : Z;
  f_updatedAt : Z;
  f_order : Z;
  isExpanded : option bool
}.

(** The two arrays of [BookmarkService]. *)
Record Store : Type := mkStore {
  bookmarks : list Bookmark;
  folders : list BookmarkFolder
}.

Definition withBookmarks (st : Store) (bs : list Bookmark) : Store :=
  mkStore bs (folders st).

Definition withFolders (st : Store) (fs : list BookmarkFolder) : Store :=
  mkStore (bookmarks st) fs.

Definition setBOrder (b : Bookmark) (o : Z) : Bookmark :=
  mkBookmark (b_id b) (fileUri b) (line b) (b_text b) (b_createdAt b)
             (b_updatedAt b) o (color b) (b_parentId b).

Definition setBText (b : Bookmark) (s : string) (now : Z) : Bookmark :=
  mkBookmark (b_id b) (fileUri b) (line b) s (b_createdAt b)
             now (b_order b) (color b) (b_parentId b).

Definition setBColor (b : Bookmark) (c : option string) (now : Z) : Bookmark :=
  mkBookmark (b_id b) (fileUri b) (line b) (b_text b) (b_createdAt b)
             now (b_order b) c (b_parentId b).

Definition setBLine (b : Bookmark) (l : Z) (now : Z) : Bookmark :=
  mkBookmark (b_id b) (fileUri b) l (b_text b) (b_createdAt b)
             now (b_order b) (color b) (b_parentId b).

(** [x.parentId = p; x.updatedAt = Date.now()] *)
Definition reparentB (b : Bookmark) (p : option string) (now : Z) : Bookmark :=
  mkBookmark (b_id b) (fileUri b) (line b) (b_text b) (b_createdAt b)
             now (b_order b) (color b) p.

Definition setFOrder (f : BookmarkFolder) (o : Z) : BookmarkFolder :=
  mkFolder (f_id f) (name f) (f_parentId f) (f_createdAt f) (f_updatedAt f)
           o (isExpanded f).

Definition setFName (f : BookmarkFolder) (s : string) (now : Z) : BookmarkFolder :=
  mkFolder (f_id f) s (f_parentId f) (f_createdAt f) now (f_order f) (isExpanded f).

Definition reparentF (f : BookmarkFolder) (p : option string) (now : Z) : BookmarkFolder :=
  mkFolder (f_id f) (name f) p (f_createdAt f) now (f_order f) (isExpanded f).

Definition bHasId (i : string) (b : Bookmark) : bool := String.eqb (b_id b) i.
Definition fHasId (i : string) (f : BookmarkFolder) : bool := String.eqb (f_id f) i.
Definition bChildOf (p : option string) (b : Bookmark) : bool := optEq (b_parentId b) p.
Definition fChildOf (p : option string) (f : BookmarkFolder) : bool := optEq (f_parentId f) p.

(** [BookmarkValidator.validateTotalCount]. *)
Definition validateTotalCount (bs : list Bookmark) : option string :=
  if 200 <=? List.length bs then Some "Total Bookmark count cannot exceed 200."
  else None.

(** The elements of a combined sibling array, [(Bookmark | BookmarkFolder)]. *)
Inductive Item : Type :=
| IFolder (f : BookmarkFolder)
| IBookmark (b : Bookmark).

Definition item_id (it : Item) : string :=
  match it with IFolder f => f_id f | IBookmark b => b_id b end.

Definition item_order (it : Item) : Z :=
  match it with IFolder f => f_order f | IBookmark b => b_order b end.

Definition item_parentId (it : Item) : option string :=
  match it with IFolder f => f_parentId f | IBookmark b => b_parentId b end.

Definition setItemOrder (it : Item) (o : Z) : Item :=
  match it with
  | IFolder f => IFolder (setFOrder f o)
  | IBookmark b => IBookmark (setBOrder b o)
  end.

(** The split of [reorderItem]: an item with a [fileUri] is a bookmark,
    one with a [name] and no [fileUri] is a folder. *)
Fixpoint bookmarksOf (l : list Item) : list Bookmark :=
  match l with
  | [] => []
  | IBookmark b :: r => b :: bookmarksOf r
  | IFolder _ :: r => bookmarksOf r
  end.

Fixpoint foldersOf (l : list Item) : list BookmarkFolder :=
  match l with
  | [] => []
  | IFolder f :: r => f :: foldersOf r
  | IBookmark _ :: r => foldersOf r
  end.

(** [BookmarkService.getFolderSiblings]: the folders of the parent, then
    its bookmarks. *)
Definition getFolderSiblings (p : option string) (st : Store) : list Item :=
  map IFolder (filter (fChildOf p) (folders st))
  ++ map IBookmark (filter (bChildOf p) (bookmarks st)).

(** [siblings.length > 0 ? Math.max(...siblings.map(s => s.order)) : -1] *)
Definition maxOrder (siblings : list Item) : Z :=
  match map item_order siblings with
  | [] => (-1)%Z
  | o :: os => fold_left Z.max os o
  end.

(** [items.sort((a, b) => a.order - b.order)]: a stable sort. *)
Fixpoint insertByOrder (x : Item) (l : list Item) : list Item :=
  match l with
  | [] => [x]
  | y :: r => if (item_order x <=? item_order y)%Z then x :: y :: r
              else y :: insertByOrder x r
  end.

Definition sortByOrder (l : list Item) : list Item :=
  fold_right insertByOrder [] l.

(** [item.order = v] on an object of the store. *)
Definition writeOrder (it : Item) (v : Z) (st : Store) : Store :=
  match it with
  | IFolder f =>
      withFolders st (map (fun g => if fHasId (f_id f) g then setFOrder g v else g)
                          (folders st))
  | IBookmark b =>
      withBookmarks st (map (fun c => if bHasId (b_id b) c then setBOrder c v else c)
                            (bookmarks st))
  end.

(** [items.forEach((item, index) => { item.order = index; })] on objects
    of the store. *)
Fixpoint assignOrders (items : list Item) (index : nat) (st : Store) : Store :=
  match items with
  | [] => st
  | it :: rest => assignOrders rest (S index) (writeOrder it (Z.of_nat index) st)
  end.

(** The same loop on the elements of a local array. *)
Fixpoint indexOrders (index : nat) (items : list Item) : list Item :=
  match items with
  | [] => []
  | it :: r => setItemOrder it (Z.of_nat index) :: indexOrders (S index) r
  end.

(** The normalisation that follows a removal:
    [siblings.sort(...); siblings.forEach(...)]. *)
Definition normalizeSiblings (p : option string) (st : Store) : Store :=
  assignOrders (sortByOrder (getFolderSiblings p st)) 0 st.

Section Service.

Variable trim : string -> string.

Definition addBookmark (newId : string) (now1 now2 : Z) (uri : string) (ln : Z)
    (txt : string) (st : Store) : Bookmark * Store :=
  let siblings := getFolderSiblings None st in
  let newBookmark :=
    mkBookmark newId uri ln (trim txt) now1 now2 (maxOrder siblings + 1)%Z None None in
  (newBookmark, withBookmarks st (bookmarks st ++ [newBookmark])).

Definition editBookmark (now : Z) (i : string) (txt : string) (st : Store) : Store :=
  withBookmarks st (updateFirst (bHasId i) (fun b => setBText b (trim txt) now) (bookmarks st)).

Definition addFolder (newId : string) (now1 now2 : Z) (nm : string)
    (parent : option string) (st : Store) : BookmarkFolder * Store :=
  let siblings := getFolderSiblings parent st in
  let newFolder :=
    mkFolder newId (trim nm) parent now1 now2 (maxOrder siblings + 1)%Z (Some true) in
  (newFolder, withFolders st (folders st ++ [newFolder])).

Definition editFolder (now : Z) (i : string) (nm : string) (st : Store) : Store :=
  withFolders st (updateFirst (fHasId i) (fun f => setFName f (trim nm) now) (folders st)).

End Service.

Definition changeBookmarkColor (now : Z) (i : string) (c : option string) (st : Store) : Store :=
  withBookmarks st (updateFirst (bHasId i) (fun b => setBColor b c now) (bookmarks st)).

Definition deleteBookmark (i : string) (st : Store) : Store :=
  match find (bHasId i) (bookmarks st) with
  | None => st
  | Some bookmark =>
      let parent := b_parentId bookmark in
      normalizeSiblings parent
        (withBookmarks st (filter (fun b => negb (bHasId i b)) (bookmarks st)))
  end.

Definition getBookmarkForLine (uri : string) (ln : Z) (bs : list Bookmark) : option Bookmark :=
  find (fun b => String.eqb (fileUri b) uri && (line b =? ln)%Z) bs.

Definition getBookmarksForFile (uri : string) (bs : list Bookmark) : list Bookmark :=
  filter (fun b => String.eqb (fileUri b) uri) bs.

(** [BookmarkService.deleteFolderRecursive]: the bookmarks of the folder
    go first, then
    each subfolder found at that moment, then the folder. *)
Fixpoint deleteFolderRecursive (fuel : nat) (folderId : string) (st : Store)
    : option Store :=
  match fuel with
  | 0 => None
  | S n =>
      let st1 := withBookmarks st
                   (filter (fun b => negb (bChildOf (Some folderId) b)) (bookmarks st)) in
      let subfolders := filter (fChildOf (Some folderId)) (folders st1) in
      match fold_left (fun acc subfolder =>
                         match acc with
                         | Some s => deleteFolderRecursive n (f_id subfolder) s
                         | None => None
                         end) subfolders (Some st1) with
      | Some st2 =>
          Some (withFolders st2 (filter (fun f => negb (fHasId folderId f)) (folders st2)))
      | None => None
      end
  end.

Definition deleteFolder (fuel : nat) (i : string) (st : Store) : option Store :=
  match find (fHasId i) (folders st) with
  | None => Some st
  | Some folder =>
      let parent := f_parentId folder in
      match deleteFolderRecursive fuel i st with
      | Some st1 => Some (normalizeSiblings parent st1)
      | None => None
      end
  end.

(** [BookmarkService.getFolderDepth]: one step per folder that has a
    truthy parent. *)
Fixpoint getFolderDepth_loop (fuel : nat) (fs : list BookmarkFolder) (depth : nat)
    (currentId : option string) : option nat :=
  match fuel with
  | 0 => None
  | S n =>
      match currentId with
      | Some c =>
          if String.eqb c "" then Some depth
          else match find (fHasId c) fs with
               | Some folder =>
                   if truthy (f_parentId folder)
                   then getFolderDepth_loop n fs (S depth) (f_parentId folder)
                   else getFolderDepth_loop n fs depth None
               | None => getFolderDepth_loop n fs depth None
               end
      | None => Some depth
      end
  end.

Definition getFolderDepth (fuel : nat) (folderId : string) (st : Store) : option nat :=
  getFolderDepth_loop fuel (folders st) 1 (Some folderId).

(** [BookmarkService.countFolderItems]: the bookmarks of the folder,
    and for each subfolder 1 and its own count. *)
Fixpoint countFolderItems (fuel : nat) (folderId : string) (st : Store) : option nat :=
  match fuel with
  | 0 => None
  | S n =>
      let count := List.length (filter (bChildOf (Some folderId)) (bookmarks st)) in
      let subfolders := filter (fChildOf (Some folderId)) (folders st) in
      fold_left (fun acc subfolder =>
                   match acc with
                   | Some c =>
                       match countFolderItems n (f_id subfolder) st with
                       | Some k => Some (c + 1 + k)
                       | None => None
                       end
                   | None => None
                   end) subfolders (Some count)
  end.

(** [BookmarkService.isDescendantOf]: the walk up the parent chain. *)
Fixpoint isDescendantOf_loop (fuel : nat) (fs : list BookmarkFolder)
    (currentId : option string) (ancestorId : string) : option bool :=
  match fuel with
  | 0 => None
  | S n =>
      match currentId with
      | Some c =>
          if String.eqb c "" then Some false
          else if String.eqb c ancestorId then Some true
          else isDescendantOf_loop n fs
                 (match find (fHasId c) fs with
                  | Some folder => f_parentId folder
                  | None => None
                  end) ancestorId
      | None => Some false
      end
  end.

Definition isDescendantOf (fuel : nat) (possibleDescendantId ancestorId : string)
    (st : Store) : option bool :=
  isDescendantOf_loop fuel (folders st) (Some possibleDescendantId) ancestorId.

(** [BookmarkService.getMaxFolderDepth]: 1, or one more than the
    greatest value among the subfolders. *)
Fixpoint getMaxFolderDepth (fuel : nat) (folderId : string) (st : Store) : option nat :=
  match fuel with
  | 0 => None
  | S n =>
      let subfolders := filter (fChildOf (Some folderId)) (folders st) in
      fold_left (fun acc subfolder =>
                   match acc with
                   | Some maxDepth =>
                       match getMaxFolderDepth n (f_id subfolder) st with
                       | Some subfolderDepth => Some (Nat.max maxDepth (subfolderDepth + 1))
                       | None => None
                       end
                   | None => None
                   end) subfolders (Some 1)
  end.

Definition cycleError : string := "Cannot move folder into itself or its subfolders".
Definition depthError : string := "Moving this folder would exceed maximum depth (3 levels)".

(** The checks that [moveToFolder] and [reorderItem] run on a folder
    before they mutate anything: [None] when a loop does not end,
    [Some (Some msg)] for the error to throw, [Some None] to go on. *)
Definition validateFolderMove (fuel : nat) (folderId : string) (target : option string)
    (st : Store) : option (option string) :=
  match target with
  | Some t =>
      if String.eqb t "" then Some None
      else
        match isDescendantOf fuel t folderId st with
        | None => None
        | Some true => Some (Some cycleError)
        | Some false =>
            match getFolderDepth fuel t st with
            | None => None
            | Some targetDepth =>
                match getMaxFolderDepth fuel folderId st with
                | None => None
                | Some folderDepth =>
                    if 3 <? targetDepth + folderDepth then Some (Some depthError)
                    else Some None
                end
            end
        end
  | None => Some None
  end.

(** [BookmarkService.moveToFolder]: the id is looked up among the
    bookmarks first, then among the folders. *)
Definition moveToFolder (fuel : nat) (now : Z) (itemId : string)
    (targetFolderId : option string) (st : Store) : Outcome Store :=
  match find (bHasId itemId) (bookmarks st) with
  | Some bookmark =>
      let sourceParentId := b_parentId bookmark in
      let maxO := maxOrder (getFolderSiblings targetFolderId st) in
      let st1 := withBookmarks st
                   (updateFirst (bHasId itemId)
                      (fun b => setBOrder (reparentB b targetFolderId now) (maxO + 1)%Z)
                      (bookmarks st)) in
      Returned (if optEq sourceParentId targetFolderId then st1
                else normalizeSiblings sourceParentId st1)
  | None =>
      match find (fHasId itemId) (folders st) with
      | Some folder =>
          match validateFolderMove fuel itemId targetFolderId st with
          | None => Diverges
          | Some (Some msg) => Thrown msg st
          | Some None =>
              let sourceParentId := f_parentId folder in
              let maxO := maxOrder (getFolderSiblings targetFolderId st) in
              let st1 := withFolders st
                           (updateFirst (fHasId itemId)
                              (fun f => setFOrder (reparentF f targetFolderId now) (maxO + 1)%Z)
                              (folders st)) in
              Returned (if optEq sourceParentId targetFolderId then st1
                        else normalizeSiblings sourceParentId st1)
          end
      | None => Returned st
      end
  end.

(** [BookmarkService.reorderItem]. *)
Inductive DropPosition : Type := before | after.

(** [this.bookmarks = this.bookmarks.filter(b => b.id !== dragged.id)],
    or the same on [this.folders]. *)
Definition detach (dragged : Item) (st : Store) : Store :=
  match dragged with
  | IBookmark b =>
      withBookmarks st (filter (fun x => negb (bHasId (b_id b) x)) (bookmarks st))
  | IFolder f =>
      withFolders st (filter (fun x => negb (fHasId (f_id f) x)) (folders st))
  end.

(** [dragged.parentId = targetParentId; dragged.updatedAt = Date.now()] *)
Definition reparentItem (dragged : Item) (p : option string) (now : Z) : Item :=
  match dragged with
  | IBookmark b => IBookmark (reparentB b p now)
  | IFolder f => IFolder (reparentF f p now)
  end.

Definition reorderItem (fuel : nat) (now : Z) (draggedId targetId : string)
    (dropPosition : DropPosition) (st : Store) : Outcome Store :=
  let draggedBookmark := find (bHasId draggedId) (bookmarks st) in
  let draggedFolder := find (fHasId draggedId) (folders st) in
  let targetBookmark := find (bHasId targetId) (bookmarks st) in
  let targetFolder := find (fHasId targetId) (folders st) in
  match (match draggedBookmark, draggedFolder with
         | Some b, _ => Some (IBookmark b)
         | None, Some f => Some (IFolder f)
         | None, None => None
         end) with
  | None => Thrown "Dragged item not found" st
  | Some dragged =>
  match (match targetBookmark, targetFolder with
         | Some b, _ => Some (IBookmark b)
         | None, Some f => Some (IFolder f)
         | None, None => None
         end) with
  | None => Thrown "Target item not found" st
  | Some target =>
  let sourceParentId := item_parentId dragged in
  let targetParentId := item_parentId target in
  (* validation of a dragged folder, before the arrays are touched *)
  match (match draggedFolder with
         | Some f => validateFolderMove fuel (f_id f) targetParentId st
         | None => Some None
         end) with
  | None => Diverges
  | Some (Some msg) => Thrown msg st
  | Some None =>
  (* the dragged item leaves its array and takes the target's parent *)
  let st1 := detach dragged st in
  let draggedItem := reparentItem dragged targetParentId now in
  let st2 := if optEq sourceParentId targetParentId then st1
             else normalizeSiblings sourceParentId st1 in
  let allItems := sortByOrder (getFolderSiblings targetParentId st2) in
  match findIndex (fun item => String.eqb (item_id item) targetId) allItems with
  | None => Thrown "Target not found in items list" st2
  | Some targetIndex =>
      let insertIndex := match dropPosition with
                         | after => targetIndex + 1
                         | before => targetIndex
                         end in
      let allItems' := indexOrders 0 (spliceIn insertIndex draggedItem allItems) in
      Returned
        (mkStore
           (filter (fun b => negb (bChildOf targetParentId b)) (bookmarks st2)
            ++ bookmarksOf allItems')
           (filter (fun f => negb (fChildOf targetParentId f)) (folders st2)
            ++ foldersOf allItems'))
  end end end end.

(** One element of [event.contentChanges]. *)
Record ContentChange : Type := mkChange {
  startLine : Z;
  startCharacter : Z;
  endLine : Z;
  endCharacter : Z;
  changeText : string
}.

Definition linesDelta (c : ContentChange) : Z :=
  (Z.of_nat (List.length (splitNewline (changeText c))) - 1
   - (endLine c - startLine c))%Z.

(** A write to the fields of a bookmark that [bookmarksInFile] shares
    with [this.bookmarks]. *)
Definition writeBookmark (b' : Bookmark) (bs : list Bookmark) : list Bookmark :=
  map (fun x => if bHasId (b_id b') x then b' else x) bs.

Definition removeBookmark (b : Bookmark) (bs : list Bookmark) : list Bookmark :=
  filter (fun x => negb (bHasId (b_id b) x)) bs.

(** The body of the inner loop of [handleTextDocumentChange]: the
    bookmark object after the step, [this.bookmarks] and [modified]. *)
Definition reconcileBookmark (uri : string) (now : Z) (c : ContentChange)
    (bookmark : Bookmark) (bs : list Bookmark) (modified : bool)
    : Bookmark * list Bookmark * bool :=
  let delta := linesDelta c in
  if (endLine c <? line bookmark)%Z then
    let b' := setBLine bookmark (line bookmark + delta)%Z now in
    (b', writeBookmark b' bs, true)
  else if ((startLine c <=? line bookmark)%Z && (line bookmark <=? endLine c)%Z)%bool then
    if (delta <? 0)%Z then (bookmark, removeBookmark bookmark bs, true)
    else (bookmark, bs, modified)
  else if ((line bookmark =? startLine c)%Z && (0 <? delta)%Z
           && (startCharacter c =? 0)%Z)%bool then
    let b' := setBLine bookmark (line bookmark + delta)%Z now in
    (b', writeBookmark b' bs, true)
  else if ((line bookmark =? startLine c)%Z && (delta <? 0)%Z
           && (startCharacter c =? 0)%Z)%bool then
    let targetLine := (line bookmark - 1)%Z in
    if (0 <=? targetLine)%Z then
      match getBookmarkForLine uri targetLine bs with
      | None =>
          let b' := setBLine bookmark targetLine now in
          (b', writeBookmark b' bs, true)
      | Some _ => (bookmark, removeBookmark bookmark bs, true)
      end
    else (bookmark, removeBookmark bookmark bs, true)
  else (bookmark, bs, modified).

(** One content change: [bookmarksInFile] is walked from its last
    element to its first. *)
Definition reconcileChange (uri : string) (now : Z)
    (state : list Bookmark * list Bookmark * bool) (c : ContentChange)
    : list Bookmark * list Bookmark * bool :=
  let '(bookmarksInFile, bs, modified) := state in
  if (linesDelta c =? 0)%Z then state
  else
    fold_left (fun acc bookmark =>
                 let '(seen, bs1, m1) := acc in
                 let '(b', bs2, m2) := reconcileBookmark uri now c bookmark bs1 m1 in
                 (b' :: seen, bs2, m2))
              (rev bookmarksInFile) ([], bs, modified).

(** [BookmarkService.handleTextDocumentChange]: the flag it returns and
    the store.  [bookmarksInFile] is taken once, before the changes. *)
Definition handleTextDocumentChange (uri : string) (now : Z)
    (contentChanges : list ContentChange) (st : Store) : bool * Store :=
  let bookmarksInFile := getBookmarksForFile uri (bookmarks st) in
  if List.length bookmarksInFile =? 0 then (false, st)
  else
    let '(_, bs, modified) :=
      fold_left (reconcileChange uri now) contentChanges
                (bookmarksInFile, bookmarks st, false) in
    (modified, withBookmarks st bs).

(** *** Sibling groups and their orders *)

Definition siblingOrders (p : option string) (st : Store) : list Z :=
  map item_order (getFolderSiblings p st).

Definition denseAt (p : option string) (st : Store) : Prop :=
  dense (siblingOrders p st).

Definition allDense (st : Store) : Prop := forall p, denseAt p st.

(** *** Well-formed stores *)

(** Ids of bookmarks are pairwise distinct, and so are ids of folders. *)
Definition uniqueIds (st : Store) : Prop :=
  NoDup (map b_id (bookmarks st)) /\ NoDup (map f_id (folders st)).

(** No id is shared by a bookmark and a folder. *)
Definition disjointIds (st : Store) : Prop :=
  forall b f, In b (bookmarks st) -> In f (folders st) -> b_id b <> f_id f.

(** No folder has the empty id. *)
Definition properIds (st : Store) : Prop :=
  forall f, In f (folders st) -> f_id f <> "".

Definition descendant := Forest.descendant f_id f_parentId.
Definition inSubtree := Forest.inSubtree f_id f_parentId.
Definition acyclic := Forest.acyclic f_id f_parentId.

End Bookmarks.

(** [isAppendOrder orders o]: [o] is one more than the greatest of
    [orders], or 0 when there is none. *)
Definition isAppendOrder (orders : list Z) (o : Z) : Prop :=
  (orders = [] /\ o = 0%Z) \/
  (exists m, In m orders /\ (forall x, In x orders -> (x <= m)%Z) /\ o = (m + 1)%Z).

(** [cleared todos t]: [t] is done, or a todo on its [parentId] chain is. *)
Definition cleared (todos : list Todos.Todo) (t : Todos.Todo) : Prop :=
  Todos.done t = true \/
  exists a, In a todos /\ Todos.done a = true /\
            Todos.descendant todos (Todos.id a) (Todos.id t).

(** *** Notions used to state what the loops of the bookmark store do *)

(** The identity of an element of a sibling array: its kind and id. *)
Definition item_key (it : Bookmarks.Item) : string + string :=
  match it with
  | Bookmarks.IFolder f => inl (Bookmarks.f_id f)
  | Bookmarks.IBookmark b => inr (Bookmarks.b_id b)
  end.

Definition sameKey (k : string + string) (it : Bookmarks.Item) : bool :=
  match k, it with
  | inl i, Bookmarks.IFolder f => String.eqb i (Bookmarks.f_id f)
  | inr i, Bookmarks.IBookmark b => String.eqb i (Bookmarks.b_id b)
  | _, _ => false
  end.

(** The order that [assignOrders items index] leaves in the object of
    key [k] whose order was [old]. *)
Fixpoint posOrder (items : list Bookmarks.Item) (index : nat) (k : string + string)
    (old : Z) : Z :=
  match items with
  | [] => old
  | it :: r => posOrder r (S index) k (if sameKey k it then Z.of_nat index else old)
  end.

Definition relabelItem (items : list Bookmarks.Item) (index : nat)
    (it : Bookmarks.Item) : Bookmarks.Item :=
  Bookmarks.setItemOrder it (posOrder items index (item_key it) (Bookmarks.item_order it)).

(** [movedTo st st' F T]: in [st'] the folder [F] has parent [T], its
    order is one more than the greatest order that the group of [T]
    had in [st], and it comes after every other member of the group. *)
Definition movedTo (st st' : Bookmarks.Store) (F : string) (T : option string) : Prop :=
  exists f',
    find (Bookmarks.fHasId F) (Bookmarks.folders st') = Some f' /\
    Bookmarks.f_parentId f' = T /\
    Bookmarks.f_order f'
    = (Bookmarks.maxOrder (Bookmarks.getFolderSiblings T st) + 1)%Z /\
    forall it, In it (Bookmarks.getFolderSiblings T st') ->
               it = Bookmarks.IFolder f' \/
               (Bookmarks.item_order it < Bookmarks.f_order f')%Z.

(** *** What a cascade removes, given the list [D] of the ids of a subtree *)

(** A folder stays when its id is not in [D]. *)
Definition keptFolder (D : list string) (f : Bookmarks.BookmarkFolder) : bool :=
  negb (setHas (Bookmarks.f_id f) D).

(** A bookmark stays when its parent is not in [D]. *)
Definition keptBookmark (D : list string) (b : Bookmarks.Bookmark) : bool :=
  match Bookmarks.b_parentId b with
  | Some p => negb (setHas p D)
  | None => true
  end.

(** [D] holds the ids of the children of its members. *)
Definition closedBelow (fs : list Bookmarks.BookmarkFolder) (D : list string) : Prop :=
  forall y g, In y D -> In g fs -> Bookmarks.f_parentId g = Some y ->
              In (Bookmarks.f_id g) D.

(** The records with the order field blanked: what a renumbering of
    orders leaves. *)
Definition eraseFOrder (f : Bookmarks.BookmarkFolder) : Bookmarks.BookmarkFolder :=
  Bookmarks.setFOrder f 0.

Definition eraseBOrder (b : Bookmarks.Bookmark) : Bookmarks.Bookmark :=
  Bookmarks.setBOrder b 0.

(** The number of folders with an id in [D], and of bookmarks with a
    parent in [D]. *)
Definition removedFolders (D : list string) (fs : list Bookmarks.BookmarkFolder) : nat :=
  List.length (filter (fun f => negb (keptFolder D f)) fs).

Definition removedBookmarks (D : list string) (bs : list Bookmarks.Bookmark) : nat :=
  List.length (filter (fun b => negb (keptBookmark D b)) bs).

(** *** The bookmark store as a transition system *)

(** A new id is an id that no element of the store carries. *)
Definition freshId (newId : string) (st : Bookmarks.Store) : Prop :=
  ~ In newId (map Bookmarks.b_id (Bookmarks.bookmarks st)) /\
  ~ In newId (map Bookmarks.f_id (Bookmarks.folders st)).

(** One completed call of a mutating method.  A creation draws a new
    id; [deleteFolder], [moveToFolder] and [reorderItem] are steps when
    they return; a [moveToFolder] is taken with a target other than the
    current parent of the item. *)
Inductive step : Bookmarks.Store -> Bookmarks.Store -> Prop :=
| step_addBookmark : forall trim newId now1 now2 uri ln txt st,
    freshId newId st ->
    step st (snd (Bookmarks.addBookmark trim newId now1 now2 uri ln txt st))
| step_addFolder : forall trim newId now1 now2 nm parent st,
    freshId newId st ->
    step st (snd (Bookmarks.addFolder trim newId now1 now2 nm parent st))
| step_editBookmark : forall trim now i txt st,
    step st (Bookmarks.editBookmark trim now i txt st)
| step_editFolder : forall trim now i nm st,
    step st (Bookmarks.editFolder trim now i nm st)
| step_changeBookmarkColor : forall now i c st,
    step st (Bookmarks.changeBookmarkColor now i c st)
| step_deleteBookmark : forall i st,
    step st (Bookmarks.deleteBookmark i st)
| step_deleteFolder : forall fuel i st st',
    Bookmarks.deleteFolder fuel i st = Some st' ->
    step st st'
| step_moveToFolder : forall fuel now i T st st',
    (forall b, find (Bookmarks.bHasId i) (Bookmarks.bookmarks st) = Some b ->
               Bookmarks.b_parentId b <> T) ->
    (forall f, find (Bookmarks.fHasId i) (Bookmarks.folders st) = Some f ->
               Bookmarks.f_parentId f <> T) ->
    Bookmarks.moveToFolder fuel now i T st = Returned st' ->
    step st st'
| step_reorderItem : forall fuel now draggedId targetId pos st st',
    Bookmarks.reorderItem fuel now draggedId targetId pos st = Returned st' ->
    step st st'.

(** The stores that a run of such calls reaches from the empty store. *)
Inductive reachable : Bookmarks.Store -> Prop :=
| reach_empty : reachable (Bookmarks.mkStore [] [])
| reach_step : forall st st', reachable st -> step st st' -> reachable st'.

(** ** The rest of [TodoService] *)

Module TodoService.

(** [TodoStats]. *)
Record TodoStats : Type := mkStats {
  total : Z;
  completed : Z;
  remaining : Z;
  rootCount : Z;
  subTodoCount : Z
}.

Definition getTodoStats (todos : list Todos.Todo) : TodoStats :=
  let total := Z.of_nat (List.length todos) in
  let completed := Z.of_nat (List.length (filter Todos.done todos)) in
  let remaining := (total - completed)%Z in
  let rootCount :=
    Z.of_nat (List.length (filter (fun todo => negb (truthy (Todos.parentId todo))) todos)) in
  let subTodoCount :=
    Z.of_nat (List.length (filter (fun todo => truthy (Todos.parentId todo)) todos)) in
  mkStats total completed remaining rootCount subTodoCount.

(** [arr[i] = v] for an index inside the array. *)
Fixpoint setNth {A : Type} (i : nat) (v : A) (l : list A) : list A :=
  match l, i with
  | [], _ => []
  | _ :: r, 0 => v :: r
  | x :: r, S k => x :: setNth k v r
  end.

(** [[arr[i], arr[j]] = [arr[j], arr[i]]] for two indices inside the
    array: both reads come first, then [arr[i]] and [arr[j]] are
    written. *)
Definition swap {A : Type} (i j : nat) (l : list A) : list A :=
  match nth_error l j, nth_error l i with
  | Some atJ, Some atI => setNth j atI (setNth i atJ l)
  | _, _ => l
  end.

(** [moveTodoUp]: [index > 0] fails for the first todo and for -1. *)
Definition moveTodoUp (i : string) (todos : list Todos.Todo) : list Todos.Todo :=
  match findIndex (Todos.hasId i) todos with
  | Some (S k) => swap (S k) k todos
  | _ => todos
  end.

(** [moveTodoDown].  The array it leaves may hold [undefined], so its
    elements are options.  With an id that is not in the array [index]
    is -1, and [-1 < this.todos.length - 1] holds as soon as the array
    is not empty: the right-hand side is read as
    [[this.todos[0], undefined]], the write to [this.todos[-1]] sets a
    property that is no element of the array, and [this.todos[0]]
    becomes [undefined]. *)
Definition moveTodoDown (i : string) (todos : list Todos.Todo)
    : list (option Todos.Todo) :=
  match findIndex (Todos.hasId i) todos with
  | Some index =>
      if S index <? List.length todos
      then map Some (swap index (S index) todos)
      else map Some todos
  | None =>
      match todos with
      | [] => []
      | _ :: rest => None :: map Some rest
      end
  end.

Definition findTodo (i : string) (todos : list Todos.Todo) : option Todos.Todo :=
  find (Todos.hasId i) todos.

(** [getTodoDepth]: one step per todo met on the way up. *)
Fixpoint getTodoDepth_loop (fuel : nat) (todos : list Todos.Todo) (depth : nat)
    (current : option Todos.Todo) : option nat :=
  match fuel with
  | 0 => None
  | S n =>
      match current with
      | Some c =>
          match Todos.parentId c with
          | Some p =>
              if String.eqb p "" then Some (S depth)
              else getTodoDepth_loop n todos (S depth) (findTodo p todos)
          | None => Some (S depth)
          end
      | None => Some depth
      end
  end.

Definition getTodoDepth (fuel : nat) (i : string) (todos : list Todos.Todo) : option nat :=
  getTodoDepth_loop fuel todos 0 (findTodo i todos).

End TodoService.

(** ** [TodoValidator.validateNesting] and its caller *)

Module TodoValidator.

Definition nestingError : string := "Nesting level cannot exceed 3.".

Fixpoint validateNesting_loop (fuel : nat) (todos : list Todos.Todo) (depth : nat)
    (currentParentId : option string) : option (option string) :=
  match fuel with
  | 0 => None
  | S n =>
      match currentParentId with
      | Some c =>
          if String.eqb c "" then Some None
          else if 2 <? S depth then Some (Some nestingError)
          else validateNesting_loop n todos (S depth)
                 (match find (Todos.hasId c) todos with
                  | Some parentTodo => Todos.parentId parentTodo
                  | None => None
                  end)
      | None => Some None
      end
  end.

Definition validateNesting (fuel : nat) (todos : list Todos.Todo)
    (parentId : option string) : option (option string) :=
  validateNesting_loop fuel todos 0 parentId.

End TodoValidator.

Module TodosProvider.

(** What one round of the input loop of [addSubTodo] does with a text
    that was entered: an error message is shown and the store is left
    alone, or the todo is added. *)
Inductive Round : Type :=
| ErrorShown (msg : string)
| Added (todos : list Todos.Todo).

Definition addSubTodo (trim : string -> string) (fuel : nat) (newId : string)
    (now1 now2 : Z) (input : string) (parentId : string) (todos : list Todos.Todo)
    : option Round :=
  match TodoValidator.validateNesting fuel todos (Some parentId) with
  | None => None
  | Some (Some _) => Some (ErrorShown "Maximum nesting depth (3) reached.")
  | Some None =>
      match Todos.validateTotalCount todos with
      | Some countError => Some (ErrorShown countError)
      | None =>
          Some (Added (snd (Todos.addTodo trim newId now1 now2 input (Some parentId) todos)))
      end
  end.

End TodosProvider.

(** ** [TodoDragAndDropController] *)

Module TodoDragAndDropController.

(** [checkAncestry], the recursion inside [isAncestor]. *)
Fixpoint checkAncestry (fuel : nat) (todos : list Todos.Todo) (ancestorId : string)
    (currentId : string) : option bool :=
  match fuel with
  | 0 => None
  | S n =>
      if String.eqb currentId ancestorId then Some true
      else match find (Todos.hasId currentId) todos with
           | Some current =>
               match Todos.parentId current with
               | Some p =>
                   if String.eqb p "" then Some false
                   else checkAncestry n todos ancestorId p
               | None => Some false
               end
           | None => Some false
           end
  end.

Definition isAncestor (fuel : nat) (ancestorId descendantId : string)
    (todos : list Todos.Todo) : option bool :=
  checkAncestry fuel todos ancestorId descendantId.

(** [handleDrop] with a dragged todo and a target: the flag tells
    whether the warning was shown. *)
Definition handleDrop (fuel : nat) (draggedTodo target : Todos.Todo)
    (todos : list Todos.Todo) : option (bool * list Todos.Todo) :=
  match isAncestor fuel (Todos.id draggedTodo) (Todos.id target) todos with
  | None => None
  | Some true => Some (true, todos)
  | Some false => Some (false, Todos.reorderTodo (Todos.id draggedTodo) (Todos.id target) todos)
  end.

End TodoDragAndDropController.

(** ** The rest of [BookmarkService] *)

Module BookmarkService.

Definition onFile (uri : string) (b : Bookmarks.Bookmark) : bool :=
  String.eqb (Bookmarks.fileUri b) uri.

(** [handleFileDeleted]: the flag it returns and the store. *)
Definition handleFileDeleted (files : list string) (st : Bookmarks.Store)
    : bool * Bookmarks.Store :=
  fold_left (fun (acc : bool * Bookmarks.Store) fileUri =>
               let '(modified, s) := acc in
               let bookmarksToDelete := filter (onFile fileUri) (Bookmarks.bookmarks s) in
               if 0 <? List.length bookmarksToDelete
               then (true,
                     Bookmarks.withBookmarks s
                       (filter (fun b => negb (onFile fileUri b)) (Bookmarks.bookmarks s)))
               else (modified, s))
            files (false, st).

(** [bookmark.fileUri = newFileUri; bookmark.updatedAt = Date.now()] *)
Definition setBFile (b : Bookmarks.Bookmark) (uri : string) (now : Z) : Bookmarks.Bookmark :=
  Bookmarks.mkBookmark (Bookmarks.b_id b) uri (Bookmarks.line b) (Bookmarks.b_text b)
    (Bookmarks.b_createdAt b) now (Bookmarks.b_order b) (Bookmarks.color b)
    (Bookmarks.b_parentId b).

(** [handleFileRenamed]: [bookmarksToUpdate] holds the objects of
    [this.bookmarks] that are on the old file, and each of them is
    written; [now] is the clock during the call. *)
Definition handleFileRenamed (now : Z) (files : list (string * string))
    (st : Bookmarks.Store) : bool * Bookmarks.Store :=
  fold_left (fun (acc : bool * Bookmarks.Store) (file : string * string) =>
               let '(modified, s) := acc in
               let '(oldFileUri, newFileUri) := file in
               let bookmarksToUpdate := filter (onFile oldFileUri) (Bookmarks.bookmarks s) in
               if 0 <? List.length bookmarksToUpdate
               then (true,
                     Bookmarks.withBookmarks s
                       (map (fun b => if onFile oldFileUri b
                                      then setBFile b newFileUri now else b)
                            (Bookmarks.bookmarks s)))
               else (modified, s))
            files (false, st).

End BookmarkService.

(** ** [BookmarksProvider.addFolder] *)

Module BookmarksProvider.

Inductive Result : Type :=
| ErrorShown (msg : string)
| Done (st : Bookmarks.Store).

Definition addFolder (trim : string -> string) (fuel : nat) (newId : string)
    (now1 now2 : Z) (nm : string) (parentId : option string) (st : Bookmarks.Store)
    : option Result :=
  match (if truthy parentId
         then match parentId with
              | Some p =>
                  match Bookmarks.getFolderDepth fuel p st with
                  | Some depth => Some (3 <=? depth)
                  | None => None
                  end
              | None => Some false
              end
         else Some false) with
  | None => None
  | Some true => Some (ErrorShown "Maximum folder depth (3 levels) reached")
  | Some false =>
      Some (Done (snd (Bookmarks.addFolder trim newId now1 now2 nm parentId st)))
  end.

End BookmarksProvider.

(** A new todo id: no todo carries it, as its id or as its parent. *)
Definition freshTodoId (newId : string) (todos : list Todos.Todo) : Prop :=
  forall t, In t todos -> Todos.id t <> newId /\ Todos.parentId t <> Some newId.

(** A new folder id: no folder carries it, as its id or as its parent. *)
Definition freshFolderId (newId : string) (fs : list Bookmarks.BookmarkFolder) : Prop :=
  forall f, In f fs -> Bookmarks.f_id f <> newId /\ Bookmarks.f_parentId f <> Some newId.

(** A todo with its order blanked: what a renumbering leaves. *)
Definition eraseOrder (t : Todos.Todo) : Todos.Todo := Todos.setOrder t 0.

(** A todo stays when its id is not in [D]. *)
Definition keptTodo (D : list string) (t : Todos.Todo) : bool :=
  negb (setHas (Todos.id t) D).

(** [D] holds the ids of the children of its members. *)
Definition closedTodos (todos : list Todos.Todo) (D : list string) : Prop :=
  forall y g, In y D -> In g todos -> Todos.parentId g = Some y ->
              In (Todos.id g) D.

(** The uri that a sequence of renames gives to a file. *)
Definition renamedUri (files : list (string * string)) (uri : string) : string :=
  fold_left (fun u (file : string * string) =>
               if String.eqb u (fst file) then snd file else u) files uri.

(** A bookmark with its file and its time of update blanked. *)
Definition eraseFile (b : Bookmarks.Bookmark) : Bookmarks.Bookmark :=
  BookmarkService.setBFile b "" 0.

(** What the loops of [handleTextDocumentChange] keep, [bs0] being the
    bookmarks before the call: the bookmarks they walk are of the file,
    the bookmarks of other files are as they were, no id is new, and
    the array is the old one as long as [modified] is [false]. *)
Definition editFrame (uri : string) (bs0 inFile bs : list Bookmarks.Bookmark)
    (modified : bool) : Prop :=
  (forall y, In y inFile ->
             BookmarkService.onFile uri y = true /\
             exists y0, In y0 bs0 /\ BookmarkService.onFile uri y0 = true /\
                        Bookmarks.b_id y0 = Bookmarks.b_id y) /\
  filter (fun b => negb (BookmarkService.onFile uri b)) bs
  = filter (fun b => negb (BookmarkService.onFile uri b)) bs0 /\
  incl (map Bookmarks.b_id bs) (map Bookmarks.b_id bs0) /\
  (modified = false -> bs = bs0).

(** [bookmarkMovedTo st st' i T]: in [st'] the bookmark [i] has parent
    [T], its order is one more than the greatest order that the group
    of [T] had in [st], and it comes after every other member of the
    group. *)
Definition bookmarkMovedTo (st st' : Bookmarks.Store) (i : string) (T : option string)
    : Prop :=
  exists b',
    find (Bookmarks.bHasId i) (Bookmarks.bookmarks st') = Some b' /\
    Bookmarks.b_parentId b' = T /\
    Bookmarks.b_order b'
    = (Bookmarks.maxOrder (Bookmarks.getFolderSiblings T st) + 1)%Z /\
    forall it, In it (Bookmarks.getFolderSiblings T st') ->
               it = Bookmarks.IBookmark b' \/
               (Bookmarks.item_order it < Bookmarks.b_order b')%Z.

(** [sortedZ l]: every element is at most the ones after it. *)
Fixpoint sortedZ (l : list Z) : Prop :=
  match l with
  | [] => True
  | x :: r => (forall y, In y r -> (x <= y)%Z) /\ sortedZ r
  end.

(** No item of the store names [i] as its parent. *)
Definition childless (i : string) (st : Bookmarks.Store) : Prop :=
  (forall b, In b (Bookmarks.bookmarks st) -> Bookmarks.b_parentId b <> Some i) /\
  (forall f, In f (Bookmarks.folders st) -> Bookmarks.f_parentId f <> Some i).

(** ** The commands that create todos and bookmarks *)

Module TodoCommands.

Section Commands.

Variable trim : string -> string.

(** The input loop of 'vs-codebench.addTodo'.  [answers] holds what the
    successive input boxes return, [None] for a box that was cancelled;
    the result is [None] while a box is still open.  The messages are
    those of [showErrorMessage], in the order they are shown. *)
Fixpoint addTodo_loop (newId : string) (now1 now2 : Z)
    (answers : list (option string)) (todos : list Todos.Todo)
    : option (list string * list Todos.Todo) :=
  match answers with
  | [] => None
  | None :: _ => Some ([], todos)
  | Some input :: rest =>
      if String.eqb input "" then addTodo_loop newId now1 now2 rest todos
      else
        match Todos.validateTotalCount todos with
        | Some currentCountError =>
            match addTodo_loop newId now1 now2 rest todos with
            | Some (msgs, ts) => Some (currentCountError :: msgs, ts)
            | None => None
            end
        | None =>
            Some ([], snd (Todos.addTodo trim newId now1 now2 input None todos))
        end
  end.

(** 'vs-codebench.addTodo': the count is checked before the first box
    opens, and again for each text that is entered. *)
Definition addTodo (newId : string) (now1 now2 : Z)
    (answers : list (option string)) (todos : list Todos.Todo)
    : option (list string * list Todos.Todo) :=
  match Todos.validateTotalCount todos with
  | Some countError => Some ([countError], todos)
  | None => addTodo_loop newId now1 now2 answers todos
  end.

End Commands.

End TodoCommands.

Module BookmarkCommands.

(** What the commands read of [vscode.window.activeTextEditor]:
    [lineAt] is [None] where [document.lineAt] throws. *)
Record TextEditor : Type := mkEditor {
  scheme : string;
  documentUri : string;
  activeLine : Z;
  lineAt : Z -> option string
}.

(** The argument of 'vs-codebench.toggleBookmark', as far as the
    command tells values apart: nothing, a number, or an object with
    the properties [uri], [lineNumber], [line] and [range.start.line]
    that it has.  Any other value reads as an object with none of
    them. *)
Inductive Args : Type :=
| NoArgs
| ArgNumber (n : Z)
| ArgObject (uri : option string) (lineNumber line rangeStartLine : option Z).

Definition argsUri (args : Args) : option string :=
  match args with
  | ArgObject uri _ _ _ => uri
  | _ => None
  end.

(** A number that is 0 is falsy, and [if (args)] skips it. *)
Definition argsLine (args : Args) : option Z :=
  match args with
  | NoArgs => None
  | ArgNumber n => if (n =? 0)%Z then None else Some (Z.max 0 (n - 1))
  | ArgObject _ (Some ln) _ _ => Some (Z.max 0 (ln - 1))
  | ArgObject _ None (Some ln) _ => Some (Z.max 0 (ln - 1))
  | ArgObject _ None None rangeStartLine => rangeStartLine
  end.

(** How a command ends. *)
Inductive Result : Type :=
| Ignored
| MessageShown (msg : string)
| Done (st : Bookmarks.Store)
| HostThrew.

Section Commands.

Variable trim : string -> string.

(** 'vs-codebench.toggleBookmark'. *)
Definition toggleBookmark (newId : string) (now1 now2 : Z)
    (editor : option TextEditor) (args : Args) (st : Bookmarks.Store) : Result :=
  match editor with
  | None => Ignored
  | Some ed =>
      if negb (String.eqb (scheme ed) "file")
      then MessageShown "Bookmarks are only supported for files saved on disk."
      else
        let fileUri := match argsUri args with
                       | Some uri => uri
                       | None => documentUri ed
                       end in
        let line := match argsLine args with
                    | Some l => l
                    | None => activeLine ed
                    end in
        let existingBookmark :=
          match Bookmarks.getBookmarkForLine fileUri line (Bookmarks.bookmarks st) with
          | Some b => Some b
          | None =>
              if (0 <? line)%Z
              then Bookmarks.getBookmarkForLine fileUri (line - 1) (Bookmarks.bookmarks st)
              else None
          end in
        match existingBookmark with
        | Some b => Done (Bookmarks.deleteBookmark (Bookmarks.b_id b) st)
        | None =>
            match lineAt ed line with
            | None => HostThrew
            | Some text =>
                let lineText := trim text in
                Done (snd (Bookmarks.addBookmark trim newId now1 now2 fileUri line
                             lineText st))
            end
        end
  end.

(** 'vs-codebench.addBookmark'; [input] is what the input box returns,
    [None] when it was cancelled. *)
Definition addBookmark (newId : string) (now1 now2 : Z)
    (editor : option TextEditor) (input : option string) (st : Bookmarks.Store)
    : Result :=
  match editor with
  | None => MessageShown "No active editor"
  | Some ed =>
      if negb (String.eqb (scheme ed) "file") && negb (String.eqb (scheme ed) "untitled")
      then MessageShown "Bookmarks are only supported for file or untitled text editors."
      else
        match Bookmarks.validateTotalCount (Bookmarks.bookmarks st) with
        | Some countError => MessageShown countError
        | None =>
            let fileUri := documentUri ed in
            let line := activeLine ed in
            match lineAt ed line with
            | None => HostThrew
            | Some text =>
                let lineText := trim text in
                match Bookmarks.getBookmarkForLine fileUri line (Bookmarks.bookmarks st) with
                | Some _ => MessageShown "Bookmark already exists at this line"
                | None =>
                    match input with
                    | None => Ignored
                    | Some i =>
                        Done (snd (Bookmarks.addBookmark trim newId now1 now2 fileUri line
                                     (if String.eqb i "" then lineText else i) st))
                    end
                end
            end
        end
  end.

End Commands.

End BookmarkCommands.

(** A store of [n] bookmarks [b0], [b1], ... on the lines 0, 1, ... of
    one file, all at the root. *)
Definition bookmarksOnLines (n : nat) : Bookmarks.Store :=
  Bookmarks.mkStore
    (map (fun k => Bookmarks.mkBookmark
                     ("b" ++ NilEmpty.string_of_uint (Nat.to_uint k))
                     "file:///a.js" (Z.of_nat k) "" 0 0 (Z.of_nat k) None None)
         (seq 0 n))
    [].

(** *** Depth and height in the folder forest *)

(** [pathUp fs x l]: [l] lists the ids met on the way up from the
    folder [x]: its parent, the parent of that one, and so on, as far
    as one cares to go.  A missing or empty [parentId] is no link. *)
Inductive pathUp (fs : list Bookmarks.BookmarkFolder) : string -> list string -> Prop :=
| path_here : forall x, pathUp fs x []
| path_parent : forall c p l,
    In c fs -> Bookmarks.f_parentId c = Some p -> p <> "" ->
    pathUp fs p l -> pathUp fs (Bookmarks.f_id c) (p :: l).

(** [chainBelow fs a l]: [l] is a chain of folders that goes down from
    [a]: the first is a child of [a], each next one a child of the one
    before it. *)
Fixpoint chainBelow (fs : list Bookmarks.BookmarkFolder) (a : string)
    (l : list Bookmarks.BookmarkFolder) : Prop :=
  match l with
  | [] => True
  | c :: r => In c fs /\ Bookmarks.f_parentId c = Some a /\
              chainBelow fs (Bookmarks.f_id c) r
  end.

(** The depth of [T]: [T] and the longest path up from it count [d]
    ids; a folder of the root has depth 1. *)
Definition depthIs (fs : list Bookmarks.BookmarkFolder) (T : string) (d : nat) : Prop :=
  (exists l, pathUp fs T l /\ d = S (List.length l)) /\
  (forall l, pathUp fs T l -> S (List.length l) <= d).

(** The height of the subtree of [F]: [F] and the longest chain of
    descendant folders below it count [h] folders. *)
Definition subtreeHeightIs (fs : list Bookmarks.BookmarkFolder) (F : string) (h : nat)
    : Prop :=
  (exists l, chainBelow fs F l /\ h = S (List.length l)) /\
  (forall l, chainBelow fs F l -> S (List.length l) <= h).

(** * Properties *)

Unset Implicit Arguments.

(** ** Facts on the JavaScript helpers *)

Lemma optEq_true (a b : option string) : optEq a b = true <-> a = b.
Proof.
  destruct a as [x|], b as [y|]; simpl; split; intro H;
    try discriminate; try reflexivity.
  - apply String.eqb_eq in H. now subst.
  - injection H as ->. apply String.eqb_refl.
Qed.

Lemma optEq_false (a b : option string) : optEq a b = false <-> a <> b.
Proof.
  split.
  - intros H E. apply optEq_true in E. congruence.
  - intro H. destruct (optEq a b) eqn:E; [|reflexivity].
    apply optEq_true in E. contradiction.
Qed.

Lemma optEq_refl (a : option string) : optEq a a = true.
Proof. now apply optEq_true. Qed.

Lemma setHas_In (x : string) (s : list string) : setHas x s = true <-> In x s.
Proof.
  unfold setHas. rewrite existsb_exists. split.
  - intros [y [Hy E]]. apply String.eqb_eq in E. now subst.
  - intro H. exists x. split; [assumption | apply String.eqb_refl].
Qed.

Lemma setAdd_In (x y : string) (s : list string) :
  In y (setAdd x s) <-> y = x \/ In y s.
Proof.
  unfold setAdd. destruct (setHas x s) eqn:E.
  - apply setHas_In in E. split; [tauto|]. intros [->|H]; assumption.
  - rewrite in_app_iff. simpl. split; intros H; intuition congruence.
Qed.

(** A loop that threads an optional state stays at [None]. *)
Lemma fold_none {A S : Type} (f : A -> S -> option S) (l : list A) :
  fold_left (fun acc x => match acc with Some s => f x s | None => None end) l None
  = None.
Proof. induction l as [|x l IH]; simpl; auto. Qed.

(** ** Count ceilings *)

(** [validateTotalCount] answers with the exact message precisely when
    the collection already holds the ceiling (100 todos, 200 bookmarks)
    and with [null] otherwise: it passes 99 (199) items and refuses 100
    (200). *)
Theorem validateTotalCount_ceiling :
  (forall todos,
      Todos.validateTotalCount todos = Some "Total Todo count cannot exceed 100."
      <-> 100 <= List.length todos) /\
  (forall todos, Todos.validateTotalCount todos = None <-> List.length todos < 100) /\
  (forall bs,
      Bookmarks.validateTotalCount bs = Some "Total Bookmark count cannot exceed 200."
      <-> 200 <= List.length bs) /\
  (forall bs, Bookmarks.validateTotalCount bs = None <-> List.length bs < 200) /\
  (forall todos, List.length todos = 99 -> Todos.validateTotalCount todos = None) /\
  (forall todos, List.length todos = 100 ->
      Todos.validateTotalCount todos = Some "Total Todo count cannot exceed 100.") /\
  (forall bs, List.length bs = 199 -> Bookmarks.validateTotalCount bs = None) /\
  (forall bs, List.length bs = 200 ->
      Bookmarks.validateTotalCount bs = Some "Total Bookmark count cannot exceed 200.").
Proof.
  unfold Todos.validateTotalCount, Bookmarks.validateTotalCount.
  repeat split; intros;
    repeat match goal with
           | H : context [?a <=? ?b] |- _ => destruct (Nat.leb_spec a b)
           | |- context [?a <=? ?b] => destruct (Nat.leb_spec a b)
           end; try reflexivity; try discriminate; try lia.
Qed.

(** ** The order given to a new item *)

Lemma fold_max_ge (l : list Z) (a : Z) : (a <= fold_left Z.max l a)%Z.
Proof.
  revert a. induction l as [|x l IH]; intro a; simpl; [lia|].
  specialize (IH (Z.max a x)). lia.
Qed.

Lemma fold_max_upper (l : list Z) (a x : Z) :
  In x l -> (x <= fold_left Z.max l a)%Z.
Proof.
  revert a. induction l as [|y l IH]; intros a H; simpl in *; [contradiction|].
  destruct H as [->|H].
  - pose proof (fold_max_ge l (Z.max a x)). lia.
  - now apply IH.
Qed.

Lemma fold_max_in (l : list Z) (a : Z) :
  fold_left Z.max l a = a \/ In (fold_left Z.max l a) l.
Proof.
  revert a. induction l as [|y l IH]; intro a; simpl; [now left|].
  destruct (IH (Z.max a y)) as [E|E].
  - rewrite E. destruct (Z.max_spec a y) as [[_ ->]|[_ ->]]; auto.
  - auto.
Qed.

Lemma maxOrder_upper (l : list Bookmarks.Item) (it : Bookmarks.Item) :
  In it l -> (Bookmarks.item_order it <= Bookmarks.maxOrder l)%Z.
Proof.
  intro H. apply (in_map Bookmarks.item_order) in H.
  unfold Bookmarks.maxOrder.
  destruct (map Bookmarks.item_order l) as [|o os]; [contradiction|].
  destruct H as [<-|H]; [apply fold_max_ge | now apply fold_max_upper].
Qed.

Lemma maxOrder_append (l : list Bookmarks.Item) :
  isAppendOrder (map Bookmarks.item_order l) (Bookmarks.maxOrder l + 1)%Z.
Proof.
  unfold Bookmarks.maxOrder.
  destruct (map Bookmarks.item_order l) as [|o os] eqn:E.
  - left. split; reflexivity.
  - right. exists (fold_left Z.max os o). split; [|split; [|reflexivity]].
    + destruct (fold_max_in os o) as [->|H]; [now left | now right].
    + intros x [<-|H]; [apply fold_max_ge | now apply fold_max_upper].
Qed.

(** C2 (as amended). A new bookmark (always created at the root) and a
    new folder (created under the given parent) get one more than the
    greatest order of the combined folders and bookmarks of that
    parent, or 0 when the parent has none, and are pushed at the end of
    their array; a new todo gets the total number of todos of the
    store, whatever its parent. *)
Theorem create_order_assignment :
  forall (trim : string -> string) (newId : string) (now1 now2 : Z),
    (forall uri ln txt st,
        let r := Bookmarks.addBookmark trim newId now1 now2 uri ln txt st in
        isAppendOrder (Bookmarks.siblingOrders None st) (Bookmarks.b_order (fst r)) /\
        Bookmarks.b_parentId (fst r) = None /\
        Bookmarks.bookmarks (snd r) = Bookmarks.bookmarks st ++ [fst r] /\
        Bookmarks.folders (snd r) = Bookmarks.folders st) /\
    (forall nm parent st,
        let r := Bookmarks.addFolder trim newId now1 now2 nm parent st in
        isAppendOrder (Bookmarks.siblingOrders parent st) (Bookmarks.f_order (fst r)) /\
        Bookmarks.f_parentId (fst r) = parent /\
        Bookmarks.folders (snd r) = Bookmarks.folders st ++ [fst r] /\
        Bookmarks.bookmarks (snd r) = Bookmarks.bookmarks st) /\
    (forall txt parent todos,
        let r := Todos.addTodo trim newId now1 now2 txt parent todos in
        Todos.order (fst r) = Z.of_nat (List.length todos) /\
        Todos.parentId (fst r) = parent /\
        snd r = todos ++ [fst r]).
Proof.
  intros trim newId now1 now2. split; [|split].
  - intros uri ln txt st. simpl. repeat split. apply maxOrder_append.
  - intros nm parent st. simpl. repeat split. apply maxOrder_append.
  - intros txt parent todos. simpl. repeat split.
Qed.

(** C2 as stated fails for todos: under a todo that has no child yet,
    the first child does not get order 0. *)
Lemma todo_create_order_is_not_sibling_max :
  ~ (forall (trim : string -> string) newId now1 now2 txt parent todos,
        isAppendOrder (Todos.siblingOrders parent todos)
          (Todos.order (fst (Todos.addTodo trim newId now1 now2 txt parent todos)))).
Proof.
  intro H.
  specialize (H (fun s => s) "b" 0%Z 0%Z "B" (Some "a")
                [Todos.mkTodo "a" "A" false 0 0 0 None]).
  unfold Todos.siblingOrders in H. simpl in H.
  destruct H as [[_ H]|[m [H _]]]; [discriminate | contradiction].
Qed.

(** ** Document edits *)

(** In a range that starts before or on the line where it ends, a
    bookmark on the first line of the range is always taken by the
    "within the changed range" case: it is removed when lines were
    deleted and left alone otherwise.  The two cases written for
    [bookmark.line === startLine] are never reached. *)
Lemma reconcileBookmark_at_startLine :
  forall uri now c b bs m,
    (Bookmarks.startLine c <= Bookmarks.endLine c)%Z ->
    Bookmarks.line b = Bookmarks.startLine c ->
    Bookmarks.reconcileBookmark uri now c b bs m =
    if (Bookmarks.linesDelta c <? 0)%Z
    then (b, Bookmarks.removeBookmark b bs, true)
    else (b, bs, m).
Proof.
  intros uri now c b bs m Hle Hl. unfold Bookmarks.reconcileBookmark.
  rewrite Hl.
  destruct (Z.ltb_spec (Bookmarks.endLine c) (Bookmarks.startLine c)); [lia|].
  destruct (Z.leb_spec (Bookmarks.startLine c) (Bookmarks.startLine c)); [|lia].
  destruct (Z.leb_spec (Bookmarks.startLine c) (Bookmarks.endLine c)); [|lia].
  reflexivity.
Qed.

(** C3 (the code at the scenario of the claim). Bookmarks on lines 1, 3
    and 5; two newlines are inserted at column 0 of line 3.  The
    bookmark on line 5 moves to 7 and the one on line 1 stays, but the
    bookmark on line 3 stays on line 3: it is not moved to line 5. *)
Theorem insertion_at_bookmarked_line_evaluated :
  let bm := fun i l o => Bookmarks.mkBookmark i "file:///a.js" l "" 0 0 o None None in
  let st := Bookmarks.mkStore [bm "b1" 1 0; bm "b3" 3 1; bm "b5" 5 2]%Z [] in
  let change := Bookmarks.mkChange 3 0 3 0 (String newline (String newline "")) in
  let r := Bookmarks.handleTextDocumentChange "file:///a.js" 9 [change] st in
  Bookmarks.linesDelta change = 2%Z /\
  fst r = true /\
  map Bookmarks.line (Bookmarks.bookmarks (snd r)) = [1; 3; 7]%Z.
Proof. vm_compute. repeat split. Qed.

(** C4 (the code at a failing input). Bookmarks on lines 3 and 7; the
    range from column 0 of line 3 to column 0 of line 4 is deleted.
    Line 2 carries no bookmark, yet the bookmark of line 3 is removed
    instead of moving to line 2; the other one moves from 7 to 6. *)
Theorem deletion_at_bookmarked_line_evaluated :
  let bm := fun i l o => Bookmarks.mkBookmark i "file:///a.js" l "" 0 0 o None None in
  let st := Bookmarks.mkStore [bm "b3" 3 0; bm "b7" 7 1]%Z [] in
  let change := Bookmarks.mkChange 3 0 4 0 "" in
  let r := Bookmarks.handleTextDocumentChange "file:///a.js" 9 [change] st in
  Bookmarks.linesDelta change = (-1)%Z /\
  Bookmarks.getBookmarkForLine "file:///a.js" 2 (Bookmarks.bookmarks st) = None /\
  fst r = true /\
  map (fun b => (Bookmarks.b_id b, Bookmarks.line b)) (Bookmarks.bookmarks (snd r))
  = [("b7", 6%Z)].
Proof. vm_compute. repeat split. Qed.

(** ** Errors of [reorderItem] *)

(** X21. Every error but the last one is raised before anything is written. *)
Lemma reorderItem_thrown_early :
  forall fuel now draggedId targetId pos st msg st',
    Bookmarks.reorderItem fuel now draggedId targetId pos st = Thrown msg st' ->
    msg <> "Target not found in items list" ->
    st' = st.
Proof.
  intros fuel now d t pos st msg st' H Hm. unfold Bookmarks.reorderItem in H.
  repeat match type of H with
         | match ?x with _ => _ end = _ => destruct x eqn:?
         end;
    try discriminate; injection H as <- <-; try reflexivity; contradiction.
Qed.

(** C9 (the code at a failing input). A bookmark dropped on itself:
    the dragged bookmark has left [this.bookmarks] when the target is
    looked up in the rebuilt sibling array, so the call throws 'Target
    not found in items list' and the store has lost the bookmark. *)
Theorem reorderItem_on_itself_evaluated :
  let bm := fun i l o => Bookmarks.mkBookmark i "file:///a.js" l "" 0 0 o None None in
  let st := Bookmarks.mkStore [bm "b1" 1 0; bm "b2" 2 1]%Z [] in
  Bookmarks.reorderItem 8 9 "b1" "b1" Bookmarks.before st
  = Thrown "Target not found in items list"
           (Bookmarks.mkStore [bm "b2" 2%Z 1%Z] []).
Proof. vm_compute. reflexivity. Qed.

(** ** Facts on parent-pointer forests *)

Section ForestFacts.

Context {A : Type}.
Variable key : A -> string.
Variable parent : A -> option string.

Local Abbreviation descendant := (Forest.descendant key parent).
Local Abbreviation inSubtree := (Forest.inSubtree key parent).

Lemma descendant_incl (l l' : list A) (a x : string) :
  incl l l' -> descendant l a x -> descendant l' a x.
Proof.
  intros Hi H. induction H as [c Hc Hp | c m Hc Hp _ IH].
  - apply Forest.desc_child; auto.
  - apply Forest.desc_up with (m := m); auto.
Qed.

Lemma descendant_key (l : list A) (a x : string) :
  descendant l a x -> exists c, In c l /\ key c = x.
Proof. intro H. destruct H as [c Hc _ | c m Hc _ _]; exists c; auto. Qed.

(** Below a child of [a] is below [a]. *)
Lemma descendant_below_child (l : list A) (a x : string) (c : A) :
  In c l -> parent c = Some a -> descendant l (key c) x -> descendant l a x.
Proof.
  intros Hc Hp H. induction H as [c' Hc' Hp' | c' m Hc' Hp' _ IH].
  - apply Forest.desc_up with (m := key c); auto.
    apply Forest.desc_child; auto.
  - apply Forest.desc_up with (m := m); auto.
Qed.

(** The descendants of [a], read from the top: the children of [a] and
    what is below them. *)
Lemma descendant_top (l : list A) (a x : string) :
  descendant l a x <->
  exists c, In c l /\ parent c = Some a /\ inSubtree l (key c) x.
Proof.
  split.
  - intro H. induction H as [c Hc Hp | c m Hc Hp _ IH].
    + exists c. repeat split; auto. now left.
    + destruct IH as [c0 [Hc0 [Hp0 [E|D]]]]; exists c0; repeat split; auto; right.
      * subst m. apply Forest.desc_child; auto.
      * apply Forest.desc_up with (m := m); auto.
  - intros [c [Hc [Hp [E|D]]]].
    + subst x. apply Forest.desc_child; auto.
    + eapply descendant_below_child; eauto.
Qed.

Lemma descendant_trans (l : list A) (a b x : string) :
  descendant l a b -> descendant l b x -> descendant l a x.
Proof.
  intros Hab Hbx. induction Hbx as [c Hc Hp | c m Hc Hp _ IH].
  - apply Forest.desc_up with (m := b); auto.
  - apply Forest.desc_up with (m := m); auto.
Qed.

Lemma descendant_rank (l : list A) (rank : string -> nat) (a x : string) :
  (forall c p, In c l -> parent c = Some p -> rank (key c) < rank p) ->
  descendant l a x -> rank x < rank a.
Proof.
  intros Hr H. induction H as [c Hc Hp | c m Hc Hp _ IH].
  - now apply Hr.
  - specialize (Hr c m Hc Hp). lia.
Qed.

(** With unique ids an element is determined by its id. *)
Lemma unique_key (l : list A) (c c' : A) :
  NoDup (map key l) -> In c l -> In c' l -> key c = key c' -> c = c'.
Proof.
  induction l as [|y l IH]; intros Hn Hc Hc' E; [contradiction|].
  simpl in Hn. inversion Hn as [|? ? Hy Hn']; subst.
  destruct Hc as [->|Hc], Hc' as [->|Hc']; auto.
  - exfalso. apply Hy. rewrite E. now apply in_map.
  - exfalso. apply Hy. rewrite <- E. now apply in_map.
Qed.

(** With unique ids the ancestors of an element form a chain. *)
Lemma ancestors_chain (l : list A) (a b x : string) :
  NoDup (map key l) ->
  descendant l a x -> descendant l b x ->
  a = b \/ descendant l a b \/ descendant l b a.
Proof.
  intros Hn Ha. revert b.
  induction Ha as [c Hc Hp | c m Hc Hp Ham IH]; intros b Hb.
  - inversion Hb as [c' Hc' Hp' E | c' m' Hc' Hp' Hbm E].
    + assert (c' = c) by (eapply unique_key; eauto). subst c'.
      left. congruence.
    + assert (c' = c) by (eapply unique_key; eauto). subst c'.
      right; right. congruence.
  - inversion Hb as [c' Hc' Hp' E | c' m' Hc' Hp' Hbm E].
    + assert (c' = c) by (eapply unique_key; eauto). subst c'.
      right; left. congruence.
    + assert (c' = c) by (eapply unique_key; eauto). subst c'.
      assert (m' = m) by congruence. subst m'. now apply IH.
Qed.

End ForestFacts.

(** ** Clearing the checked todos *)

Lemma markForDeletion_spec (todos : list Todos.Todo) :
  forall fuel a S S',
    Todos.markForDeletion fuel todos a S = Some S' ->
    forall x, In x S' <-> In x S \/ Todos.inSubtree todos a x.
Proof.
  induction fuel as [|n IH]; intros a S S' H x; [discriminate|].
  simpl in H.
  assert (Hfold : forall cs S0 S1,
             fold_left (fun acc child =>
                          match acc with
                          | Some s => Todos.markForDeletion n todos (Todos.id child) s
                          | None => None
                          end) cs (Some S0) = Some S1 ->
             forall y, In y S1 <->
                       In y S0 \/ exists c, In c cs /\ Todos.inSubtree todos (Todos.id c) y).
  { induction cs as [|c cs IHcs]; intros S0 S1 Hf y; simpl in Hf.
    - injection Hf as <-. split; [auto|]. intros [?|[c [[] _]]]. assumption.
    - destruct (Todos.markForDeletion n todos (Todos.id c) S0) as [S2|] eqn:E.
      + rewrite (IHcs _ _ Hf y), (IH _ _ _ E y). simpl. split.
        * intros [[?|?]|[c' [? ?]]]; eauto 6.
        * intros [?|[c' [[<-|?] ?]]]; eauto 6.
      + rewrite (fold_none (fun child s => Todos.markForDeletion n todos (Todos.id child) s))
          in Hf. discriminate. }
  rewrite (Hfold _ _ _ H x), setAdd_In.
  unfold Todos.inSubtree, Forest.inSubtree.
  rewrite (descendant_top Todos.id Todos.parentId todos a x).
  split.
  - intros [[?|?]|[c [Hc Hs]]]; auto.
    apply filter_In in Hc. destruct Hc as [Hc Hp].
    apply optEq_true in Hp. right; right. exists c. auto.
  - intros [?|[?|[c [Hc [Hp Hs]]]]]; auto.
    right. exists c. split; [|exact Hs].
    apply filter_In. split; [assumption|]. now apply optEq_true.
Qed.

Lemma markForDeletion_total (todos : list Todos.Todo) (rank : string -> nat) :
  (forall c p, In c todos -> Todos.parentId c = Some p -> rank (Todos.id c) < rank p) ->
  forall n fuel a S,
    n < fuel ->
    (forall c, In c todos -> Todos.parentId c = Some a -> rank (Todos.id c) < n) ->
    exists S', Todos.markForDeletion fuel todos a S = Some S'.
Proof.
  intros Hr. induction n as [|n IH]; intros fuel a S Hf Hc;
    (destruct fuel as [|fuel]; [lia|]); simpl.
  - assert (E : filter (Todos.childOf (Some a)) todos = []).
    { destruct (filter (Todos.childOf (Some a)) todos) as [|c r] eqn:E; [reflexivity|].
      assert (Hin : In c (filter (Todos.childOf (Some a)) todos)) by (rewrite E; now left).
      apply filter_In in Hin. destruct Hin as [Hin Hp]. apply optEq_true in Hp.
      specialize (Hc c Hin Hp). lia. }
    rewrite E. simpl. eauto.
  - assert (Hcs : forall c, In c (filter (Todos.childOf (Some a)) todos) ->
                            In c todos /\ Todos.parentId c = Some a).
    { intros c Hin. apply filter_In in Hin. destruct Hin as [Hin Hp].
      apply optEq_true in Hp. auto. }
    revert Hcs. generalize (setAdd a S).
    induction (filter (Todos.childOf (Some a)) todos) as [|c cs IHcs];
      intros S0 Hcs; simpl; [eauto|].
    destruct (Hcs c (or_introl eq_refl)) as [Hin Hp].
    destruct (IH fuel (Todos.id c) S0) as [S1 E]; [lia| |].
    + intros g Hg Hpg. specialize (Hr g _ Hg Hpg). specialize (Hc c Hin Hp). lia.
    + rewrite E. apply IHcs. intros c' Hc'. apply Hcs. now right.
Qed.

Lemma markChecked_spec (todos : list Todos.Todo) (fuel : nat) (D : list string) :
  Todos.markChecked fuel todos = Some D ->
  forall x, In x D <->
            exists t, In t todos /\ Todos.done t = true /\
                      Todos.inSubtree todos (Todos.id t) x.
Proof.
  unfold Todos.markChecked.
  assert (Hfold : forall ts S0 S1,
             fold_left (fun acc t =>
                          match acc with
                          | Some s => if Todos.done t
                                      then Todos.markForDeletion fuel todos (Todos.id t) s
                                      else Some s
                          | None => None
                          end) ts (Some S0) = Some S1 ->
             forall y, In y S1 <->
                       In y S0 \/ exists t, In t ts /\ Todos.done t = true /\
                                            Todos.inSubtree todos (Todos.id t) y).
  { induction ts as [|t ts IHts]; intros S0 S1 Hf y; simpl in Hf.
    - injection Hf as <-. split; [auto|]. intros [?|[t [[] _]]]. assumption.
    - destruct (Todos.done t) eqn:Ed.
      + destruct (Todos.markForDeletion fuel todos (Todos.id t) S0) as [S2|] eqn:E.
        * rewrite (IHts _ _ Hf y), (markForDeletion_spec _ _ _ _ _ E y). simpl. split.
          -- intros [[?|?]|[t' [? ?]]]; eauto 7.
          -- intros [?|[t' [[<-|?] [? ?]]]]; eauto 7.
        * rewrite (fold_none (fun t s => if Todos.done t
                                         then Todos.markForDeletion fuel todos (Todos.id t) s
                                         else Some s)) in Hf.
          discriminate.
      + rewrite (IHts _ _ Hf y). simpl. split.
        * intros [?|[t' [? ?]]]; eauto 7.
        * intros [?|[t' [[<-|?] [? ?]]]]; eauto 7. congruence. }
  intros H x. rewrite (Hfold _ _ _ H x). simpl. tauto.
Qed.

Lemma markChecked_total (todos : list Todos.Todo) (rank : string -> nat) (B fuel : nat) :
  (forall c p, In c todos -> Todos.parentId c = Some p -> rank (Todos.id c) < rank p) ->
  (forall c, In c todos -> rank (Todos.id c) < B) ->
  B < fuel ->
  exists D, Todos.markChecked fuel todos = Some D.
Proof.
  intros Hr HB Hf. unfold Todos.markChecked.
  assert (Hfold : forall ts S0, exists D,
             fold_left (fun acc t =>
                          match acc with
                          | Some s => if Todos.done t
                                      then Todos.markForDeletion fuel todos (Todos.id t) s
                                      else Some s
                          | None => None
                          end) ts (Some S0) = Some D); [|apply Hfold].
  induction ts as [|t ts IHts]; intro S0; simpl; [eauto|].
  destruct (Todos.done t); [|apply IHts].
  destruct (markForDeletion_total todos rank Hr B fuel (Todos.id t) S0)
    as [S1 E]; [exact Hf| |].
  - intros c Hc _. now apply HB.
  - rewrite E. apply IHts.
Qed.

Lemma rank_bound {A : Type} (key : A -> string) (rank : string -> nat) (l : list A) :
  exists B, forall c, In c l -> rank (key c) < B.
Proof.
  induction l as [|y l [B HB]].
  - exists 0. intros c [].
  - exists (S (Nat.max B (rank (key y)))). intros c [<-|Hc]; [lia|].
    specialize (HB c Hc). lia.
Qed.

(** C10. With unique ids and no cycle, [clearCheckedTodos] ends and
    keeps, in their order, exactly the todos that are neither done nor
    below a done todo: a todo below a done one goes even when it is not
    done itself, and no other todo goes. *)
Theorem clearCheckedTodos_exact :
  forall todos,
    NoDup (map Todos.id todos) ->
    Todos.acyclic todos ->
    exists N, forall fuel, N <= fuel ->
      exists keep,
        Todos.clearCheckedTodos fuel todos = Some (filter keep todos) /\
        forall t, In t todos -> (keep t = false <-> cleared todos t).
Proof.
  intros todos Hn [rank Hr].
  destruct (rank_bound Todos.id rank todos) as [B HB].
  exists (S B). intros fuel Hf.
  destruct (markChecked_total todos rank B fuel Hr HB) as [D HD]; [lia|].
  exists (fun t => negb (setHas (Todos.id t) D)).
  pose proof (markChecked_spec _ _ _ HD) as Hspec.
  split.
  - unfold Todos.clearCheckedTodos. rewrite HD.
    destruct D as [|d D']; simpl List.length; simpl Nat.eqb; cbv iota; [|reflexivity].
    f_equal. symmetry. apply forallb_filter_id. apply forallb_forall.
    intros t _. reflexivity.
  - intros t Ht. rewrite negb_false_iff, setHas_In, Hspec. unfold cleared. split.
    + intros [a [Ha [Hd [E|Hdesc]]]].
      * left. assert (t = a) by (eapply unique_key; eauto). now subst.
      * right. exists a. auto.
    + intros [Hd|[a [Ha [Hd Hdesc]]]].
      * exists t. repeat split; auto. now left.
      * exists a. repeat split; auto. now right.
Qed.

(** Witness of [clearCheckedTodos_exact]: a done root with a child that
    is not done, and a second root. *)
Lemma clearCheckedTodos_exact_witness :
  let todos := [Todos.mkTodo "a" "A" true 0 0 0 None;
                Todos.mkTodo "b" "B" false 0 0 1 (Some "a");
                Todos.mkTodo "c" "C" false 0 0 2 None] in
  NoDup (map Todos.id todos) /\
  Todos.acyclic todos /\
  exists N, forall fuel, N <= fuel ->
    exists keep,
      Todos.clearCheckedTodos fuel todos = Some (filter keep todos) /\
      forall t, In t todos -> (keep t = false <-> cleared todos t).
Proof.
  intro todos.
  assert (Hn : NoDup (map Todos.id todos)).
  { simpl. repeat constructor; simpl; intuition discriminate. }
  assert (Ha : Todos.acyclic todos).
  { exists (fun s => if String.eqb s "a" then 1 else 0).
    intros c p [<-|[<-|[<-|[]]]] Hp; simpl in Hp; try discriminate.
    injection Hp as <-. simpl. lia. }
  split; [exact Hn | split; [exact Ha | exact (clearCheckedTodos_exact todos Hn Ha)]].
Defined.

(** ** Lookups by id *)

Lemma find_by_key {A : Type} (key : A -> string) (l : list A) (c : A) :
  NoDup (map key l) -> In c l ->
  find (fun x => String.eqb (key x) (key c)) l = Some c.
Proof.
  induction l as [|y l IH]; intros Hn Hc; [contradiction|].
  simpl in Hn. inversion Hn as [|? ? Hy Hn']; subst. simpl.
  destruct Hc as [->|Hc].
  - now rewrite String.eqb_refl.
  - destruct (String.eqb_spec (key y) (key c)) as [E|E].
    + exfalso. apply Hy. rewrite E. now apply in_map.
    + now apply IH.
Qed.

Lemma find_folder_some (i : string) (fs : list Bookmarks.BookmarkFolder)
    (f : Bookmarks.BookmarkFolder) :
  find (Bookmarks.fHasId i) fs = Some f -> In f fs /\ Bookmarks.f_id f = i.
Proof.
  intro H. apply find_some in H. destruct H as [Hin E].
  apply String.eqb_eq in E. auto.
Qed.

Lemma find_folder_none (i : string) (fs : list Bookmarks.BookmarkFolder) :
  find (Bookmarks.fHasId i) fs = None ->
  forall f, In f fs -> Bookmarks.f_id f <> i.
Proof.
  intros H f Hf E. apply (find_none _ _ H) in Hf.
  unfold Bookmarks.fHasId in Hf. rewrite E, String.eqb_refl in Hf. discriminate.
Qed.

Lemma find_bookmark_some (i : string) (bs : list Bookmarks.Bookmark)
    (b : Bookmarks.Bookmark) :
  find (Bookmarks.bHasId i) bs = Some b -> In b bs /\ Bookmarks.b_id b = i.
Proof.
  intro H. apply find_some in H. destruct H as [Hin E].
  apply String.eqb_eq in E. auto.
Qed.

Lemma find_bookmark_none (i : string) (bs : list Bookmarks.Bookmark) :
  find (Bookmarks.bHasId i) bs = None ->
  forall b, In b bs -> Bookmarks.b_id b <> i.
Proof.
  intros H b Hb E. apply (find_none _ _ H) in Hb.
  unfold Bookmarks.bHasId in Hb. rewrite E, String.eqb_refl in Hb. discriminate.
Qed.

Lemma find_folder_unique (fs : list Bookmarks.BookmarkFolder)
    (c : Bookmarks.BookmarkFolder) :
  NoDup (map Bookmarks.f_id fs) -> In c fs ->
  find (Bookmarks.fHasId (Bookmarks.f_id c)) fs = Some c.
Proof. intros Hn Hc. exact (find_by_key Bookmarks.f_id fs c Hn Hc). Qed.

(** ** Moving a folder below itself *)

(** The walk of [isDescendantOf] from a folder of the subtree of [F]
    arrives at [F]. *)
Lemma isDescendantOf_reaches (fs : list Bookmarks.BookmarkFolder) (F T : string) :
  NoDup (map Bookmarks.f_id fs) ->
  (forall f, In f fs -> Bookmarks.f_id f <> "") ->
  F <> "" ->
  Bookmarks.descendant fs F T ->
  exists N, forall fuel, N <= fuel ->
    Bookmarks.isDescendantOf_loop fuel fs (Some T) F = Some true.
Proof.
  intros Hn Hp HF H.
  induction H as [c Hc Hpar | c m Hc Hpar _ [N IH]].
  - exists 2. intros fuel Hf.
    destruct fuel as [|[|fuel]]; try lia. simpl.
    destruct (String.eqb_spec (Bookmarks.f_id c) "") as [E|_]; [now apply Hp in E|].
    destruct (String.eqb_spec (Bookmarks.f_id c) F) as [_|_]; [reflexivity|].
    rewrite (find_folder_unique fs c Hn Hc), Hpar.
    destruct (String.eqb_spec F "") as [E|_]; [contradiction|].
    now rewrite String.eqb_refl.
  - exists (S N). intros fuel Hf.
    destruct fuel as [|fuel]; [lia|]. simpl.
    destruct (String.eqb_spec (Bookmarks.f_id c) "") as [E|_]; [now apply Hp in E|].
    destruct (String.eqb_spec (Bookmarks.f_id c) F) as [_|_]; [reflexivity|].
    rewrite (find_folder_unique fs c Hn Hc), Hpar. apply IH. lia.
Qed.

(** C5. In a store with proper ids (unique, not shared between a
    bookmark and a folder, not empty), moving a folder [F] under a
    target [T] that is [F] or a descendant of [F] throws 'Cannot move
    folder into itself or its subfolders', and the store is the one
    before the call. *)
Theorem moveToFolder_rejects_cycle :
  forall st now F T,
    Bookmarks.uniqueIds st ->
    Bookmarks.disjointIds st ->
    Bookmarks.properIds st ->
    (exists f, In f (Bookmarks.folders st) /\ Bookmarks.f_id f = F) ->
    Bookmarks.inSubtree (Bookmarks.folders st) F T ->
    exists N, forall fuel, N <= fuel ->
      Bookmarks.moveToFolder fuel now F (Some T) st
      = Thrown "Cannot move folder into itself or its subfolders" st.
Proof.
  intros st now F T [_ Hn] Hd Hp [f [Hf HfF]] Hsub.
  assert (HF : F <> "") by (subst F; now apply Hp).
  assert (HT : T <> "").
  { destruct Hsub as [->|D]; [assumption|].
    destruct (descendant_key _ _ _ _ _ D) as [c [Hc <-]]. now apply Hp. }
  assert (Hwalk : exists N, forall fuel, N <= fuel ->
             Bookmarks.isDescendantOf fuel T F st = Some true).
  { destruct Hsub as [->|D].
    - exists 1. intros fuel Hfuel. destruct fuel as [|fuel]; [lia|].
      unfold Bookmarks.isDescendantOf. simpl.
      destruct (String.eqb_spec F "") as [E|_]; [contradiction|].
      now rewrite String.eqb_refl.
    - exact (isDescendantOf_reaches _ F T Hn Hp HF D). }
  destruct Hwalk as [N Hwalk]. exists N. intros fuel Hfuel.
  unfold Bookmarks.moveToFolder.
  destruct (find (Bookmarks.bHasId F) (Bookmarks.bookmarks st)) as [b|] eqn:Eb.
  { apply find_bookmark_some in Eb. destruct Eb as [Hb E].
    exfalso. apply (Hd b f Hb Hf). congruence. }
  subst F. rewrite (find_folder_unique _ f Hn Hf).
  unfold Bookmarks.validateFolderMove.
  destruct (String.eqb_spec T "") as [E|_]; [contradiction|].
  rewrite (Hwalk fuel Hfuel). reflexivity.
Qed.

(** Witness of [moveToFolder_rejects_cycle]: folder [a] holds folder
    [b]; [a] is moved under [b]. *)
Lemma moveToFolder_rejects_cycle_witness :
  let st := Bookmarks.mkStore
              [Bookmarks.mkBookmark "k" "file:///a.js" 0 "" 0 0 1 None None]
              [Bookmarks.mkFolder "a" "A" None 0 0 0 None;
               Bookmarks.mkFolder "b" "B" (Some "a") 0 0 0 None] in
  Bookmarks.uniqueIds st /\
  Bookmarks.disjointIds st /\
  Bookmarks.properIds st /\
  (exists f, In f (Bookmarks.folders st) /\ Bookmarks.f_id f = "a") /\
  Bookmarks.inSubtree (Bookmarks.folders st) "a" "b" /\
  exists N, forall fuel, N <= fuel ->
    Bookmarks.moveToFolder fuel 7 "a" (Some "b") st
    = Thrown "Cannot move folder into itself or its subfolders" st.
Proof.
  intro st.
  assert (Hu : Bookmarks.uniqueIds st).
  { split; simpl; repeat constructor; simpl; intuition discriminate. }
  assert (Hd : Bookmarks.disjointIds st).
  { intros b f [<-|[]] [<-|[<-|[]]]; simpl; discriminate. }
  assert (Hp : Bookmarks.properIds st).
  { intros f [<-|[<-|[]]]; simpl; discriminate. }
  assert (Hf : exists f, In f (Bookmarks.folders st) /\ Bookmarks.f_id f = "a").
  { eexists. split; [left; reflexivity | reflexivity]. }
  assert (Hs : Bookmarks.inSubtree (Bookmarks.folders st) "a" "b").
  { right.
    exact (Forest.desc_child Bookmarks.f_id Bookmarks.f_parentId
             (Bookmarks.folders st) (a := "a")
             (Bookmarks.mkFolder "b" "B" (Some "a") 0 0 0 None)
             (or_intror (or_introl eq_refl)) eq_refl). }
  repeat (split; [assumption|]).
  exact (moveToFolder_rejects_cycle st 7%Z "a" "b" Hu Hd Hp Hf Hs).
Defined.

(** ** Dense order sequences *)

Lemma dense_nil : dense [].
Proof. apply perm_nil. Qed.

Lemma dense_perm (l l' : list Z) :
  Permutation l l' -> dense l -> dense l'.
Proof.
  unfold dense. intros Hp Hd.
  rewrite <- (Permutation_length Hp).
  eapply Permutation_trans; [apply Permutation_sym; exact Hp | exact Hd].
Qed.

Lemma dense_snoc (l l' : list Z) :
  dense l ->
  Permutation l' (Z.of_nat (List.length l) :: l) ->
  dense l'.
Proof.
  unfold dense. intros Hd Hp.
  rewrite (Permutation_length Hp). simpl List.length.
  rewrite seq_S, map_app. simpl.
  eapply Permutation_trans; [exact Hp|].
  eapply Permutation_trans; [|apply Permutation_cons_append].
  now apply perm_skip.
Qed.

Lemma dense_bounds (l : list Z) (x : Z) :
  dense l -> In x l -> (0 <= x < Z.of_nat (List.length l))%Z.
Proof.
  intros Hd Hx. apply (Permutation_in _ Hd) in Hx.
  apply in_map_iff in Hx. destruct Hx as [j [<- Hj]].
  apply in_seq in Hj. lia.
Qed.

Lemma dense_last (l : list Z) :
  dense l -> l <> [] -> In (Z.of_nat (List.length l) - 1)%Z l.
Proof.
  intros Hd Hne. apply (Permutation_in _ (Permutation_sym Hd)).
  apply in_map_iff. exists (List.length l - 1).
  destruct l as [|y l]; [contradiction|]. simpl List.length.
  split; [lia|]. apply in_seq. lia.
Qed.

(** In a dense group the next order is the size of the group. *)
Lemma dense_maxOrder (sibs : list Bookmarks.Item) :
  dense (map Bookmarks.item_order sibs) ->
  (Bookmarks.maxOrder sibs + 1)%Z = Z.of_nat (List.length sibs).
Proof.
  intro Hd. destruct (maxOrder_append sibs) as [[E ->]|[m [Hm [Hup ->]]]].
  - destruct sibs; [reflexivity | discriminate].
  - pose proof (dense_bounds _ _ Hd Hm) as Hb.
    assert (Hne : map Bookmarks.item_order sibs <> []).
    { intro E. rewrite E in Hm. contradiction. }
    pose proof (Hup _ (dense_last _ Hd Hne)) as Hl.
    rewrite length_map in *. unfold Bookmarks.maxOrder.
    destruct (maxOrder_append sibs) as [[E _]|[m' [Hm' [Hup' E']]]].
    + congruence.
    + assert (m' = m) by (specialize (Hup _ Hm'); specialize (Hup' _ Hm); lia).
      subst m'. fold (Bookmarks.maxOrder sibs). lia.
Qed.

(** ** The normalisation of a sibling group *)

Lemma setFOrder_same (g : Bookmarks.BookmarkFolder) :
  Bookmarks.setFOrder g (Bookmarks.f_order g) = g.
Proof. now destruct g. Qed.

Lemma setBOrder_same (b : Bookmarks.Bookmark) :
  Bookmarks.setBOrder b (Bookmarks.b_order b) = b.
Proof. now destruct b. Qed.

Lemma assignOrders_folders (items : list Bookmarks.Item) :
  forall index st,
    Bookmarks.folders (Bookmarks.assignOrders items index st)
    = map (fun g => Bookmarks.setFOrder g
                      (posOrder items index (inl (Bookmarks.f_id g)) (Bookmarks.f_order g)))
          (Bookmarks.folders st).
Proof.
  induction items as [|it r IH]; intros index st; simpl.
  - rewrite <- (map_id (Bookmarks.folders st)) at 1.
    apply map_ext. intro g. now rewrite setFOrder_same.
  - rewrite IH. destruct it as [f|b]; simpl.
    + rewrite map_map. apply map_ext. intro g. unfold Bookmarks.fHasId.
      destruct (String.eqb (Bookmarks.f_id g) (Bookmarks.f_id f)); reflexivity.
    + reflexivity.
Qed.

Lemma assignOrders_bookmarks (items : list Bookmarks.Item) :
  forall index st,
    Bookmarks.bookmarks (Bookmarks.assignOrders items index st)
    = map (fun b => Bookmarks.setBOrder b
                      (posOrder items index (inr (Bookmarks.b_id b)) (Bookmarks.b_order b)))
          (Bookmarks.bookmarks st).
Proof.
  induction items as [|it r IH]; intros index st; simpl.
  - rewrite <- (map_id (Bookmarks.bookmarks st)) at 1.
    apply map_ext. intro b. now rewrite setBOrder_same.
  - rewrite IH. destruct it as [f|b0]; simpl.
    + reflexivity.
    + rewrite map_map. apply map_ext. intro b. unfold Bookmarks.bHasId.
      destruct (String.eqb (Bookmarks.b_id b) (Bookmarks.b_id b0)); reflexivity.
Qed.

Lemma getFolderSiblings_assign (items : list Bookmarks.Item) (index : nat)
    (p : option string) (st : Bookmarks.Store) :
  Bookmarks.getFolderSiblings p (Bookmarks.assignOrders items index st)
  = map (relabelItem items index) (Bookmarks.getFolderSiblings p st).
Proof.
  unfold Bookmarks.getFolderSiblings.
  rewrite assignOrders_folders, assignOrders_bookmarks.
  rewrite !filter_map_swap, map_app, !map_map. reflexivity.
Qed.

Lemma sameKey_true (it it' : Bookmarks.Item) :
  sameKey (item_key it) it' = true <-> item_key it = item_key it'.
Proof.
  destruct it as [f|b], it' as [f'|b']; simpl; split; intro H;
    try discriminate.
  - apply String.eqb_eq in H. congruence.
  - injection H as ->. apply String.eqb_refl.
  - apply String.eqb_eq in H. congruence.
  - injection H as ->. apply String.eqb_refl.
Qed.

Lemma posOrder_absent (items : list Bookmarks.Item) (k : string + string) :
  (forall it, In it items -> sameKey k it = false) ->
  forall index old, posOrder items index k old = old.
Proof.
  induction items as [|it r IH]; intros Ha index old; simpl; [reflexivity|].
  rewrite (Ha it (or_introl eq_refl)). apply IH. intros it' Hin. apply Ha. now right.
Qed.

Lemma posOrder_indexes (items : list Bookmarks.Item) :
  NoDup (map item_key items) ->
  forall index (old : Bookmarks.Item -> Z),
    map (fun x => posOrder items index (item_key x) (old x)) items
    = map Z.of_nat (seq index (List.length items)).
Proof.
  induction items as [|it r IH]; intros Hn index old; simpl; [reflexivity|].
  inversion Hn as [|? ? Hnotin Hn']; subst. f_equal.
  - assert (E : sameKey (item_key it) it = true) by now apply sameKey_true.
    rewrite E. apply posOrder_absent. intros it' Hin.
    destruct (sameKey (item_key it) it') eqn:E'; [|reflexivity].
    apply sameKey_true in E'. exfalso. apply Hnotin. rewrite E'. now apply in_map.
  - exact (IH Hn' (S index)
              (fun x => if sameKey (item_key x) it then Z.of_nat index else old x)).
Qed.

Lemma insertByOrder_perm (x : Bookmarks.Item) (l : list Bookmarks.Item) :
  Permutation (Bookmarks.insertByOrder x l) (x :: l).
Proof.
  induction l as [|y l IH]; simpl; [apply Permutation_refl|].
  destruct (Bookmarks.item_order x <=? Bookmarks.item_order y)%Z.
  - apply Permutation_refl.
  - eapply Permutation_trans; [apply perm_skip; exact IH | apply perm_swap].
Qed.

Lemma sortByOrder_perm (l : list Bookmarks.Item) :
  Permutation (Bookmarks.sortByOrder l) l.
Proof.
  induction l as [|x l IH]; simpl; [apply perm_nil|].
  eapply Permutation_trans; [apply insertByOrder_perm | now apply perm_skip].
Qed.

Lemma NoDup_map_filter {A : Type} (key : A -> string) (f : A -> bool) (l : list A) :
  NoDup (map key l) -> NoDup (map key (filter f l)).
Proof.
  induction l as [|y l IH]; intro Hn; simpl; [constructor|].
  simpl in Hn. inversion Hn as [|? ? Hy Hn']; subst.
  destruct (f y); simpl; [|now apply IH].
  constructor; [|now apply IH].
  intro Hin. apply Hy. apply in_map_iff in Hin. destruct Hin as [z [E Hz]].
  apply filter_In in Hz. apply in_map_iff. exists z. tauto.
Qed.

Lemma siblings_keys_NoDup (p : option string) (st : Bookmarks.Store) :
  Bookmarks.uniqueIds st ->
  NoDup (map item_key (Bookmarks.getFolderSiblings p st)).
Proof.
  intros [Hb Hf]. unfold Bookmarks.getFolderSiblings.
  rewrite map_app, !map_map. simpl.
  apply NoDup_app.
  - rewrite <- (map_map Bookmarks.f_id inl).
    apply Injective_map_NoDup; [intros x y E; congruence|].
    now apply NoDup_map_filter.
  - rewrite <- (map_map Bookmarks.b_id inr).
    apply Injective_map_NoDup; [intros x y E; congruence|].
    now apply NoDup_map_filter.
  - intros a Ha Hb'. apply in_map_iff in Ha. apply in_map_iff in Hb'.
    destruct Ha as [f [<- _]]. destruct Hb' as [b [E _]]. discriminate.
Qed.

Lemma item_order_set (it : Bookmarks.Item) (v : Z) :
  Bookmarks.item_order (Bookmarks.setItemOrder it v) = v.
Proof. now destruct it. Qed.

Lemma setItemOrder_same (it : Bookmarks.Item) :
  Bookmarks.setItemOrder it (Bookmarks.item_order it) = it.
Proof. destruct it; simpl; [now rewrite setFOrder_same | now rewrite setBOrder_same]. Qed.

(** After the normalisation of the group of [p], the group is dense. *)
Lemma normalize_dense (p : option string) (st : Bookmarks.Store) :
  Bookmarks.uniqueIds st ->
  Bookmarks.denseAt p (Bookmarks.normalizeSiblings p st).
Proof.
  intro Hu. unfold Bookmarks.denseAt, Bookmarks.siblingOrders, Bookmarks.normalizeSiblings.
  rewrite getFolderSiblings_assign, map_map.
  set (sibs := Bookmarks.getFolderSiblings p st).
  set (sorted := Bookmarks.sortByOrder sibs).
  assert (Hperm : Permutation sorted sibs) by apply sortByOrder_perm.
  assert (Hn : NoDup (map item_key sorted)).
  { apply (Permutation_NoDup (l := map item_key sibs)).
    - apply Permutation_map. now apply Permutation_sym.
    - now apply siblings_keys_NoDup. }
  unfold dense. rewrite length_map.
  rewrite <- (Permutation_length Hperm).
  rewrite <- (posOrder_indexes sorted Hn 0 Bookmarks.item_order).
  eapply Permutation_trans.
  - apply Permutation_map. apply Permutation_sym. exact Hperm.
  - erewrite map_ext; [apply Permutation_refl|].
    intro it. unfold relabelItem. apply item_order_set.
Qed.

Lemma item_in_siblings (p : option string) (st : Bookmarks.Store) (it : Bookmarks.Item) :
  In it (Bookmarks.getFolderSiblings p st) <->
  match it with
  | Bookmarks.IFolder f => In f (Bookmarks.folders st) /\ Bookmarks.f_parentId f = p
  | Bookmarks.IBookmark b => In b (Bookmarks.bookmarks st) /\ Bookmarks.b_parentId b = p
  end.
Proof.
  unfold Bookmarks.getFolderSiblings. rewrite in_app_iff, !in_map_iff.
  destruct it as [f|b]; split.
  - intros [[x [E Hx]]|[x [E _]]]; [|discriminate].
    injection E as ->. apply filter_In in Hx. destruct Hx as [Hx Hp].
    apply optEq_true in Hp. auto.
  - intros [Hf Hp]. left. exists f. split; [reflexivity|].
    apply filter_In. split; [assumption | now apply optEq_true].
  - intros [[x [E _]]|[x [E Hx]]]; [discriminate|].
    injection E as ->. apply filter_In in Hx. destruct Hx as [Hx Hp].
    apply optEq_true in Hp. auto.
  - intros [Hb Hp]. right. exists b. split; [reflexivity|].
    apply filter_In. split; [assumption | now apply optEq_true].
Qed.

(** Two elements of the store with the same key are in the same group. *)
Lemma same_key_same_group (st : Bookmarks.Store) (p q : option string)
    (it it' : Bookmarks.Item) :
  Bookmarks.uniqueIds st ->
  In it (Bookmarks.getFolderSiblings p st) ->
  In it' (Bookmarks.getFolderSiblings q st) ->
  item_key it = item_key it' -> p = q.
Proof.
  intros [Hb Hf] Hi Hi' E.
  apply item_in_siblings in Hi. apply item_in_siblings in Hi'.
  destruct it as [f|b], it' as [f'|b']; simpl in E; try discriminate;
    injection E as E; destruct Hi as [Hi <-], Hi' as [Hi' <-].
  - now rewrite (unique_key Bookmarks.f_id _ f f' Hf Hi Hi' E).
  - now rewrite (unique_key Bookmarks.b_id _ b b' Hb Hi Hi' E).
Qed.

(** The normalisation of the group of [p] leaves the other groups as
    they are. *)
Lemma normalize_other (p q : option string) (st : Bookmarks.Store) :
  Bookmarks.uniqueIds st -> q <> p ->
  Bookmarks.getFolderSiblings q (Bookmarks.normalizeSiblings p st)
  = Bookmarks.getFolderSiblings q st.
Proof.
  intros Hu Hq. unfold Bookmarks.normalizeSiblings.
  rewrite getFolderSiblings_assign.
  rewrite <- (map_id (Bookmarks.getFolderSiblings q st)) at 2.
  apply map_ext_in. intros it Hit. unfold relabelItem.
  rewrite posOrder_absent; [apply setItemOrder_same|].
  intros it' Hit'.
  destruct (sameKey (item_key it) it') eqn:E; [|reflexivity].
  apply sameKey_true in E. exfalso. apply Hq.
  apply (Permutation_in _ (sortByOrder_perm _)) in Hit'.
  exact (same_key_same_group st q p it it' Hu Hit Hit' E).
Qed.

(** ** The walks and recursions over the folders end *)

Section FolderLoops.

Variable fs : list Bookmarks.BookmarkFolder.
Variable rank : string -> nat.
Variable B : nat.
Hypothesis rank_parent :
  forall c p, In c fs -> Bookmarks.f_parentId c = Some p ->
              rank (Bookmarks.f_id c) < rank p.
Hypothesis rank_bounded : forall c, In c fs -> rank (Bookmarks.f_id c) < B.

Lemma isDescendantOf_total (F : string) :
  forall n fuel cur,
    n + 2 <= fuel ->
    (forall x, cur = Some x -> B <= rank x + n) ->
    exists b, Bookmarks.isDescendantOf_loop fuel fs cur F = Some b.
Proof.
  induction n as [|n IH]; intros fuel cur Hf Hc;
    (destruct fuel as [|fuel]; [lia|]); simpl;
    (destruct cur as [c|]; [|eauto]);
    (destruct (String.eqb c ""); [eauto|]);
    (destruct (String.eqb c F); [eauto|]);
    destruct (find (Bookmarks.fHasId c) fs) as [f|] eqn:Ef.
  - apply find_folder_some in Ef. destruct Ef as [Hin E]. subst c.
    specialize (rank_bounded _ Hin). specialize (Hc _ eq_refl). lia.
  - destruct fuel as [|fuel]; [lia|]. simpl. eauto.
  - apply find_folder_some in Ef. destruct Ef as [Hin E]. subst c.
    apply IH; [lia|]. intros x Hx.
    specialize (rank_parent _ _ Hin Hx). specialize (Hc _ eq_refl). lia.
  - destruct fuel as [|fuel]; [lia|]. simpl. eauto.
Qed.

Lemma getFolderDepth_total :
  forall n fuel depth cur,
    n + 2 <= fuel ->
    (forall x, cur = Some x -> B <= rank x + n) ->
    exists d, Bookmarks.getFolderDepth_loop fuel fs depth cur = Some d.
Proof.
  induction n as [|n IH]; intros fuel depth cur Hf Hc;
    (destruct fuel as [|fuel]; [lia|]); simpl;
    (destruct cur as [c|]; [|eauto]);
    (destruct (String.eqb c ""); [eauto|]);
    destruct (find (Bookmarks.fHasId c) fs) as [f|] eqn:Ef.
  - apply find_folder_some in Ef. destruct Ef as [Hin E]. subst c.
    specialize (rank_bounded _ Hin). specialize (Hc _ eq_refl). lia.
  - destruct fuel as [|fuel]; [lia|]. simpl. eauto.
  - apply find_folder_some in Ef. destruct Ef as [Hin E]. subst c.
    destruct (truthy (Bookmarks.f_parentId f)).
    + apply IH; [lia|]. intros x Hx.
      specialize (rank_parent _ _ Hin Hx). specialize (Hc _ eq_refl). lia.
    + destruct fuel as [|fuel]; [lia|]. simpl. eauto.
  - destruct fuel as [|fuel]; [lia|]. simpl. eauto.
Qed.

Lemma getMaxFolderDepth_total (st : Bookmarks.Store) :
  Bookmarks.folders st = fs ->
  forall n fuel a,
    n < fuel ->
    (forall c, In c fs -> Bookmarks.f_parentId c = Some a -> rank (Bookmarks.f_id c) < n) ->
    exists h, Bookmarks.getMaxFolderDepth fuel a st = Some h.
Proof.
  intros Hst. induction n as [|n IH]; intros fuel a Hf Hc;
    (destruct fuel as [|fuel]; [lia|]); simpl; rewrite Hst.
  - assert (E : filter (Bookmarks.fChildOf (Some a)) fs = []).
    { destruct (filter (Bookmarks.fChildOf (Some a)) fs) as [|c r] eqn:E; [reflexivity|].
      assert (Hin : In c (filter (Bookmarks.fChildOf (Some a)) fs)) by (rewrite E; now left).
      apply filter_In in Hin. destruct Hin as [Hin Hp]. apply optEq_true in Hp.
      specialize (Hc c Hin Hp). lia. }
    rewrite E. simpl. eauto.
  - assert (Hfold : forall cs m,
               (forall c, In c cs -> In c fs /\ Bookmarks.f_parentId c = Some a) ->
               exists h,
                 fold_left (fun acc subfolder =>
                              match acc with
                              | Some maxDepth =>
                                  match Bookmarks.getMaxFolderDepth fuel
                                          (Bookmarks.f_id subfolder) st with
                                  | Some subfolderDepth =>
                                      Some (Nat.max maxDepth (subfolderDepth + 1))
                                  | None => None
                                  end
                              | None => None
                              end) cs (Some m) = Some h).
    { induction cs as [|c cs IHcs]; intros m Hcs; simpl; [eauto|].
      destruct (Hcs c (or_introl eq_refl)) as [Hin Hp].
      destruct (IH fuel (Bookmarks.f_id c)) as [h E]; [lia| |].
      + intros g Hg Hpg. specialize (rank_parent g _ Hg Hpg).
        specialize (Hc c Hin Hp). lia.
      + rewrite E. apply IHcs. intros c' Hc'. apply Hcs. now right. }
    apply Hfold. intros c Hin. apply filter_In in Hin. destruct Hin as [Hin Hp].
    apply optEq_true in Hp. auto.
Qed.

End FolderLoops.

(** A positive answer of [isDescendantOf] is right. *)
Lemma isDescendantOf_sound (fs : list Bookmarks.BookmarkFolder) (F : string) :
  forall fuel cur,
    Bookmarks.isDescendantOf_loop fuel fs cur F = Some true ->
    exists x, cur = Some x /\ Bookmarks.inSubtree fs F x.
Proof.
  induction fuel as [|fuel IH]; intros cur H; [discriminate|]. simpl in H.
  destruct cur as [c|]; [|discriminate].
  destruct (String.eqb c ""); [discriminate|].
  destruct (String.eqb_spec c F) as [E|_].
  - exists c. split; [reflexivity | now left].
  - apply IH in H. destruct H as [x [Hx Hs]].
    destruct (find (Bookmarks.fHasId c) fs) as [f|] eqn:Ef; [|discriminate].
    apply find_folder_some in Ef. destruct Ef as [Hin <-].
    exists (Bookmarks.f_id f). split; [reflexivity|]. right.
    destruct Hs as [->|D].
    + apply Forest.desc_child; assumption.
    + apply Forest.desc_up with (m := x); assumption.
Qed.

(** ** Updates of the first match *)

Lemma updateFirst_find {A : Type} (p : A -> bool) (g : A -> A) (l : list A) (x : A) :
  find p l = Some x -> In (g x) (updateFirst p g l).
Proof.
  induction l as [|y l IH]; simpl; [discriminate|].
  destruct (p y); intro H.
  - injection H as ->. now left.
  - right. now apply IH.
Qed.

Lemma updateFirst_In {A : Type} (p : A -> bool) (g : A -> A) (l : list A) (x y : A) :
  find p l = Some x -> In y (updateFirst p g l) -> y = g x \/ In y l.
Proof.
  induction l as [|z l IH]; simpl; [discriminate|].
  destruct (p z); intros H Hy.
  - injection H as ->. destruct Hy as [<-|Hy]; auto.
  - destruct Hy as [<-|Hy]; [auto|]. destruct (IH H Hy); auto.
Qed.

Lemma updateFirst_none {A : Type} (p : A -> bool) (g : A -> A) (l : list A) :
  find p l = None -> updateFirst p g l = l.
Proof.
  induction l as [|z l IH]; simpl; [reflexivity|].
  destruct (p z); [discriminate|]. intro H. now rewrite IH.
Qed.

Lemma updateFirst_map {A B : Type} (k : A -> B) (p : A -> bool) (g : A -> A)
    (l : list A) :
  (forall x, k (g x) = k x) -> map k (updateFirst p g l) = map k l.
Proof.
  intro Hk. induction l as [|z l IH]; simpl; [reflexivity|].
  destruct (p z); simpl; [now rewrite Hk | now rewrite IH].
Qed.

Lemma normalize_folder_ids (p : option string) (st : Bookmarks.Store) :
  map Bookmarks.f_id (Bookmarks.folders (Bookmarks.normalizeSiblings p st))
  = map Bookmarks.f_id (Bookmarks.folders st).
Proof.
  unfold Bookmarks.normalizeSiblings. rewrite assignOrders_folders, map_map.
  apply map_ext. reflexivity.
Qed.

Lemma normalize_bookmark_ids (p : option string) (st : Bookmarks.Store) :
  map Bookmarks.b_id (Bookmarks.bookmarks (Bookmarks.normalizeSiblings p st))
  = map Bookmarks.b_id (Bookmarks.bookmarks st).
Proof.
  unfold Bookmarks.normalizeSiblings. rewrite assignOrders_bookmarks, map_map.
  apply map_ext. reflexivity.
Qed.

Lemma uniqueIds_normalize (p : option string) (st : Bookmarks.Store) :
  Bookmarks.uniqueIds st -> Bookmarks.uniqueIds (Bookmarks.normalizeSiblings p st).
Proof.
  intros [Hb Hf]. split.
  - now rewrite normalize_bookmark_ids.
  - now rewrite normalize_folder_ids.
Qed.

(** ** The depth gate of a folder move *)

(** What the successful path of [moveToFolder] does to a folder. *)
Lemma moveFolder_movedTo (st : Bookmarks.Store) (now : Z)
    (f : Bookmarks.BookmarkFolder) (T : option string) :
  Bookmarks.uniqueIds st ->
  In f (Bookmarks.folders st) ->
  let F := Bookmarks.f_id f in
  let m := Bookmarks.maxOrder (Bookmarks.getFolderSiblings T st) in
  let st1 := Bookmarks.withFolders st
               (updateFirst (Bookmarks.fHasId F)
                  (fun x => Bookmarks.setFOrder (Bookmarks.reparentF x T now) (m + 1)%Z)
                  (Bookmarks.folders st)) in
  let st' := if optEq (Bookmarks.f_parentId f) T then st1
             else Bookmarks.normalizeSiblings (Bookmarks.f_parentId f) st1 in
  movedTo st st' F T.
Proof.
  intros Hu Hf F m st1 st'.
  set (f1 := Bookmarks.setFOrder (Bookmarks.reparentF f T now) (m + 1)%Z).
  assert (Hfind : find (Bookmarks.fHasId F) (Bookmarks.folders st) = Some f)
    by (apply find_folder_unique; [apply Hu | assumption]).
  assert (Hu1 : Bookmarks.uniqueIds st1).
  { destruct Hu as [Hb Hn]. split; [exact Hb|]. unfold st1. simpl.
    rewrite updateFirst_map; [exact Hn | reflexivity]. }
  assert (Hin1 : In (Bookmarks.IFolder f1) (Bookmarks.getFolderSiblings T st1)).
  { apply item_in_siblings. split; [|reflexivity].
    unfold st1. simpl.
    exact (updateFirst_find _ _ _ _ Hfind). }
  assert (Hsibs1 : forall it, In it (Bookmarks.getFolderSiblings T st1) ->
                              it = Bookmarks.IFolder f1 \/
                              In it (Bookmarks.getFolderSiblings T st)).
  { intros it Hit. apply item_in_siblings in Hit. destruct it as [y|b].
    - destruct Hit as [Hy Hp]. unfold st1 in Hy. simpl in Hy.
      destruct (updateFirst_In _ _ _ _ _ Hfind Hy) as [->|Hy'].
      + now left.
      + right. apply item_in_siblings. auto.
    - right. apply item_in_siblings. exact Hit. }
  assert (Hsame : Bookmarks.getFolderSiblings T st' = Bookmarks.getFolderSiblings T st1).
  { unfold st'. destruct (optEq (Bookmarks.f_parentId f) T) eqn:E; [reflexivity|].
    apply optEq_false in E. apply normalize_other; [exact Hu1 | congruence]. }
  assert (Hu' : Bookmarks.uniqueIds st').
  { unfold st'. destruct (optEq (Bookmarks.f_parentId f) T); [exact Hu1|].
    now apply uniqueIds_normalize. }
  exists f1. repeat split.
  - rewrite <- Hsame in Hin1. apply item_in_siblings in Hin1.
    destruct Hin1 as [Hin1 _].
    exact (find_folder_unique _ f1 (proj2 Hu') Hin1).
  - intros it Hit. rewrite Hsame in Hit.
    destruct (Hsibs1 it Hit) as [->|Hold]; [now left|]. right.
    pose proof (maxOrder_upper _ _ Hold). fold m in H. simpl. lia.
Qed.

(** The number [getFolderDepth] returns counts the ids of the longest
    path up from the folder. *)
Lemma getFolderDepth_loop_paths (fs : list Bookmarks.BookmarkFolder) :
  NoDup (map Bookmarks.f_id fs) ->
  forall fuel depth c d,
    c <> "" ->
    Bookmarks.getFolderDepth_loop fuel fs depth (Some c) = Some d ->
    (exists l, pathUp fs c l /\ d = depth + List.length l) /\
    (forall l, pathUp fs c l -> depth + List.length l <= d).
Proof.
  intro Hn.
  assert (Hstop : forall fuel depth d,
             Bookmarks.getFolderDepth_loop fuel fs depth None = Some d -> d = depth).
  { intros [|fuel] depth d H; [discriminate|]. simpl in H. congruence. }
  assert (Hleaf : forall c depth,
             (forall g p, In g fs -> Bookmarks.f_id g = c ->
                          Bookmarks.f_parentId g = Some p -> p = "") ->
             (exists l, pathUp fs c l /\ depth = depth + List.length l) /\
             (forall l, pathUp fs c l -> depth + List.length l <= depth)).
  { intros c depth Hno. split.
    - exists []. split; [constructor | simpl; lia].
    - intros l Hl. inversion Hl as [x|g p l' Hg Hp Hne Hl' Eg]; subst; simpl; [lia|].
      exfalso. apply Hne. exact (Hno g p Hg eq_refl Hp). }
  induction fuel as [|fuel IH]; intros depth c d Hc H; [discriminate|].
  simpl in H.
  destruct (String.eqb_spec c "") as [E|_]; [contradiction|].
  destruct (find (Bookmarks.fHasId c) fs) as [f|] eqn:Ef.
  - pose proof (find_folder_some _ _ _ Ef) as [Hin E]. subst c.
    assert (Hsame : forall g, In g fs -> Bookmarks.f_id g = Bookmarks.f_id f -> g = f).
    { intros g Hg Eg. pose proof (find_folder_unique fs g Hn Hg) as Hfg.
      rewrite Eg, Ef in Hfg. congruence. }
    destruct (truthy (Bookmarks.f_parentId f)) eqn:Et.
    + destruct (Bookmarks.f_parentId f) as [p|] eqn:Ep; [|discriminate].
      simpl in Et. apply negb_true_iff in Et.
      assert (Hp : p <> "") by (intros ->; discriminate).
      destruct (IH (S depth) p d Hp H) as [[l [Hl El]] Hup]. split.
      * exists (p :: l). split; [now apply path_parent | simpl; lia].
      * intros l' Hl'.
        inversion Hl' as [x|g q l'' Hg Hq Hne Hl'' Eg]; subst; simpl; [lia|].
        rewrite (Hsame g Hg Eg) in Hq. rewrite Ep in Hq. injection Hq as <-.
        specialize (Hup l'' Hl''). lia.
    + apply Hstop in H. subst d. apply Hleaf. intros g p Hg Eg Hp.
      rewrite (Hsame g Hg Eg) in Hp. rewrite Hp in Et. simpl in Et.
      apply negb_false_iff in Et. now apply String.eqb_eq in Et.
  - apply Hstop in H. subst d. apply Hleaf. intros g p Hg Eg _.
    exfalso. exact (find_folder_none _ _ Ef g Hg Eg).
Qed.

Lemma getFolderDepth_depthIs (st : Bookmarks.Store) (fuel : nat) (T : string) (d : nat) :
  NoDup (map Bookmarks.f_id (Bookmarks.folders st)) ->
  T <> "" ->
  Bookmarks.getFolderDepth fuel T st = Some d ->
  depthIs (Bookmarks.folders st) T d.
Proof.
  intros Hn HT H.
  destruct (getFolderDepth_loop_paths _ Hn fuel 1 T d HT H) as [[l [Hl El]] Hup].
  split; [exists l; auto|]. intros l' Hl'. exact (Hup l' Hl').
Qed.

(** What the loop of [getMaxFolderDepth] leaves in [maxDepth]. *)
Lemma getMaxFolderDepth_fold (st : Bookmarks.Store) (n : nat) :
  forall cs m h,
    fold_left (fun acc subfolder =>
                 match acc with
                 | Some maxDepth =>
                     match Bookmarks.getMaxFolderDepth n (Bookmarks.f_id subfolder) st with
                     | Some subfolderDepth => Some (Nat.max maxDepth (subfolderDepth + 1))
                     | None => None
                     end
                 | None => None
                 end) cs (Some m) = Some h ->
    m <= h /\
    (forall c, In c cs ->
               exists hc, Bookmarks.getMaxFolderDepth n (Bookmarks.f_id c) st = Some hc /\
                          hc + 1 <= h) /\
    (h = m \/
     exists c hc, In c cs /\
                  Bookmarks.getMaxFolderDepth n (Bookmarks.f_id c) st = Some hc /\
                  h = hc + 1).
Proof.
  induction cs as [|c cs IH]; intros m h H; simpl in H.
  - injection H as <-. split; [lia|]. split; [intros c []|now left].
  - destruct (Bookmarks.getMaxFolderDepth n (Bookmarks.f_id c) st) as [hc|] eqn:E.
    + destruct (IH _ _ H) as [Hm [Hall Hex]]. split; [lia|]. split.
      * intros c' [<-|Hc']; [exists hc; split; [exact E | lia] | now apply Hall].
      * destruct Hex as [->|[c' [hc' [Hc' [E' ->]]]]].
        -- destruct (Nat.max_spec m (hc + 1)) as [[_ ->]|[_ ->]];
             [right; exists c, hc; simpl; auto | now left].
        -- right. exists c', hc'. simpl. auto.
    + exfalso. clear - H. induction cs as [|c' cs IHcs]; simpl in H; [discriminate | auto].
Qed.

(** The number [getMaxFolderDepth] returns counts the folders of the
    longest chain that goes down from the folder, the folder included. *)
Lemma getMaxFolderDepth_height (st : Bookmarks.Store) :
  forall fuel a h,
    Bookmarks.getMaxFolderDepth fuel a st = Some h ->
    subtreeHeightIs (Bookmarks.folders st) a h.
Proof.
  induction fuel as [|fuel IH]; intros a h H; [discriminate|].
  simpl in H. apply getMaxFolderDepth_fold in H. destruct H as [Hm [Hall Hex]].
  split.
  - destruct Hex as [->|[c [hc [Hin [E ->]]]]].
    + exists []. simpl. auto.
    + destruct (IH _ _ E) as [[l [Hl El]] _].
      apply filter_In in Hin. destruct Hin as [Hin Hp]. apply optEq_true in Hp.
      exists (c :: l). simpl. split; [auto | lia].
  - intros [|c r] Hl; simpl; [lia|]. destruct Hl as [Hin [Hp Hr]].
    destruct (Hall c) as [hc [E Hle]].
    { apply filter_In. split; [exact Hin | now apply optEq_true]. }
    destruct (IH _ _ E) as [_ Hup]. specialize (Hup r Hr). lia.
Qed.

(** C6 (as amended). In a store with unique ids, none shared by a
    bookmark and a folder, and no cycle, take a folder [F].
    - Moved under a folder id [T] that is neither [F] nor below [F]:
      the call throws 'Moving this folder would exceed maximum depth (3
      levels)', the store unchanged, exactly when
      [getFolderDepth T + getMaxFolderDepth F > 3]; otherwise it
      returns, and [F] has parent [T] and the order after all siblings
      of [T].  Here [getFolderDepth T] is the depth of [T], that is
      [T] and the ids on the longest path up from it, and
      [getMaxFolderDepth F] is the height of [F], that is [F] and the
      folders of the longest chain of descendants below it.
    - Moved to the root: no depth is checked; the call returns and [F]
      is appended at the end of the root group. *)
Theorem moveToFolder_depth_gate :
  forall st now F,
    Bookmarks.uniqueIds st ->
    Bookmarks.disjointIds st ->
    Bookmarks.acyclic (Bookmarks.folders st) ->
    (exists f, In f (Bookmarks.folders st) /\ Bookmarks.f_id f = F) ->
    exists N, forall fuel, N <= fuel ->
      (forall T,
          T <> "" ->
          ~ Bookmarks.inSubtree (Bookmarks.folders st) F T ->
          exists d h,
            Bookmarks.getFolderDepth fuel T st = Some d /\
            Bookmarks.getMaxFolderDepth fuel F st = Some h /\
            depthIs (Bookmarks.folders st) T d /\
            subtreeHeightIs (Bookmarks.folders st) F h /\
            (Bookmarks.moveToFolder fuel now F (Some T) st
             = Thrown "Moving this folder would exceed maximum depth (3 levels)" st
             <-> 3 < d + h) /\
            (d + h <= 3 ->
             exists st', Bookmarks.moveToFolder fuel now F (Some T) st = Returned st' /\
                         movedTo st st' F (Some T))) /\
      (exists st', Bookmarks.moveToFolder fuel now F None st = Returned st' /\
                   movedTo st st' F None).
Proof.
  intros st now F Hu Hd [rank Hr] [f [Hf HfF]].
  destruct (rank_bound Bookmarks.f_id rank (Bookmarks.folders st)) as [B HB].
  exists (B + 2). intros fuel Hfuel.
  assert (Hnob : find (Bookmarks.bHasId F) (Bookmarks.bookmarks st) = None).
  { destruct (find (Bookmarks.bHasId F) (Bookmarks.bookmarks st)) as [b|] eqn:Eb;
      [|reflexivity].
    apply find_bookmark_some in Eb. destruct Eb as [Hb E].
    exfalso. apply (Hd b f Hb Hf). congruence. }
  assert (Hfind : find (Bookmarks.fHasId F) (Bookmarks.folders st) = Some f).
  { subst F. apply find_folder_unique; [apply Hu | assumption]. }
  split.
  - intros T HT Hsub.
    destruct (getFolderDepth_total (Bookmarks.folders st) rank B Hr HB B fuel 1 (Some T))
      as [d Ed]; [lia | intros; lia |].
    destruct (getMaxFolderDepth_total (Bookmarks.folders st) rank Hr st eq_refl B fuel F)
      as [h Eh]; [lia | intros c Hc _; now apply HB |].
    destruct (isDescendantOf_total (Bookmarks.folders st) rank B Hr HB F B fuel (Some T))
      as [b Eb]; [lia | intros; lia |].
    assert (b = false).
    { destruct b; [|reflexivity]. apply isDescendantOf_sound in Eb.
      destruct Eb as [x [Ex Hx]]. injection Ex as <-. contradiction. }
    subst b.
    change (Bookmarks.getFolderDepth fuel T st = Some d) in Ed.
    change (Bookmarks.isDescendantOf fuel T F st = Some false) in Eb.
    exists d, h. split; [exact Ed | split; [exact Eh|]].
    split; [exact (getFolderDepth_depthIs st fuel T d (proj2 Hu) HT Ed)|].
    split; [exact (getMaxFolderDepth_height st fuel F h Eh)|].
    assert (Hval : Bookmarks.validateFolderMove fuel F (Some T) st
                   = if 3 <? d + h then Some (Some Bookmarks.depthError) else Some None).
    { unfold Bookmarks.validateFolderMove.
      destruct (String.eqb_spec T "") as [E|_]; [contradiction|].
      now rewrite Eb, Ed, Eh. }
    unfold Bookmarks.moveToFolder. rewrite Hnob, Hfind, Hval.
    destruct (Nat.ltb_spec 3 (d + h)) as [Hlt|Hge].
    + split; [split; [intros _; exact Hlt | intros _; reflexivity] | intro; lia].
    + split; [split; [discriminate | intro; lia]|].
      intros _. eexists. split; [reflexivity|].
      subst F. exact (moveFolder_movedTo st now f (Some T) Hu Hf).
  - unfold Bookmarks.moveToFolder. rewrite Hnob, Hfind. simpl.
    eexists. split; [reflexivity|].
    subst F. exact (moveFolder_movedTo st now f None Hu Hf).
Qed.

(** Witness of [moveToFolder_depth_gate]: folder [a] holds [b]; the
    folder [c] and a bookmark are at the root; [c] is the folder moved. *)
Lemma moveToFolder_depth_gate_witness :
  let st := Bookmarks.mkStore
              [Bookmarks.mkBookmark "k" "file:///a.js" 0 "" 0 0 2 None None]
              [Bookmarks.mkFolder "a" "A" None 0 0 0 None;
               Bookmarks.mkFolder "b" "B" (Some "a") 0 0 0 None;
               Bookmarks.mkFolder "c" "C" None 0 0 1 None] in
  Bookmarks.uniqueIds st /\
  Bookmarks.disjointIds st /\
  Bookmarks.acyclic (Bookmarks.folders st) /\
  (exists f, In f (Bookmarks.folders st) /\ Bookmarks.f_id f = "c") /\
  exists N, forall fuel, N <= fuel ->
    (forall T,
        T <> "" ->
        ~ Bookmarks.inSubtree (Bookmarks.folders st) "c" T ->
        exists d h,
          Bookmarks.getFolderDepth fuel T st = Some d /\
          Bookmarks.getMaxFolderDepth fuel "c" st = Some h /\
          depthIs (Bookmarks.folders st) T d /\
          subtreeHeightIs (Bookmarks.folders st) "c" h /\
          (Bookmarks.moveToFolder fuel 7 "c" (Some T) st
           = Thrown "Moving this folder would exceed maximum depth (3 levels)" st
           <-> 3 < d + h) /\
          (d + h <= 3 ->
           exists st', Bookmarks.moveToFolder fuel 7 "c" (Some T) st = Returned st' /\
                       movedTo st st' "c" (Some T))) /\
    (exists st', Bookmarks.moveToFolder fuel 7 "c" None st = Returned st' /\
                 movedTo st st' "c" None).
Proof.
  intro st.
  assert (Hu : Bookmarks.uniqueIds st).
  { split; simpl; repeat constructor; simpl; intuition discriminate. }
  assert (Hd : Bookmarks.disjointIds st).
  { intros b f [<-|[]] [<-|[<-|[<-|[]]]]; simpl; discriminate. }
  assert (Ha : Bookmarks.acyclic (Bookmarks.folders st)).
  { exists (fun s => if String.eqb s "a" then 1 else 0).
    intros c p [<-|[<-|[<-|[]]]] Hp; simpl in Hp; try discriminate.
    injection Hp as <-. simpl. lia. }
  assert (Hf : exists f, In f (Bookmarks.folders st) /\ Bookmarks.f_id f = "c").
  { eexists. split; [right; right; left; reflexivity | reflexivity]. }
  repeat (split; [assumption|]).
  exact (moveToFolder_depth_gate st 7%Z "c" Hu Hd Ha Hf).
Defined.

(** C6 as stated fails at the root: with [a] holding [b] holding [c],
    the height of [a] is 3 and 1 + 3 > 3, yet moving [a] to the root
    does not throw. *)
Lemma moveToFolder_root_skips_depth_check :
  let st := Bookmarks.mkStore []
              [Bookmarks.mkFolder "a" "A" None 0 0 0 None;
               Bookmarks.mkFolder "b" "B" (Some "a") 0 0 0 None;
               Bookmarks.mkFolder "c" "C" (Some "b") 0 0 0 None] in
  Bookmarks.getMaxFolderDepth 8 "a" st = Some 3 /\
  subtreeHeightIs (Bookmarks.folders st) "a" 3 /\
  ~ (Bookmarks.moveToFolder 8 9 "a" None st
     = Thrown "Moving this folder would exceed maximum depth (3 levels)" st
     <-> 3 < 1 + 3).
Proof.
  intro st. split; [vm_compute; reflexivity|].
  split; [apply (getMaxFolderDepth_height st 8); vm_compute; reflexivity|].
  intros [_ H]. assert (Hlt : 3 < 1 + 3) by lia.
  specialize (H Hlt). vm_compute in H. discriminate.
Qed.

(** ** Cascading deletion of a folder *)

Lemma filter_and {A : Type} (f g : A -> bool) (l : list A) :
  filter f (filter g l) = filter (fun x => g x && f x) l.
Proof.
  induction l as [|y l IH]; simpl; [reflexivity|].
  destruct (g y); simpl; [destruct (f y); now rewrite IH | exact IH].
Qed.

Lemma setHas_app (x : string) (D1 D2 : list string) :
  setHas x (D1 ++ D2) = setHas x D1 || setHas x D2.
Proof. unfold setHas. apply existsb_app. Qed.

Lemma keptFolder_app (D1 D2 : list string) (f : Bookmarks.BookmarkFolder) :
  keptFolder (D1 ++ D2) f = keptFolder D1 f && keptFolder D2 f.
Proof. unfold keptFolder. now rewrite setHas_app, negb_orb. Qed.

Lemma keptBookmark_app (D1 D2 : list string) (b : Bookmarks.Bookmark) :
  keptBookmark (D1 ++ D2) b = keptBookmark D1 b && keptBookmark D2 b.
Proof.
  unfold keptBookmark. destruct (Bookmarks.b_parentId b); [|reflexivity].
  now rewrite setHas_app, negb_orb.
Qed.

Lemma keptFolder_false (D : list string) (f : Bookmarks.BookmarkFolder) :
  keptFolder D f = false <-> In (Bookmarks.f_id f) D.
Proof. unfold keptFolder. rewrite negb_false_iff. apply setHas_In. Qed.

Lemma keptFolder_true (D : list string) (f : Bookmarks.BookmarkFolder) :
  keptFolder D f = true <-> ~ In (Bookmarks.f_id f) D.
Proof.
  rewrite <- keptFolder_false. destruct (keptFolder D f); split; intro H;
    try reflexivity; try discriminate; try congruence.
Qed.

(** Folders outside a closed set keep the descendants that are outside it. *)
Lemma descendant_restrict (fs cur : list Bookmarks.BookmarkFolder) (D : list string)
    (c x : string) :
  closedBelow fs D ->
  cur = filter (keptFolder D) fs ->
  Bookmarks.descendant fs c x ->
  In x D \/ Bookmarks.descendant cur c x.
Proof.
  intros Hcl Hcur H. induction H as [g Hg Hp | g m Hg Hp _ IH].
  - destruct (keptFolder D g) eqn:E.
    + right. apply Forest.desc_child; [|exact Hp].
      subst cur. apply filter_In. auto.
    + left. now apply keptFolder_false.
  - destruct (keptFolder D g) eqn:E.
    + destruct IH as [Hm|Hd].
      * left. exact (Hcl m g Hm Hg Hp).
      * right. apply Forest.desc_up with (m := m); [|exact Hp|exact Hd].
        subst cur. apply filter_In. auto.
    + left. now apply keptFolder_false.
Qed.

Lemma keptFolder_cons (a : string) (D : list string) (f : Bookmarks.BookmarkFolder) :
  keptFolder (a :: D) f = keptFolder D f && negb (Bookmarks.fHasId a f).
Proof.
  unfold keptFolder, Bookmarks.fHasId, setHas. simpl.
  rewrite negb_orb. apply andb_comm.
Qed.

Lemma keptBookmark_cons (a : string) (D : list string) (b : Bookmarks.Bookmark) :
  keptBookmark (a :: D) b = negb (Bookmarks.bChildOf (Some a) b) && keptBookmark D b.
Proof.
  unfold keptBookmark, Bookmarks.bChildOf, setHas.
  destruct (Bookmarks.b_parentId b) as [p|]; simpl; [|reflexivity].
  now rewrite negb_orb.
Qed.

Lemma filter_keptFolder_nil (fs : list Bookmarks.BookmarkFolder) :
  filter (keptFolder []) fs = fs.
Proof. apply forallb_filter_id. apply forallb_forall. reflexivity. Qed.

Lemma filter_keptBookmark_nil (bs : list Bookmarks.Bookmark) :
  filter (keptBookmark []) bs = bs.
Proof.
  apply forallb_filter_id. apply forallb_forall. intros b _.
  unfold keptBookmark. now destruct (Bookmarks.b_parentId b).
Qed.

(** [deleteFolderRecursive] removes the folders of the subtree and the
    bookmarks whose parent is in the subtree, and nothing else. *)
Lemma deleteFolderRecursive_spec :
  forall fuel a st st',
    Bookmarks.deleteFolderRecursive fuel a st = Some st' ->
    exists D,
      (forall x, In x D <-> Bookmarks.inSubtree (Bookmarks.folders st) a x) /\
      Bookmarks.folders st' = filter (keptFolder D) (Bookmarks.folders st) /\
      Bookmarks.bookmarks st' = filter (keptBookmark D) (Bookmarks.bookmarks st).
Proof.
  induction fuel as [|n IH]; intros a st st' H; [discriminate|].
  simpl in H.
  set (fs := Bookmarks.folders st) in *.
  set (bs1 := filter (fun b => negb (Bookmarks.bChildOf (Some a) b))
                     (Bookmarks.bookmarks st)) in *.
  assert (Hfold : forall cs cur D0 st2,
             (forall c, In c cs -> In c fs /\ Bookmarks.f_parentId c = Some a) ->
             closedBelow fs D0 ->
             Bookmarks.folders cur = filter (keptFolder D0) fs ->
             Bookmarks.bookmarks cur = filter (keptBookmark D0) bs1 ->
             fold_left (fun acc subfolder =>
                          match acc with
                          | Some s => Bookmarks.deleteFolderRecursive n
                                        (Bookmarks.f_id subfolder) s
                          | None => None
                          end) cs (Some cur) = Some st2 ->
             exists D,
               (forall x, In x D <->
                          In x D0 \/
                          exists c, In c cs /\
                                    Bookmarks.inSubtree fs (Bookmarks.f_id c) x) /\
               Bookmarks.folders st2 = filter (keptFolder D) fs /\
               Bookmarks.bookmarks st2 = filter (keptBookmark D) bs1).
  { induction cs as [|c cs IHcs]; intros cur D0 st2 Hcs Hcl Hfo Hbo Hf; simpl in Hf.
    - injection Hf as <-. exists D0. repeat split; auto.
      intros [?|[c [[] _]]]. assumption.
    - destruct (Bookmarks.deleteFolderRecursive n (Bookmarks.f_id c) cur)
        as [cur'|] eqn:E.
      2:{ rewrite (fold_none (fun subfolder s =>
                                Bookmarks.deleteFolderRecursive n
                                  (Bookmarks.f_id subfolder) s)) in Hf.
          discriminate. }
      destruct (IH _ _ _ E) as [Dc [HDc [Hfo' Hbo']]].
      assert (Hincl : incl (Bookmarks.folders cur) fs).
      { intros g Hg. rewrite Hfo in Hg. apply filter_In in Hg. tauto. }
      assert (Hcl1 : closedBelow fs (D0 ++ Dc)).
      { intros y g Hy Hg Hp. apply in_app_iff. apply in_app_iff in Hy.
        destruct Hy as [Hy|Hy]; [left; exact (Hcl y g Hy Hg Hp)|].
        destruct (keptFolder D0 g) eqn:Ek; [|left; now apply keptFolder_false].
        right. apply HDc. right.
        assert (Hgc : In g (Bookmarks.folders cur))
          by (rewrite Hfo; apply filter_In; auto).
        apply HDc in Hy. destruct Hy as [->|Hy].
        - apply Forest.desc_child; assumption.
        - apply Forest.desc_up with (m := y); assumption. }
      destruct (IHcs cur' (D0 ++ Dc) st2) as [D [HD [Hfo2 Hbo2]]]; auto.
      + intros c' Hc'. apply Hcs. now right.
      + rewrite Hfo', Hfo, filter_and. apply filter_ext.
        intro g. now rewrite keptFolder_app.
      + rewrite Hbo', Hbo, filter_and. apply filter_ext.
        intro b. now rewrite keptBookmark_app.
      + exists D. repeat split; auto.
        * intro Hx. apply HD in Hx. destruct Hx as [Hx|[c' [Hc' Hs]]].
          -- apply in_app_iff in Hx. destruct Hx as [Hx|Hx]; [now left|].
             right. exists c. split; [now left|].
             apply HDc in Hx. destruct Hx as [->|Hx]; [now left|].
             right. exact (descendant_incl _ _ _ _ _ _ Hincl Hx).
          -- right. exists c'. split; [now right | assumption].
        * intros [Hx|[c' [[<-|Hc'] Hs]]]; apply HD.
          -- left. apply in_app_iff. now left.
          -- left. apply in_app_iff.
             destruct Hs as [->|Hs].
             ++ right. apply HDc. now left.
             ++ destruct (descendant_restrict fs _ D0 _ _ Hcl Hfo Hs) as [?|Hd];
                  [now left|]. right. apply HDc. now right.
          -- right. exists c'. auto. }
  destruct (fold_left _ _ _) as [st2|] eqn:Ef in H; [|discriminate].
  injection H as <-.
  destruct (Hfold (filter (Bookmarks.fChildOf (Some a)) fs)
                  (Bookmarks.withBookmarks st bs1) [] st2) as [D [HD [Hfo Hbo]]].
  - intros c Hc. apply filter_In in Hc. destruct Hc as [Hc Hp].
    apply optEq_true in Hp. auto.
  - intros y g [].
  - simpl. symmetry. apply filter_keptFolder_nil.
  - simpl. symmetry. apply filter_keptBookmark_nil.
  - exact Ef.
  - exists (a :: D). repeat split.
    + intros [<-|Hx]; [now left|]. right.
      apply HD in Hx. destruct Hx as [[]|[c [Hc Hs]]].
      apply (descendant_top Bookmarks.f_id Bookmarks.f_parentId).
      exists c. apply filter_In in Hc. destruct Hc as [Hc Hp].
      apply optEq_true in Hp. auto.
    + intros [->|Hx]; [now left|]. right. apply HD. right.
      apply (descendant_top Bookmarks.f_id Bookmarks.f_parentId) in Hx.
      destruct Hx as [c [Hc [Hp Hs]]]. exists c. split; [|exact Hs].
      apply filter_In. split; [assumption | now apply optEq_true].
    + simpl. rewrite Hfo, filter_and. apply filter_ext.
      intro g. now rewrite keptFolder_cons.
    + simpl. rewrite Hbo. unfold bs1. rewrite filter_and. apply filter_ext.
      intro b. now rewrite keptBookmark_cons.
Qed.

Lemma filter_or_length {A : Type} (p q : A -> bool) (l : list A) :
  (forall x, In x l -> p x = true -> q x = true -> False) ->
  List.length (filter (fun x => p x || q x) l)
  = List.length (filter p l) + List.length (filter q l).
Proof.
  induction l as [|y l IH]; intro Hd; simpl; [reflexivity|].
  assert (IH' := IH (fun x Hx => Hd x (or_intror Hx))).
  pose proof (Hd y (or_introl eq_refl)) as Hy.
  destruct (p y) eqn:Ep, (q y) eqn:Eq; simpl; try lia.
Qed.

Lemma removedFolders_app (D1 D2 : list string) (fs : list Bookmarks.BookmarkFolder) :
  (forall x, In x D1 -> In x D2 -> False) ->
  removedFolders (D1 ++ D2) fs = removedFolders D1 fs + removedFolders D2 fs.
Proof.
  intro Hd. unfold removedFolders.
  rewrite <- filter_or_length.
  - f_equal. apply filter_ext. intro f. now rewrite keptFolder_app, negb_andb.
  - intros f _ H1 H2. apply negb_true_iff in H1. apply negb_true_iff in H2.
    apply keptFolder_false in H1. apply keptFolder_false in H2. eauto.
Qed.

Lemma keptBookmark_false (D : list string) (b : Bookmarks.Bookmark) :
  keptBookmark D b = false <-> exists p, Bookmarks.b_parentId b = Some p /\ In p D.
Proof.
  unfold keptBookmark. destruct (Bookmarks.b_parentId b) as [p|].
  - rewrite negb_false_iff, setHas_In. split.
    + intro H. exists p. auto.
    + intros [q [E H]]. now injection E as ->.
  - split; [discriminate | intros [q [E _]]; discriminate].
Qed.

Lemma removedBookmarks_app (D1 D2 : list string) (bs : list Bookmarks.Bookmark) :
  (forall x, In x D1 -> In x D2 -> False) ->
  removedBookmarks (D1 ++ D2) bs = removedBookmarks D1 bs + removedBookmarks D2 bs.
Proof.
  intro Hd. unfold removedBookmarks.
  rewrite <- filter_or_length.
  - f_equal. apply filter_ext. intro b. now rewrite keptBookmark_app, negb_andb.
  - intros b _ H1 H2. apply negb_true_iff in H1. apply negb_true_iff in H2.
    apply keptBookmark_false in H1. apply keptBookmark_false in H2.
    destruct H1 as [p [E1 H1]], H2 as [q [E2 H2]].
    assert (p = q) by congruence. subst q. eauto.
Qed.

Lemma removedFolders_ext (D1 D2 : list string) (fs : list Bookmarks.BookmarkFolder) :
  (forall x, In x D1 <-> In x D2) -> removedFolders D1 fs = removedFolders D2 fs.
Proof.
  intro He. unfold removedFolders. f_equal. apply filter_ext. intro f. f_equal.
  unfold keptFolder. f_equal.
  destruct (setHas (Bookmarks.f_id f) D1) eqn:E1, (setHas (Bookmarks.f_id f) D2) eqn:E2;
    try reflexivity.
  - apply setHas_In, He, setHas_In in E1. congruence.
  - apply setHas_In, He, setHas_In in E2. congruence.
Qed.

Lemma removedBookmarks_ext (D1 D2 : list string) (bs : list Bookmarks.Bookmark) :
  (forall x, In x D1 <-> In x D2) -> removedBookmarks D1 bs = removedBookmarks D2 bs.
Proof.
  intro He. unfold removedBookmarks. f_equal. apply filter_ext. intro b. f_equal.
  unfold keptBookmark. destruct (Bookmarks.b_parentId b) as [p|]; [|reflexivity]. f_equal.
  destruct (setHas p D1) eqn:E1, (setHas p D2) eqn:E2; try reflexivity.
  - apply setHas_In, He, setHas_In in E1. congruence.
  - apply setHas_In, He, setHas_In in E2. congruence.
Qed.

Lemma removedFolders_single (a : string) (fs : list Bookmarks.BookmarkFolder) :
  removedFolders [a] fs = List.length (filter (Bookmarks.fHasId a) fs).
Proof.
  unfold removedFolders. f_equal. apply filter_ext. intro f.
  unfold keptFolder, setHas, Bookmarks.fHasId. simpl.
  now rewrite negb_involutive, orb_false_r.
Qed.

Lemma removedBookmarks_single (a : string) (bs : list Bookmarks.Bookmark) :
  removedBookmarks [a] bs = List.length (filter (Bookmarks.bChildOf (Some a)) bs).
Proof.
  unfold removedBookmarks. f_equal. apply filter_ext. intro b.
  unfold keptBookmark, setHas, Bookmarks.bChildOf.
  destruct (Bookmarks.b_parentId b) as [p|]; simpl; [|reflexivity].
  now rewrite negb_involutive, orb_false_r.
Qed.

Lemma count_unique_id (fs : list Bookmarks.BookmarkFolder) (c : Bookmarks.BookmarkFolder) :
  NoDup (map Bookmarks.f_id fs) -> In c fs ->
  List.length (filter (Bookmarks.fHasId (Bookmarks.f_id c)) fs) = 1.
Proof.
  induction fs as [|y fs IH]; intros Hn Hc; [contradiction|].
  simpl in Hn. inversion Hn as [|? ? Hy Hn']; subst. simpl.
  unfold Bookmarks.fHasId at 1.
  destruct Hc as [->|Hc].
  - rewrite String.eqb_refl. simpl. f_equal.
    destruct (filter (Bookmarks.fHasId (Bookmarks.f_id c)) fs) as [|z r] eqn:E;
      [reflexivity|].
    assert (Hz : In z (filter (Bookmarks.fHasId (Bookmarks.f_id c)) fs))
      by (rewrite E; now left).
    apply filter_In in Hz. destruct Hz as [Hz Ez]. apply String.eqb_eq in Ez.
    exfalso. apply Hy. rewrite <- Ez. now apply in_map.
  - destruct (String.eqb_spec (Bookmarks.f_id y) (Bookmarks.f_id c)) as [E|_].
    + exfalso. apply Hy. rewrite E. now apply in_map.
    + now apply IH.
Qed.

(** *** Subtrees of a forest with unique ids *)

Section FolderTree.

Variable fs : list Bookmarks.BookmarkFolder.
Variable rank : string -> nat.
Hypothesis ids_unique : NoDup (map Bookmarks.f_id fs).
Hypothesis rank_parent :
  forall c p, In c fs -> Bookmarks.f_parentId c = Some p ->
              rank (Bookmarks.f_id c) < rank p.

Lemma subtree_rank (a x : string) :
  Bookmarks.inSubtree fs a x -> rank x <= rank a.
Proof.
  intros [->|D]; [lia|].
  pose proof (descendant_rank _ _ fs rank a x rank_parent D). lia.
Qed.

(** A folder is not in the subtree of one of its children. *)
Lemma parent_not_below_child (c : Bookmarks.BookmarkFolder) (a : string) :
  In c fs -> Bookmarks.f_parentId c = Some a ->
  ~ Bookmarks.inSubtree fs (Bookmarks.f_id c) a.
Proof.
  intros Hc Hp Hs. apply subtree_rank in Hs.
  specialize (rank_parent c a Hc Hp). lia.
Qed.

(** A child of [a] is not below another child of [a]. *)
Lemma child_not_below_sibling (c c' : Bookmarks.BookmarkFolder) (a : string) :
  In c fs -> In c' fs ->
  Bookmarks.f_parentId c = Some a -> Bookmarks.f_parentId c' = Some a ->
  ~ Bookmarks.descendant fs (Bookmarks.f_id c') (Bookmarks.f_id c).
Proof.
  intros Hc Hc' Hp Hp' D.
  apply (descendant_top Bookmarks.f_id Bookmarks.f_parentId) in D.
  destruct D as [g [Hg [Hpg Hs]]].
  pose proof (rank_parent c a Hc Hp) as R1.
  pose proof (rank_parent c' a Hc' Hp') as R2.
  pose proof (rank_parent g _ Hg Hpg) as R3.
  unfold Bookmarks.descendant in *.
  assert (Hca : Bookmarks.descendant fs (Bookmarks.f_id c') (Bookmarks.f_id c)).
  { destruct Hs as [->|Hs].
    - apply Forest.desc_child; assumption.
    - eapply descendant_below_child; eauto. }
  inversion Hca as [k Hk Hpk E | k m Hk Hpk Hm E].
  - assert (k = c) by (eapply unique_key; eauto). subst k.
    assert (a = Bookmarks.f_id c') by congruence. subst a. lia.
  - assert (k = c) by (eapply unique_key; eauto). subst k.
    assert (m = a) by congruence. subst m.
    pose proof (descendant_rank _ _ fs rank _ _ rank_parent Hm). lia.
Qed.

(** The subtrees of two children of [a] with different ids are disjoint. *)
Lemma sibling_subtrees_disjoint (c c' : Bookmarks.BookmarkFolder) (a x : string) :
  In c fs -> In c' fs ->
  Bookmarks.f_parentId c = Some a -> Bookmarks.f_parentId c' = Some a ->
  Bookmarks.f_id c <> Bookmarks.f_id c' ->
  Bookmarks.inSubtree fs (Bookmarks.f_id c) x ->
  Bookmarks.inSubtree fs (Bookmarks.f_id c') x -> False.
Proof.
  intros Hc Hc' Hp Hp' Hne [->|D] [E|D'].
  - contradiction.
  - exact (child_not_below_sibling c c' a Hc Hc' Hp Hp' D').
  - subst x. exact (child_not_below_sibling c' c a Hc' Hc Hp' Hp D).
  - destruct (ancestors_chain Bookmarks.f_id Bookmarks.f_parentId fs _ _ x
                ids_unique D D') as [E|[D2|D2]].
    + contradiction.
    + exact (child_not_below_sibling c' c a Hc' Hc Hp' Hp D2).
    + exact (child_not_below_sibling c c' a Hc Hc' Hp Hp' D2).
Qed.

End FolderTree.

Lemma deleteFolderRecursive_total (fs : list Bookmarks.BookmarkFolder)
    (rank : string -> nat) :
  (forall c p, In c fs -> Bookmarks.f_parentId c = Some p ->
               rank (Bookmarks.f_id c) < rank p) ->
  forall n fuel a cur,
    incl (Bookmarks.folders cur) fs ->
    n < fuel ->
    (forall c, In c fs -> Bookmarks.f_parentId c = Some a ->
               rank (Bookmarks.f_id c) < n) ->
    exists st', Bookmarks.deleteFolderRecursive fuel a cur = Some st'.
Proof.
  intro Hr.
  assert (Hloop : forall k a,
             (forall c cur1, In c fs -> Bookmarks.f_parentId c = Some a ->
                             incl (Bookmarks.folders cur1) fs ->
                             exists st', Bookmarks.deleteFolderRecursive k
                                           (Bookmarks.f_id c) cur1 = Some st') ->
             forall cs cur1,
               incl (Bookmarks.folders cur1) fs ->
               (forall c, In c cs -> In c fs /\ Bookmarks.f_parentId c = Some a) ->
               exists st2,
                 fold_left (fun acc subfolder =>
                              match acc with
                              | Some s => Bookmarks.deleteFolderRecursive k
                                            (Bookmarks.f_id subfolder) s
                              | None => None
                              end) cs (Some cur1) = Some st2).
  { intros k a Hrec. induction cs as [|c cs IHcs]; intros cur1 Hi Hcs; simpl; [eauto|].
    destruct (Hcs c (or_introl eq_refl)) as [Hc Hp].
    destruct (Hrec c cur1 Hc Hp Hi) as [cur2 E]. rewrite E.
    apply IHcs; [|intros c' Hc'; apply Hcs; now right].
    destruct (deleteFolderRecursive_spec _ _ _ _ E) as [D [_ [Hfo _]]].
    intros g Hg. rewrite Hfo in Hg. apply filter_In in Hg. apply Hi. tauto. }
  induction n as [|n IH]; intros fuel a cur Hi Hf Hc;
    (destruct fuel as [|fuel]; [lia|]); simpl.
  - destruct (Hloop fuel a) with
      (cs := filter (Bookmarks.fChildOf (Some a)) (Bookmarks.folders cur))
      (cur1 := Bookmarks.withBookmarks cur
                 (filter (fun b => negb (Bookmarks.bChildOf (Some a) b))
                         (Bookmarks.bookmarks cur))) as [st2 E].
    + intros c cur1 Hin Hp _. specialize (Hc c Hin Hp). lia.
    + exact Hi.
    + intros c Hin. apply filter_In in Hin. destruct Hin as [Hin Hp].
      apply optEq_true in Hp. auto.
    + rewrite E. eauto.
  - destruct (Hloop fuel a) with
      (cs := filter (Bookmarks.fChildOf (Some a)) (Bookmarks.folders cur))
      (cur1 := Bookmarks.withBookmarks cur
                 (filter (fun b => negb (Bookmarks.bChildOf (Some a) b))
                         (Bookmarks.bookmarks cur))) as [st2 E].
    + intros c cur1 Hin Hp Hi1. apply IH; [exact Hi1 | lia |].
      intros g Hg Hpg. specialize (Hr g _ Hg Hpg). specialize (Hc c Hin Hp). lia.
    + exact Hi.
    + intros c Hin. apply filter_In in Hin. destruct Hin as [Hin Hp].
      apply optEq_true in Hp. auto.
    + rewrite E. eauto.
Qed.

Lemma countFolderItems_total (st : Bookmarks.Store) (rank : string -> nat) :
  (forall c p, In c (Bookmarks.folders st) -> Bookmarks.f_parentId c = Some p ->
               rank (Bookmarks.f_id c) < rank p) ->
  forall n fuel a,
    n < fuel ->
    (forall c, In c (Bookmarks.folders st) -> Bookmarks.f_parentId c = Some a ->
               rank (Bookmarks.f_id c) < n) ->
    exists k, Bookmarks.countFolderItems fuel a st = Some k.
Proof.
  intro Hr.
  assert (Hloop : forall j a,
             (forall c, In c (Bookmarks.folders st) -> Bookmarks.f_parentId c = Some a ->
                        exists k, Bookmarks.countFolderItems j (Bookmarks.f_id c) st
                                  = Some k) ->
             forall cs acc,
               (forall c, In c cs -> In c (Bookmarks.folders st) /\
                                    Bookmarks.f_parentId c = Some a) ->
               exists k,
                 fold_left (fun acc subfolder =>
                              match acc with
                              | Some c =>
                                  match Bookmarks.countFolderItems j
                                          (Bookmarks.f_id subfolder) st with
                                  | Some k => Some (c + 1 + k)
                                  | None => None
                                  end
                              | None => None
                              end) cs (Some acc) = Some k).
  { intros j a Hrec. induction cs as [|c cs IHcs]; intros acc Hcs; simpl; [eauto|].
    destruct (Hcs c (or_introl eq_refl)) as [Hc Hp].
    destruct (Hrec c Hc Hp) as [k E]. rewrite E.
    apply IHcs. intros c' Hc'. apply Hcs. now right. }
  assert (Hchildren : forall a c,
             In c (filter (Bookmarks.fChildOf (Some a)) (Bookmarks.folders st)) ->
             In c (Bookmarks.folders st) /\ Bookmarks.f_parentId c = Some a).
  { intros a c Hin. apply filter_In in Hin. destruct Hin as [Hin Hp].
    apply optEq_true in Hp. auto. }
  induction n as [|n IH]; intros fuel a Hf Hc;
    (destruct fuel as [|fuel]; [lia|]); simpl; apply (Hloop fuel a); auto.
  - intros c Hin Hp. specialize (Hc c Hin Hp). lia.
  - intros c Hin Hp. apply IH; [lia|].
    intros g Hg Hpg. specialize (Hr g _ Hg Hpg). specialize (Hc c Hin Hp). lia.
Qed.

(** The ids of a subtree can be listed. *)
Lemma subtree_ids_exist (fs : list Bookmarks.BookmarkFolder) (a : string) :
  Bookmarks.acyclic fs ->
  exists D, forall x, In x D <-> Bookmarks.inSubtree fs a x.
Proof.
  intros [rank Hr].
  destruct (rank_bound Bookmarks.f_id rank fs) as [B HB].
  destruct (deleteFolderRecursive_total fs rank Hr B (S B) a (Bookmarks.mkStore [] fs))
    as [st' E]; [apply incl_refl | lia | intros c Hc _; now apply HB |].
  destruct (deleteFolderRecursive_spec _ _ _ _ E) as [D [HD _]].
  exists D. exact HD.
Qed.

Lemma removedFolders_nil (fs : list Bookmarks.BookmarkFolder) :
  removedFolders [] fs = 0.
Proof.
  unfold removedFolders. induction fs as [|f fs IH]; simpl; [reflexivity | exact IH].
Qed.

Lemma removedBookmarks_nil (bs : list Bookmarks.Bookmark) :
  removedBookmarks [] bs = 0.
Proof.
  unfold removedBookmarks. induction bs as [|b bs IH]; simpl; [reflexivity|].
  unfold keptBookmark at 1. destruct (Bookmarks.b_parentId b); simpl; exact IH.
Qed.

(** [countFolderItems] counts the folders strictly below [a] and the
    bookmarks whose parent is in the subtree of [a]. *)
Lemma countFolderItems_spec (st : Bookmarks.Store) (rank : string -> nat) :
  NoDup (map Bookmarks.f_id (Bookmarks.folders st)) ->
  (forall c p, In c (Bookmarks.folders st) -> Bookmarks.f_parentId c = Some p ->
               rank (Bookmarks.f_id c) < rank p) ->
  forall fuel a n D,
    Bookmarks.countFolderItems fuel a st = Some n ->
    (forall x, In x D <-> Bookmarks.inSubtree (Bookmarks.folders st) a x) ->
    n + List.length (filter (Bookmarks.fHasId a) (Bookmarks.folders st))
    = removedFolders D (Bookmarks.folders st)
      + removedBookmarks D (Bookmarks.bookmarks st).
Proof.
  intros Hn Hr.
  set (fs := Bookmarks.folders st) in *. set (bs := Bookmarks.bookmarks st).
  assert (Hacyc : Bookmarks.acyclic fs) by (exists rank; exact Hr).
  induction fuel as [|fuel IH]; intros a n D H HD; [discriminate|].
  simpl in H. fold fs in H. fold bs in H.
  assert (Hfold : forall cs acc k,
             NoDup (map Bookmarks.f_id cs) ->
             (forall c, In c cs -> In c fs /\ Bookmarks.f_parentId c = Some a) ->
             fold_left (fun acc subfolder =>
                          match acc with
                          | Some c =>
                              match Bookmarks.countFolderItems fuel
                                      (Bookmarks.f_id subfolder) st with
                              | Some k => Some (c + 1 + k)
                              | None => None
                              end
                          | None => None
                          end) cs (Some acc) = Some k ->
             exists Dcs,
               (forall x, In x Dcs <->
                          exists c, In c cs /\
                                    Bookmarks.inSubtree fs (Bookmarks.f_id c) x) /\
               k = acc + removedFolders Dcs fs + removedBookmarks Dcs bs).
  { induction cs as [|c cs IHcs]; intros acc k Hnc Hcs Hf; simpl in Hf.
    - injection Hf as <-. exists []. split.
      + intro x. split; [intros [] | intros [c [[] _]]].
      + rewrite removedFolders_nil, removedBookmarks_nil. lia.
    - destruct (Bookmarks.countFolderItems fuel (Bookmarks.f_id c) st) as [kc|] eqn:E.
      2:{ rewrite (fold_none (fun subfolder c =>
                                match Bookmarks.countFolderItems fuel
                                        (Bookmarks.f_id subfolder) st with
                                | Some k => Some (c + 1 + k)
                                | None => None
                                end)) in Hf. discriminate. }
      destruct (Hcs c (or_introl eq_refl)) as [Hc Hp].
      destruct (subtree_ids_exist fs (Bookmarks.f_id c) Hacyc) as [Dc HDc].
      pose proof (IH _ _ _ E HDc) as Hkc.
      rewrite (count_unique_id fs c Hn Hc) in Hkc.
      simpl in Hnc. inversion Hnc as [|? ? Hnotin Hnc']; subst.
      destruct (IHcs _ _ Hnc' (fun c' Hc' => Hcs c' (or_intror Hc')) Hf)
        as [Dcs [HDcs Hk]].
      exists (Dc ++ Dcs). split.
      + intro x. rewrite in_app_iff, HDc, HDcs. split.
        * intros [Hs|[c' [Hc' Hs]]]; [exists c | exists c']; simpl; auto.
        * intros [c' [[<-|Hc'] Hs]]; [now left | right; eauto].
      + assert (Hdisj : forall x, In x Dc -> In x Dcs -> False).
        { intros x Hx Hx'. apply HDc in Hx. apply HDcs in Hx'.
          destruct Hx' as [c' [Hc' Hs']].
          destruct (Hcs c' (or_intror Hc')) as [Hc'in Hp'].
          apply (sibling_subtrees_disjoint fs rank Hn Hr c c' a x); auto.
          intro Eid. apply Hnotin. rewrite Eid. now apply in_map. }
        rewrite (removedFolders_app _ _ _ Hdisj), (removedBookmarks_app _ _ _ Hdisj).
        lia. }
  destruct (Hfold _ _ _ (NoDup_map_filter Bookmarks.f_id _ fs Hn)
              (fun c Hc => match proj1 (filter_In _ _ _) Hc with
                           | conj Hin Hp => conj Hin (proj1 (optEq_true _ _) Hp)
                           end) H) as [Dcs [HDcs Hk]].
  assert (Heq : forall x, In x D <-> In x ([a] ++ Dcs)).
  { intro x. rewrite HD, in_app_iff, HDcs. simpl.
    unfold Bookmarks.inSubtree, Forest.inSubtree.
    rewrite (descendant_top Bookmarks.f_id Bookmarks.f_parentId fs a x). split.
    - intros [->|[c [Hc [Hp Hs]]]]; [now left; left|]. right. exists c. split; [|exact Hs].
      apply filter_In. split; [assumption | now apply optEq_true].
    - intros [[<-|[]]|[c [Hc Hs]]]; [now left|]. right. exists c.
      apply filter_In in Hc. destruct Hc as [Hc Hp]. apply optEq_true in Hp. auto. }
  assert (Hdisj : forall x, In x [a] -> In x Dcs -> False).
  { intros x [<-|[]] Hx. apply HDcs in Hx. destruct Hx as [c [Hc Hs]].
    apply filter_In in Hc. destruct Hc as [Hc Hp]. apply optEq_true in Hp.
    exact (parent_not_below_child fs rank Hr c a Hc Hp Hs). }
  rewrite (removedFolders_ext _ _ _ Heq), (removedBookmarks_ext _ _ _ Heq).
  rewrite (removedFolders_app _ _ _ Hdisj), (removedBookmarks_app _ _ _ Hdisj).
  rewrite removedFolders_single, removedBookmarks_single. fold bs. lia.
Qed.

(** C7. In a store whose folders have unique ids and no cycle, deleting
    a folder [F] ends; it removes the folders whose id is in the
    subtree of [F] ([F] and its descendants) and the bookmarks whose
    parent is in that subtree, and touches nothing else but the order
    numbers of the former siblings; and [countFolderItems F], as it
    reads before the deletion, is the number of elements removed, [F]
    not counted. *)
Theorem deleteFolder_cascade :
  forall st F,
    NoDup (map Bookmarks.f_id (Bookmarks.folders st)) ->
    Bookmarks.acyclic (Bookmarks.folders st) ->
    (exists f, In f (Bookmarks.folders st) /\ Bookmarks.f_id f = F) ->
    exists N, forall fuel, N <= fuel ->
      exists st' n D,
        Bookmarks.deleteFolder fuel F st = Some st' /\
        Bookmarks.countFolderItems fuel F st = Some n /\
        (forall x, In x D <-> Bookmarks.inSubtree (Bookmarks.folders st) F x) /\
        map eraseFOrder (Bookmarks.folders st')
        = map eraseFOrder (filter (keptFolder D) (Bookmarks.folders st)) /\
        map eraseBOrder (Bookmarks.bookmarks st')
        = map eraseBOrder (filter (keptBookmark D) (Bookmarks.bookmarks st)) /\
        List.length (Bookmarks.folders st) + List.length (Bookmarks.bookmarks st)
        = List.length (Bookmarks.folders st') + List.length (Bookmarks.bookmarks st')
          + n + 1.
Proof.
  intros st F Hn [rank Hr] [f [Hf HfF]].
  destruct (rank_bound Bookmarks.f_id rank (Bookmarks.folders st)) as [B HB].
  exists (S B). intros fuel Hfuel.
  destruct (deleteFolderRecursive_total _ rank Hr B fuel F st) as [st1 E1];
    [apply incl_refl | lia | intros c Hc _; now apply HB |].
  destruct (countFolderItems_total st rank Hr B fuel F) as [n En];
    [lia | intros c Hc _; now apply HB |].
  destruct (deleteFolderRecursive_spec _ _ _ _ E1) as [D [HD [Hfo Hbo]]].
  pose proof (countFolderItems_spec st rank Hn Hr _ _ _ _ En HD) as Hcount.
  subst F. rewrite (count_unique_id _ f Hn Hf) in Hcount.
  exists (Bookmarks.normalizeSiblings (Bookmarks.f_parentId f) st1), n, D.
  split; [|split; [exact En | split; [exact HD | split; [|split]]]].
  - unfold Bookmarks.deleteFolder.
    now rewrite (find_folder_unique _ f Hn Hf), E1.
  - unfold Bookmarks.normalizeSiblings. rewrite assignOrders_folders, map_map, Hfo.
    apply map_ext. intro g. reflexivity.
  - unfold Bookmarks.normalizeSiblings. rewrite assignOrders_bookmarks, map_map, Hbo.
    apply map_ext. intro b. reflexivity.
  - unfold Bookmarks.normalizeSiblings.
    rewrite assignOrders_folders, assignOrders_bookmarks, !length_map, Hfo, Hbo.
    pose proof (filter_length (keptFolder D) (Bookmarks.folders st)) as L1.
    pose proof (filter_length (keptBookmark D) (Bookmarks.bookmarks st)) as L2.
    unfold removedFolders, removedBookmarks in Hcount. lia.
Qed.

(** Witness of [deleteFolder_cascade]: [a] holds a bookmark and the
    folder [b], which holds [c], which holds a bookmark; a folder and a
    bookmark stay at the root. *)
Lemma deleteFolder_cascade_witness :
  let bm := fun i o p => Bookmarks.mkBookmark i "file:///a.js" 0 "" 0 0 o None p in
  let st := Bookmarks.mkStore
              [bm "k1" 0%Z (Some "a"); bm "k2" 0%Z (Some "c"); bm "k3" 2%Z None]
              [Bookmarks.mkFolder "a" "A" None 0 0 0 None;
               Bookmarks.mkFolder "b" "B" (Some "a") 0 0 1 None;
               Bookmarks.mkFolder "c" "C" (Some "b") 0 0 0 None;
               Bookmarks.mkFolder "d" "D" None 0 0 1 None] in
  NoDup (map Bookmarks.f_id (Bookmarks.folders st)) /\
  Bookmarks.acyclic (Bookmarks.folders st) /\
  (exists f, In f (Bookmarks.folders st) /\ Bookmarks.f_id f = "a") /\
  exists N, forall fuel, N <= fuel ->
    exists st' n D,
      Bookmarks.deleteFolder fuel "a" st = Some st' /\
      Bookmarks.countFolderItems fuel "a" st = Some n /\
      (forall x, In x D <-> Bookmarks.inSubtree (Bookmarks.folders st) "a" x) /\
      map eraseFOrder (Bookmarks.folders st')
      = map eraseFOrder (filter (keptFolder D) (Bookmarks.folders st)) /\
      map eraseBOrder (Bookmarks.bookmarks st')
      = map eraseBOrder (filter (keptBookmark D) (Bookmarks.bookmarks st)) /\
      List.length (Bookmarks.folders st) + List.length (Bookmarks.bookmarks st)
      = List.length (Bookmarks.folders st') + List.length (Bookmarks.bookmarks st')
        + n + 1.
Proof.
  intros bm st.
  assert (Hn : NoDup (map Bookmarks.f_id (Bookmarks.folders st))).
  { simpl. repeat constructor; simpl; intuition discriminate. }
  assert (Ha : Bookmarks.acyclic (Bookmarks.folders st)).
  { exists (fun s => if String.eqb s "a" then 2 else if String.eqb s "b" then 1 else 0).
    intros c p [<-|[<-|[<-|[<-|[]]]]] Hp; simpl in Hp; try discriminate;
      injection Hp as <-; simpl; lia. }
  assert (Hf : exists f, In f (Bookmarks.folders st) /\ Bookmarks.f_id f = "a").
  { eexists. split; [left; reflexivity | reflexivity]. }
  repeat (split; [assumption|]).
  exact (deleteFolder_cascade st "a" Hn Ha Hf).
Defined.

(** ** Density of the sibling groups of the bookmark store *)

Lemma updateFirst_filter_map {A B : Type} (k : A -> B) (c p : A -> bool) (g : A -> A)
    (l : list A) :
  (forall x, c (g x) = c x) -> (forall x, k (g x) = k x) ->
  map k (filter c (updateFirst p g l)) = map k (filter c l).
Proof.
  intros Hc Hk. induction l as [|y l IH]; simpl; [reflexivity|].
  destruct (p y); simpl.
  - rewrite Hc. destruct (c y); simpl; [now rewrite Hk | reflexivity].
  - destruct (c y); simpl; now rewrite IH.
Qed.

Lemma updateFirst_filter_other {A : Type} (c p : A -> bool) (g : A -> A)
    (l : list A) (x : A) :
  find p l = Some x -> c x = false -> c (g x) = false ->
  filter c (updateFirst p g l) = filter c l.
Proof.
  induction l as [|y l IH]; simpl; [discriminate|].
  destruct (p y); intros H Hx Hgx.
  - injection H as ->. simpl. now rewrite Hx, Hgx.
  - simpl. destruct (c y); now rewrite IH.
Qed.

Lemma updateFirst_filter_enter {A : Type} (c p : A -> bool) (g : A -> A)
    (l : list A) (x : A) :
  find p l = Some x -> c x = false -> c (g x) = true ->
  Permutation (filter c (updateFirst p g l)) (g x :: filter c l).
Proof.
  induction l as [|y l IH]; simpl; [discriminate|].
  destruct (p y); intros H Hx Hgx.
  - injection H as ->. simpl. rewrite Hx, Hgx. apply Permutation_refl.
  - simpl. destruct (c y).
    + eapply Permutation_trans; [apply perm_skip; now apply IH | apply perm_swap].
    + now apply IH.
Qed.

Lemma filter_remove_other {A : Type} (c r : A -> bool) (l : list A) :
  (forall y, In y l -> c y = true -> r y = true) ->
  filter c (filter r l) = filter c l.
Proof.
  intro H. rewrite filter_and. apply filter_ext_in. intros y Hy.
  destruct (c y) eqn:E; [|now rewrite andb_false_r].
  now rewrite (H y Hy E).
Qed.

Lemma siblingOrders_split (p : option string) (st : Bookmarks.Store) :
  Bookmarks.siblingOrders p st
  = map Bookmarks.f_order (filter (Bookmarks.fChildOf p) (Bookmarks.folders st))
    ++ map Bookmarks.b_order (filter (Bookmarks.bChildOf p) (Bookmarks.bookmarks st)).
Proof.
  unfold Bookmarks.siblingOrders, Bookmarks.getFolderSiblings.
  now rewrite map_app, !map_map.
Qed.

Lemma dense_seq (k : nat) : dense (map Z.of_nat (seq 0 k)).
Proof.
  unfold dense. rewrite length_map, length_seq. apply Permutation_refl.
Qed.

(** A group that gains one member with the next order stays dense. *)
Lemma dense_gain (p : option string) (st st' : Bookmarks.Store) :
  Bookmarks.denseAt p st ->
  Permutation (Bookmarks.siblingOrders p st')
              ((Bookmarks.maxOrder (Bookmarks.getFolderSiblings p st) + 1)%Z
               :: Bookmarks.siblingOrders p st) ->
  Bookmarks.denseAt p st'.
Proof.
  intros Hd Hp. unfold Bookmarks.denseAt in *.
  apply (dense_snoc (Bookmarks.siblingOrders p st)); [exact Hd|].
  unfold Bookmarks.siblingOrders at 2. rewrite length_map.
  now rewrite <- (dense_maxOrder _ Hd).
Qed.

Lemma addBookmark_dense (trim : string -> string) (newId : string) (now1 now2 : Z)
    (uri : string) (ln : Z) (txt : string) (st : Bookmarks.Store) :
  Bookmarks.allDense st ->
  Bookmarks.allDense (snd (Bookmarks.addBookmark trim newId now1 now2 uri ln txt st)).
Proof.
  intros Hd p. simpl.
  destruct p as [q|].
  - unfold Bookmarks.denseAt. rewrite siblingOrders_split. simpl.
    rewrite filter_app. simpl. rewrite app_nil_r, <- siblingOrders_split. apply Hd.
  - apply (dense_gain None st); [apply Hd|].
    rewrite !siblingOrders_split. simpl. rewrite filter_app. simpl.
    rewrite map_app. simpl. rewrite app_assoc.
    apply Permutation_sym. apply Permutation_cons_append.
Qed.

Lemma addFolder_dense (trim : string -> string) (newId : string) (now1 now2 : Z)
    (nm : string) (parent : option string) (st : Bookmarks.Store) :
  Bookmarks.allDense st ->
  Bookmarks.allDense (snd (Bookmarks.addFolder trim newId now1 now2 nm parent st)).
Proof.
  intros Hd p. simpl.
  destruct (optEq parent p) eqn:E.
  - apply optEq_true in E. subst p.
    apply (dense_gain parent st); [apply Hd|].
    rewrite !siblingOrders_split. simpl. rewrite filter_app. simpl.
    unfold Bookmarks.fChildOf at 2. simpl. rewrite optEq_refl.
    rewrite map_app. simpl. rewrite <- app_assoc. simpl.
    apply Permutation_sym. apply Permutation_middle.
  - unfold Bookmarks.denseAt. rewrite siblingOrders_split. simpl.
    rewrite filter_app. simpl. unfold Bookmarks.fChildOf at 2. simpl. rewrite E.
    rewrite app_nil_r, <- siblingOrders_split. apply Hd.
Qed.

Lemma editBookmark_dense (trim : string -> string) (now : Z) (i txt : string)
    (st : Bookmarks.Store) :
  Bookmarks.allDense st -> Bookmarks.allDense (Bookmarks.editBookmark trim now i txt st).
Proof.
  intros Hd p. unfold Bookmarks.denseAt. rewrite siblingOrders_split. simpl.
  rewrite updateFirst_filter_map; try reflexivity.
  rewrite <- siblingOrders_split. apply Hd.
Qed.

Lemma changeBookmarkColor_dense (now : Z) (i : string) (c : option string)
    (st : Bookmarks.Store) :
  Bookmarks.allDense st -> Bookmarks.allDense (Bookmarks.changeBookmarkColor now i c st).
Proof.
  intros Hd p. unfold Bookmarks.denseAt. rewrite siblingOrders_split. simpl.
  rewrite updateFirst_filter_map; try reflexivity.
  rewrite <- siblingOrders_split. apply Hd.
Qed.

Lemma editFolder_dense (trim : string -> string) (now : Z) (i nm : string)
    (st : Bookmarks.Store) :
  Bookmarks.allDense st -> Bookmarks.allDense (Bookmarks.editFolder trim now i nm st).
Proof.
  intros Hd p. unfold Bookmarks.denseAt. rewrite siblingOrders_split. simpl.
  rewrite updateFirst_filter_map; try reflexivity.
  rewrite <- siblingOrders_split. apply Hd.
Qed.

Lemma uniqueIds_detach (d : Bookmarks.Item) (st : Bookmarks.Store) :
  Bookmarks.uniqueIds st -> Bookmarks.uniqueIds (Bookmarks.detach d st).
Proof.
  intros [Hb Hf]. destruct d as [f|b]; split; simpl; auto;
    now apply NoDup_map_filter.
Qed.

(** Taking an element out of its array leaves the other groups alone. *)
Lemma detach_other_group (d : Bookmarks.Item) (st : Bookmarks.Store)
    (s q : option string) :
  Bookmarks.uniqueIds st ->
  In d (Bookmarks.getFolderSiblings s st) -> q <> s ->
  Bookmarks.getFolderSiblings q (Bookmarks.detach d st)
  = Bookmarks.getFolderSiblings q st.
Proof.
  intros [Hb Hf] Hd Hq. apply item_in_siblings in Hd.
  unfold Bookmarks.getFolderSiblings.
  destruct d as [f|b]; destruct Hd as [Hin Hp]; simpl; f_equal; f_equal;
    apply filter_remove_other; intros y Hy Hc.
  - apply negb_true_iff. unfold Bookmarks.fHasId.
    destruct (String.eqb_spec (Bookmarks.f_id y) (Bookmarks.f_id f)) as [E|_];
      [|reflexivity].
    assert (y = f) by (eapply unique_key; eauto). subst y.
    apply optEq_true in Hc. congruence.
  - apply negb_true_iff. unfold Bookmarks.bHasId.
    destruct (String.eqb_spec (Bookmarks.b_id y) (Bookmarks.b_id b)) as [E|_];
      [|reflexivity].
    assert (y = b) by (eapply unique_key; eauto). subst y.
    apply optEq_true in Hc. congruence.
Qed.

Lemma deleteBookmark_dense (i : string) (st : Bookmarks.Store) :
  Bookmarks.uniqueIds st -> Bookmarks.allDense st ->
  Bookmarks.allDense (Bookmarks.deleteBookmark i st).
Proof.
  intros Hu Hd. unfold Bookmarks.deleteBookmark.
  destruct (find (Bookmarks.bHasId i) (Bookmarks.bookmarks st)) as [b|] eqn:Ef;
    [|exact Hd].
  apply find_bookmark_some in Ef. destruct Ef as [Hin <-].
  change (Bookmarks.withBookmarks st
            (filter (fun b0 => negb (Bookmarks.bHasId (Bookmarks.b_id b) b0))
                    (Bookmarks.bookmarks st)))
    with (Bookmarks.detach (Bookmarks.IBookmark b) st).
  pose proof (uniqueIds_detach (Bookmarks.IBookmark b) st Hu) as Hu1.
  intro p. destruct (optEq p (Bookmarks.b_parentId b)) eqn:E.
  - apply optEq_true in E. subst p. now apply normalize_dense.
  - apply optEq_false in E. unfold Bookmarks.denseAt, Bookmarks.siblingOrders.
    rewrite normalize_other; auto.
    rewrite (detach_other_group _ st (Bookmarks.b_parentId b)); auto.
    + apply Hd.
    + apply item_in_siblings. auto.
Qed.

Lemma filter_none {A : Type} (f : A -> bool) (l : list A) :
  (forall x, In x l -> f x = false) -> filter f l = [].
Proof.
  induction l as [|y l IH]; intro H; simpl; [reflexivity|].
  rewrite (H y (or_introl eq_refl)). apply IH. intros x Hx. apply H. now right.
Qed.

Lemma deleteFolder_dense (fuel : nat) (i : string) (st st' : Bookmarks.Store) :
  Bookmarks.uniqueIds st -> Bookmarks.allDense st ->
  Bookmarks.deleteFolder fuel i st = Some st' ->
  Bookmarks.allDense st'.
Proof.
  intros Hu Hd H. unfold Bookmarks.deleteFolder in H.
  destruct (find (Bookmarks.fHasId i) (Bookmarks.folders st)) as [f|] eqn:Ef.
  2:{ injection H as <-. exact Hd. }
  apply find_folder_some in Ef. destruct Ef as [Hin Hid].
  destruct (Bookmarks.deleteFolderRecursive fuel i st) as [st1|] eqn:E1; [|discriminate].
  injection H as <-.
  destruct (deleteFolderRecursive_spec _ _ _ _ E1) as [D [HD [Hfo Hbo]]].
  assert (Hu1 : Bookmarks.uniqueIds st1).
  { destruct Hu as [Hb Hf]. split.
    - rewrite Hbo. now apply NoDup_map_filter.
    - rewrite Hfo. now apply NoDup_map_filter. }
  intro p. destruct (optEq p (Bookmarks.f_parentId f)) eqn:E.
  { apply optEq_true in E. subst p. now apply normalize_dense. }
  apply optEq_false in E. unfold Bookmarks.denseAt, Bookmarks.siblingOrders.
  rewrite normalize_other; auto.
  fold (Bookmarks.siblingOrders p st1). rewrite siblingOrders_split, Hfo, Hbo.
  assert (Hin_sub : forall y, In y D -> forall g, In g (Bookmarks.folders st) ->
                              Bookmarks.f_parentId g = Some y -> In (Bookmarks.f_id g) D).
  { intros y Hy g Hg Hp. apply HD. right. apply HD in Hy. destruct Hy as [->|Hy].
    - apply Forest.desc_child; assumption.
    - apply Forest.desc_up with (m := y); assumption. }
  destruct p as [y|]; [destruct (setHas y D) eqn:Ey|].
  - (* the group of a removed folder is empty *)
    apply setHas_In in Ey.
    rewrite (filter_none (Bookmarks.fChildOf (Some y))), (filter_none (Bookmarks.bChildOf (Some y))).
    + apply dense_nil.
    + intros b Hb. apply filter_In in Hb. destruct Hb as [_ Hk].
      unfold Bookmarks.bChildOf. apply optEq_false. intro Hp.
      unfold keptBookmark in Hk. rewrite Hp in Hk.
      apply setHas_In in Ey. rewrite Ey in Hk. discriminate.
    + intros g Hg. apply filter_In in Hg. destruct Hg as [Hg Hk].
      unfold Bookmarks.fChildOf. apply optEq_false. intro Hp.
      apply keptFolder_true in Hk. apply Hk. exact (Hin_sub y Ey g Hg Hp).
  - (* a group outside the subtree loses nothing *)
    rewrite (filter_remove_other (Bookmarks.fChildOf (Some y))),
            (filter_remove_other (Bookmarks.bChildOf (Some y))).
    + rewrite <- siblingOrders_split. apply Hd.
    + intros b _ Hc. apply optEq_true in Hc. unfold keptBookmark. rewrite Hc.
      now rewrite Ey.
    + intros g Hg Hc. apply optEq_true in Hc. apply keptFolder_true. intro HgD.
      apply HD in HgD. destruct HgD as [Eid|Hdesc].
      * assert (g = f) by (eapply unique_key; [apply Hu | | | congruence]; auto).
        subst g. congruence.
      * unfold Bookmarks.descendant in Hdesc.
        assert (Hy : In y D).
        { apply HD.
          inversion Hdesc as [k Hk Hpk Ek | k m Hk Hpk Hm Ek];
            assert (k = g) by (eapply unique_key; [apply Hu | | | exact Ek]; auto);
            subst k.
          - left. congruence.
          - right. assert (m = y) by congruence. now subst m. }
        apply setHas_In in Hy. congruence.
  - rewrite (filter_remove_other (Bookmarks.fChildOf None)),
            (filter_remove_other (Bookmarks.bChildOf None)).
    + rewrite <- siblingOrders_split. apply Hd.
    + intros b _ Hc. apply optEq_true in Hc. unfold keptBookmark. now rewrite Hc.
    + intros g Hg Hc. apply optEq_true in Hc. apply keptFolder_true. intro HgD.
      apply HD in HgD. destruct HgD as [Eid|Hdesc].
      * assert (g = f) by (eapply unique_key; [apply Hu | | | congruence]; auto).
        subst g. congruence.
      * unfold Bookmarks.descendant in Hdesc.
        inversion Hdesc as [k Hk Hpk Ek | k m Hk Hpk Hm Ek];
          assert (k = g) by (eapply unique_key; [apply Hu | | | exact Ek]; auto);
          subst k; congruence.
Qed.

Lemma moveBookmark_dense (st : Bookmarks.Store) (now : Z) (i : string)
    (b : Bookmarks.Bookmark) (T : option string) :
  Bookmarks.uniqueIds st -> Bookmarks.allDense st ->
  find (Bookmarks.bHasId i) (Bookmarks.bookmarks st) = Some b ->
  Bookmarks.b_parentId b <> T ->
  let m := Bookmarks.maxOrder (Bookmarks.getFolderSiblings T st) in
  let st1 := Bookmarks.withBookmarks st
               (updateFirst (Bookmarks.bHasId i)
                  (fun x => Bookmarks.setBOrder (Bookmarks.reparentB x T now) (m + 1)%Z)
                  (Bookmarks.bookmarks st)) in
  Bookmarks.allDense (Bookmarks.normalizeSiblings (Bookmarks.b_parentId b) st1).
Proof.
  intros Hu Hd Hfind Hne m st1.
  assert (Hu1 : Bookmarks.uniqueIds st1).
  { destruct Hu as [Hb Hf]. split; [|exact Hf]. unfold st1. simpl.
    rewrite updateFirst_map; [exact Hb | reflexivity]. }
  intro p. destruct (optEq p (Bookmarks.b_parentId b)) eqn:E.
  { apply optEq_true in E. subst p. now apply normalize_dense. }
  apply optEq_false in E. unfold Bookmarks.denseAt, Bookmarks.siblingOrders.
  rewrite normalize_other; auto. fold (Bookmarks.siblingOrders p st1).
  destruct (optEq p T) eqn:ET.
  - apply optEq_true in ET. subst p.
    apply (dense_gain T st); [apply Hd|].
    rewrite !siblingOrders_split. unfold st1. simpl.
    eapply Permutation_trans; [|apply Permutation_sym; apply Permutation_middle].
    apply Permutation_app_head.
    apply (Permutation_map Bookmarks.b_order
             (l' := Bookmarks.setBOrder (Bookmarks.reparentB b T now) (m + 1)%Z
                    :: filter (Bookmarks.bChildOf T) (Bookmarks.bookmarks st))).
    apply updateFirst_filter_enter with (x := b); auto.
    + apply optEq_false. exact Hne.
    + apply optEq_refl.
  - rewrite siblingOrders_split. unfold st1. simpl.
    rewrite (updateFirst_filter_other (Bookmarks.bChildOf p) _ _ _ b Hfind).
    + rewrite <- siblingOrders_split. apply Hd.
    + apply optEq_false. congruence.
    + unfold Bookmarks.bChildOf. simpl. apply optEq_false.
      apply optEq_false in ET. congruence.
Qed.

Lemma moveFolder_dense (st : Bookmarks.Store) (now : Z) (i : string)
    (f : Bookmarks.BookmarkFolder) (T : option string) :
  Bookmarks.uniqueIds st -> Bookmarks.allDense st ->
  find (Bookmarks.fHasId i) (Bookmarks.folders st) = Some f ->
  Bookmarks.f_parentId f <> T ->
  let m := Bookmarks.maxOrder (Bookmarks.getFolderSiblings T st) in
  let st1 := Bookmarks.withFolders st
               (updateFirst (Bookmarks.fHasId i)
                  (fun x => Bookmarks.setFOrder (Bookmarks.reparentF x T now) (m + 1)%Z)
                  (Bookmarks.folders st)) in
  Bookmarks.allDense (Bookmarks.normalizeSiblings (Bookmarks.f_parentId f) st1).
Proof.
  intros Hu Hd Hfind Hne m st1.
  assert (Hu1 : Bookmarks.uniqueIds st1).
  { destruct Hu as [Hb Hf]. split; [exact Hb|]. unfold st1. simpl.
    rewrite updateFirst_map; [exact Hf | reflexivity]. }
  intro p. destruct (optEq p (Bookmarks.f_parentId f)) eqn:E.
  { apply optEq_true in E. subst p. now apply normalize_dense. }
  apply optEq_false in E. unfold Bookmarks.denseAt, Bookmarks.siblingOrders.
  rewrite normalize_other; auto. fold (Bookmarks.siblingOrders p st1).
  destruct (optEq p T) eqn:ET.
  - apply optEq_true in ET. subst p.
    apply (dense_gain T st); [apply Hd|].
    rewrite !siblingOrders_split. unfold st1. simpl.
    rewrite app_comm_cons. apply Permutation_app_tail.
    apply (Permutation_map Bookmarks.f_order
             (l' := Bookmarks.setFOrder (Bookmarks.reparentF f T now) (m + 1)%Z
                    :: filter (Bookmarks.fChildOf T) (Bookmarks.folders st))).
    apply updateFirst_filter_enter with (x := f); auto.
    + apply optEq_false. exact Hne.
    + apply optEq_refl.
  - rewrite siblingOrders_split. unfold st1. simpl.
    rewrite (updateFirst_filter_other (Bookmarks.fChildOf p) _ _ _ f Hfind).
    + rewrite <- siblingOrders_split. apply Hd.
    + apply optEq_false. congruence.
    + unfold Bookmarks.fChildOf. simpl. apply optEq_false.
      apply optEq_false in ET. congruence.
Qed.

Lemma moveToFolder_dense (fuel : nat) (now : Z) (i : string) (T : option string)
    (st st' : Bookmarks.Store) :
  Bookmarks.uniqueIds st -> Bookmarks.allDense st ->
  (forall b, find (Bookmarks.bHasId i) (Bookmarks.bookmarks st) = Some b ->
             Bookmarks.b_parentId b <> T) ->
  (forall f, find (Bookmarks.fHasId i) (Bookmarks.folders st) = Some f ->
             Bookmarks.f_parentId f <> T) ->
  Bookmarks.moveToFolder fuel now i T st = Returned st' ->
  Bookmarks.allDense st'.
Proof.
  intros Hu Hd Hb Hf H. unfold Bookmarks.moveToFolder in H.
  destruct (find (Bookmarks.bHasId i) (Bookmarks.bookmarks st)) as [b|] eqn:Eb.
  - specialize (Hb b eq_refl).
    assert (E : optEq (Bookmarks.b_parentId b) T = false) by now apply optEq_false.
    rewrite E in H. injection H as <-.
    now apply moveBookmark_dense.
  - destruct (find (Bookmarks.fHasId i) (Bookmarks.folders st)) as [f|] eqn:Ef.
    + specialize (Hf f eq_refl).
      assert (E : optEq (Bookmarks.f_parentId f) T = false) by now apply optEq_false.
      destruct (Bookmarks.validateFolderMove fuel i T st) as [[msg|]|];
        try discriminate.
      rewrite E in H. injection H as <-.
      now apply moveFolder_dense.
    + injection H as <-. exact Hd.
Qed.

Lemma indexOrders_orders (l : list Bookmarks.Item) :
  forall i, map Bookmarks.item_order (Bookmarks.indexOrders i l)
            = map Z.of_nat (seq i (List.length l)).
Proof.
  induction l as [|it l IH]; intro i; simpl; [reflexivity|].
  now rewrite item_order_set, IH.
Qed.

Lemma indexOrders_parent (T : option string) (l : list Bookmarks.Item) :
  (forall it, In it l -> Bookmarks.item_parentId it = T) ->
  forall i it, In it (Bookmarks.indexOrders i l) -> Bookmarks.item_parentId it = T.
Proof.
  induction l as [|y l IH]; intros H i it Hin; simpl in Hin; [contradiction|].
  destruct Hin as [<-|Hin].
  - rewrite <- (H y (or_introl eq_refl)). now destruct y.
  - apply (IH (fun x Hx => H x (or_intror Hx)) (S i)). exact Hin.
Qed.

Lemma split_items_perm (l : list Bookmarks.Item) :
  Permutation (map Bookmarks.IFolder (Bookmarks.foldersOf l)
               ++ map Bookmarks.IBookmark (Bookmarks.bookmarksOf l)) l.
Proof.
  induction l as [|[f|b] l IH]; simpl.
  - apply perm_nil.
  - now apply perm_skip.
  - eapply Permutation_trans; [apply Permutation_sym; apply Permutation_middle|].
    now apply perm_skip.
Qed.

Lemma in_foldersOf (l : list Bookmarks.Item) (f : Bookmarks.BookmarkFolder) :
  In f (Bookmarks.foldersOf l) -> In (Bookmarks.IFolder f) l.
Proof.
  induction l as [|[g|b] l IH]; simpl; [tauto| |]; intro H.
  - destruct H as [->|H]; [now left | right; now apply IH].
  - right. now apply IH.
Qed.

Lemma in_bookmarksOf (l : list Bookmarks.Item) (b : Bookmarks.Bookmark) :
  In b (Bookmarks.bookmarksOf l) -> In (Bookmarks.IBookmark b) l.
Proof.
  induction l as [|[g|c] l IH]; simpl; [tauto| |]; intro H.
  - right. now apply IH.
  - destruct H as [->|H]; [now left | right; now apply IH].
Qed.

Lemma in_spliceIn {A : Type} (i : nat) (d x : A) (l : list A) :
  In x (spliceIn i d l) -> x = d \/ In x l.
Proof.
  unfold spliceIn. rewrite in_app_iff. simpl.
  intros [H|[H|H]]; auto; right;
    rewrite <- (firstn_skipn i l); apply in_app_iff; auto.
Qed.

Lemma dragged_in_group (i : string) (st : Bookmarks.Store) (d : Bookmarks.Item) :
  match find (Bookmarks.bHasId i) (Bookmarks.bookmarks st),
        find (Bookmarks.fHasId i) (Bookmarks.folders st) with
  | Some b, _ => Some (Bookmarks.IBookmark b)
  | None, Some f => Some (Bookmarks.IFolder f)
  | None, None => None
  end = Some d ->
  In d (Bookmarks.getFolderSiblings (Bookmarks.item_parentId d) st).
Proof.
  intro H. apply item_in_siblings.
  destruct (find (Bookmarks.bHasId i) (Bookmarks.bookmarks st)) as [b|] eqn:Eb.
  - injection H as <-. apply find_bookmark_some in Eb. simpl. tauto.
  - destruct (find (Bookmarks.fHasId i) (Bookmarks.folders st)) as [f|] eqn:Ef;
      [|discriminate].
    injection H as <-. apply find_folder_some in Ef. simpl. tauto.
Qed.

(** The arrays that [reorderItem] writes back: the group of the target
    is the renumbered array, the other groups are those of the store
    it started from. *)
Lemma rebuilt_groups (T : option string) (st2 : Bookmarks.Store)
    (X : list Bookmarks.Item) :
  (forall it, In it X -> Bookmarks.item_parentId it = T) ->
  let st' := Bookmarks.mkStore
               (filter (fun b => negb (Bookmarks.bChildOf T b)) (Bookmarks.bookmarks st2)
                ++ Bookmarks.bookmarksOf X)
               (filter (fun f => negb (Bookmarks.fChildOf T f)) (Bookmarks.folders st2)
                ++ Bookmarks.foldersOf X) in
  Permutation (Bookmarks.getFolderSiblings T st') X /\
  forall p, p <> T ->
            Bookmarks.getFolderSiblings p st' = Bookmarks.getFolderSiblings p st2.
Proof.
  intros HX st'. split.
  - unfold Bookmarks.getFolderSiblings, st'. simpl. rewrite !filter_app.
    rewrite (filter_none (Bookmarks.fChildOf T)
               (filter (fun f => negb (Bookmarks.fChildOf T f)) (Bookmarks.folders st2))),
            (filter_none (Bookmarks.bChildOf T)
               (filter (fun b => negb (Bookmarks.bChildOf T b)) (Bookmarks.bookmarks st2))).
    + simpl. rewrite !forallb_filter_id.
      * apply split_items_perm.
      * apply forallb_forall. intros b Hb. apply in_bookmarksOf in Hb.
        apply optEq_true. exact (HX _ Hb).
      * apply forallb_forall. intros f Hf. apply in_foldersOf in Hf.
        apply optEq_true. exact (HX _ Hf).
    + intros b Hb. apply filter_In in Hb. destruct Hb as [_ Hb].
      now apply negb_true_iff in Hb.
    + intros f Hf. apply filter_In in Hf. destruct Hf as [_ Hf].
      now apply negb_true_iff in Hf.
  - intros p Hp. unfold Bookmarks.getFolderSiblings, st'. simpl. rewrite !filter_app.
    rewrite (filter_none (Bookmarks.fChildOf p) (Bookmarks.foldersOf X)),
            (filter_none (Bookmarks.bChildOf p) (Bookmarks.bookmarksOf X)).
    + rewrite !app_nil_r. f_equal; f_equal; apply filter_remove_other;
        intros y _ Hc; apply negb_true_iff; apply optEq_false;
        apply optEq_true in Hc; congruence.
    + intros b Hb. apply in_bookmarksOf in Hb. apply optEq_false.
      specialize (HX _ Hb). simpl in HX. congruence.
    + intros f Hf. apply in_foldersOf in Hf. apply optEq_false.
      specialize (HX _ Hf). simpl in HX. congruence.
Qed.

Lemma reorderItem_dense (fuel : nat) (now : Z) (draggedId targetId : string)
    (pos : Bookmarks.DropPosition) (st st' : Bookmarks.Store) :
  Bookmarks.uniqueIds st -> Bookmarks.allDense st ->
  Bookmarks.reorderItem fuel now draggedId targetId pos st = Returned st' ->
  Bookmarks.allDense st'.
Proof.
  intros Hu Hd H. unfold Bookmarks.reorderItem in H.
  destruct (match find (Bookmarks.bHasId draggedId) (Bookmarks.bookmarks st),
                  find (Bookmarks.fHasId draggedId) (Bookmarks.folders st) with
            | Some b, _ => Some (Bookmarks.IBookmark b)
            | None, Some f => Some (Bookmarks.IFolder f)
            | None, None => None
            end) as [dragged|] eqn:Edrag; [|discriminate].
  destruct (match find (Bookmarks.bHasId targetId) (Bookmarks.bookmarks st),
                  find (Bookmarks.fHasId targetId) (Bookmarks.folders st) with
            | Some b, _ => Some (Bookmarks.IBookmark b)
            | None, Some f => Some (Bookmarks.IFolder f)
            | None, None => None
            end) as [target|] eqn:Etarget; [|discriminate].
  destruct (match find (Bookmarks.fHasId draggedId) (Bookmarks.folders st) with
            | Some f => Bookmarks.validateFolderMove fuel (Bookmarks.f_id f)
                          (Bookmarks.item_parentId target) st
            | None => Some None
            end) as [[msg|]|]; try discriminate.
  set (S := Bookmarks.item_parentId dragged) in *.
  set (T := Bookmarks.item_parentId target) in *.
  set (st1 := Bookmarks.detach dragged st) in *.
  set (st2 := if optEq S T then st1 else Bookmarks.normalizeSiblings S st1) in *.
  destruct (findIndex _ _) as [targetIndex|] in H; [|discriminate].
  injection H as <-.
  set (X := Bookmarks.indexOrders 0 _).
  assert (Hdin : In dragged (Bookmarks.getFolderSiblings S st))
    by exact (dragged_in_group draggedId st dragged Edrag).
  assert (Hu1 : Bookmarks.uniqueIds st1) by now apply uniqueIds_detach.
  assert (HX : forall it, In it X -> Bookmarks.item_parentId it = T).
  { apply indexOrders_parent. intros it Hit. apply in_spliceIn in Hit.
    destruct Hit as [->|Hit]; [now destruct dragged|].
    apply (Permutation_in _ (sortByOrder_perm _)) in Hit.
    apply item_in_siblings in Hit. destruct it; simpl; tauto. }
  destruct (rebuilt_groups T st2 X HX) as [Hperm Hother].
  intro p. destruct (optEq p T) eqn:EpT.
  - apply optEq_true in EpT. subst p. unfold Bookmarks.denseAt, Bookmarks.siblingOrders.
    apply (dense_perm (map Bookmarks.item_order X)).
    + apply Permutation_map. apply Permutation_sym. exact Hperm.
    + unfold X. rewrite indexOrders_orders. apply dense_seq.
  - apply optEq_false in EpT. unfold Bookmarks.denseAt, Bookmarks.siblingOrders.
    rewrite (Hother p EpT). fold (Bookmarks.siblingOrders p st2).
    fold (Bookmarks.denseAt p st2). unfold st2.
    destruct (optEq S T) eqn:EST.
    + apply optEq_true in EST. unfold Bookmarks.denseAt, Bookmarks.siblingOrders, st1.
      rewrite (detach_other_group dragged st S p Hu Hdin); [apply Hd | congruence].
    + destruct (optEq p S) eqn:EpS.
      * apply optEq_true in EpS. subst p. now apply normalize_dense.
      * apply optEq_false in EpS. unfold Bookmarks.denseAt, Bookmarks.siblingOrders.
        rewrite normalize_other; auto. unfold st1.
        rewrite (detach_other_group dragged st S p Hu Hdin); [apply Hd | exact EpS].
Qed.

Lemma todo_edit_orders (p : option string) (q : Todos.Todo -> bool)
    (g : Todos.Todo -> Todos.Todo) (todos : list Todos.Todo) :
  (forall t, Todos.parentId (g t) = Todos.parentId t) ->
  (forall t, Todos.order (g t) = Todos.order t) ->
  Todos.siblingOrders p (updateFirst q g todos) = Todos.siblingOrders p todos.
Proof.
  intros Hp Ho. unfold Todos.siblingOrders.
  apply updateFirst_filter_map; [|exact Ho].
  intro t. unfold Todos.childOf. now rewrite Hp.
Qed.

(** C1 (as amended). In a bookmark store with unique ids whose sibling
    groups (folders and bookmarks of one parent together) all carry the
    orders 0,1,...,k-1, every group still does after [addBookmark],
    [addFolder], [editBookmark], [editFolder], [changeBookmarkColor],
    [deleteBookmark], a [deleteFolder] that returns, a [moveToFolder]
    that returns and whose target differs from the item's current
    parent, and a [reorderItem] that returns.  In the todo store, where
    [order] is a position in the whole list, toggling and renaming keep
    the orders of every group as they were, and so keep a dense group
    dense. *)
Theorem bookmark_store_keeps_density :
  forall st,
    Bookmarks.uniqueIds st ->
    Bookmarks.allDense st ->
    (forall trim newId now1 now2 uri ln txt,
        Bookmarks.allDense (snd (Bookmarks.addBookmark trim newId now1 now2 uri ln txt st))) /\
    (forall trim newId now1 now2 nm parent,
        Bookmarks.allDense (snd (Bookmarks.addFolder trim newId now1 now2 nm parent st))) /\
    (forall trim now i txt, Bookmarks.allDense (Bookmarks.editBookmark trim now i txt st)) /\
    (forall trim now i nm, Bookmarks.allDense (Bookmarks.editFolder trim now i nm st)) /\
    (forall now i c, Bookmarks.allDense (Bookmarks.changeBookmarkColor now i c st)) /\
    (forall i, Bookmarks.allDense (Bookmarks.deleteBookmark i st)) /\
    (forall fuel i st',
        Bookmarks.deleteFolder fuel i st = Some st' -> Bookmarks.allDense st') /\
    (forall fuel now i T st',
        (forall b, find (Bookmarks.bHasId i) (Bookmarks.bookmarks st) = Some b ->
                   Bookmarks.b_parentId b <> T) ->
        (forall f, find (Bookmarks.fHasId i) (Bookmarks.folders st) = Some f ->
                   Bookmarks.f_parentId f <> T) ->
        Bookmarks.moveToFolder fuel now i T st = Returned st' ->
        Bookmarks.allDense st') /\
    (forall fuel now draggedId targetId pos st',
        Bookmarks.reorderItem fuel now draggedId targetId pos st = Returned st' ->
        Bookmarks.allDense st') /\
    (forall trim now i txt todos p,
        Todos.denseAt p todos ->
        Todos.denseAt p (Todos.toggleTodo now i todos) /\
        Todos.denseAt p (Todos.renameTodo trim now i txt todos)) /\
    (forall trim now i txt todos p,
        Todos.siblingOrders p (Todos.toggleTodo now i todos)
        = Todos.siblingOrders p todos /\
        Todos.siblingOrders p (Todos.renameTodo trim now i txt todos)
        = Todos.siblingOrders p todos).
Proof.
  intros st Hu Hd. repeat split.
  - intros. now apply addBookmark_dense.
  - intros. now apply addFolder_dense.
  - intros. now apply editBookmark_dense.
  - intros. now apply editFolder_dense.
  - intros. now apply changeBookmarkColor_dense.
  - intros. now apply deleteBookmark_dense.
  - intros fuel i st' H. exact (deleteFolder_dense fuel i st st' Hu Hd H).
  - intros fuel now i T st' Hb Hf H.
    exact (moveToFolder_dense fuel now i T st st' Hu Hd Hb Hf H).
  - intros fuel now d t pos st' H.
    exact (reorderItem_dense fuel now d t pos st st' Hu Hd H).
  - unfold Todos.denseAt, Todos.toggleTodo.
    rewrite todo_edit_orders; [assumption | reflexivity | reflexivity].
  - unfold Todos.denseAt, Todos.renameTodo.
    rewrite todo_edit_orders; [assumption | reflexivity | reflexivity].
  - unfold Todos.toggleTodo. apply todo_edit_orders; reflexivity.
  - unfold Todos.renameTodo. apply todo_edit_orders; reflexivity.
Qed.

(** Witness of [bookmark_store_keeps_density]: a folder and a bookmark
    at the root, and a bookmark in the folder. *)
Lemma bookmark_store_keeps_density_witness :
  let st := Bookmarks.mkStore
              [Bookmarks.mkBookmark "k1" "file:///a.js" 1 "" 0 0 1 None None;
               Bookmarks.mkBookmark "k2" "file:///a.js" 2 "" 0 0 0 None (Some "f")]
              [Bookmarks.mkFolder "f" "F" None 0 0 0 None] in
  Bookmarks.uniqueIds st /\
  Bookmarks.allDense st /\
  ((forall trim newId now1 now2 uri ln txt,
        Bookmarks.allDense (snd (Bookmarks.addBookmark trim newId now1 now2 uri ln txt st))) /\
    (forall trim newId now1 now2 nm parent,
        Bookmarks.allDense (snd (Bookmarks.addFolder trim newId now1 now2 nm parent st))) /\
    (forall trim now i txt, Bookmarks.allDense (Bookmarks.editBookmark trim now i txt st)) /\
    (forall trim now i nm, Bookmarks.allDense (Bookmarks.editFolder trim now i nm st)) /\
    (forall now i c, Bookmarks.allDense (Bookmarks.changeBookmarkColor now i c st)) /\
    (forall i, Bookmarks.allDense (Bookmarks.deleteBookmark i st)) /\
    (forall fuel i st',
        Bookmarks.deleteFolder fuel i st = Some st' -> Bookmarks.allDense st') /\
    (forall fuel now i T st',
        (forall b, find (Bookmarks.bHasId i) (Bookmarks.bookmarks st) = Some b ->
                   Bookmarks.b_parentId b <> T) ->
        (forall f, find (Bookmarks.fHasId i) (Bookmarks.folders st) = Some f ->
                   Bookmarks.f_parentId f <> T) ->
        Bookmarks.moveToFolder fuel now i T st = Returned st' ->
        Bookmarks.allDense st') /\
    (forall fuel now draggedId targetId pos st',
        Bookmarks.reorderItem fuel now draggedId targetId pos st = Returned st' ->
        Bookmarks.allDense st') /\
    (forall trim now i txt todos p,
        Todos.denseAt p todos ->
        Todos.denseAt p (Todos.toggleTodo now i todos) /\
        Todos.denseAt p (Todos.renameTodo trim now i txt todos)) /\
    (forall trim now i txt todos p,
        Todos.siblingOrders p (Todos.toggleTodo now i todos)
        = Todos.siblingOrders p todos /\
        Todos.siblingOrders p (Todos.renameTodo trim now i txt todos)
        = Todos.siblingOrders p todos)).
Proof.
  intro st.
  assert (Hu : Bookmarks.uniqueIds st).
  { split; simpl; repeat constructor; simpl; intuition discriminate. }
  assert (Hd : Bookmarks.allDense st).
  { intros [s|]; unfold Bookmarks.denseAt, Bookmarks.siblingOrders,
                        Bookmarks.getFolderSiblings, dense;
      cbn -[String.eqb].
    - destruct (String.eqb "f" s); cbn; apply Permutation_refl.
    - apply Permutation_refl. }
  exact (conj Hu (conj Hd (bookmark_store_keeps_density st Hu Hd))).
Defined.

(** C1 as stated fails in the todo store: the first child created
    under a todo takes the size of the whole list as its order, so the
    only child of a root todo has order 1, not 0. *)
Lemma todo_create_breaks_density :
  ~ (forall (trim : string -> string) newId now1 now2 txt parent todos,
        (forall p, Todos.denseAt p todos) ->
        forall p, Todos.denseAt p
                    (snd (Todos.addTodo trim newId now1 now2 txt parent todos))).
Proof.
  intro H.
  specialize (H (fun s => s) "b" 0%Z 0%Z "B" (Some "a")
                [Todos.mkTodo "a" "A" false 0 0 0 None]).
  assert (Hd : forall p, Todos.denseAt p [Todos.mkTodo "a" "A" false 0 0 0 None]).
  { intros [s|]; unfold Todos.denseAt, Todos.siblingOrders, dense; simpl;
      apply Permutation_refl. }
  specialize (H Hd (Some "a")).
  unfold Todos.denseAt, Todos.siblingOrders, dense in H. simpl in H.
  apply Permutation_length_1 in H. discriminate.
Qed.

(** A bookmark moved to the folder it is already in takes the order
    after the greatest one, itself included, and nothing is renumbered:
    the group is left with the orders 1 and 2. *)
Lemma moveToFolder_same_parent_evaluated :
  let bm := fun i o => Bookmarks.mkBookmark i "file:///a.js" 0 "" 0 0 o None None in
  let st := Bookmarks.mkStore [bm "k1" 0%Z; bm "k2" 1%Z] [] in
  exists st', Bookmarks.moveToFolder 8 9 "k1" None st = Returned st' /\
              Bookmarks.siblingOrders None st' = [2; 1]%Z.
Proof. eexists. split; vm_compute; reflexivity. Qed.

(** ** The operations at concrete stores *)

(** The depth gate on both sides: [a] holds [b], [c] holds [e].  Under
    [b] (depth 2) the folder [c] (height 2) is refused; under [a]
    (depth 1) it is accepted and appended after [b]. *)
Example moveToFolder_depth_gate_evaluated :
  let st := Bookmarks.mkStore []
              [Bookmarks.mkFolder "a" "A" None 0 0 0 None;
               Bookmarks.mkFolder "b" "B" (Some "a") 0 0 0 None;
               Bookmarks.mkFolder "c" "C" None 0 0 1 None;
               Bookmarks.mkFolder "e" "E" (Some "c") 0 0 0 None] in
  Bookmarks.getFolderDepth 8 "b" st = Some 2 /\
  Bookmarks.getMaxFolderDepth 8 "c" st = Some 2 /\
  Bookmarks.moveToFolder 8 7 "c" (Some "b") st
  = Thrown "Moving this folder would exceed maximum depth (3 levels)" st /\
  Bookmarks.moveToFolder 8 7 "c" (Some "a") st
  = Returned (Bookmarks.mkStore []
                [Bookmarks.mkFolder "a" "A" None 0 0 0 None;
                 Bookmarks.mkFolder "b" "B" (Some "a") 0 0 0 None;
                 Bookmarks.mkFolder "c" "C" (Some "a") 0 7 1 None;
                 Bookmarks.mkFolder "e" "E" (Some "c") 0 0 0 None]).
Proof. vm_compute. repeat split. Qed.

(** The scenario of the ordering tests: four bookmarks, a folder, the
    second bookmark moved into the folder, a fifth bookmark added.  The
    root group is renumbered by the move and the new bookmark comes
    after the folder. *)
Example ordering_scenario_evaluated :
  let tr := fun s : string => s in
  let add := fun i ln st => snd (Bookmarks.addBookmark tr i 0 0 "file:///a.js" ln "" st) in
  let st4 := add "b4" 3%Z (add "b3" 2%Z (add "b2" 1%Z (add "b1" 0%Z
               (Bookmarks.mkStore [] [])))) in
  let st5 := snd (Bookmarks.addFolder tr "f" 0 0 "Test Folder" None st4) in
  exists st6,
    Bookmarks.moveToFolder 8 0 "b2" (Some "f") st5 = Returned st6 /\
    map (fun b => (Bookmarks.b_id b, Bookmarks.b_parentId b, Bookmarks.b_order b))
        (Bookmarks.bookmarks (add "b5" 4%Z st6))
    = [("b1", None, 0%Z); ("b2", Some "f", 0%Z); ("b3", None, 1%Z);
       ("b4", None, 2%Z); ("b5", None, 4%Z)] /\
    map (fun f => (Bookmarks.f_id f, Bookmarks.f_order f))
        (Bookmarks.folders (add "b5" 4%Z st6))
    = [("f", 3%Z)].
Proof. eexists. vm_compute. repeat split. Qed.

(** A drag between two parents and the deletion of a folder, both
    returning: [b2] is dropped before [k] inside the folder [f], then
    [f] is deleted with its two bookmarks. *)
Example reorder_then_delete_evaluated :
  let bm := fun i o p => Bookmarks.mkBookmark i "file:///a.js" 0 "" 0 0 o None p in
  let st := Bookmarks.mkStore
              [bm "k" 0%Z (Some "f"); bm "b1" 1%Z None; bm "b2" 2%Z None;
               bm "b3" 3%Z None]
              [Bookmarks.mkFolder "f" "F" None 0 0 0 None] in
  exists st1 st2,
    Bookmarks.reorderItem 8 0 "b2" "k" Bookmarks.before st = Returned st1 /\
    map (fun b => (Bookmarks.b_id b, Bookmarks.b_parentId b, Bookmarks.b_order b))
        (Bookmarks.bookmarks st1)
    = [("b1", None, 1%Z); ("b3", None, 2%Z); ("b2", Some "f", 0%Z);
       ("k", Some "f", 1%Z)] /\
    Bookmarks.countFolderItems 8 "f" st1 = Some 2 /\
    Bookmarks.deleteFolder 8 "f" st1 = Some st2 /\
    map (fun b => (Bookmarks.b_id b, Bookmarks.b_order b)) (Bookmarks.bookmarks st2)
    = [("b1", 0%Z); ("b3", 1%Z)] /\
    Bookmarks.folders st2 = [].
Proof. do 2 eexists. vm_compute. repeat split. Qed.

(** [clearCheckedTodos] on a done root with a child that is not done. *)
Example clearCheckedTodos_evaluated :
  Todos.clearCheckedTodos 8
    [Todos.mkTodo "a" "A" true 0 0 0 None;
     Todos.mkTodo "b" "B" false 0 0 1 (Some "a");
     Todos.mkTodo "c" "C" false 0 0 2 None]
  = Some [Todos.mkTodo "c" "C" false 0 0 2 None].
Proof. vm_compute. reflexivity. Qed.

(** ** Unique ids along the operations *)

Lemma NoDup_snoc (l : list string) (x : string) :
  NoDup l -> ~ In x l -> NoDup (l ++ [x]).
Proof.
  intros Hn Hx. apply NoDup_app; [exact Hn | repeat constructor; auto |].
  intros a Ha [<-|[]]. contradiction.
Qed.

Lemma bookmarksOf_indexOrders_ids (l : list Bookmarks.Item) :
  forall i, map Bookmarks.b_id (Bookmarks.bookmarksOf (Bookmarks.indexOrders i l))
            = map Bookmarks.b_id (Bookmarks.bookmarksOf l).
Proof.
  induction l as [|[f|b] l IH]; intro i; simpl; [reflexivity | apply IH |].
  now rewrite IH.
Qed.

Lemma foldersOf_indexOrders_ids (l : list Bookmarks.Item) :
  forall i, map Bookmarks.f_id (Bookmarks.foldersOf (Bookmarks.indexOrders i l))
            = map Bookmarks.f_id (Bookmarks.foldersOf l).
Proof.
  induction l as [|[f|b] l IH]; intro i; simpl; [reflexivity | | apply IH].
  now rewrite IH.
Qed.

Lemma bookmarksOf_perm (l l' : list Bookmarks.Item) :
  Permutation l l' ->
  Permutation (Bookmarks.bookmarksOf l) (Bookmarks.bookmarksOf l').
Proof.
  intro H. induction H as [|[f|b] l l' _ IH|[f|b] [g|c] l|l l' l'' _ IH1 _ IH2];
    simpl; auto using Permutation_refl, perm_skip, perm_swap.
  eapply Permutation_trans; eauto.
Qed.

Lemma foldersOf_perm (l l' : list Bookmarks.Item) :
  Permutation l l' ->
  Permutation (Bookmarks.foldersOf l) (Bookmarks.foldersOf l').
Proof.
  intro H. induction H as [|[f|b] l l' _ IH|[f|b] [g|c] l|l l' l'' _ IH1 _ IH2];
    simpl; auto using Permutation_refl, perm_skip, perm_swap.
  eapply Permutation_trans; eauto.
Qed.

Lemma spliceIn_perm {A : Type} (i : nat) (d : A) (l : list A) :
  Permutation (spliceIn i d l) (d :: l).
Proof.
  unfold spliceIn. eapply Permutation_trans.
  - apply Permutation_sym. apply Permutation_middle.
  - now rewrite firstn_skipn.
Qed.

Lemma bookmarksOf_siblings (p : option string) (st : Bookmarks.Store) :
  Bookmarks.bookmarksOf (Bookmarks.getFolderSiblings p st)
  = filter (Bookmarks.bChildOf p) (Bookmarks.bookmarks st).
Proof.
  unfold Bookmarks.getFolderSiblings.
  induction (filter (Bookmarks.fChildOf p) (Bookmarks.folders st)) as [|f l IH];
    simpl; [|exact IH].
  induction (filter (Bookmarks.bChildOf p) (Bookmarks.bookmarks st)) as [|b l IH];
    simpl; [reflexivity | now rewrite IH].
Qed.

Lemma foldersOf_siblings (p : option string) (st : Bookmarks.Store) :
  Bookmarks.foldersOf (Bookmarks.getFolderSiblings p st)
  = filter (Bookmarks.fChildOf p) (Bookmarks.folders st).
Proof.
  unfold Bookmarks.getFolderSiblings.
  induction (filter (Bookmarks.fChildOf p) (Bookmarks.folders st)) as [|f l IH];
    simpl; [|now rewrite IH].
  induction (filter (Bookmarks.bChildOf p) (Bookmarks.bookmarks st)) as [|b l IH];
    simpl; [reflexivity | exact IH].
Qed.

Lemma filter_partition_perm {A : Type} (c : A -> bool) (l : list A) :
  Permutation (filter (fun x => negb (c x)) l ++ filter c l) l.
Proof.
  induction l as [|y l IH]; simpl; [apply perm_nil|].
  destruct (c y); simpl.
  - eapply Permutation_trans; [apply Permutation_sym; apply Permutation_middle|].
    now apply perm_skip.
  - now apply perm_skip.
Qed.

Lemma NoDup_detached (l : list string) (x : string) :
  NoDup l ->
  NoDup (x :: filter (fun y => negb (String.eqb y x)) l).
Proof.
  intro Hn. constructor; [|now apply NoDup_filter].
  intro H. apply filter_In in H. destruct H as [_ H].
  now rewrite String.eqb_refl in H.
Qed.

Lemma map_filter_id {A : Type} (key : A -> string) (x : string) (l : list A) :
  map key (filter (fun y => negb (String.eqb (key y) x)) l)
  = filter (fun k => negb (String.eqb k x)) (map key l).
Proof.
  induction l as [|y l IH]; simpl; [reflexivity|].
  destruct (String.eqb (key y) x); simpl; now rewrite IH.
Qed.

(** The arrays written back by [reorderItem] hold the ids of the
    store, each once. *)
Lemma uniqueIds_rebuilt (st : Bookmarks.Store) (dragged : Bookmarks.Item)
    (S T : option string) (now : Z) (idx : nat) :
  Bookmarks.uniqueIds st ->
  let st1 := Bookmarks.detach dragged st in
  let st2 := if optEq S T then st1 else Bookmarks.normalizeSiblings S st1 in
  let X := Bookmarks.indexOrders 0
             (spliceIn idx (Bookmarks.reparentItem dragged T now)
                (Bookmarks.sortByOrder (Bookmarks.getFolderSiblings T st2))) in
  Bookmarks.uniqueIds
    (Bookmarks.mkStore
       (filter (fun b => negb (Bookmarks.bChildOf T b)) (Bookmarks.bookmarks st2)
        ++ Bookmarks.bookmarksOf X)
       (filter (fun f => negb (Bookmarks.fChildOf T f)) (Bookmarks.folders st2)
        ++ Bookmarks.foldersOf X)).
Proof.
  intros [Hb Hf] st1 st2 X.
  set (d' := Bookmarks.reparentItem dragged T now).
  assert (HXperm : Permutation
                     (spliceIn idx d'
                        (Bookmarks.sortByOrder (Bookmarks.getFolderSiblings T st2)))
                     (d' :: Bookmarks.getFolderSiblings T st2)).
  { eapply Permutation_trans; [apply spliceIn_perm|].
    apply perm_skip. apply sortByOrder_perm. }
  assert (Hids2b : map Bookmarks.b_id (Bookmarks.bookmarks st2)
                   = map Bookmarks.b_id (Bookmarks.bookmarks st1)).
  { unfold st2. destruct (optEq S T); [reflexivity | apply normalize_bookmark_ids]. }
  assert (Hids2f : map Bookmarks.f_id (Bookmarks.folders st2)
                   = map Bookmarks.f_id (Bookmarks.folders st1)).
  { unfold st2. destruct (optEq S T); [reflexivity | apply normalize_folder_ids]. }
  split; simpl.
  - apply (Permutation_NoDup
             (l := map Bookmarks.b_id (Bookmarks.bookmarksOf [d'])
                   ++ map Bookmarks.b_id (Bookmarks.bookmarks st2))).
    + rewrite map_app. unfold X. rewrite bookmarksOf_indexOrders_ids.
      eapply Permutation_trans;
        [|apply Permutation_app_head; apply Permutation_map;
          apply Permutation_sym; apply bookmarksOf_perm; exact HXperm].
      change (d' :: Bookmarks.getFolderSiblings T st2)
        with ([d'] ++ Bookmarks.getFolderSiblings T st2).
      assert (Happ : forall a b, Bookmarks.bookmarksOf (a ++ b)
                                 = Bookmarks.bookmarksOf a ++ Bookmarks.bookmarksOf b).
      { induction a as [|[f|b0] a IH]; intro b; simpl; [reflexivity | apply IH |].
        now rewrite IH. }
      rewrite Happ, bookmarksOf_siblings, map_app.
      eapply Permutation_trans; [|apply Permutation_app_swap_app].
      apply Permutation_app_head. rewrite <- map_app. apply Permutation_map.
      apply Permutation_sym. apply filter_partition_perm.
    + rewrite Hids2b. unfold st1, d'. destruct dragged as [f|b]; simpl; [exact Hb|].
      unfold Bookmarks.bHasId. rewrite (map_filter_id Bookmarks.b_id).
      now apply NoDup_detached.
  - apply (Permutation_NoDup
             (l := map Bookmarks.f_id (Bookmarks.foldersOf [d'])
                   ++ map Bookmarks.f_id (Bookmarks.folders st2))).
    + rewrite map_app. unfold X. rewrite foldersOf_indexOrders_ids.
      eapply Permutation_trans;
        [|apply Permutation_app_head; apply Permutation_map;
          apply Permutation_sym; apply foldersOf_perm; exact HXperm].
      change (d' :: Bookmarks.getFolderSiblings T st2)
        with ([d'] ++ Bookmarks.getFolderSiblings T st2).
      assert (Happ : forall a b, Bookmarks.foldersOf (a ++ b)
                                 = Bookmarks.foldersOf a ++ Bookmarks.foldersOf b).
      { induction a as [|[f|b0] a IH]; intro b; simpl; [reflexivity | | apply IH].
        now rewrite IH. }
      rewrite Happ, foldersOf_siblings, map_app.
      eapply Permutation_trans; [|apply Permutation_app_swap_app].
      apply Permutation_app_head. rewrite <- map_app. apply Permutation_map.
      apply Permutation_sym. apply filter_partition_perm.
    + rewrite Hids2f. unfold st1, d'. destruct dragged as [f|b]; simpl; [|exact Hf].
      unfold Bookmarks.fHasId. rewrite (map_filter_id Bookmarks.f_id).
      now apply NoDup_detached.
Qed.

Lemma step_uniqueIds (st st' : Bookmarks.Store) :
  Bookmarks.uniqueIds st -> step st st' -> Bookmarks.uniqueIds st'.
Proof.
  intros Hu Hs. pose proof Hu as [Hb Hf].
  destruct Hs as [trim newId now1 now2 uri ln txt st [Hfb Hff]
                 |trim newId now1 now2 nm parent st [Hfb Hff]
                 |trim now i txt st | trim now i nm st | now i c st | i st
                 |fuel i st st' H | fuel now i T st st' _ _ H
                 |fuel now d t pos st st' H].
  - split; simpl; [|exact Hf]. rewrite map_app. now apply NoDup_snoc.
  - split; simpl; [exact Hb|]. rewrite map_app. now apply NoDup_snoc.
  - split; simpl; [|exact Hf]. rewrite updateFirst_map; [exact Hb | reflexivity].
  - split; simpl; [exact Hb|]. rewrite updateFirst_map; [exact Hf | reflexivity].
  - split; simpl; [|exact Hf]. rewrite updateFirst_map; [exact Hb | reflexivity].
  - unfold Bookmarks.deleteBookmark.
    destruct (find (Bookmarks.bHasId i) (Bookmarks.bookmarks st)); [|exact Hu].
    apply uniqueIds_normalize. split; simpl; [now apply NoDup_map_filter | exact Hf].
  - unfold Bookmarks.deleteFolder in H.
    destruct (find (Bookmarks.fHasId i) (Bookmarks.folders st)).
    2:{ injection H as <-. exact Hu. }
    destruct (Bookmarks.deleteFolderRecursive fuel i st) as [st1|] eqn:E1;
      [|discriminate].
    injection H as <-.
    destruct (deleteFolderRecursive_spec _ _ _ _ E1) as [D [_ [Hfo Hbo]]].
    apply uniqueIds_normalize. split.
    + rewrite Hbo. now apply NoDup_map_filter.
    + rewrite Hfo. now apply NoDup_map_filter.
  - unfold Bookmarks.moveToFolder in H.
    destruct (find (Bookmarks.bHasId i) (Bookmarks.bookmarks st)) as [b|].
    + injection H as <-.
      assert (Hu1 : Bookmarks.uniqueIds
                      (Bookmarks.withBookmarks st
                         (updateFirst (Bookmarks.bHasId i)
                            (fun b0 => Bookmarks.setBOrder
                                         (Bookmarks.reparentB b0 T now)
                                         (Bookmarks.maxOrder
                                            (Bookmarks.getFolderSiblings T st) + 1)%Z)
                            (Bookmarks.bookmarks st)))).
      { split; simpl; [|exact Hf].
        rewrite updateFirst_map; [exact Hb | reflexivity]. }
      destruct (optEq (Bookmarks.b_parentId b) T); [exact Hu1|].
      now apply uniqueIds_normalize.
    + destruct (find (Bookmarks.fHasId i) (Bookmarks.folders st)) as [f|].
      2:{ injection H as <-. exact Hu. }
      destruct (Bookmarks.validateFolderMove fuel i T st) as [[msg|]|];
        try discriminate.
      injection H as <-.
      assert (Hu1 : Bookmarks.uniqueIds
                      (Bookmarks.withFolders st
                         (updateFirst (Bookmarks.fHasId i)
                            (fun f0 => Bookmarks.setFOrder
                                         (Bookmarks.reparentF f0 T now)
                                         (Bookmarks.maxOrder
                                            (Bookmarks.getFolderSiblings T st) + 1)%Z)
                            (Bookmarks.folders st)))).
      { split; simpl; [exact Hb|].
        rewrite updateFirst_map; [exact Hf | reflexivity]. }
      destruct (optEq (Bookmarks.f_parentId f) T); [exact Hu1|].
      now apply uniqueIds_normalize.
  - unfold Bookmarks.reorderItem in H.
    destruct (match find (Bookmarks.bHasId d) (Bookmarks.bookmarks st),
                    find (Bookmarks.fHasId d) (Bookmarks.folders st) with
              | Some b, _ => Some (Bookmarks.IBookmark b)
              | None, Some f => Some (Bookmarks.IFolder f)
              | None, None => None
              end) as [dragged|]; [|discriminate].
    destruct (match find (Bookmarks.bHasId t) (Bookmarks.bookmarks st),
                    find (Bookmarks.fHasId t) (Bookmarks.folders st) with
              | Some b, _ => Some (Bookmarks.IBookmark b)
              | None, Some f => Some (Bookmarks.IFolder f)
              | None, None => None
              end) as [target|]; [|discriminate].
    destruct (match find (Bookmarks.fHasId d) (Bookmarks.folders st) with
              | Some f => Bookmarks.validateFolderMove fuel (Bookmarks.f_id f)
                            (Bookmarks.item_parentId target) st
              | None => Some None
              end) as [[msg|]|]; try discriminate.
    destruct (findIndex _ _) as [targetIndex|] in H; [|discriminate].
    injection H as <-.
    exact (uniqueIds_rebuilt st dragged (Bookmarks.item_parentId dragged)
             (Bookmarks.item_parentId target) now _ Hu).
Qed.

Lemma step_allDense (st st' : Bookmarks.Store) :
  Bookmarks.uniqueIds st -> Bookmarks.allDense st -> step st st' ->
  Bookmarks.allDense st'.
Proof.
  intros Hu Hd Hs.
  destruct Hs as [trim newId now1 now2 uri ln txt st _
                 |trim newId now1 now2 nm parent st _
                 |trim now i txt st | trim now i nm st | now i c st | i st
                 |fuel i st st' H | fuel now i T st st' Hb Hf H
                 |fuel now d t pos st st' H].
  - now apply addBookmark_dense.
  - now apply addFolder_dense.
  - now apply editBookmark_dense.
  - now apply editFolder_dense.
  - now apply changeBookmarkColor_dense.
  - now apply deleteBookmark_dense.
  - exact (deleteFolder_dense fuel i st st' Hu Hd H).
  - exact (moveToFolder_dense fuel now i T st st' Hu Hd Hb Hf H).
  - exact (reorderItem_dense fuel now d t pos st st' Hu Hd H).
Qed.

(** X22. Every store reached from the empty one by completed calls
    ([moveToFolder] taken with a target other than the current parent)
    has unique ids and dense sibling groups. *)
Theorem reachable_dense (st : Bookmarks.Store) :
  reachable st -> Bookmarks.uniqueIds st /\ Bookmarks.allDense st.
Proof.
  intro H. induction H as [|st st' _ [Hu Hd] Hs].
  - split; [split; constructor|]. intro p. apply dense_nil.
  - split; [exact (step_uniqueIds st st' Hu Hs) | exact (step_allDense st st' Hu Hd Hs)].
Qed.

(** * The rest of the todo store *)

(** ** Array helpers *)

Lemma findIndex_some {A : Type} (p : A -> bool) (l : list A) (k : nat) :
  findIndex p l = Some k ->
  exists x, nth_error l k = Some x /\ p x = true /\
            forall j y, j < k -> nth_error l j = Some y -> p y = false.
Proof.
  revert k. induction l as [|a l IH]; intros k H; simpl in H; [discriminate|].
  destruct (p a) eqn:Ea.
  - injection H as <-. exists a. repeat split; auto. intros j y Hj. lia.
  - destruct (findIndex p l) as [i|] eqn:Ei; [|discriminate].
    injection H as <-. destruct (IH i eq_refl) as [x [Hx [Hp Hlt]]].
    exists x. repeat split; auto.
    intros [|j] y Hj Hy; simpl in Hy.
    + now injection Hy as <-.
    + apply (Hlt j y); [lia | assumption].
Qed.

Lemma findIndex_none {A : Type} (p : A -> bool) (l : list A) :
  findIndex p l = None <-> forall x, In x l -> p x = false.
Proof.
  induction l as [|a l IH]; simpl.
  - split; [intros _ x [] | reflexivity].
  - destruct (p a) eqn:Ea.
    + split; [discriminate|]. intro H. specialize (H a (or_introl eq_refl)). congruence.
    + destruct (findIndex p l) as [i|].
      * split; [discriminate|]. intro H.
        assert (Hn : Some i = None) by (apply IH; intros x Hx; apply H; now right).
        discriminate.
      * split; [|reflexivity]. intros _ x [<-|Hx]; [assumption|].
        now apply IH.
Qed.

Lemma findIndex_first {A : Type} (p : A -> bool) (l : list A) (k : nat) (x : A) :
  nth_error l k = Some x -> p x = true ->
  (forall j y, j < k -> nth_error l j = Some y -> p y = false) ->
  findIndex p l = Some k.
Proof.
  revert k. induction l as [|a l IH]; intros [|k] Hx Hp Hlt; simpl in *;
    try discriminate.
  - injection Hx as ->. now rewrite Hp.
  - rewrite (Hlt 0 a); [|lia|reflexivity].
    rewrite (IH k Hx Hp); [reflexivity|].
    intros j y Hj Hy. apply (Hlt (S j) y); [lia | exact Hy].
Qed.

Lemma nth_split {A : Type} (l : list A) (k : nat) (x : A) :
  nth_error l k = Some x -> l = firstn k l ++ x :: skipn (S k) l.
Proof.
  revert k. induction l as [|a l IH]; intros [|k] H; simpl in *; try discriminate.
  - now injection H as ->.
  - f_equal. now apply IH.
Qed.

Lemma setNth_neighbours {A : Type} (l : list A) (k : nat) (a b : A) :
  nth_error l k = Some a -> nth_error l (S k) = Some b ->
  TodoService.setNth k b (TodoService.setNth (S k) a l)
  = firstn k l ++ b :: a :: skipn (S (S k)) l /\
  TodoService.setNth (S k) a (TodoService.setNth k b l)
  = firstn k l ++ b :: a :: skipn (S (S k)) l.
Proof.
  revert k. induction l as [|x l IH]; intros k Ha Hb; [destruct k; discriminate|].
  destruct k as [|k].
  - destruct l as [|y l]; [discriminate|]. split; reflexivity.
  - change (nth_error l k = Some a) in Ha.
    change (nth_error l (S k) = Some b) in Hb.
    destruct (IH k Ha Hb) as [E1 E2].
    change (x :: TodoService.setNth k b (TodoService.setNth (S k) a l)
            = x :: (firstn k l ++ b :: a :: skipn (S (S k)) l) /\
            x :: TodoService.setNth (S k) a (TodoService.setNth k b l)
            = x :: (firstn k l ++ b :: a :: skipn (S (S k)) l)).
    now rewrite E1, E2.
Qed.

(** Two neighbours change places. *)
Lemma swap_neighbours {A : Type} (l : list A) (k : nat) (a b : A) :
  nth_error l k = Some a -> nth_error l (S k) = Some b ->
  TodoService.swap (S k) k l = firstn k l ++ b :: a :: skipn (S (S k)) l /\
  TodoService.swap k (S k) l = firstn k l ++ b :: a :: skipn (S (S k)) l.
Proof.
  intros Ha Hb. unfold TodoService.swap. rewrite Ha, Hb.
  destruct (setNth_neighbours l k a b Ha Hb) as [E1 E2]. now rewrite E1, E2.
Qed.

Lemma filter_negb_length {A : Type} (p : A -> bool) (l : list A) :
  List.length (filter p l) + List.length (filter (fun x => negb (p x)) l)
  = List.length l.
Proof.
  induction l as [|a l IH]; simpl; [reflexivity|].
  destruct (p a); simpl; lia.
Qed.

(** ** Statistics *)

(** X1. The five numbers of [getTodoStats] fit together: [remaining] counts
    the todos that are not done and is never negative, [completed] is
    at most [total], and every todo is counted once as a root or as a
    sub-todo, a todo whose [parentId] is the empty string counting as a
    root. *)
Theorem getTodoStats_counts :
  forall todos,
    let s := TodoService.getTodoStats todos in
    TodoService.remaining s
    = Z.of_nat (List.length (filter (fun t => negb (Todos.done t)) todos)) /\
    (0 <= TodoService.completed s <= TodoService.total s)%Z /\
    (TodoService.rootCount s + TodoService.subTodoCount s = TodoService.total s)%Z.
Proof.
  intro todos. simpl.
  pose proof (filter_negb_length Todos.done todos) as H1.
  pose proof (filter_negb_length (fun t => truthy (Todos.parentId t)) todos) as H2.
  repeat split; lia.
Qed.

Lemma toggleTodo_counts (now : Z) (i : string) (todos : list Todos.Todo)
    (t : Todos.Todo) :
  find (Todos.hasId i) todos = Some t ->
  let todos' := Todos.toggleTodo now i todos in
  List.length todos' = List.length todos /\
  List.length (filter Todos.done todos') + (if Todos.done t then 1 else 0)
  = List.length (filter Todos.done todos) + (if Todos.done t then 0 else 1) /\
  List.length (filter (fun todo => negb (truthy (Todos.parentId todo))) todos')
  = List.length (filter (fun todo => negb (truthy (Todos.parentId todo))) todos).
Proof.
  intro H. unfold Todos.toggleTodo.
  induction todos as [|a l IH]; simpl in *; [discriminate|].
  destruct (Todos.hasId i a) eqn:Ea.
  - injection H as ->. simpl. destruct (Todos.done t); simpl;
      destruct (truthy (Todos.parentId t)); simpl; repeat split; lia.
  - specialize (IH H). simpl. destruct (Todos.done a); simpl;
      destruct (truthy (Todos.parentId a)); simpl; repeat split; lia.
Qed.

(** X2. [toggleTodo] on an id of the store moves one todo between
    [completed] and [remaining] and leaves [total] and [rootCount]
    alone. *)
Theorem toggleTodo_stats :
  forall now i todos t,
    find (Todos.hasId i) todos = Some t ->
    let s := TodoService.getTodoStats todos in
    let s' := TodoService.getTodoStats (Todos.toggleTodo now i todos) in
    TodoService.total s' = TodoService.total s /\
    TodoService.completed s'
    = (TodoService.completed s + (if Todos.done t then -1 else 1))%Z /\
    TodoService.remaining s'
    = (TodoService.remaining s + (if Todos.done t then 1 else -1))%Z /\
    TodoService.rootCount s' = TodoService.rootCount s.
Proof.
  intros now i todos t H.
  destruct (toggleTodo_counts now i todos t H) as [H1 [H2 H3]].
  unfold TodoService.getTodoStats.
  cbn [TodoService.total TodoService.completed TodoService.remaining
       TodoService.rootCount].
  destruct (Todos.done t); repeat split; lia.
Qed.

(** Witness of [toggleTodo_stats]. *)
Lemma toggleTodo_stats_witness :
  let todos := [Todos.mkTodo "a" "A" false 0 0 0 None;
                Todos.mkTodo "b" "B" true 0 0 1 (Some "a")] in
  let s := TodoService.getTodoStats todos in
  let s' := TodoService.getTodoStats (Todos.toggleTodo 5 "b" todos) in
  TodoService.total s' = TodoService.total s /\
  TodoService.completed s' = (TodoService.completed s + -1)%Z /\
  TodoService.remaining s' = (TodoService.remaining s + 1)%Z /\
  TodoService.rootCount s' = TodoService.rootCount s.
Proof.
  exact (toggleTodo_stats 5 "b"
           [Todos.mkTodo "a" "A" false 0 0 0 None;
            Todos.mkTodo "b" "B" true 0 0 1 (Some "a")]
           (Todos.mkTodo "b" "B" true 0 0 1 (Some "a")) eq_refl).
Defined.

(** ** Reordering todos *)

Lemma todo_indexOrders_orders (l : list Todos.Todo) :
  forall index,
    map Todos.order (Todos.indexOrders index l)
    = map Z.of_nat (seq index (List.length l)).
Proof.
  induction l as [|a l IH]; intro index; simpl; [reflexivity|].
  now rewrite IH.
Qed.

Lemma todo_indexOrders_erase (l : list Todos.Todo) :
  forall index, map eraseOrder (Todos.indexOrders index l) = map eraseOrder l.
Proof.
  induction l as [|a l IH]; intro index; simpl; [reflexivity|].
  now rewrite IH.
Qed.

Lemma spliceOut_length {A : Type} (l : list A) (d : nat) (x : A) :
  nth_error l d = Some x -> S (List.length (spliceOut d l)) = List.length l.
Proof.
  intro H. unfold spliceOut.
  rewrite (nth_split l d x H) at 3.
  rewrite !length_app. simpl. lia.
Qed.

Lemma spliceIn_nth {A : Type} (l : list A) (t : nat) (x : A) :
  t <= List.length l -> nth_error (spliceIn t x l) t = Some x.
Proof.
  intro H. unfold spliceIn.
  rewrite nth_error_app2; rewrite length_firstn, Nat.min_l by lia; [|lia].
  now rewrite Nat.sub_diag.
Qed.

Lemma spliceOut_spliceIn {A : Type} (l : list A) (t : nat) (x : A) :
  t <= List.length l -> spliceOut t (spliceIn t x l) = l.
Proof.
  intro H. unfold spliceOut, spliceIn.
  assert (Hl : List.length (firstn t l) = t) by (rewrite length_firstn; lia).
  rewrite firstn_app, Hl, Nat.sub_diag, firstn_firstn, Nat.min_id.
  change (firstn 0 (x :: skipn t l)) with (@nil A).
  rewrite app_nil_r.
  rewrite skipn_app, Hl.
  replace (S t - t) with 1 by lia.
  change (skipn 1 (x :: skipn t l)) with (skipn t l).
  rewrite (skipn_all2 (firstn t l)) by lia.
  apply firstn_skipn.
Qed.

Lemma spliceOut_map {A B : Type} (f : A -> B) (l : list A) (t : nat) :
  map f (spliceOut t l) = spliceOut t (map f l).
Proof. unfold spliceOut. now rewrite map_app, firstn_map, skipn_map. Qed.

(** X3. [reorderTodo] with two ids of the store puts the dragged todo at
    the index the target had, keeps the others in their sequence, and
    numbers the whole array 0,1,...,n-1 by position; no field other
    than [order] is written, so a todo dragged on a todo of another
    parent stays under its own parent.  With an id that is not in the
    store nothing changes. *)
Theorem reorderTodo_spec :
  forall draggedId targetId todos,
    let r := Todos.reorderTodo draggedId targetId todos in
    match findIndex (Todos.hasId draggedId) todos,
          findIndex (Todos.hasId targetId) todos with
    | Some d, Some t =>
        map Todos.order r = map Z.of_nat (seq 0 (List.length todos)) /\
        nth_error (map eraseOrder r) t = nth_error (map eraseOrder todos) d /\
        map eraseOrder (spliceOut t r) = map eraseOrder (spliceOut d todos)
    | _, _ => r = todos
    end.
Proof.
  intros draggedId targetId todos r. unfold r, Todos.reorderTodo.
  destruct (findIndex (Todos.hasId draggedId) todos) as [d|] eqn:Ed; [|reflexivity].
  destruct (findIndex (Todos.hasId targetId) todos) as [t|] eqn:Et; [|reflexivity].
  destruct (findIndex_some _ _ _ Ed) as [x [Hx _]].
  destruct (findIndex_some _ _ _ Et) as [y [Hy _]].
  rewrite Hx.
  pose proof (spliceOut_length todos d x Hx) as Hlen.
  assert (Ht : t <= List.length (spliceOut d todos)).
  { assert (t < List.length todos) by (apply nth_error_Some; congruence). lia. }
  repeat split.
  - rewrite todo_indexOrders_orders. f_equal. f_equal.
    unfold spliceIn. rewrite length_app. simpl.
    pose proof (f_equal (@List.length _) (firstn_skipn t (spliceOut d todos))) as Hs.
    rewrite length_app in Hs. lia.
  - rewrite todo_indexOrders_erase, !nth_error_map, Hx.
    now rewrite (spliceIn_nth _ _ x Ht).
  - rewrite spliceOut_map, todo_indexOrders_erase, <- spliceOut_map.
    now rewrite (spliceOut_spliceIn _ _ x Ht).
Qed.

(** ** Moving a todo by one place *)

Lemma moveTodoUp_found (i : string) (todos : list Todos.Todo) (k : nat) :
  findIndex (Todos.hasId i) todos = Some (S k) ->
  exists prev cur,
    nth_error todos k = Some prev /\ nth_error todos (S k) = Some cur /\
    TodoService.moveTodoUp i todos
    = firstn k todos ++ cur :: prev :: skipn (S (S k)) todos /\
    findIndex (Todos.hasId i) (TodoService.moveTodoUp i todos) = Some k.
Proof.
  intro E. unfold TodoService.moveTodoUp. rewrite E.
  destruct (findIndex_some _ _ _ E) as [cur [Hc [Hp Hlt]]].
  assert (Hk : k < List.length todos).
  { assert (S k < List.length todos) by (apply nth_error_Some; congruence). lia. }
  destruct (nth_error todos k) as [prev|] eqn:Hprev;
    [|apply nth_error_None in Hprev; lia].
  exists prev, cur. repeat split; auto.
  - apply (swap_neighbours todos k prev cur Hprev Hc).
  - rewrite (proj1 (swap_neighbours todos k prev cur Hprev Hc)).
    apply findIndex_first with (x := cur); [|exact Hp|].
    + rewrite nth_error_app2; rewrite length_firstn, Nat.min_l by lia; [|lia].
      now rewrite Nat.sub_diag.
    + intros j y Hj Hy.
      rewrite nth_error_app1 in Hy by (rewrite length_firstn; lia).
      rewrite nth_error_firstn in Hy.
      destruct (Nat.ltb_spec j k); [|lia].
      apply (Hlt j y); [lia | exact Hy].
Qed.

(** X4. [moveTodoUp] exchanges the todo with the one before it, after which
    it is found one index earlier; the first todo and an id that is
    not in the store are left where they are.  The [order] fields are
    not touched. *)
Theorem moveTodoUp_spec :
  forall i todos,
    let r := TodoService.moveTodoUp i todos in
    match findIndex (Todos.hasId i) todos with
    | Some (S k) =>
        exists prev cur,
          nth_error todos k = Some prev /\ nth_error todos (S k) = Some cur /\
          r = firstn k todos ++ cur :: prev :: skipn (S (S k)) todos /\
          findIndex (Todos.hasId i) r = Some k
    | _ => r = todos
    end.
Proof.
  intros i todos r. unfold r.
  destruct (findIndex (Todos.hasId i) todos) as [[|k]|] eqn:E.
  - unfold TodoService.moveTodoUp. now rewrite E.
  - now apply moveTodoUp_found.
  - unfold TodoService.moveTodoUp. now rewrite E.
Qed.

(** X5. [moveTodoDown] exchanges the todo with the one after it and leaves
    the last todo where it is; with an id that is not in the store and
    a store that is not empty, it puts [undefined] in the first place
    of the array. *)
Theorem moveTodoDown_spec :
  forall i todos,
    let r := TodoService.moveTodoDown i todos in
    match findIndex (Todos.hasId i) todos with
    | Some k =>
        match nth_error todos (S k) with
        | Some next =>
            exists cur,
              nth_error todos k = Some cur /\
              r = map Some (firstn k todos ++ next :: cur :: skipn (S (S k)) todos)
        | None => r = map Some todos
        end
    | None =>
        List.length r = List.length todos /\
        (todos <> [] -> nth_error r 0 = Some None) /\
        skipn 1 r = map Some (skipn 1 todos)
    end.
Proof.
  intros i todos r. unfold r, TodoService.moveTodoDown.
  destruct (findIndex (Todos.hasId i) todos) as [k|] eqn:E.
  - destruct (findIndex_some _ _ _ E) as [cur [Hc _]].
    destruct (nth_error todos (S k)) as [next|] eqn:Hn.
    + assert (Hlt : S k < List.length todos) by (apply nth_error_Some; congruence).
      destruct (Nat.ltb_spec (S k) (List.length todos)); [|lia].
      exists cur. split; [exact Hc|].
      now rewrite (proj2 (swap_neighbours todos k cur next Hc Hn)).
    + apply nth_error_None in Hn.
      destruct (Nat.ltb_spec (S k) (List.length todos)); [lia | reflexivity].
  - destruct todos as [|a rest]; simpl.
    + repeat split. intro H. contradiction.
    + rewrite length_map. repeat split.
Qed.

(** ** Deleting a todo *)

Lemma keptTodo_false (D : list string) (t : Todos.Todo) :
  keptTodo D t = false <-> In (Todos.id t) D.
Proof. unfold keptTodo. rewrite negb_false_iff. apply setHas_In. Qed.

Lemma keptTodo_app (D1 D2 : list string) (t : Todos.Todo) :
  keptTodo (D1 ++ D2) t = keptTodo D1 t && keptTodo D2 t.
Proof. unfold keptTodo. now rewrite setHas_app, negb_orb. Qed.

Lemma keptTodo_cons (a : string) (D : list string) (t : Todos.Todo) :
  keptTodo (a :: D) t = keptTodo D t && negb (Todos.hasId a t).
Proof.
  unfold keptTodo, Todos.hasId, setHas. simpl.
  rewrite negb_orb. apply andb_comm.
Qed.

Lemma filter_keptTodo_nil (todos : list Todos.Todo) :
  filter (keptTodo []) todos = todos.
Proof. apply forallb_filter_id. apply forallb_forall. reflexivity. Qed.

(** Todos outside a closed set keep the descendants that are outside it. *)
Lemma todo_descendant_restrict (todos cur : list Todos.Todo) (D : list string)
    (c x : string) :
  closedTodos todos D ->
  cur = filter (keptTodo D) todos ->
  Todos.descendant todos c x ->
  In x D \/ Todos.descendant cur c x.
Proof.
  intros Hcl Hcur H. induction H as [g Hg Hp | g m Hg Hp _ IH].
  - destruct (keptTodo D g) eqn:E.
    + right. apply Forest.desc_child; [|exact Hp].
      subst cur. apply filter_In. auto.
    + left. now apply keptTodo_false.
  - destruct (keptTodo D g) eqn:E.
    + destruct IH as [Hm|Hd].
      * left. exact (Hcl m g Hm Hg Hp).
      * right. apply Forest.desc_up with (m := m); [|exact Hp|exact Hd].
        subst cur. apply filter_In. auto.
    + left. now apply keptTodo_false.
Qed.

(** [deleteRecursive] removes the todos whose id is in the subtree, and
    nothing else. *)
Lemma deleteRecursive_spec :
  forall fuel a todos todos',
    Todos.deleteRecursive fuel a todos = Some todos' ->
    exists D,
      (forall x, In x D <-> Todos.inSubtree todos a x) /\
      todos' = filter (keptTodo D) todos.
Proof.
  induction fuel as [|n IH]; intros a todos todos' H; [discriminate|].
  simpl in H.
  assert (Hfold : forall cs cur D0 ts2,
             (forall c, In c cs -> In c todos /\ Todos.parentId c = Some a) ->
             closedTodos todos D0 ->
             cur = filter (keptTodo D0) todos ->
             fold_left (fun acc child =>
                          match acc with
                          | Some ts => Todos.deleteRecursive n (Todos.id child) ts
                          | None => None
                          end) cs (Some cur) = Some ts2 ->
             exists D,
               (forall x, In x D <->
                          In x D0 \/
                          exists c, In c cs /\ Todos.inSubtree todos (Todos.id c) x) /\
               ts2 = filter (keptTodo D) todos).
  { induction cs as [|c cs IHcs]; intros cur D0 ts2 Hcs Hcl Hcur Hf; simpl in Hf.
    - injection Hf as <-. exists D0. split; [|exact Hcur].
      intro x. split; [auto|]. intros [?|[c [[] _]]]. assumption.
    - destruct (Todos.deleteRecursive n (Todos.id c) cur) as [cur'|] eqn:E.
      2:{ rewrite (fold_none (fun child ts =>
                                Todos.deleteRecursive n (Todos.id child) ts)) in Hf.
          discriminate. }
      destruct (IH _ _ _ E) as [Dc [HDc Hcur']].
      assert (Hincl : incl cur todos).
      { intros g Hg. rewrite Hcur in Hg. apply filter_In in Hg. tauto. }
      assert (Hcl1 : closedTodos todos (D0 ++ Dc)).
      { intros y g Hy Hg Hp. apply in_app_iff. apply in_app_iff in Hy.
        destruct Hy as [Hy|Hy]; [left; exact (Hcl y g Hy Hg Hp)|].
        destruct (keptTodo D0 g) eqn:Ek; [|left; now apply keptTodo_false].
        right. apply HDc. right.
        assert (Hgc : In g cur) by (rewrite Hcur; apply filter_In; auto).
        apply HDc in Hy. destruct Hy as [->|Hy].
        - apply Forest.desc_child; assumption.
        - apply Forest.desc_up with (m := y); assumption. }
      destruct (IHcs cur' (D0 ++ Dc) ts2) as [D [HD Hts2]]; auto.
      + intros c' Hc'. apply Hcs. now right.
      + rewrite Hcur', Hcur, filter_and. apply filter_ext.
        intro g. now rewrite keptTodo_app.
      + exists D. split; [|exact Hts2]. intro x. split.
        * intro Hx. apply HD in Hx. destruct Hx as [Hx|[c' [Hc' Hs]]].
          -- apply in_app_iff in Hx. destruct Hx as [Hx|Hx]; [now left|].
             right. exists c. split; [now left|].
             apply HDc in Hx. destruct Hx as [->|Hx]; [now left|].
             right. exact (descendant_incl _ _ _ _ _ _ Hincl Hx).
          -- right. exists c'. split; [now right | assumption].
        * intros [Hx|[c' [[<-|Hc'] Hs]]]; apply HD.
          -- left. apply in_app_iff. now left.
          -- left. apply in_app_iff.
             destruct Hs as [->|Hs].
             ++ right. apply HDc. now left.
             ++ destruct (todo_descendant_restrict todos _ D0 _ _ Hcl Hcur Hs) as [?|Hd];
                  [now left|]. right. apply HDc. now right.
          -- right. exists c'. auto. }
  destruct (fold_left _ _ _) as [ts2|] eqn:Ef in H; [|discriminate].
  injection H as <-.
  destruct (Hfold (filter (Todos.childOf (Some a)) todos) todos [] ts2)
    as [D [HD Hts2]].
  - intros c Hc. apply filter_In in Hc. destruct Hc as [Hc Hp].
    apply optEq_true in Hp. auto.
  - intros y g [].
  - symmetry. apply filter_keptTodo_nil.
  - exact Ef.
  - exists (a :: D). split.
    + intro x. split.
      * intros [<-|Hx]; [now left|]. right.
        apply HD in Hx. destruct Hx as [[]|[c [Hc Hs]]].
        apply (descendant_top Todos.id Todos.parentId).
        exists c. apply filter_In in Hc. destruct Hc as [Hc Hp].
        apply optEq_true in Hp. auto.
      * intros [->|Hx]; [now left|]. right. apply HD. right.
        apply (descendant_top Todos.id Todos.parentId) in Hx.
        destruct Hx as [c [Hc [Hp Hs]]]. exists c. split; [|exact Hs].
        apply filter_In. split; [assumption | now apply optEq_true].
    + rewrite Hts2, filter_and. apply filter_ext.
      intro g. now rewrite keptTodo_cons.
Qed.

Lemma deleteRecursive_total (todos : list Todos.Todo) (rank : string -> nat) :
  (forall c p, In c todos -> Todos.parentId c = Some p -> rank (Todos.id c) < rank p) ->
  forall n fuel a cur,
    incl cur todos ->
    n < fuel ->
    (forall c, In c todos -> Todos.parentId c = Some a -> rank (Todos.id c) < n) ->
    exists todos', Todos.deleteRecursive fuel a cur = Some todos'.
Proof.
  intro Hr.
  assert (Hloop : forall k a,
             (forall c cur1, In c todos -> Todos.parentId c = Some a ->
                             incl cur1 todos ->
                             exists ts, Todos.deleteRecursive k (Todos.id c) cur1 = Some ts) ->
             forall cs cur1,
               incl cur1 todos ->
               (forall c, In c cs -> In c todos /\ Todos.parentId c = Some a) ->
               exists ts2,
                 fold_left (fun acc child =>
                              match acc with
                              | Some ts => Todos.deleteRecursive k (Todos.id child) ts
                              | None => None
                              end) cs (Some cur1) = Some ts2).
  { intros k a Hrec. induction cs as [|c cs IHcs]; intros cur1 Hi Hcs; simpl; [eauto|].
    destruct (Hcs c (or_introl eq_refl)) as [Hc Hp].
    destruct (Hrec c cur1 Hc Hp Hi) as [cur2 E]. rewrite E.
    apply IHcs; [|intros c' Hc'; apply Hcs; now right].
    destruct (deleteRecursive_spec _ _ _ _ E) as [D [_ Hts]].
    intros g Hg. rewrite Hts in Hg. apply filter_In in Hg. apply Hi. tauto. }
  assert (Hkids : forall a cur, incl cur todos ->
             forall c, In c (filter (Todos.childOf (Some a)) cur) ->
                       In c todos /\ Todos.parentId c = Some a).
  { intros a cur Hi c Hin. apply filter_In in Hin. destruct Hin as [Hin Hp].
    apply optEq_true in Hp. auto. }
  induction n as [|n IH]; intros fuel a cur Hi Hf Hc;
    (destruct fuel as [|fuel]; [lia|]); simpl.
  - destruct (Hloop fuel a) with
      (cs := filter (Todos.childOf (Some a)) cur) (cur1 := cur) as [ts2 E].
    + intros c cur1 Hin Hp _. specialize (Hc c Hin Hp). lia.
    + exact Hi.
    + now apply Hkids.
    + rewrite E. eauto.
  - destruct (Hloop fuel a) with
      (cs := filter (Todos.childOf (Some a)) cur) (cur1 := cur) as [ts2 E].
    + intros c cur1 Hin Hp Hi1. apply IH; [exact Hi1 | lia |].
      intros g Hg Hpg. specialize (Hr g _ Hg Hpg). specialize (Hc c Hin Hp). lia.
    + exact Hi.
    + now apply Hkids.
    + rewrite E. eauto.
Qed.

(** X6. In a store without a cycle [deleteTodo] ends; it removes the todo
    with the given id and every todo below it, and keeps the others as
    they are and in their sequence.  With an id that no todo carries,
    the todos that name it as their parent go, with what is below
    them. *)
Theorem deleteTodo_cascade :
  forall todos i,
    Todos.acyclic todos ->
    exists N, forall fuel, N <= fuel ->
      exists keep,
        Todos.deleteTodo fuel i todos = Some (filter keep todos) /\
        forall t, In t todos ->
                  (keep t = false <-> Todos.inSubtree todos i (Todos.id t)).
Proof.
  intros todos i [rank Hr].
  destruct (rank_bound Todos.id rank todos) as [B HB].
  exists (S B). intros fuel Hf.
  destruct (deleteRecursive_total todos rank Hr B fuel i todos) as [todos' E].
  - apply incl_refl.
  - lia.
  - intros c Hc _. now apply HB.
  - destruct (deleteRecursive_spec _ _ _ _ E) as [D [HD Hts]].
    exists (keptTodo D). unfold Todos.deleteTodo. rewrite E, Hts. split; [reflexivity|].
    intros t _. rewrite keptTodo_false. apply HD.
Qed.

(** Witness of [deleteTodo_cascade]. *)
Lemma deleteTodo_cascade_witness :
  let todos := [Todos.mkTodo "a" "A" false 0 0 0 None;
                Todos.mkTodo "b" "B" false 0 0 1 (Some "a");
                Todos.mkTodo "c" "C" false 0 0 2 None] in
  Todos.acyclic todos /\
  exists N, forall fuel, N <= fuel ->
    exists keep,
      Todos.deleteTodo fuel "a" todos = Some (filter keep todos) /\
      forall t, In t todos ->
                (keep t = false <-> Todos.inSubtree todos "a" (Todos.id t)).
Proof.
  intro todos.
  assert (Ha : Todos.acyclic todos).
  { exists (fun s => if String.eqb s "a" then 1 else 0).
    intros c p [<-|[<-|[<-|[]]]] Hp; simpl in Hp; try discriminate.
    injection Hp as <-. simpl. lia. }
  split; [exact Ha | exact (deleteTodo_cascade todos "a" Ha)].
Defined.

(** ** Clearing twice *)

Lemma markChecked_none_done (fuel : nat) (todos : list Todos.Todo) :
  (forall t, In t todos -> Todos.done t = false) ->
  Todos.markChecked fuel todos = Some [].
Proof.
  unfold Todos.markChecked. generalize (@nil string).
  generalize todos at 1 3.
  induction todos0 as [|t ts IH]; intros S0 H; simpl; [reflexivity|].
  rewrite (H t (or_introl eq_refl)). apply IH.
  intros t' Ht'. apply H. now right.
Qed.

(** X7. What [clearCheckedTodos] leaves holds no done todo, and a second
    [clearCheckedTodos] right after the first changes nothing. *)
Theorem clearCheckedTodos_idempotent :
  forall fuel fuel' todos todos',
    Todos.clearCheckedTodos fuel todos = Some todos' ->
    (forall t, In t todos' -> Todos.done t = false) /\
    Todos.clearCheckedTodos fuel' todos' = Some todos'.
Proof.
  intros fuel fuel' todos todos' H.
  assert (Hnd : forall t, In t todos' -> Todos.done t = false).
  { unfold Todos.clearCheckedTodos in H.
    destruct (Todos.markChecked fuel todos) as [D|] eqn:E; [|discriminate].
    pose proof (markChecked_spec _ _ _ E) as HD.
    assert (Hin : forall t, In t todos -> Todos.done t = true -> In (Todos.id t) D).
    { intros t Ht Hd. apply HD. exists t. repeat split; auto. now left. }
    destruct (Nat.eqb_spec (List.length D) 0) as [E0|E0]; injection H as <-.
    - intros t Ht. destruct (Todos.done t) eqn:Ed; [|reflexivity].
      specialize (Hin t Ht Ed). destruct D; [contradiction | discriminate].
    - intros t Ht. apply filter_In in Ht. destruct Ht as [Ht Hk].
      destruct (Todos.done t) eqn:Ed; [|reflexivity].
      specialize (Hin t Ht Ed). apply setHas_In in Hin.
      rewrite Hin in Hk. discriminate. }
  split; [exact Hnd|].
  unfold Todos.clearCheckedTodos. now rewrite (markChecked_none_done fuel' todos' Hnd).
Qed.

(** Witness of [clearCheckedTodos_idempotent]. *)
Lemma clearCheckedTodos_idempotent_witness :
  let todos := [Todos.mkTodo "a" "A" true 0 0 0 None;
                Todos.mkTodo "b" "B" false 0 0 1 (Some "a");
                Todos.mkTodo "c" "C" false 0 0 2 None] in
  let todos' := [Todos.mkTodo "c" "C" false 0 0 2 None] in
  Todos.clearCheckedTodos 3 todos = Some todos' /\
  (forall t, In t todos' -> Todos.done t = false) /\
  Todos.clearCheckedTodos 0 todos' = Some todos'.
Proof.
  split; [reflexivity|].
  exact (clearCheckedTodos_idempotent 3 0
           [Todos.mkTodo "a" "A" true 0 0 0 None;
            Todos.mkTodo "b" "B" false 0 0 1 (Some "a");
            Todos.mkTodo "c" "C" false 0 0 2 None]
           [Todos.mkTodo "c" "C" false 0 0 2 None] eq_refl).
Defined.

(** ** The nesting gate of [addSubTodo] *)

Lemma find_todo_some (i : string) (todos : list Todos.Todo) (t : Todos.Todo) :
  find (Todos.hasId i) todos = Some t -> In t todos /\ Todos.id t = i.
Proof.
  intro H. apply find_some in H. destruct H as [Hin E].
  apply String.eqb_eq in E. auto.
Qed.

Lemma find_todo_unique (todos : list Todos.Todo) (c : Todos.Todo) :
  NoDup (map Todos.id todos) -> In c todos ->
  find (Todos.hasId (Todos.id c)) todos = Some c.
Proof. intros Hn Hc. exact (find_by_key Todos.id todos c Hn Hc). Qed.

Lemma find_snoc_other {A : Type} (p : A -> bool) (l : list A) (x : A) :
  p x = false -> find p (l ++ [x]) = find p l.
Proof.
  intro H. induction l as [|a l IH]; simpl.
  - now rewrite H.
  - destruct (p a); [reflexivity | exact IH].
Qed.

Lemma find_snoc_new {A : Type} (p : A -> bool) (l : list A) (x : A) :
  (forall a, In a l -> p a = false) -> p x = true -> find p (l ++ [x]) = Some x.
Proof.
  intros H Hx. induction l as [|a l IH]; simpl.
  - now rewrite Hx.
  - rewrite (H a (or_introl eq_refl)). apply IH. intros b Hb. apply H. now right.
Qed.

(** X8. A sub-todo that [addSubTodo] accepts, created with a new id, is at
    depth 3 at most, and the store holds 100 todos at most. *)
Theorem addSubTodo_depth :
  forall trim fuel newId now1 now2 input parentId todos todos',
    freshTodoId newId todos ->
    parentId <> newId ->
    TodosProvider.addSubTodo trim fuel newId now1 now2 input parentId todos
    = Some (TodosProvider.Added todos') ->
    List.length todos' <= 100 /\
    exists d, d <= 3 /\
              forall fuel', 3 <= fuel' ->
                            TodoService.getTodoDepth fuel' newId todos' = Some d.
Proof.
  intros trim fuel newId now1 now2 input parentId todos todos' Hfresh Hne H.
  unfold TodosProvider.addSubTodo in H.
  destruct (TodoValidator.validateNesting fuel todos (Some parentId))
    as [[msg|]|] eqn:Ev; try discriminate.
  unfold Todos.validateTotalCount in H.
  destruct (Nat.leb_spec 100 (List.length todos)) as [Hl|Hl]; [discriminate|].
  injection H as <-. unfold Todos.addTodo. cbn [snd].
  set (new := Todos.mkTodo newId (trim input) false now1 now2
                (Z.of_nat (List.length todos)) (Some parentId)).
  split; [rewrite length_app; simpl; lia|].
  assert (Hnew : TodoService.findTodo newId (todos ++ [new]) = Some new).
  { apply find_snoc_new.
    - intros a Ha. unfold Todos.hasId. apply String.eqb_neq. now apply Hfresh.
    - unfold Todos.hasId. apply String.eqb_refl. }
  assert (Hold : forall q, q <> newId ->
                           TodoService.findTodo q (todos ++ [new])
                           = find (Todos.hasId q) todos).
  { intros q Hq. apply find_snoc_other. unfold Todos.hasId. simpl.
    apply String.eqb_neq. congruence. }
  assert (Hpar : forall t q, In t todos -> Todos.parentId t = Some q -> q <> newId).
  { intros t q Ht Hq E. subst q. now apply (Hfresh t Ht). }
  unfold TodoService.getTodoDepth. rewrite Hnew.
  unfold TodoValidator.validateNesting in Ev.
  destruct (String.eqb_spec parentId "") as [E0|E0].
  { exists 1. split; [lia|]. intros [|f] Hf; [lia|]. simpl.
    destruct (String.eqb_spec parentId ""); [reflexivity | contradiction]. }
  destruct fuel as [|fuel]; [discriminate|]. simpl in Ev.
  destruct (String.eqb_spec parentId ""); [contradiction|].
  destruct (find (Todos.hasId parentId) todos) as [p1|] eqn:E1.
  2:{ exists 1. split; [lia|]. intros [|[|f]] Hf; try lia. simpl.
      destruct (String.eqb_spec parentId ""); [contradiction|].
      now rewrite (Hold parentId Hne), E1. }
  destruct (find_todo_some _ _ _ E1) as [Hp1 _].
  assert (Hstep1 : forall f depth,
             TodoService.getTodoDepth_loop (S f) (todos ++ [new]) depth (Some new)
             = TodoService.getTodoDepth_loop f (todos ++ [new]) (S depth) (Some p1)).
  { intros f depth. simpl.
    destruct (String.eqb_spec parentId ""); [contradiction|].
    now rewrite (Hold parentId Hne), E1. }
  destruct (Todos.parentId p1) as [q|] eqn:Eq1.
  2:{ exists 2. split; [lia|]. intros [|[|f]] Hf; try lia.
      rewrite Hstep1. simpl. now rewrite Eq1. }
  destruct (String.eqb_spec q "") as [Eq0|Eq0].
  { exists 2. split; [lia|]. intros [|[|f]] Hf; try lia.
    rewrite Hstep1. simpl. rewrite Eq1.
    destruct (String.eqb_spec q ""); [reflexivity | contradiction]. }
  pose proof (Hpar p1 q Hp1 Eq1) as Hq.
  destruct fuel as [|fuel]; [discriminate|]. simpl in Ev.
  destruct (String.eqb_spec q ""); [contradiction|].
  destruct (find (Todos.hasId q) todos) as [p2|] eqn:E2.
  2:{ exists 2. split; [lia|]. intros [|[|[|f]]] Hf; try lia.
      rewrite Hstep1. simpl. rewrite Eq1.
      destruct (String.eqb_spec q ""); [contradiction|].
      now rewrite (Hold q Hq), E2. }
  destruct (find_todo_some _ _ _ E2) as [Hp2 _].
  exists 3. split; [lia|]. intros [|[|[|f]]] Hf; try lia.
  rewrite Hstep1. simpl. rewrite Eq1.
  destruct (String.eqb_spec q ""); [contradiction|].
  rewrite (Hold q Hq), E2.
  destruct (Todos.parentId p2) as [q2|] eqn:Eq2; [|reflexivity].
  destruct (String.eqb_spec q2 "") as [_|Eq20]; [reflexivity|].
  exfalso. destruct fuel as [|fuel]; [discriminate|]. simpl in Ev.
  destruct (String.eqb_spec q2 ""); [contradiction | discriminate].
Qed.

(** Witness of [addSubTodo_depth]. *)
Lemma addSubTodo_depth_witness :
  let todos := [Todos.mkTodo "a" "A" false 0 0 0 None;
                Todos.mkTodo "b" "B" false 0 0 1 (Some "a")] in
  let todos' := todos ++ [Todos.mkTodo "n" "N" false 7 8 2 (Some "b")] in
  freshTodoId "n" todos /\
  "b" <> "n" /\
  TodosProvider.addSubTodo (fun s => s) 3 "n" 7 8 "N" "b" todos
  = Some (TodosProvider.Added todos') /\
  List.length todos' <= 100 /\
  exists d, d <= 3 /\
            forall fuel', 3 <= fuel' ->
                          TodoService.getTodoDepth fuel' "n" todos' = Some d.
Proof.
  intros todos todos'.
  assert (Hf : freshTodoId "n" todos).
  { intros t [<-|[<-|[]]]; split; discriminate. }
  assert (Hn : "b" <> "n") by discriminate.
  split; [exact Hf|]. split; [exact Hn|]. split; [reflexivity|].
  exact (addSubTodo_depth (fun s => s) 3 "n" 7 8 "N" "b" todos todos' Hf Hn eq_refl).
Defined.

(** X9. Under a todo that is at depth 3 or more, [addSubTodo] adds nothing:
    it shows 'Maximum nesting depth (3) reached.' *)
Theorem addSubTodo_refused_at_depth :
  forall trim fuel fuel' newId now1 now2 input parentId todos d,
    parentId <> "" ->
    TodoService.getTodoDepth fuel' parentId todos = Some d ->
    3 <= d ->
    3 <= fuel ->
    TodosProvider.addSubTodo trim fuel newId now1 now2 input parentId todos
    = Some (TodosProvider.ErrorShown "Maximum nesting depth (3) reached.").
Proof.
  intros trim fuel fuel' newId now1 now2 input parentId todos d Hp Hd Hge Hf.
  unfold TodoService.getTodoDepth, TodoService.findTodo in Hd.
  assert (Hv : TodoValidator.validateNesting fuel todos (Some parentId)
               = Some (Some TodoValidator.nestingError)).
  { destruct fuel as [|[|[|fuel]]]; try lia.
    unfold TodoValidator.validateNesting. simpl.
    destruct (String.eqb_spec parentId ""); [contradiction|].
    destruct fuel' as [|fuel']; [discriminate|]. simpl in Hd.
    destruct (find (Todos.hasId parentId) todos) as [p1|];
      [|injection Hd as <-; lia].
    destruct (Todos.parentId p1) as [q|]; [|injection Hd as <-; lia].
    destruct (String.eqb_spec q ""); [injection Hd as <-; lia|].
    destruct fuel' as [|fuel']; [discriminate|]. simpl in Hd.
    unfold TodoService.findTodo in Hd.
    destruct (find (Todos.hasId q) todos) as [p2|];
      [|injection Hd as <-; lia].
    destruct (Todos.parentId p2) as [q2|]; [|injection Hd as <-; lia].
    destruct (String.eqb_spec q2 ""); [injection Hd as <-; lia|].
    reflexivity. }
  unfold TodosProvider.addSubTodo. now rewrite Hv.
Qed.

(** Witness of [addSubTodo_refused_at_depth]. *)
Lemma addSubTodo_refused_at_depth_witness :
  let todos := [Todos.mkTodo "a" "A" false 0 0 0 None;
                Todos.mkTodo "b" "B" false 0 0 1 (Some "a");
                Todos.mkTodo "c" "C" false 0 0 2 (Some "b")] in
  "c" <> "" /\
  TodoService.getTodoDepth 3 "c" todos = Some 3 /\
  TodosProvider.addSubTodo (fun s => s) 3 "n" 7 8 "N" "c" todos
  = Some (TodosProvider.ErrorShown "Maximum nesting depth (3) reached.").
Proof.
  intro todos.
  assert (Hn : "c" <> "") by discriminate.
  split; [exact Hn|]. split; [reflexivity|].
  exact (addSubTodo_refused_at_depth (fun s => s) 3 3 "n" 7 8 "N" "c" todos 3
           Hn eq_refl (le_n 3) (le_n 3)).
Defined.

(** ** Dropping a todo on a todo *)

Lemma checkAncestry_sound (todos : list Todos.Todo) (a : string) :
  forall fuel d,
    TodoDragAndDropController.checkAncestry fuel todos a d = Some true ->
    Todos.inSubtree todos a d.
Proof.
  induction fuel as [|fuel IH]; intros d H; [discriminate|]. simpl in H.
  destruct (String.eqb_spec d a) as [E|_]; [now left|].
  destruct (find (Todos.hasId d) todos) as [c|] eqn:Ef; [|discriminate].
  apply find_todo_some in Ef. destruct Ef as [Hin <-].
  destruct (Todos.parentId c) as [p|] eqn:Ep; [|discriminate].
  destruct (String.eqb p ""); [discriminate|].
  apply IH in H. right. destruct H as [->|D].
  - apply Forest.desc_child; assumption.
  - apply Forest.desc_up with (m := p); assumption.
Qed.

Lemma checkAncestry_reaches (todos : list Todos.Todo) (a d : string) :
  NoDup (map Todos.id todos) ->
  (forall t, In t todos -> Todos.id t <> "") ->
  a <> "" ->
  Todos.inSubtree todos a d ->
  exists N, forall fuel, N <= fuel ->
    TodoDragAndDropController.checkAncestry fuel todos a d = Some true.
Proof.
  intros Hn Hp Ha [->|H].
  { exists 1. intros [|fuel] Hf; [lia|]. simpl. now rewrite String.eqb_refl. }
  induction H as [c Hc Hpar | c m Hc Hpar Hm [N IH]].
  - exists 2. intros fuel Hf.
    destruct fuel as [|[|fuel]]; try lia. simpl.
    destruct (String.eqb_spec (Todos.id c) a) as [_|_]; [reflexivity|].
    rewrite (find_todo_unique todos c Hn Hc), Hpar.
    destruct (String.eqb_spec a "") as [E|_]; [contradiction|].
    now rewrite String.eqb_refl.
  - exists (S N). intros fuel Hf.
    destruct fuel as [|fuel]; [lia|]. simpl.
    destruct (String.eqb_spec (Todos.id c) a) as [_|_]; [reflexivity|].
    rewrite (find_todo_unique todos c Hn Hc), Hpar.
    destruct (String.eqb_spec m "") as [E|_].
    + exfalso. subst m.
      destruct (descendant_key _ _ _ _ _ Hm) as [g [Hg Eg]]. now apply (Hp g).
    + apply IH. lia.
Qed.

Lemma checkAncestry_total (todos : list Todos.Todo) (rank : string -> nat) (B : nat)
    (a : string) :
  (forall c p, In c todos -> Todos.parentId c = Some p -> rank (Todos.id c) < rank p) ->
  (forall c, In c todos -> rank (Todos.id c) < B) ->
  forall n fuel d,
    n + 2 <= fuel ->
    B <= rank d + n ->
    exists b, TodoDragAndDropController.checkAncestry fuel todos a d = Some b.
Proof.
  intros Hr HB.
  induction n as [|n IH]; intros fuel d Hf Hd;
    (destruct fuel as [|fuel]; [lia|]); simpl;
    (destruct (String.eqb d a); [eauto|]);
    destruct (find (Todos.hasId d) todos) as [c|] eqn:Ef; eauto.
  - apply find_todo_some in Ef. destruct Ef as [Hin E]. subst d.
    specialize (HB _ Hin). lia.
  - apply find_todo_some in Ef. destruct Ef as [Hin E]. subst d.
    destruct (Todos.parentId c) as [p|] eqn:Ep; [|eauto].
    destruct (String.eqb p ""); [eauto|].
    apply IH; [lia|]. specialize (Hr _ _ Hin Ep). lia.
Qed.

Lemma checkAncestry_mono (todos : list Todos.Todo) (a : string) :
  forall fuel fuel' d b,
    fuel <= fuel' ->
    TodoDragAndDropController.checkAncestry fuel todos a d = Some b ->
    TodoDragAndDropController.checkAncestry fuel' todos a d = Some b.
Proof.
  induction fuel as [|fuel IH]; intros fuel' d b Hf H; [discriminate|].
  destruct fuel' as [|fuel']; [lia|]. simpl in *.
  destruct (String.eqb d a); [exact H|].
  destruct (find (Todos.hasId d) todos) as [c|]; [|exact H].
  destruct (Todos.parentId c) as [p|]; [|exact H].
  destruct (String.eqb p ""); [exact H|].
  apply IH; [lia | exact H].
Qed.

Lemma reorderTodo_perm (draggedId targetId : string) (todos : list Todos.Todo) :
  Permutation (map eraseOrder (Todos.reorderTodo draggedId targetId todos))
              (map eraseOrder todos).
Proof.
  unfold Todos.reorderTodo.
  destruct (findIndex (Todos.hasId draggedId) todos) as [d|] eqn:Ed;
    [|apply Permutation_refl].
  destruct (findIndex (Todos.hasId targetId) todos) as [t|] eqn:Et;
    [|apply Permutation_refl].
  destruct (nth_error todos d) as [x|] eqn:Hx; [|apply Permutation_refl].
  rewrite todo_indexOrders_erase. apply Permutation_map.
  eapply Permutation_trans; [apply spliceIn_perm|].
  rewrite (nth_split todos d x Hx) at 2. unfold spliceOut.
  apply Permutation_middle.
Qed.

(** X10. In a store of todos with unique ids that are not empty and with no
    cycle, [handleDrop] ends.  It shows the warning, and leaves the
    store alone, exactly when the target is the dragged todo or is
    below it.  Otherwise it reorders; in no case does a todo change its
    parent, or any field other than [order]. *)
Theorem todo_handleDrop_spec :
  forall todos draggedTodo target,
    NoDup (map Todos.id todos) ->
    (forall t, In t todos -> Todos.id t <> "") ->
    Todos.acyclic todos ->
    Todos.id draggedTodo <> "" ->
    exists N, forall fuel, N <= fuel ->
      exists warned todos',
        TodoDragAndDropController.handleDrop fuel draggedTodo target todos
        = Some (warned, todos') /\
        (warned = true <->
         Todos.inSubtree todos (Todos.id draggedTodo) (Todos.id target)) /\
        (warned = true -> todos' = todos) /\
        (warned = false ->
         todos' = Todos.reorderTodo (Todos.id draggedTodo) (Todos.id target) todos) /\
        Permutation (map eraseOrder todos') (map eraseOrder todos).
Proof.
  intros todos dragged target Hn Hp [rank Hr] Ha.
  destruct (rank_bound Todos.id rank todos) as [B HB].
  destruct (checkAncestry_total todos rank B (Todos.id dragged) Hr HB
              B (B + 2) (Todos.id target)) as [b Eb]; [lia | lia |].
  exists (B + 2). intros fuel Hf.
  pose proof (checkAncestry_mono todos _ _ fuel _ _ Hf Eb) as Efuel.
  assert (Hb : b = true <->
               Todos.inSubtree todos (Todos.id dragged) (Todos.id target)).
  { split.
    - intros ->. exact (checkAncestry_sound _ _ _ _ Eb).
    - intro Hs.
      destruct (checkAncestry_reaches todos _ _ Hn Hp Ha Hs) as [N HN].
      pose proof (HN (B + 2 + N) ltac:(lia)) as E1.
      pose proof (checkAncestry_mono todos _ (B + 2) (B + 2 + N) _ _ ltac:(lia) Eb) as E2.
      congruence. }
  unfold TodoDragAndDropController.handleDrop, TodoDragAndDropController.isAncestor.
  rewrite Efuel. destruct b.
  - exists true, todos. repeat split; auto; try discriminate. apply Hb.
  - exists false, (Todos.reorderTodo (Todos.id dragged) (Todos.id target) todos).
    repeat split; auto; try discriminate.
    + apply Hb.
    + apply reorderTodo_perm.
Qed.

(** Witness of [todo_handleDrop_spec]. *)
Lemma todo_handleDrop_spec_witness :
  let a := Todos.mkTodo "a" "A" false 0 0 0 None in
  let b := Todos.mkTodo "b" "B" false 0 0 1 (Some "a") in
  let todos := [a; b; Todos.mkTodo "c" "C" false 0 0 2 None] in
  NoDup (map Todos.id todos) /\
  (forall t, In t todos -> Todos.id t <> "") /\
  Todos.acyclic todos /\
  Todos.id a <> "" /\
  exists N, forall fuel, N <= fuel ->
    exists warned todos',
      TodoDragAndDropController.handleDrop fuel a b todos = Some (warned, todos') /\
      (warned = true <-> Todos.inSubtree todos (Todos.id a) (Todos.id b)) /\
      (warned = true -> todos' = todos) /\
      (warned = false ->
       todos' = Todos.reorderTodo (Todos.id a) (Todos.id b) todos) /\
      Permutation (map eraseOrder todos') (map eraseOrder todos).
Proof.
  intros a b todos.
  assert (Hn : NoDup (map Todos.id todos)).
  { simpl. repeat constructor; simpl; intuition discriminate. }
  assert (Hp : forall t, In t todos -> Todos.id t <> "").
  { intros t [<-|[<-|[<-|[]]]]; discriminate. }
  assert (Ha : Todos.acyclic todos).
  { exists (fun s => if String.eqb s "a" then 1 else 0).
    intros c p [<-|[<-|[<-|[]]]] Hpar; simpl in Hpar; try discriminate.
    injection Hpar as <-. simpl. lia. }
  assert (Hi : Todos.id a <> "") by discriminate.
  split; [exact Hn|]. split; [exact Hp|]. split; [exact Ha|]. split; [exact Hi|].
  exact (todo_handleDrop_spec todos a b Hn Hp Ha Hi).
Defined.

(** * The rest of the bookmark store *)

(** ** Files that are deleted or renamed *)

Lemma filter_nil_length {A : Type} (p : A -> bool) (l : list A) :
  (0 <? List.length (filter p l)) = existsb p l.
Proof.
  induction l as [|a l IH]; simpl; [reflexivity|].
  destruct (p a); simpl; [reflexivity | exact IH].
Qed.

Lemma handleFileDeleted_fold (files : list string) :
  forall modified st,
    let r := fold_left (fun (acc : bool * Bookmarks.Store) fileUri =>
               let '(modified, s) := acc in
               let bookmarksToDelete :=
                 filter (BookmarkService.onFile fileUri) (Bookmarks.bookmarks s) in
               if 0 <? List.length bookmarksToDelete
               then (true,
                     Bookmarks.withBookmarks s
                       (filter (fun b => negb (BookmarkService.onFile fileUri b))
                               (Bookmarks.bookmarks s)))
               else (modified, s))
            files (modified, st) in
    snd r = Bookmarks.withBookmarks st
              (filter (fun b => negb (existsb (String.eqb (Bookmarks.fileUri b)) files))
                      (Bookmarks.bookmarks st)) /\
    (fst r = true <->
     modified = true \/
     exists b, In b (Bookmarks.bookmarks st) /\ In (Bookmarks.fileUri b) files).
Proof.
  induction files as [|f files IH]; intros modified st; simpl; cbv zeta in *.
  - split.
    + destruct st as [bs fs]. unfold Bookmarks.withBookmarks. simpl.
      f_equal. symmetry. apply forallb_filter_id. now apply forallb_forall.
    + split; [auto|]. intros [?|[b [_ []]]]. assumption.
  - rewrite filter_nil_length.
    set (bs := Bookmarks.bookmarks st).
    set (st1 := Bookmarks.withBookmarks st
                  (filter (fun b => negb (BookmarkService.onFile f b)) bs)).
    assert (Hstep : (if existsb (BookmarkService.onFile f) bs
                     then (true, st1) else (modified, st))
                    = (modified || existsb (BookmarkService.onFile f) bs, st1)).
    { destruct (existsb (BookmarkService.onFile f) bs) eqn:E.
      - now rewrite orb_true_r.
      - rewrite orb_false_r. f_equal. unfold st1.
        rewrite forallb_filter_id; [destruct st; reflexivity|].
        apply forallb_forall. intros b Hb.
        destruct (BookmarkService.onFile f b) eqn:Eb; [|reflexivity].
        assert (existsb (BookmarkService.onFile f) bs = true)
          by (apply existsb_exists; eauto). congruence. }
    rewrite Hstep. destruct (IH (modified || existsb (BookmarkService.onFile f) bs) st1)
      as [Hs Hm].
    split.
    + rewrite Hs. unfold st1, Bookmarks.withBookmarks. simpl. f_equal.
      rewrite filter_and. apply filter_ext. intro b.
      unfold BookmarkService.onFile. now rewrite negb_orb.
    + rewrite Hm. rewrite orb_true_iff, existsb_exists. unfold st1. simpl. split.
      * intros [[?|[b [Hb Ef]]]|[b [Hb Hin]]]; auto.
        -- right. exists b. split; [exact Hb|]. left.
           unfold BookmarkService.onFile in Ef. apply String.eqb_eq in Ef. auto.
        -- right. apply filter_In in Hb. exists b. split; [tauto | now right].
      * intros [?|[b [Hb [E|Hin]]]]; auto.
        -- left. right. exists b. split; [exact Hb|].
           unfold BookmarkService.onFile. apply String.eqb_eq. auto.
        -- destruct (BookmarkService.onFile f b) eqn:Ef.
           ++ left. right. exists b. auto.
           ++ right. exists b. split; [|exact Hin]. apply filter_In.
              split; [exact Hb | now rewrite Ef].
Qed.

(** X11. [handleFileDeleted] removes the bookmarks of the listed files and
    no other, touches no folder, and leaves the [order] of what stays
    as it was: the orders of a group that lost a bookmark are not
    renumbered.  It returns [true] exactly when a bookmark was on one
    of the files. *)
Theorem handleFileDeleted_spec :
  forall files st,
    let r := BookmarkService.handleFileDeleted files st in
    snd r = Bookmarks.withBookmarks st
              (filter (fun b => negb (existsb (String.eqb (Bookmarks.fileUri b)) files))
                      (Bookmarks.bookmarks st)) /\
    (fst r = true <->
     exists b, In b (Bookmarks.bookmarks st) /\ In (Bookmarks.fileUri b) files).
Proof.
  intros files st. destruct (handleFileDeleted_fold files false st) as [Hs Hm].
  split; [exact Hs|]. unfold BookmarkService.handleFileDeleted.
  rewrite Hm. split; [intros [?|?]; [discriminate | assumption] | auto].
Qed.

Lemma handleFileRenamed_fold (now : Z) (files : list (string * string)) :
  forall modified st,
    let r := fold_left (fun (acc : bool * Bookmarks.Store) (file : string * string) =>
               let '(modified, s) := acc in
               let '(oldFileUri, newFileUri) := file in
               let bookmarksToUpdate :=
                 filter (BookmarkService.onFile oldFileUri) (Bookmarks.bookmarks s) in
               if 0 <? List.length bookmarksToUpdate
               then (true,
                     Bookmarks.withBookmarks s
                       (map (fun b => if BookmarkService.onFile oldFileUri b
                                      then BookmarkService.setBFile b newFileUri now
                                      else b)
                            (Bookmarks.bookmarks s)))
               else (modified, s))
            files (modified, st) in
    Bookmarks.folders (snd r) = Bookmarks.folders st /\
    map Bookmarks.fileUri (Bookmarks.bookmarks (snd r))
    = map (fun b => renamedUri files (Bookmarks.fileUri b)) (Bookmarks.bookmarks st) /\
    map eraseFile (Bookmarks.bookmarks (snd r))
    = map eraseFile (Bookmarks.bookmarks st) /\
    (fst r = false -> modified = false /\ snd r = st).
Proof.
  induction files as [|[old new] files IH]; intros modified st; simpl; cbv zeta in *.
  - repeat split; auto.
  - rewrite filter_nil_length.
    set (bs := Bookmarks.bookmarks st).
    set (g := fun b => if BookmarkService.onFile old b
                       then BookmarkService.setBFile b new now else b).
    destruct (existsb (BookmarkService.onFile old) bs) eqn:E.
    + destruct (IH true (Bookmarks.withBookmarks st (map g bs))) as [Hf [Hu [He Hm]]].
      split; [exact Hf|]. split; [|split].
      * rewrite Hu. simpl. rewrite map_map. apply map_ext. intro b.
        unfold g, BookmarkService.onFile.
        destruct (String.eqb (Bookmarks.fileUri b) old); reflexivity.
      * rewrite He. simpl. rewrite map_map. apply map_ext. intro b.
        unfold g. destruct (BookmarkService.onFile old b); reflexivity.
      * intro H. apply Hm in H. destruct H as [H _]. discriminate.
    + destruct (IH modified st) as [Hf [Hu [He Hm]]].
      split; [exact Hf|]. split; [|split]; [|exact He|exact Hm].
      rewrite Hu. apply map_ext_in. intros b Hb.
      assert (Hb' : BookmarkService.onFile old b = false).
      { destruct (BookmarkService.onFile old b) eqn:Eb; [|reflexivity].
        assert (existsb (BookmarkService.onFile old) bs = true)
          by (apply existsb_exists; eauto). congruence. }
      unfold BookmarkService.onFile in Hb'. now rewrite Hb'.
Qed.

(** X12. [handleFileRenamed] rewrites the file of every bookmark as the
    renames say, one after the other (a bookmark renamed from [a] to
    [b] follows a later rename of [b]); it writes no other field but
    [updatedAt], removes and adds nothing, and touches no folder.  When
    it returns [false] the store is the one before the call. *)
Theorem handleFileRenamed_spec :
  forall now files st,
    let r := BookmarkService.handleFileRenamed now files st in
    Bookmarks.folders (snd r) = Bookmarks.folders st /\
    map Bookmarks.fileUri (Bookmarks.bookmarks (snd r))
    = map (fun b => renamedUri files (Bookmarks.fileUri b)) (Bookmarks.bookmarks st) /\
    map eraseFile (Bookmarks.bookmarks (snd r))
    = map eraseFile (Bookmarks.bookmarks st) /\
    (fst r = false -> snd r = st).
Proof.
  intros now files st.
  destruct (handleFileRenamed_fold now files false st) as [Hf [Hu [He Hm]]].
  repeat split; auto. intro H. now apply Hm.
Qed.

(** ** Edits of a document *)

(** The step of the inner loop, by the position of the bookmark.  The
    two cases that the source writes for [bookmark.line === startLine]
    are never taken: such a bookmark is below the range or in it. *)
Lemma reconcileBookmark_result (uri : string) (now : Z) (c : Bookmarks.ContentChange)
    (b : Bookmarks.Bookmark) (bs : list Bookmarks.Bookmark) (m : bool) :
  Bookmarks.reconcileBookmark uri now c b bs m =
  if (Bookmarks.endLine c <? Bookmarks.line b)%Z
  then (Bookmarks.setBLine b (Bookmarks.line b + Bookmarks.linesDelta c)%Z now,
        Bookmarks.writeBookmark
          (Bookmarks.setBLine b (Bookmarks.line b + Bookmarks.linesDelta c)%Z now) bs,
        true)
  else if (Bookmarks.startLine c <=? Bookmarks.line b)%Z
       then if (Bookmarks.linesDelta c <? 0)%Z
            then (b, Bookmarks.removeBookmark b bs, true)
            else (b, bs, m)
       else (b, bs, m).
Proof.
  unfold Bookmarks.reconcileBookmark.
  destruct (Z.ltb_spec (Bookmarks.endLine c) (Bookmarks.line b)); [reflexivity|].
  destruct (Z.leb_spec (Bookmarks.startLine c) (Bookmarks.line b)).
  - destruct (Z.leb_spec (Bookmarks.line b) (Bookmarks.endLine c)); [|lia].
    reflexivity.
  - simpl.
    destruct (Z.eqb_spec (Bookmarks.line b) (Bookmarks.startLine c)); [lia|].
    reflexivity.
Qed.

Lemma find_write_self (b' : Bookmarks.Bookmark) (bs : list Bookmarks.Bookmark)
    (x : Bookmarks.Bookmark) :
  find (Bookmarks.bHasId (Bookmarks.b_id b')) bs = Some x ->
  find (Bookmarks.bHasId (Bookmarks.b_id b')) (Bookmarks.writeBookmark b' bs) = Some b'.
Proof.
  unfold Bookmarks.writeBookmark.
  induction bs as [|a bs IH]; simpl; intro H; [discriminate|].
  destruct (Bookmarks.bHasId (Bookmarks.b_id b') a) eqn:Ea.
  - unfold Bookmarks.bHasId. now rewrite String.eqb_refl.
  - rewrite Ea. now apply IH.
Qed.

Lemma find_write_other (j : string) (b' : Bookmarks.Bookmark)
    (bs : list Bookmarks.Bookmark) :
  j <> Bookmarks.b_id b' ->
  find (Bookmarks.bHasId j) (Bookmarks.writeBookmark b' bs)
  = find (Bookmarks.bHasId j) bs.
Proof.
  intro Hj. unfold Bookmarks.writeBookmark.
  induction bs as [|a bs IH]; simpl; [reflexivity|].
  destruct (Bookmarks.bHasId (Bookmarks.b_id b') a) eqn:Ea.
  - unfold Bookmarks.bHasId in *. apply String.eqb_eq in Ea.
    destruct (String.eqb_spec (Bookmarks.b_id b') j); [congruence|].
    destruct (String.eqb_spec (Bookmarks.b_id a) j); [congruence|].
    exact IH.
  - destruct (Bookmarks.bHasId j a); [reflexivity | exact IH].
Qed.

Lemma find_remove_self (b : Bookmarks.Bookmark) (bs : list Bookmarks.Bookmark) :
  find (Bookmarks.bHasId (Bookmarks.b_id b)) (Bookmarks.removeBookmark b bs) = None.
Proof.
  unfold Bookmarks.removeBookmark.
  induction bs as [|a bs IH]; simpl; [reflexivity|].
  destruct (Bookmarks.bHasId (Bookmarks.b_id b) a) eqn:Ea; simpl; [exact IH|].
  now rewrite Ea.
Qed.

Lemma find_remove_other (j : string) (b : Bookmarks.Bookmark)
    (bs : list Bookmarks.Bookmark) :
  j <> Bookmarks.b_id b ->
  find (Bookmarks.bHasId j) (Bookmarks.removeBookmark b bs)
  = find (Bookmarks.bHasId j) bs.
Proof.
  intro Hj. unfold Bookmarks.removeBookmark.
  induction bs as [|a bs IH]; simpl; [reflexivity|].
  destruct (Bookmarks.bHasId (Bookmarks.b_id b) a) eqn:Ea; simpl.
  - unfold Bookmarks.bHasId in *. apply String.eqb_eq in Ea.
    destruct (String.eqb_spec (Bookmarks.b_id a) j); [congruence | exact IH].
  - destruct (Bookmarks.bHasId j a); [reflexivity | exact IH].
Qed.

(** The inner loop on bookmarks with different ids: each one is found
    afterwards as its own step leaves it. *)
Lemma reconcile_loop_find (uri : string) (now : Z) (c : Bookmarks.ContentChange) :
  forall L seen bs m seen' bs' m',
    NoDup (map Bookmarks.b_id L) ->
    (forall y, In y L -> find (Bookmarks.bHasId (Bookmarks.b_id y)) bs = Some y) ->
    fold_left (fun acc bookmark =>
                 let '(seen, bs1, m1) := acc in
                 let '(b', bs2, m2) :=
                   Bookmarks.reconcileBookmark uri now c bookmark bs1 m1 in
                 (b' :: seen, bs2, m2)) L (seen, bs, m)
    = (seen', bs', m') ->
    (forall y, In y L ->
       find (Bookmarks.bHasId (Bookmarks.b_id y)) bs'
       = if (Bookmarks.endLine c <? Bookmarks.line y)%Z
         then Some (Bookmarks.setBLine y (Bookmarks.line y + Bookmarks.linesDelta c)%Z now)
         else if (Bookmarks.startLine c <=? Bookmarks.line y)%Z
              then if (Bookmarks.linesDelta c <? 0)%Z then None else Some y
              else Some y) /\
    (forall j, ~ In j (map Bookmarks.b_id L) ->
               find (Bookmarks.bHasId j) bs' = find (Bookmarks.bHasId j) bs).
Proof.
  induction L as [|y L IH]; intros seen bs m seen' bs' m' Hn Hf H; simpl in H.
  - injection H as <- <- <-. split; [intros y [] | reflexivity].
  - simpl in Hn. inversion Hn as [|? ? Hy Hn']; subst.
    rewrite reconcileBookmark_result in H.
    pose proof (Hf y (or_introl eq_refl)) as Hfy.
    set (step1 := if (Bookmarks.endLine c <? Bookmarks.line y)%Z
                  then (Bookmarks.setBLine y
                          (Bookmarks.line y + Bookmarks.linesDelta c)%Z now,
                        Bookmarks.writeBookmark
                          (Bookmarks.setBLine y
                             (Bookmarks.line y + Bookmarks.linesDelta c)%Z now) bs,
                        true)
                  else if (Bookmarks.startLine c <=? Bookmarks.line y)%Z
                       then if (Bookmarks.linesDelta c <? 0)%Z
                            then (y, Bookmarks.removeBookmark y bs, true)
                            else (y, bs, m)
                       else (y, bs, m)) in H.
    destruct step1 as [[b1 bs1] m1] eqn:E1.
    assert (Hself : find (Bookmarks.bHasId (Bookmarks.b_id y)) bs1
                    = if (Bookmarks.endLine c <? Bookmarks.line y)%Z
                      then Some (Bookmarks.setBLine y
                                   (Bookmarks.line y + Bookmarks.linesDelta c)%Z now)
                      else if (Bookmarks.startLine c <=? Bookmarks.line y)%Z
                           then if (Bookmarks.linesDelta c <? 0)%Z then None else Some y
                           else Some y).
    { unfold step1 in E1.
      destruct (Bookmarks.endLine c <? Bookmarks.line y)%Z.
      - injection E1 as <- <- <-.
        apply (find_write_self
                 (Bookmarks.setBLine y (Bookmarks.line y + Bookmarks.linesDelta c)%Z now)
                 bs y Hfy).
      - destruct (Bookmarks.startLine c <=? Bookmarks.line y)%Z.
        + destruct (Bookmarks.linesDelta c <? 0)%Z; injection E1 as <- <- <-.
          * apply find_remove_self.
          * exact Hfy.
        + injection E1 as <- <- <-. exact Hfy. }
    assert (Hother : forall j, j <> Bookmarks.b_id y ->
                               find (Bookmarks.bHasId j) bs1
                               = find (Bookmarks.bHasId j) bs).
    { intros j Hj. unfold step1 in E1.
      destruct (Bookmarks.endLine c <? Bookmarks.line y)%Z.
      - injection E1 as <- <- <-. now apply find_write_other.
      - destruct (Bookmarks.startLine c <=? Bookmarks.line y)%Z.
        + destruct (Bookmarks.linesDelta c <? 0)%Z; injection E1 as <- <- <-.
          * now apply find_remove_other.
          * reflexivity.
        + injection E1 as <- <- <-. reflexivity. }
    destruct (IH (b1 :: seen) bs1 m1 seen' bs' m' Hn') as [H1 H2].
    + intros z Hz. rewrite Hother; [apply Hf; now right|].
      intro E. apply Hy. rewrite <- E. now apply in_map.
    + exact H.
    + split.
      * intros z [<-|Hz]; [|now apply H1].
        rewrite (H2 _ Hy). exact Hself.
      * intros j Hj. simpl in Hj.
        rewrite H2 by tauto. apply Hother. intro E. apply Hj. now left.
Qed.

(** X13. One change in a file, in a store with unique ids: a bookmark of the
    file below the changed range moves by the number of lines the
    change adds or takes; a bookmark on a line of the range, its first
    line included, is removed when the change takes lines away and
    stays on its line otherwise; a bookmark above the range stays.  A
    change that keeps the number of lines does nothing. *)
Theorem handleTextDocumentChange_single_change :
  forall uri now c st b,
    NoDup (map Bookmarks.b_id (Bookmarks.bookmarks st)) ->
    In b (Bookmarks.bookmarks st) ->
    Bookmarks.fileUri b = uri ->
    let st' := snd (Bookmarks.handleTextDocumentChange uri now [c] st) in
    (Bookmarks.linesDelta c = 0%Z -> st' = st) /\
    (Bookmarks.linesDelta c <> 0%Z ->
     find (Bookmarks.bHasId (Bookmarks.b_id b)) (Bookmarks.bookmarks st')
     = if (Bookmarks.endLine c <? Bookmarks.line b)%Z
       then Some (Bookmarks.setBLine b (Bookmarks.line b + Bookmarks.linesDelta c)%Z now)
       else if (Bookmarks.startLine c <=? Bookmarks.line b)%Z
            then if (Bookmarks.linesDelta c <? 0)%Z then None else Some b
            else Some b).
Proof.
  intros uri now c st b Hn Hb Hu st'. unfold st', Bookmarks.handleTextDocumentChange.
  set (inFile := Bookmarks.getBookmarksForFile uri (Bookmarks.bookmarks st)).
  assert (Hin : In b inFile).
  { unfold inFile, Bookmarks.getBookmarksForFile. apply filter_In.
    split; [exact Hb | now apply String.eqb_eq]. }
  destruct (Nat.eqb_spec (List.length inFile) 0) as [E0|_].
  { destruct inFile; [contradiction | discriminate]. }
  simpl. unfold Bookmarks.reconcileChange.
  destruct (Z.eqb_spec (Bookmarks.linesDelta c) 0) as [Ed|Ed].
  - split; [|contradiction]. intros _. destruct st. reflexivity.
  - split; [contradiction|]. intros _.
    destruct (fold_left _ (rev inFile) _) as [[seen' bs'] m'] eqn:Ef.
    simpl.
    assert (Hnf : NoDup (map Bookmarks.b_id (rev inFile))).
    { rewrite map_rev. apply NoDup_rev. unfold inFile, Bookmarks.getBookmarksForFile.
      now apply NoDup_map_filter. }
    destruct (reconcile_loop_find uri now c (rev inFile) [] (Bookmarks.bookmarks st)
                false seen' bs' m' Hnf) as [H1 _].
    + intros y Hy. apply in_rev in Hy. unfold inFile, Bookmarks.getBookmarksForFile in Hy.
      apply filter_In in Hy. destruct Hy as [Hy _].
      exact (find_by_key Bookmarks.b_id _ y Hn Hy).
    + exact Ef.
    + apply H1. now apply in_rev in Hin.
Qed.

(** Witness of [handleTextDocumentChange_single_change]. *)
Lemma handleTextDocumentChange_single_change_witness :
  let bm := fun i l o => Bookmarks.mkBookmark i "file:///a.js" l "" 0 0 o None None in
  let st := Bookmarks.mkStore [bm "b1" 1 0; bm "b3" 3 1; bm "b5" 5 2]%Z [] in
  let c := Bookmarks.mkChange 3 0 3 0 (String JS.newline (String JS.newline "")) in
  let b := bm "b5" 5%Z 2%Z in
  let st' := snd (Bookmarks.handleTextDocumentChange "file:///a.js" 9 [c] st) in
  NoDup (map Bookmarks.b_id (Bookmarks.bookmarks st)) /\
  In b (Bookmarks.bookmarks st) /\
  Bookmarks.fileUri b = "file:///a.js" /\
  (Bookmarks.linesDelta c = 0%Z -> st' = st) /\
  (Bookmarks.linesDelta c <> 0%Z ->
   find (Bookmarks.bHasId (Bookmarks.b_id b)) (Bookmarks.bookmarks st')
   = if (Bookmarks.endLine c <? Bookmarks.line b)%Z
     then Some (Bookmarks.setBLine b (Bookmarks.line b + Bookmarks.linesDelta c)%Z 9)
     else if (Bookmarks.startLine c <=? Bookmarks.line b)%Z
          then if (Bookmarks.linesDelta c <? 0)%Z then None else Some b
          else Some b).
Proof.
  intros bm st c b st'.
  assert (Hn : NoDup (map Bookmarks.b_id (Bookmarks.bookmarks st))).
  { simpl. repeat constructor; simpl; intuition discriminate. }
  assert (Hb : In b (Bookmarks.bookmarks st)) by (simpl; tauto).
  split; [exact Hn|]. split; [exact Hb|]. split; [reflexivity|].
  exact (handleTextDocumentChange_single_change "file:///a.js" 9 c st b Hn Hb eq_refl).
Defined.

Lemma filter_map_fix {A : Type} (p : A -> bool) (g : A -> A) (l : list A) :
  (forall x, In x l -> p x = true -> g x = x) ->
  (forall x, In x l -> p x = false -> p (g x) = false) ->
  filter p (map g l) = filter p l.
Proof.
  induction l as [|a l IH]; intros H1 H2; simpl; [reflexivity|].
  rewrite IH;
    [|intros x Hx; apply H1; now right | intros x Hx; apply H2; now right].
  destruct (p a) eqn:Ea.
  - rewrite (H1 a (or_introl eq_refl) Ea). now rewrite Ea.
  - now rewrite (H2 a (or_introl eq_refl) Ea).
Qed.

Lemma filter_filter_weaker {A : Type} (p q : A -> bool) (l : list A) :
  (forall x, In x l -> p x = true -> q x = true) ->
  filter p (filter q l) = filter p l.
Proof.
  induction l as [|a l IH]; intro H; simpl; [reflexivity|].
  assert (IH' := IH (fun x Hx => H x (or_intror Hx))).
  destruct (q a) eqn:Eq; simpl.
  - now rewrite IH'.
  - destruct (p a) eqn:Ep; [|exact IH'].
    rewrite (H a (or_introl eq_refl) Ep) in Eq. discriminate.
Qed.

Section EditFrame.

Variable uri : string.
Variable now : Z.
Variable bs0 : list Bookmarks.Bookmark.
Hypothesis ids_unique : NoDup (map Bookmarks.b_id bs0).

Local Abbreviation other := (fun b => negb (BookmarkService.onFile uri b)).

Local Abbreviation frame := (editFrame uri bs0).

Lemma other_file_other_id (bs : list Bookmarks.Bookmark) (x y0 : Bookmarks.Bookmark) :
  filter other bs = filter other bs0 ->
  In x bs -> BookmarkService.onFile uri x = false ->
  In y0 bs0 -> BookmarkService.onFile uri y0 = true ->
  Bookmarks.b_id x <> Bookmarks.b_id y0.
Proof.
  intros Hf Hx Hox Hy Hoy E.
  assert (Hx0 : In x (filter other bs0)).
  { rewrite <- Hf. apply filter_In. split; [exact Hx | now rewrite Hox]. }
  apply filter_In in Hx0. destruct Hx0 as [Hx0 _].
  assert (x = y0) by (eapply unique_key; eauto). subst. congruence.
Qed.

Lemma frame_step (c : Bookmarks.ContentChange) (seen bs : list Bookmarks.Bookmark)
    (m : bool) (bookmark : Bookmarks.Bookmark) :
  frame seen bs m ->
  BookmarkService.onFile uri bookmark = true ->
  (exists y0, In y0 bs0 /\ BookmarkService.onFile uri y0 = true /\
              Bookmarks.b_id y0 = Bookmarks.b_id bookmark) ->
  let '(b', bs2, m2) := Bookmarks.reconcileBookmark uri now c bookmark bs m in
  frame (b' :: seen) bs2 m2.
Proof.
  intros [Hseen [Hf [Hi Hm]]] Hob [y0 [Hy0 [Hoy0 Ey0]]].
  rewrite reconcileBookmark_result.
  assert (Hcons : forall b', BookmarkService.onFile uri b' = true ->
                             Bookmarks.b_id b' = Bookmarks.b_id bookmark ->
                             forall y, In y (b' :: seen) ->
                               BookmarkService.onFile uri y = true /\
                               exists z, In z bs0 /\ BookmarkService.onFile uri z = true /\
                                         Bookmarks.b_id z = Bookmarks.b_id y).
  { intros b' Hob' Eb' y [<-|Hy]; [|now apply Hseen].
    split; [exact Hob'|]. exists y0. rewrite Eb'. auto. }
  assert (Hnoop : frame (bookmark :: seen) bs m).
  { split; [now apply Hcons|]. split; [exact Hf|]. split; [exact Hi | exact Hm]. }
  assert (Hdiff : forall x, In x bs -> other x = true ->
                            Bookmarks.bHasId (Bookmarks.b_id bookmark) x = false).
  { intros x Hx Hox. apply negb_true_iff in Hox.
    unfold Bookmarks.bHasId. apply String.eqb_neq. rewrite <- Ey0.
    exact (other_file_other_id bs x y0 Hf Hx Hox Hy0 Hoy0). }
  destruct (Bookmarks.endLine c <? Bookmarks.line bookmark)%Z.
  - set (b' := Bookmarks.setBLine bookmark
                 (Bookmarks.line bookmark + Bookmarks.linesDelta c)%Z now).
    split; [|split; [|split]].
    + apply Hcons; [exact Hob | reflexivity].
    + rewrite <- Hf. unfold Bookmarks.writeBookmark. apply filter_map_fix.
      * intros x Hx Hox. change (Bookmarks.b_id b') with (Bookmarks.b_id bookmark).
        now rewrite (Hdiff x Hx Hox).
      * intros x Hx Hox. change (Bookmarks.b_id b') with (Bookmarks.b_id bookmark).
        destruct (Bookmarks.bHasId (Bookmarks.b_id bookmark) x); [|exact Hox].
        change (BookmarkService.onFile uri b') with (BookmarkService.onFile uri bookmark).
        now rewrite Hob.
    + intros j Hj. apply Hi. unfold Bookmarks.writeBookmark in Hj.
      rewrite map_map in Hj. apply in_map_iff in Hj. destruct Hj as [x [Ex Hx]].
      apply in_map_iff. exists x. split; [|exact Hx]. rewrite <- Ex.
      destruct (Bookmarks.bHasId (Bookmarks.b_id b') x) eqn:E; [|reflexivity].
      unfold Bookmarks.bHasId in E. apply String.eqb_eq in E. exact E.
    + discriminate.
  - destruct (Bookmarks.startLine c <=? Bookmarks.line bookmark)%Z; [|exact Hnoop].
    destruct (Bookmarks.linesDelta c <? 0)%Z; [|exact Hnoop].
    split; [|split; [|split]].
    + apply Hcons; [exact Hob | reflexivity].
    + rewrite <- Hf. unfold Bookmarks.removeBookmark. apply filter_filter_weaker.
      intros x Hx Hox. now rewrite (Hdiff x Hx Hox).
    + intros j Hj. apply Hi. unfold Bookmarks.removeBookmark in Hj.
      apply in_map_iff in Hj. destruct Hj as [x [Ex Hx]]. apply filter_In in Hx.
      apply in_map_iff. exists x. tauto.
    + discriminate.
Qed.

Lemma frame_loop (c : Bookmarks.ContentChange) :
  forall L seen bs m,
    frame seen bs m ->
    (forall y, In y L ->
               BookmarkService.onFile uri y = true /\
               exists y0, In y0 bs0 /\ BookmarkService.onFile uri y0 = true /\
                          Bookmarks.b_id y0 = Bookmarks.b_id y) ->
    let '(seen', bs', m') :=
      fold_left (fun acc bookmark =>
                   let '(seen, bs1, m1) := acc in
                   let '(b', bs2, m2) :=
                     Bookmarks.reconcileBookmark uri now c bookmark bs1 m1 in
                   (b' :: seen, bs2, m2)) L (seen, bs, m) in
    frame seen' bs' m'.
Proof.
  induction L as [|y L IH]; intros seen bs m HF HL; cbn [fold_left]; [exact HF|].
  destruct (HL y (or_introl eq_refl)) as [Hoy Hy0].
  pose proof (frame_step c seen bs m y HF Hoy Hy0) as Hs.
  destruct (Bookmarks.reconcileBookmark uri now c y bs m) as [[b1 bs1] m1].
  apply (IH (b1 :: seen) bs1 m1 Hs). intros z Hz. apply HL. now right.
Qed.

Lemma frame_change (c : Bookmarks.ContentChange) (inFile bs : list Bookmarks.Bookmark)
    (m : bool) :
  frame inFile bs m ->
  let '(inFile', bs', m') := Bookmarks.reconcileChange uri now (inFile, bs, m) c in
  frame inFile' bs' m'.
Proof.
  intro HF. unfold Bookmarks.reconcileChange.
  destruct (Bookmarks.linesDelta c =? 0)%Z; [exact HF|].
  apply frame_loop.
  - destruct HF as [_ HF]. split; [intros y []|exact HF].
  - intros y Hy. apply in_rev in Hy. now apply (proj1 HF).
Qed.

Lemma frame_changes (changes : list Bookmarks.ContentChange) :
  forall inFile bs m,
    frame inFile bs m ->
    let '(inFile', bs', m') :=
      fold_left (Bookmarks.reconcileChange uri now) changes (inFile, bs, m) in
    frame inFile' bs' m'.
Proof.
  induction changes as [|c changes IH]; intros inFile bs m HF; cbn [fold_left];
    [exact HF|].
  pose proof (frame_change c inFile bs m HF) as Hs.
  destruct (Bookmarks.reconcileChange uri now (inFile, bs, m) c) as [[i1 bs1] m1].
  exact (IH i1 bs1 m1 Hs).
Qed.

End EditFrame.

(** X14. In a store with unique ids, [handleTextDocumentChange] touches no
    folder and no bookmark of another file, and creates no bookmark;
    when it returns [false], the store is the one before the call. *)
Theorem handleTextDocumentChange_frame :
  forall uri now changes st,
    NoDup (map Bookmarks.b_id (Bookmarks.bookmarks st)) ->
    let r := Bookmarks.handleTextDocumentChange uri now changes st in
    Bookmarks.folders (snd r) = Bookmarks.folders st /\
    filter (fun b => negb (BookmarkService.onFile uri b)) (Bookmarks.bookmarks (snd r))
    = filter (fun b => negb (BookmarkService.onFile uri b)) (Bookmarks.bookmarks st) /\
    incl (map Bookmarks.b_id (Bookmarks.bookmarks (snd r)))
         (map Bookmarks.b_id (Bookmarks.bookmarks st)) /\
    (fst r = false -> snd r = st).
Proof.
  intros uri now changes st Hn. unfold Bookmarks.handleTextDocumentChange.
  set (inFile := Bookmarks.getBookmarksForFile uri (Bookmarks.bookmarks st)).
  destruct (List.length inFile =? 0).
  { simpl. repeat split; auto. apply incl_refl. }
  assert (HF : editFrame uri (Bookmarks.bookmarks st) inFile (Bookmarks.bookmarks st) false).
  { split; [|split; [reflexivity | split; [apply incl_refl | reflexivity]]].
    intros y Hy. unfold inFile, Bookmarks.getBookmarksForFile in Hy.
    apply filter_In in Hy. destruct Hy as [Hy Ho].
    split; [exact Ho|]. exists y. auto. }
  pose proof (frame_changes uri now (Bookmarks.bookmarks st) Hn changes
                inFile (Bookmarks.bookmarks st) false HF) as Hs.
  destruct (fold_left _ changes _) as [[inFile' bs'] m'].
  destruct Hs as [_ [Hf [Hi Hm]]]. simpl. repeat split; auto.
  intro E. rewrite (Hm E). destruct st. reflexivity.
Qed.

(** Witness of [handleTextDocumentChange_frame]. *)
Lemma handleTextDocumentChange_frame_witness :
  let bm := fun i u l o => Bookmarks.mkBookmark i u l "" 0 0 o None None in
  let st := Bookmarks.mkStore
              [bm "b1" "file:///a.js" 1 0; bm "b2" "file:///b.js" 3 1]%Z
              [Bookmarks.mkFolder "f" "F" None 0 0 2 None] in
  let c := Bookmarks.mkChange 0 0 0 0 (String JS.newline "") in
  let r := Bookmarks.handleTextDocumentChange "file:///a.js" 9 [c] st in
  NoDup (map Bookmarks.b_id (Bookmarks.bookmarks st)) /\
  Bookmarks.folders (snd r) = Bookmarks.folders st /\
  filter (fun b => negb (BookmarkService.onFile "file:///a.js" b))
         (Bookmarks.bookmarks (snd r))
  = filter (fun b => negb (BookmarkService.onFile "file:///a.js" b))
           (Bookmarks.bookmarks st) /\
  incl (map Bookmarks.b_id (Bookmarks.bookmarks (snd r)))
       (map Bookmarks.b_id (Bookmarks.bookmarks st)) /\
  (fst r = false -> snd r = st).
Proof.
  intros bm st c r.
  assert (Hn : NoDup (map Bookmarks.b_id (Bookmarks.bookmarks st))).
  { simpl. repeat constructor; simpl; intuition discriminate. }
  split; [exact Hn|].
  exact (handleTextDocumentChange_frame "file:///a.js" 9 [c] st Hn).
Defined.

(** ** The depth gate of [BookmarksProvider.addFolder] *)

Lemma getFolderDepth_loop_shift (fs : list Bookmarks.BookmarkFolder) :
  forall fuel depth cur,
    Bookmarks.getFolderDepth_loop fuel fs (S depth) cur
    = option_map S (Bookmarks.getFolderDepth_loop fuel fs depth cur).
Proof.
  induction fuel as [|fuel IH]; intros depth cur; simpl; [reflexivity|].
  destruct cur as [c|]; [|reflexivity].
  destruct (String.eqb c ""); [reflexivity|].
  destruct (find (Bookmarks.fHasId c) fs) as [f|]; [|apply IH].
  destruct (truthy (Bookmarks.f_parentId f)); apply IH.
Qed.

Lemma getFolderDepth_loop_mono (fs : list Bookmarks.BookmarkFolder) :
  forall fuel fuel' depth cur d,
    fuel <= fuel' ->
    Bookmarks.getFolderDepth_loop fuel fs depth cur = Some d ->
    Bookmarks.getFolderDepth_loop fuel' fs depth cur = Some d.
Proof.
  induction fuel as [|fuel IH]; intros fuel' depth cur d Hf H; [discriminate|].
  destruct fuel' as [|fuel']; [lia|]. simpl in *.
  destruct cur as [c|]; [|exact H].
  destruct (String.eqb c ""); [exact H|].
  destruct (find (Bookmarks.fHasId c) fs) as [f|]; [|apply IH with (2 := H); lia].
  destruct (truthy (Bookmarks.f_parentId f)); apply IH with (2 := H); lia.
Qed.

(** A folder pushed with a new id does not change the walk up from
    another folder. *)
Lemma getFolderDepth_loop_snoc (fs : list Bookmarks.BookmarkFolder)
    (new : Bookmarks.BookmarkFolder) :
  freshFolderId (Bookmarks.f_id new) fs ->
  forall fuel depth cur,
    cur <> Some (Bookmarks.f_id new) ->
    Bookmarks.getFolderDepth_loop fuel (fs ++ [new]) depth cur
    = Bookmarks.getFolderDepth_loop fuel fs depth cur.
Proof.
  intro Hfresh. induction fuel as [|fuel IH]; intros depth cur Hc; simpl; [reflexivity|].
  destruct cur as [c|]; [|reflexivity].
  destruct (String.eqb c ""); [reflexivity|].
  rewrite find_snoc_other.
  2:{ unfold Bookmarks.fHasId. apply String.eqb_neq. congruence. }
  destruct (find (Bookmarks.fHasId c) fs) as [f|] eqn:Ef.
  - apply find_folder_some in Ef. destruct Ef as [Hin _].
    destruct (truthy (Bookmarks.f_parentId f)).
    + apply IH. now apply (Hfresh f Hin).
    + apply IH. discriminate.
  - apply IH. discriminate.
Qed.

(** X15. A folder that [BookmarksProvider.addFolder] creates, with a new id,
    is at depth 3 at most. *)
Theorem provider_addFolder_depth :
  forall trim fuel newId now1 now2 nm parentId st st',
    freshFolderId newId (Bookmarks.folders st) ->
    parentId <> Some newId ->
    BookmarksProvider.addFolder trim fuel newId now1 now2 nm parentId st
    = Some (BookmarksProvider.Done st') ->
    exists d, d <= 3 /\
              forall fuel', fuel + 2 <= fuel' ->
                            Bookmarks.getFolderDepth fuel' newId st' = Some d.
Proof.
  intros trim fuel newId now1 now2 nm parentId st st' Hfresh Hne H.
  unfold BookmarksProvider.addFolder in H.
  set (new := Bookmarks.mkFolder newId (trim nm) parentId now1 now2
                (Bookmarks.maxOrder (Bookmarks.getFolderSiblings parentId st) + 1)%Z
                (Some true)).
  assert (Hst : snd (Bookmarks.addFolder trim newId now1 now2 nm parentId st)
                = Bookmarks.withFolders st (Bookmarks.folders st ++ [new]))
    by reflexivity.
  rewrite Hst in H. clear Hst.
  assert (Hnew : find (Bookmarks.fHasId newId) (Bookmarks.folders st ++ [new])
                 = Some new).
  { apply find_snoc_new.
    - intros a Ha. unfold Bookmarks.fHasId. apply String.eqb_neq.
      now apply (Hfresh a Ha).
    - unfold Bookmarks.fHasId. apply String.eqb_refl. }
  assert (Hroot : truthy parentId = false ->
                  st' = Bookmarks.withFolders st (Bookmarks.folders st ++ [new]) ->
                  exists d, d <= 3 /\
                            forall fuel', fuel + 2 <= fuel' ->
                                          Bookmarks.getFolderDepth fuel' newId st' = Some d).
  { intros Ht ->. exists 1. split; [lia|]. intros [|[|f]] Hf; try lia.
    unfold Bookmarks.getFolderDepth. simpl.
    destruct (String.eqb newId ""); [reflexivity|].
    rewrite Hnew. simpl. rewrite Ht. reflexivity. }
  destruct (truthy parentId) eqn:Ht.
  2:{ injection H as <-. now apply Hroot. }
  destruct parentId as [p|]; [|discriminate].
  destruct (Bookmarks.getFolderDepth fuel p st) as [depth|] eqn:Ed; [|discriminate].
  destruct (Nat.leb_spec 3 depth) as [Hd|Hd]; [discriminate|].
  injection H as <-.
  destruct (String.eqb_spec newId "") as [E|E].
  { exists 1. split; [lia|]. intros [|f] Hf; [lia|].
    unfold Bookmarks.getFolderDepth. simpl.
    destruct (String.eqb_spec newId ""); [reflexivity | contradiction]. }
  exists (S depth). split; [lia|]. intros [|f] Hf; [lia|].
  unfold Bookmarks.getFolderDepth. simpl.
  destruct (String.eqb_spec newId ""); [contradiction|].
  rewrite Hnew. simpl. simpl in Ht. rewrite Ht.
  rewrite (getFolderDepth_loop_snoc (Bookmarks.folders st) new Hfresh f 2 (Some p) Hne).
  rewrite getFolderDepth_loop_shift.
  unfold Bookmarks.getFolderDepth in Ed.
  rewrite (getFolderDepth_loop_mono (Bookmarks.folders st) fuel f 1 (Some p) depth)
    by (try lia; exact Ed).
  reflexivity.
Qed.

(** Witness of [provider_addFolder_depth]. *)
Lemma provider_addFolder_depth_witness :
  let st := Bookmarks.mkStore []
              [Bookmarks.mkFolder "a" "A" None 0 0 0 None;
               Bookmarks.mkFolder "b" "B" (Some "a") 0 0 0 None] in
  let st' := snd (Bookmarks.addFolder (fun s => s) "n" 7 8 "N" (Some "b") st) in
  freshFolderId "n" (Bookmarks.folders st) /\
  Some "b" <> Some "n" /\
  BookmarksProvider.addFolder (fun s => s) 4 "n" 7 8 "N" (Some "b") st
  = Some (BookmarksProvider.Done st') /\
  exists d, d <= 3 /\
            forall fuel', 4 + 2 <= fuel' ->
                          Bookmarks.getFolderDepth fuel' "n" st' = Some d.
Proof.
  intros st st'.
  assert (Hf : freshFolderId "n" (Bookmarks.folders st)).
  { intros f [<-|[<-|[]]]; split; discriminate. }
  assert (Hn : Some "b" <> Some "n") by discriminate.
  split; [exact Hf|]. split; [exact Hn|]. split; [reflexivity|].
  exact (provider_addFolder_depth (fun s => s) 4 "n" 7 8 "N" (Some "b") st st'
           Hf Hn eq_refl).
Defined.

(** ** Where [reorderItem] puts the dragged item *)

Lemma item_indexOrders_nth (l : list Bookmarks.Item) :
  forall i k x,
    nth_error l k = Some x ->
    nth_error (Bookmarks.indexOrders i l) k
    = Some (Bookmarks.setItemOrder x (Z.of_nat (i + k))).
Proof.
  induction l as [|a l IH]; intros i [|k] x H; simpl in *; try discriminate.
  - injection H as ->. now rewrite Nat.add_0_r.
  - rewrite (IH (S i) k x H). do 3 f_equal. lia.
Qed.

Lemma spliceIn_nth_before {A : Type} (l : list A) (i k : nat) (x y : A) :
  k < i -> nth_error l k = Some y -> nth_error (spliceIn i x l) k = Some y.
Proof.
  intros Hk Hy. unfold spliceIn.
  assert (k < List.length l) by (apply nth_error_Some; congruence).
  rewrite nth_error_app1 by (rewrite length_firstn; lia).
  rewrite nth_error_firstn. destruct (Nat.ltb_spec k i); [exact Hy | lia].
Qed.

Lemma spliceIn_nth_after {A : Type} (l : list A) (i : nat) (x y : A) :
  nth_error l i = Some y -> nth_error (spliceIn i x l) (S i) = Some y.
Proof.
  intro Hy. unfold spliceIn.
  assert (i < List.length l) by (apply nth_error_Some; congruence).
  rewrite nth_error_app2; rewrite length_firstn, Nat.min_l by lia; [|lia].
  replace (S i - i) with 1 by lia.
  change (nth_error (x :: skipn i l) 1) with (nth_error (skipn i l) 0).
  rewrite nth_error_skipn. now rewrite Nat.add_0_r.
Qed.

Lemma item_id_set (it : Bookmarks.Item) (v : Z) :
  Bookmarks.item_id (Bookmarks.setItemOrder it v) = Bookmarks.item_id it.
Proof. now destruct it. Qed.

(** X16. When [reorderItem] returns, the dragged item is in the group of the
    target, and its order is the one next to the order of the target:
    one less for 'before', one more for 'after'. *)
Theorem reorderItem_placement :
  forall fuel now draggedId targetId pos st st',
    Bookmarks.reorderItem fuel now draggedId targetId pos st = Returned st' ->
    exists d t,
      Bookmarks.item_id d = draggedId /\
      Bookmarks.item_id t = targetId /\
      In d (Bookmarks.getFolderSiblings (Bookmarks.item_parentId t) st') /\
      In t (Bookmarks.getFolderSiblings (Bookmarks.item_parentId t) st') /\
      Bookmarks.item_order d
      = match pos with
        | Bookmarks.before => (Bookmarks.item_order t - 1)%Z
        | Bookmarks.after => (Bookmarks.item_order t + 1)%Z
        end.
Proof.
  intros fuel now draggedId targetId pos st st' H. unfold Bookmarks.reorderItem in H.
  destruct (match find (Bookmarks.bHasId draggedId) (Bookmarks.bookmarks st),
                  find (Bookmarks.fHasId draggedId) (Bookmarks.folders st) with
            | Some b, _ => Some (Bookmarks.IBookmark b)
            | None, Some f => Some (Bookmarks.IFolder f)
            | None, None => None
            end) as [dragged|] eqn:Edrag; [|discriminate].
  destruct (match find (Bookmarks.bHasId targetId) (Bookmarks.bookmarks st),
                  find (Bookmarks.fHasId targetId) (Bookmarks.folders st) with
            | Some b, _ => Some (Bookmarks.IBookmark b)
            | None, Some f => Some (Bookmarks.IFolder f)
            | None, None => None
            end) as [target|] eqn:Etarget; [|discriminate].
  destruct (match find (Bookmarks.fHasId draggedId) (Bookmarks.folders st) with
            | Some f => Bookmarks.validateFolderMove fuel (Bookmarks.f_id f)
                          (Bookmarks.item_parentId target) st
            | None => Some None
            end) as [[msg|]|]; try discriminate.
  set (S := Bookmarks.item_parentId dragged) in *.
  set (T := Bookmarks.item_parentId target) in *.
  set (st1 := Bookmarks.detach dragged st) in *.
  set (st2 := if optEq S T then st1 else Bookmarks.normalizeSiblings S st1) in *.
  set (allItems := Bookmarks.sortByOrder (Bookmarks.getFolderSiblings T st2)) in *.
  set (draggedItem := Bookmarks.reparentItem dragged T now) in *.
  destruct (findIndex (fun item => String.eqb (Bookmarks.item_id item) targetId) allItems)
    as [targetIndex|] eqn:Eidx; [|discriminate].
  injection H as <-.
  set (insertIndex := match pos with
                      | Bookmarks.after => targetIndex + 1
                      | Bookmarks.before => targetIndex
                      end).
  set (spliced := spliceIn insertIndex draggedItem allItems).
  set (X := Bookmarks.indexOrders 0 spliced).
  destruct (findIndex_some _ _ _ Eidx) as [tItem [HtItem [HtId _]]].
  apply String.eqb_eq in HtId.
  assert (Hlen : targetIndex < List.length allItems)
    by (apply nth_error_Some; congruence).
  assert (HtT : Bookmarks.item_parentId tItem = T).
  { apply nth_error_In in HtItem.
    apply (Permutation_in _ (sortByOrder_perm _)) in HtItem.
    apply item_in_siblings in HtItem. destruct tItem; simpl; tauto. }
  assert (HX : forall it, In it X -> Bookmarks.item_parentId it = T).
  { apply indexOrders_parent. intros it Hit. apply in_spliceIn in Hit.
    destruct Hit as [->|Hit]; [now destruct dragged|].
    apply (Permutation_in _ (sortByOrder_perm _)) in Hit.
    apply item_in_siblings in Hit. destruct it; simpl; tauto. }
  destruct (rebuilt_groups T st2 X HX) as [Hperm _].
  assert (Hdid : Bookmarks.item_id draggedItem = draggedId).
  { unfold draggedItem.
    destruct (find (Bookmarks.bHasId draggedId) (Bookmarks.bookmarks st)) as [b|] eqn:Eb.
    - injection Edrag as <-. apply find_bookmark_some in Eb. simpl. tauto.
    - destruct (find (Bookmarks.fHasId draggedId) (Bookmarks.folders st)) as [f|] eqn:Ef;
        [|discriminate].
      injection Edrag as <-. apply find_folder_some in Ef. simpl. tauto. }
  assert (Hpos : exists kd kt,
             nth_error spliced kd = Some draggedItem /\
             nth_error spliced kt = Some tItem /\
             Z.of_nat kd = match pos with
                           | Bookmarks.before => (Z.of_nat kt - 1)%Z
                           | Bookmarks.after => (Z.of_nat kt + 1)%Z
                           end).
  { unfold spliced, insertIndex. destruct pos.
    - exists targetIndex, (Datatypes.S targetIndex). split; [|split].
      + apply spliceIn_nth. lia.
      + now apply spliceIn_nth_after.
      + lia.
    - exists (targetIndex + 1), targetIndex. split; [|split].
      + apply spliceIn_nth. lia.
      + apply spliceIn_nth_before; [lia | exact HtItem].
      + lia. }
  destruct Hpos as [kd [kt [Hkd [Hkt Hrel]]]].
  exists (Bookmarks.setItemOrder draggedItem (Z.of_nat kd)),
         (Bookmarks.setItemOrder tItem (Z.of_nat kt)).
  assert (Hpt : Bookmarks.item_parentId (Bookmarks.setItemOrder tItem (Z.of_nat kt)) = T).
  { apply HX. unfold X.
    apply (nth_error_In _ kt). now rewrite (item_indexOrders_nth spliced 0 kt tItem Hkt). }
  rewrite Hpt. rewrite !item_id_set, !item_order_set.
  split; [exact Hdid|]. split; [exact HtId|]. split; [|split; [|exact Hrel]].
  - apply (Permutation_in _ (Permutation_sym Hperm)). unfold X.
    apply (nth_error_In _ kd).
    now rewrite (item_indexOrders_nth spliced 0 kd draggedItem Hkd).
  - apply (Permutation_in _ (Permutation_sym Hperm)). unfold X.
    apply (nth_error_In _ kt). now rewrite (item_indexOrders_nth spliced 0 kt tItem Hkt).
Qed.

(** Witness of [reorderItem_placement]. *)
Lemma reorderItem_placement_witness :
  let bm := fun i l o => Bookmarks.mkBookmark i "file:///a.js" l "" 0 0 o None None in
  let st := Bookmarks.mkStore [bm "b1" 1 0; bm "b2" 2 1; bm "b3" 3 2]%Z [] in
  exists st',
    Bookmarks.reorderItem 8 9 "b3" "b1" Bookmarks.before st = Returned st' /\
    exists d t,
      Bookmarks.item_id d = "b3" /\
      Bookmarks.item_id t = "b1" /\
      In d (Bookmarks.getFolderSiblings (Bookmarks.item_parentId t) st') /\
      In t (Bookmarks.getFolderSiblings (Bookmarks.item_parentId t) st') /\
      Bookmarks.item_order d = (Bookmarks.item_order t - 1)%Z.
Proof.
  intros bm st. eexists. split.
  - vm_compute. reflexivity.
  - apply (reorderItem_placement 8 9 "b3" "b1" Bookmarks.before st). reflexivity.
Defined.

(** ** Moving a bookmark *)

Lemma find_bookmark_unique (bs : list Bookmarks.Bookmark) (b : Bookmarks.Bookmark) :
  NoDup (map Bookmarks.b_id bs) -> In b bs ->
  find (Bookmarks.bHasId (Bookmarks.b_id b)) bs = Some b.
Proof. intros Hn Hb. exact (find_by_key Bookmarks.b_id bs b Hn Hb). Qed.

(** X17. [moveToFolder] on the id of a bookmark never throws: the target is
    not looked up, so it need not be a folder of the store, and no
    depth is checked.  In a store with unique ids the bookmark ends in
    the group of the target, after every other member, with one more
    than the greatest order that group had; no folder is added or
    removed. *)
Theorem moveToFolder_bookmark :
  forall fuel now i T st b,
    Bookmarks.uniqueIds st ->
    find (Bookmarks.bHasId i) (Bookmarks.bookmarks st) = Some b ->
    exists st',
      Bookmarks.moveToFolder fuel now i T st = Returned st' /\
      bookmarkMovedTo st st' i T /\
      map Bookmarks.f_id (Bookmarks.folders st') = map Bookmarks.f_id (Bookmarks.folders st) /\
      map Bookmarks.b_id (Bookmarks.bookmarks st')
      = map Bookmarks.b_id (Bookmarks.bookmarks st).
Proof.
  intros fuel now i T st b Hu Hfind.
  unfold Bookmarks.moveToFolder. rewrite Hfind.
  set (m := Bookmarks.maxOrder (Bookmarks.getFolderSiblings T st)).
  set (st1 := Bookmarks.withBookmarks st
                (updateFirst (Bookmarks.bHasId i)
                   (fun x => Bookmarks.setBOrder (Bookmarks.reparentB x T now) (m + 1)%Z)
                   (Bookmarks.bookmarks st))).
  set (st' := if optEq (Bookmarks.b_parentId b) T then st1
              else Bookmarks.normalizeSiblings (Bookmarks.b_parentId b) st1).
  exists st'. split; [reflexivity|].
  set (b1 := Bookmarks.setBOrder (Bookmarks.reparentB b T now) (m + 1)%Z).
  destruct (find_bookmark_some _ _ _ Hfind) as [Hb Ei].
  assert (Hids1 : map Bookmarks.b_id (Bookmarks.bookmarks st1)
                  = map Bookmarks.b_id (Bookmarks.bookmarks st)).
  { unfold st1. simpl. apply updateFirst_map. reflexivity. }
  assert (Hu1 : Bookmarks.uniqueIds st1).
  { destruct Hu as [Hn Hf]. split; [|exact Hf]. now rewrite Hids1. }
  assert (Hin1 : In (Bookmarks.IBookmark b1) (Bookmarks.getFolderSiblings T st1)).
  { apply item_in_siblings. split; [|reflexivity].
    unfold st1. simpl. exact (updateFirst_find _ _ _ _ Hfind). }
  assert (Hsibs1 : forall it, In it (Bookmarks.getFolderSiblings T st1) ->
                              it = Bookmarks.IBookmark b1 \/
                              In it (Bookmarks.getFolderSiblings T st)).
  { intros it Hit. apply item_in_siblings in Hit. destruct it as [y|x].
    - right. apply item_in_siblings. exact Hit.
    - destruct Hit as [Hx Hp]. unfold st1 in Hx. simpl in Hx.
      destruct (updateFirst_In _ _ _ _ _ Hfind Hx) as [->|Hx'].
      + now left.
      + right. apply item_in_siblings. auto. }
  assert (Hsame : Bookmarks.getFolderSiblings T st' = Bookmarks.getFolderSiblings T st1).
  { unfold st'. destruct (optEq (Bookmarks.b_parentId b) T) eqn:E; [reflexivity|].
    apply optEq_false in E. apply normalize_other; [exact Hu1 | congruence]. }
  assert (Hu' : Bookmarks.uniqueIds st').
  { unfold st'. destruct (optEq (Bookmarks.b_parentId b) T); [exact Hu1|].
    now apply uniqueIds_normalize. }
  split; [|split].
  - exists b1. repeat split.
    + rewrite <- Hsame in Hin1. apply item_in_siblings in Hin1.
      destruct Hin1 as [Hin1 _].
      assert (Eb1 : Bookmarks.b_id b1 = i) by exact Ei.
      rewrite <- Eb1. exact (find_bookmark_unique _ b1 (proj1 Hu') Hin1).
    + intros it Hit. rewrite Hsame in Hit.
      destruct (Hsibs1 it Hit) as [->|Hold]; [now left|]. right.
      pose proof (maxOrder_upper _ _ Hold) as Hmax. fold m in Hmax. simpl. lia.
  - unfold st'. destruct (optEq (Bookmarks.b_parentId b) T); [reflexivity|].
    now rewrite normalize_folder_ids.
  - unfold st'. destruct (optEq (Bookmarks.b_parentId b) T); [exact Hids1|].
    now rewrite normalize_bookmark_ids.
Qed.

(** Witness of [moveToFolder_bookmark]. *)
Lemma moveToFolder_bookmark_witness :
  let st := Bookmarks.mkStore
              [Bookmarks.mkBookmark "k1" "file:///a.js" 1 "" 0 0 0 None None;
               Bookmarks.mkBookmark "k2" "file:///a.js" 2 "" 0 0 1 None None]
              [Bookmarks.mkFolder "f" "F" None 0 0 2 None] in
  Bookmarks.uniqueIds st /\
  exists st',
    Bookmarks.moveToFolder 0 9 "k1" (Some "no such folder") st = Returned st' /\
    bookmarkMovedTo st st' "k1" (Some "no such folder") /\
    map Bookmarks.f_id (Bookmarks.folders st') = map Bookmarks.f_id (Bookmarks.folders st) /\
    map Bookmarks.b_id (Bookmarks.bookmarks st')
    = map Bookmarks.b_id (Bookmarks.bookmarks st).
Proof.
  intro st.
  assert (Hu : Bookmarks.uniqueIds st).
  { split; simpl; repeat constructor; simpl; intuition discriminate. }
  split; [exact Hu|].
  exact (moveToFolder_bookmark 0 9 "k1" (Some "no such folder") st
           (Bookmarks.mkBookmark "k1" "file:///a.js" 1 "" 0 0 0 None None) Hu eq_refl).
Defined.

(** ** Ids that are not in the store *)

(** X18. With an id that no bookmark and no folder carries, the methods that
    edit, delete or move leave the store as it is, and [reorderItem]
    throws before it writes: 'Dragged item not found' when the id is
    the dragged one, 'Target item not found' when it is the target of
    an item that exists. *)
Theorem absent_id_changes_nothing :
  forall st i,
    find (Bookmarks.bHasId i) (Bookmarks.bookmarks st) = None ->
    find (Bookmarks.fHasId i) (Bookmarks.folders st) = None ->
    (forall trim now txt, Bookmarks.editBookmark trim now i txt st = st) /\
    (forall trim now nm, Bookmarks.editFolder trim now i nm st = st) /\
    (forall now c, Bookmarks.changeBookmarkColor now i c st = st) /\
    Bookmarks.deleteBookmark i st = st /\
    (forall fuel, Bookmarks.deleteFolder fuel i st = Some st) /\
    (forall fuel now T, Bookmarks.moveToFolder fuel now i T st = Returned st) /\
    (forall fuel now targetId pos,
        Bookmarks.reorderItem fuel now i targetId pos st
        = Thrown "Dragged item not found" st) /\
    (forall fuel now draggedId pos,
        (exists b, find (Bookmarks.bHasId draggedId) (Bookmarks.bookmarks st) = Some b) \/
        (exists f, find (Bookmarks.fHasId draggedId) (Bookmarks.folders st) = Some f) ->
        Bookmarks.reorderItem fuel now draggedId i pos st
        = Thrown "Target item not found" st).
Proof.
  intros st i Hb Hf. destruct st as [bs fs]. simpl in Hb, Hf.
  repeat split.
  - intros. unfold Bookmarks.editBookmark, Bookmarks.withBookmarks. simpl.
    now rewrite updateFirst_none.
  - intros. unfold Bookmarks.editFolder, Bookmarks.withFolders. simpl.
    now rewrite updateFirst_none.
  - intros. unfold Bookmarks.changeBookmarkColor, Bookmarks.withBookmarks. simpl.
    now rewrite updateFirst_none.
  - unfold Bookmarks.deleteBookmark. simpl. now rewrite Hb.
  - intro fuel. unfold Bookmarks.deleteFolder. simpl. now rewrite Hf.
  - intros. unfold Bookmarks.moveToFolder. simpl. now rewrite Hb, Hf.
  - intros. unfold Bookmarks.reorderItem. simpl. now rewrite Hb, Hf.
  - intros fuel now draggedId pos Hd. unfold Bookmarks.reorderItem. simpl.
    rewrite Hb, Hf. simpl in Hd.
    destruct Hd as [[b Eb]|[f Ef]].
    + now rewrite Eb.
    + rewrite Ef. now destruct (find (Bookmarks.bHasId draggedId) bs).
Qed.

(** Witness of [absent_id_changes_nothing]. *)
Lemma absent_id_changes_nothing_witness :
  let st := Bookmarks.mkStore
              [Bookmarks.mkBookmark "k1" "file:///a.js" 1 "" 0 0 0 None None]
              [Bookmarks.mkFolder "f" "F" None 0 0 1 None] in
  let i := "gone" in
  (forall trim now txt, Bookmarks.editBookmark trim now i txt st = st) /\
  (forall trim now nm, Bookmarks.editFolder trim now i nm st = st) /\
  (forall now c, Bookmarks.changeBookmarkColor now i c st = st) /\
  Bookmarks.deleteBookmark i st = st /\
  (forall fuel, Bookmarks.deleteFolder fuel i st = Some st) /\
  (forall fuel now T, Bookmarks.moveToFolder fuel now i T st = Returned st) /\
  (forall fuel now targetId pos,
      Bookmarks.reorderItem fuel now i targetId pos st
      = Thrown "Dragged item not found" st) /\
  (forall fuel now draggedId pos,
      (exists b, find (Bookmarks.bHasId draggedId) (Bookmarks.bookmarks st) = Some b) \/
      (exists f, find (Bookmarks.fHasId draggedId) (Bookmarks.folders st) = Some f) ->
      Bookmarks.reorderItem fuel now draggedId i pos st
      = Thrown "Target item not found" st).
Proof.
  exact (absent_id_changes_nothing
           (Bookmarks.mkStore
              [Bookmarks.mkBookmark "k1" "file:///a.js" 1 "" 0 0 0 None None]
              [Bookmarks.mkFolder "f" "F" None 0 0 1 None])
           "gone" eq_refl eq_refl).
Defined.

(** ** Deleting a bookmark *)

(** X19. In a store with unique ids, [deleteBookmark] on the id of a
    bookmark removes that bookmark and no other item, writes no field
    but [order], leaves the groups of the other parents as they were,
    and leaves the group of the parent with the orders 0,1,...,k-1,
    whatever they were before. *)
Theorem deleteBookmark_spec :
  forall i st b,
    Bookmarks.uniqueIds st ->
    find (Bookmarks.bHasId i) (Bookmarks.bookmarks st) = Some b ->
    let st' := Bookmarks.deleteBookmark i st in
    map eraseBOrder (Bookmarks.bookmarks st')
    = map eraseBOrder (filter (fun x => negb (Bookmarks.bHasId i x)) (Bookmarks.bookmarks st)) /\
    map eraseFOrder (Bookmarks.folders st') = map eraseFOrder (Bookmarks.folders st) /\
    (forall p, p <> Bookmarks.b_parentId b ->
               Bookmarks.getFolderSiblings p st' = Bookmarks.getFolderSiblings p st) /\
    Bookmarks.denseAt (Bookmarks.b_parentId b) st'.
Proof.
  intros i st b Hu Hfind st'. unfold st', Bookmarks.deleteBookmark. rewrite Hfind.
  destruct (find_bookmark_some _ _ _ Hfind) as [Hb Ei].
  set (st1 := Bookmarks.withBookmarks st
                (filter (fun x => negb (Bookmarks.bHasId i x)) (Bookmarks.bookmarks st))).
  assert (Hdet : st1 = Bookmarks.detach (Bookmarks.IBookmark b) st).
  { unfold st1. simpl. now rewrite Ei. }
  assert (Hu1 : Bookmarks.uniqueIds st1) by (rewrite Hdet; now apply uniqueIds_detach).
  split; [|split; [|split]].
  - unfold Bookmarks.normalizeSiblings. rewrite assignOrders_bookmarks, map_map.
    apply map_ext. intro x. reflexivity.
  - unfold Bookmarks.normalizeSiblings. rewrite assignOrders_folders, map_map.
    apply map_ext. intro x. reflexivity.
  - intros p Hp. rewrite normalize_other by assumption. rewrite Hdet.
    apply (detach_other_group (Bookmarks.IBookmark b) st (Bookmarks.b_parentId b) p Hu).
    + apply item_in_siblings. auto.
    + exact Hp.
  - now apply normalize_dense.
Qed.

(** Witness of [deleteBookmark_spec]. *)
Lemma deleteBookmark_spec_witness :
  let b := Bookmarks.mkBookmark "k1" "file:///a.js" 1 "" 0 0 0 None None in
  let st := Bookmarks.mkStore
              [b; Bookmarks.mkBookmark "k2" "file:///a.js" 2 "" 0 0 5 None None]
              [Bookmarks.mkFolder "f" "F" None 0 0 9 None] in
  let st' := Bookmarks.deleteBookmark "k1" st in
  Bookmarks.uniqueIds st /\
  map eraseBOrder (Bookmarks.bookmarks st')
  = map eraseBOrder (filter (fun x => negb (Bookmarks.bHasId "k1" x))
                            (Bookmarks.bookmarks st)) /\
  map eraseFOrder (Bookmarks.folders st') = map eraseFOrder (Bookmarks.folders st) /\
  (forall p, p <> Bookmarks.b_parentId b ->
             Bookmarks.getFolderSiblings p st' = Bookmarks.getFolderSiblings p st) /\
  Bookmarks.denseAt (Bookmarks.b_parentId b) st'.
Proof.
  intros b st st'.
  assert (Hu : Bookmarks.uniqueIds st).
  { split; simpl; repeat constructor; simpl; intuition discriminate. }
  split; [exact Hu|].
  exact (deleteBookmark_spec "k1" st b Hu eq_refl).
Defined.

(** ** Errors of [moveToFolder] *)

(** X20. [moveToFolder] throws only when a folder is moved under a folder id,
    only with one of its two messages, and before anything is written:
    moving a bookmark, moving to the root and moving an id that is not
    in the store never throw. *)
Theorem moveToFolder_thrown_unchanged :
  forall fuel now i T st msg st',
    Bookmarks.moveToFolder fuel now i T st = Thrown msg st' ->
    st' = st /\
    (msg = Bookmarks.cycleError \/ msg = Bookmarks.depthError) /\
    find (Bookmarks.bHasId i) (Bookmarks.bookmarks st) = None /\
    (exists f, find (Bookmarks.fHasId i) (Bookmarks.folders st) = Some f) /\
    (exists t, T = Some t /\ t <> "").
Proof.
  intros fuel now i T st msg st' H. unfold Bookmarks.moveToFolder in H.
  destruct (find (Bookmarks.bHasId i) (Bookmarks.bookmarks st)) as [b|]; [discriminate|].
  destruct (find (Bookmarks.fHasId i) (Bookmarks.folders st)) as [f|]; [|discriminate].
  destruct (Bookmarks.validateFolderMove fuel i T st) as [[m|]|] eqn:Ev;
    try discriminate.
  injection H as <- <-.
  unfold Bookmarks.validateFolderMove in Ev.
  destruct T as [t|]; [|discriminate].
  destruct (String.eqb_spec t "") as [E|E]; [discriminate|].
  repeat split; eauto.
  destruct (Bookmarks.isDescendantOf fuel t i st) as [[|]|]; try discriminate.
  - injection Ev as <-. now left.
  - destruct (Bookmarks.getFolderDepth fuel t st); [|discriminate].
    destruct (Bookmarks.getMaxFolderDepth fuel i st); [|discriminate].
    destruct (3 <? _); [|discriminate]. injection Ev as <-. now right.
Qed.

(** Witness of [moveToFolder_thrown_unchanged]. *)
Lemma moveToFolder_thrown_unchanged_witness :
  let st := Bookmarks.mkStore []
              [Bookmarks.mkFolder "a" "A" None 0 0 0 None;
               Bookmarks.mkFolder "b" "B" (Some "a") 0 0 0 None] in
  Bookmarks.moveToFolder 5 9 "a" (Some "b") st = Thrown Bookmarks.cycleError st /\
  st = st /\
  (Bookmarks.cycleError = Bookmarks.cycleError \/
   Bookmarks.cycleError = Bookmarks.depthError) /\
  find (Bookmarks.bHasId "a") (Bookmarks.bookmarks st) = None /\
  (exists f, find (Bookmarks.fHasId "a") (Bookmarks.folders st) = Some f) /\
  (exists t, Some "b" = Some t /\ t <> "").
Proof.
  intro st. split; [reflexivity|].
  exact (moveToFolder_thrown_unchanged 5 9 "a" (Some "b") st Bookmarks.cycleError st
           eq_refl).
Defined.

(** Witness of [reorderItem_thrown_early]. *)
Lemma reorderItem_thrown_early_witness :
  let st := Bookmarks.mkStore []
              [Bookmarks.mkFolder "a" "A" None 0 0 0 None;
               Bookmarks.mkFolder "b" "B" (Some "a") 0 0 0 None;
               Bookmarks.mkFolder "c" "C" (Some "b") 0 0 0 None] in
  Bookmarks.reorderItem 5 9 "a" "c" Bookmarks.before st
  = Thrown Bookmarks.cycleError st /\
  Bookmarks.cycleError <> "Target not found in items list" /\
  st = st.
Proof.
  intro st.
  assert (H : Bookmarks.reorderItem 5 9 "a" "c" Bookmarks.before st
              = Thrown Bookmarks.cycleError st) by reflexivity.
  assert (Hm : Bookmarks.cycleError <> "Target not found in items list")
    by discriminate.
  split; [exact H|]. split; [exact Hm|].
  exact (reorderItem_thrown_early 5 9 "a" "c" Bookmarks.before st
           Bookmarks.cycleError st H Hm).
Defined.

(** Witness of [reachable_dense]. *)
Lemma reachable_dense_witness :
  let st := snd (Bookmarks.addFolder (fun s => s) "f" 1 2 "F" None
                   (snd (Bookmarks.addBookmark (fun s => s) "k" 1 2 "file:///a.js" 3 "x"
                           (Bookmarks.mkStore [] [])))) in
  reachable st /\ Bookmarks.uniqueIds st /\ Bookmarks.allDense st.
Proof.
  intro st.
  assert (H : reachable st).
  { apply reach_step with
      (st := snd (Bookmarks.addBookmark (fun s => s) "k" 1 2 "file:///a.js" 3 "x"
                    (Bookmarks.mkStore [] []))).
    - apply reach_step with (st := Bookmarks.mkStore [] []); [apply reach_empty|].
      apply step_addBookmark. split; simpl; tauto.
    - apply step_addFolder. split; simpl; [|tauto].
      intros [E|[]]. discriminate. }
  split; [exact H | exact (reachable_dense st H)].
Defined.

(** ** A bookmark dropped on itself *)

(** X23. In a store with unique ids, none shared by a bookmark and a folder,
    [reorderItem] with the id of a bookmark as the dragged id and as
    the target id throws 'Target not found in items list', and the
    store it leaves has lost the bookmark: every other bookmark and
    every folder is as before. *)
Theorem reorderItem_bookmark_on_itself :
  forall fuel now i pos st b,
    Bookmarks.uniqueIds st ->
    Bookmarks.disjointIds st ->
    find (Bookmarks.bHasId i) (Bookmarks.bookmarks st) = Some b ->
    Bookmarks.reorderItem fuel now i i pos st
    = Thrown "Target not found in items list"
             (Bookmarks.withBookmarks st
                (filter (fun x => negb (Bookmarks.bHasId i x)) (Bookmarks.bookmarks st))) /\
    ~ In i (map Bookmarks.b_id
              (filter (fun x => negb (Bookmarks.bHasId i x)) (Bookmarks.bookmarks st))).
Proof.
  intros fuel now i pos st b Hu Hdis Hfind.
  destruct (find_bookmark_some _ _ _ Hfind) as [Hb Ei].
  assert (Hnf : find (Bookmarks.fHasId i) (Bookmarks.folders st) = None).
  { destruct (find (Bookmarks.fHasId i) (Bookmarks.folders st)) as [f|] eqn:Ef;
      [|reflexivity].
    apply find_folder_some in Ef. destruct Ef as [Hf Efi].
    exfalso. apply (Hdis b f Hb Hf). congruence. }
  assert (Hgone : ~ In i (map Bookmarks.b_id
                            (filter (fun x => negb (Bookmarks.bHasId i x))
                                    (Bookmarks.bookmarks st)))).
  { intro Hin. apply in_map_iff in Hin. destruct Hin as [x [Ex Hx]].
    apply filter_In in Hx. destruct Hx as [_ Hx].
    unfold Bookmarks.bHasId in Hx. rewrite Ex, String.eqb_refl in Hx. discriminate. }
  split; [|exact Hgone].
  unfold Bookmarks.reorderItem. rewrite Hfind, Hnf.
  cbn [Bookmarks.item_parentId Bookmarks.detach]. rewrite optEq_refl, Ei.
  set (st1 := Bookmarks.withBookmarks st
                (filter (fun x => negb (Bookmarks.bHasId i x)) (Bookmarks.bookmarks st))).
  assert (Hidx : findIndex (fun item => String.eqb (Bookmarks.item_id item) i)
                   (Bookmarks.sortByOrder
                      (Bookmarks.getFolderSiblings (Bookmarks.b_parentId b) st1))
                 = None).
  { apply findIndex_none. intros it Hit.
    apply (Permutation_in _ (sortByOrder_perm _)) in Hit.
    apply item_in_siblings in Hit. apply String.eqb_neq.
    destruct it as [f|x]; simpl.
    - destruct Hit as [Hf _]. intro E. apply (Hdis b f Hb Hf). congruence.
    - destruct Hit as [Hx _]. intro E. apply Hgone.
      apply in_map_iff. exists x. split; [exact E | exact Hx]. }
  now rewrite Hidx.
Qed.

(** Witness of [reorderItem_bookmark_on_itself]. *)
Lemma reorderItem_bookmark_on_itself_witness :
  let b := Bookmarks.mkBookmark "k1" "file:///a.js" 1 "" 0 0 0 None None in
  let st := Bookmarks.mkStore
              [b; Bookmarks.mkBookmark "k2" "file:///a.js" 2 "" 0 0 1 None None]
              [Bookmarks.mkFolder "f" "F" None 0 0 2 None] in
  Bookmarks.uniqueIds st /\
  Bookmarks.disjointIds st /\
  Bookmarks.reorderItem 3 9 "k1" "k1" Bookmarks.before st
  = Thrown "Target not found in items list"
           (Bookmarks.withBookmarks st
              (filter (fun x => negb (Bookmarks.bHasId "k1" x)) (Bookmarks.bookmarks st))) /\
  ~ In "k1" (map Bookmarks.b_id
               (filter (fun x => negb (Bookmarks.bHasId "k1" x)) (Bookmarks.bookmarks st))).
Proof.
  intros b st.
  assert (Hu : Bookmarks.uniqueIds st).
  { split; simpl; repeat constructor; simpl; intuition discriminate. }
  assert (Hd : Bookmarks.disjointIds st).
  { intros x f [<-|[<-|[]]] [<-|[]]; discriminate. }
  split; [exact Hu|]. split; [exact Hd|].
  exact (reorderItem_bookmark_on_itself 3 9 "k1" Bookmarks.before st b Hu Hd eq_refl).
Defined.

(** ** A new bookmark and the lookup by line *)

(** X24. After [addBookmark] on a line of a file, [getBookmarkForLine] finds
    a bookmark on that line of that file: the new one when the line
    carried none, the one that was found before otherwise.  The service
    does not refuse a second bookmark on a line. *)
Theorem addBookmark_lookup :
  forall trim newId now1 now2 uri ln txt st,
    let r := Bookmarks.addBookmark trim newId now1 now2 uri ln txt st in
    Bookmarks.getBookmarkForLine uri ln (Bookmarks.bookmarks (snd r))
    = match Bookmarks.getBookmarkForLine uri ln (Bookmarks.bookmarks st) with
      | Some old => Some old
      | None => Some (fst r)
      end /\
    Bookmarks.getBookmarksForFile uri (Bookmarks.bookmarks (snd r))
    = Bookmarks.getBookmarksForFile uri (Bookmarks.bookmarks st) ++ [fst r] /\
    List.length (Bookmarks.bookmarks (snd r)) = S (List.length (Bookmarks.bookmarks st)).
Proof.
  intros trim newId now1 now2 uri ln txt st r. unfold r, Bookmarks.addBookmark.
  cbn [fst snd Bookmarks.bookmarks Bookmarks.withBookmarks].
  set (new := Bookmarks.mkBookmark newId uri ln (trim txt) now1 now2
                (Bookmarks.maxOrder (Bookmarks.getFolderSiblings None st) + 1)%Z None None).
  split; [|split].
  - unfold Bookmarks.getBookmarkForLine.
    induction (Bookmarks.bookmarks st) as [|a l IH]; simpl.
    + now rewrite String.eqb_refl, Z.eqb_refl.
    + destruct (String.eqb (Bookmarks.fileUri a) uri && (Bookmarks.line a =? ln)%Z);
        [reflexivity | exact IH].
  - unfold Bookmarks.getBookmarksForFile. rewrite filter_app. simpl.
    now rewrite String.eqb_refl.
  - rewrite length_app. simpl. lia.
Qed.

(** ** The file events and the invariant of the store *)

Lemma map_eq_filter_map {A B : Type} (f : A -> A) (p : A -> bool) (k : A -> B) :
  (forall x y, f x = f y -> p x = p y /\ k x = k y) ->
  forall l l', map f l = map f l' -> map k (filter p l) = map k (filter p l').
Proof.
  intro Hf. induction l as [|a l IH]; intros [|a' l'] H; simpl in *; try discriminate.
  - reflexivity.
  - injection H as Ha Hl. destruct (Hf a a' Ha) as [Hp Hk].
    rewrite <- Hp. destruct (p a); simpl; [rewrite Hk; f_equal|]; now apply IH.
Qed.

(** X25. [handleFileRenamed] keeps what the mutating methods keep: unique
    ids, and the orders 0,1,...,k-1 in every group. *)
Theorem handleFileRenamed_keeps_invariant :
  forall now files st,
    Bookmarks.uniqueIds st ->
    Bookmarks.allDense st ->
    let st' := snd (BookmarkService.handleFileRenamed now files st) in
    Bookmarks.uniqueIds st' /\ Bookmarks.allDense st'.
Proof.
  intros now files st [Hub Huf] Hd st'.
  destruct (handleFileRenamed_fold now files false st) as [Hf [_ [He _]]].
  change (Bookmarks.folders st' = Bookmarks.folders st) in Hf.
  change (map eraseFile (Bookmarks.bookmarks st')
          = map eraseFile (Bookmarks.bookmarks st)) in He.
  split.
  - split; [|now rewrite Hf].
    replace (map Bookmarks.b_id (Bookmarks.bookmarks st'))
      with (map Bookmarks.b_id (Bookmarks.bookmarks st)); [exact Hub|].
    transitivity (map Bookmarks.b_id (map eraseFile (Bookmarks.bookmarks st))).
    + rewrite map_map. apply map_ext. reflexivity.
    + rewrite <- He, map_map. apply map_ext. reflexivity.
  - intro p. unfold Bookmarks.denseAt. rewrite siblingOrders_split, Hf.
    rewrite (map_eq_filter_map eraseFile (Bookmarks.bChildOf p) Bookmarks.b_order)
      with (l' := Bookmarks.bookmarks st).
    + rewrite <- siblingOrders_split. apply Hd.
    + intros x y E. unfold Bookmarks.bChildOf.
      assert (E1 : Bookmarks.b_parentId (eraseFile x) = Bookmarks.b_parentId (eraseFile y))
        by now rewrite E.
      assert (E2 : Bookmarks.b_order (eraseFile x) = Bookmarks.b_order (eraseFile y))
        by now rewrite E.
      simpl in E1, E2. now rewrite E1, E2.
    + exact He.
Qed.

(** Witness of [handleFileRenamed_keeps_invariant]. *)
Lemma handleFileRenamed_keeps_invariant_witness :
  let st := Bookmarks.mkStore
              [Bookmarks.mkBookmark "k1" "file:///a.js" 1 "" 0 0 1 None None;
               Bookmarks.mkBookmark "k2" "file:///b.js" 2 "" 0 0 0 None (Some "f")]
              [Bookmarks.mkFolder "f" "F" None 0 0 0 None] in
  let st' := snd (BookmarkService.handleFileRenamed 9
                    [("file:///a.js", "file:///c.js")] st) in
  Bookmarks.uniqueIds st /\
  Bookmarks.allDense st /\
  Bookmarks.uniqueIds st' /\ Bookmarks.allDense st'.
Proof.
  intros st st'.
  assert (Hu : Bookmarks.uniqueIds st).
  { split; simpl; repeat constructor; simpl; intuition discriminate. }
  assert (Hd : Bookmarks.allDense st).
  { intros [s|]; unfold Bookmarks.denseAt, Bookmarks.siblingOrders,
                        Bookmarks.getFolderSiblings, dense;
      cbn -[String.eqb].
    - destruct (String.eqb "f" s); cbn; apply Permutation_refl.
    - apply Permutation_refl. }
  split; [exact Hu|]. split; [exact Hd|].
  exact (handleFileRenamed_keeps_invariant 9 [("file:///a.js", "file:///c.js")] st Hu Hd).
Defined.

Lemma NoDup_map_eq {A B : Type} (k : A -> B) (l : list A) (x y : A) :
  NoDup (map k l) -> In x l -> In y l -> k x = k y -> x = y.
Proof.
  induction l as [|a l IH]; intros Hn Hx Hy E; [contradiction|].
  simpl in Hn. inversion Hn as [|? ? Ha Hn']; subst.
  destruct Hx as [->|Hx], Hy as [->|Hy]; auto.
  - exfalso. apply Ha. rewrite E. now apply in_map.
  - exfalso. apply Ha. rewrite <- E. now apply in_map.
Qed.

Lemma NoDup_app_disjoint {A : Type} (l l' : list A) (a : A) :
  NoDup (l ++ l') -> In a l -> In a l' -> False.
Proof.
  induction l as [|y l IH]; intros Hn Hl Hl'; [contradiction|].
  simpl in Hn. inversion Hn as [|? ? Hy Hn']; subst.
  destruct Hl as [->|Hl]; [|now apply IH].
  apply Hy. apply in_or_app. now right.
Qed.

Lemma dense_NoDup (l : list Z) : dense l -> NoDup l.
Proof.
  intro H. apply (Permutation_NoDup (Permutation_sym H)).
  apply Injective_map_NoDup; [intros x y E; lia | apply seq_NoDup].
Qed.

(** A group that loses a bookmark, and keeps an item of greater order,
    is left with a gap when nothing is renumbered. *)
Lemma removal_gap (st : Bookmarks.Store) (keep : Bookmarks.Bookmark -> bool)
    (p : option string) (b : Bookmarks.Bookmark) (x : Bookmarks.Item) :
  Bookmarks.denseAt p st ->
  In b (Bookmarks.bookmarks st) ->
  Bookmarks.b_parentId b = p ->
  keep b = false ->
  let st' := Bookmarks.withBookmarks st (filter keep (Bookmarks.bookmarks st)) in
  In x (Bookmarks.getFolderSiblings p st') ->
  (Bookmarks.b_order b < Bookmarks.item_order x)%Z ->
  ~ Bookmarks.denseAt p st'.
Proof.
  intros Hd Hb Hp Hk st' Hx Hlt Hd'.
  unfold Bookmarks.denseAt in *.
  pose proof (dense_NoDup _ Hd) as Hn. rewrite siblingOrders_split in Hn.
  set (F := map Bookmarks.f_order (filter (Bookmarks.fChildOf p) (Bookmarks.folders st))) in *.
  set (BP := filter (Bookmarks.bChildOf p) (Bookmarks.bookmarks st)) in *.
  assert (HbP : In b BP).
  { apply filter_In. split; [exact Hb|]. apply optEq_true. exact Hp. }
  assert (Hob : (0 <= Bookmarks.b_order b)%Z).
  { apply (dense_bounds _ (Bookmarks.b_order b)) in Hd; [lia|].
    rewrite siblingOrders_split. apply in_app_iff. right. now apply in_map. }
  assert (Hox : (Bookmarks.item_order x
                 < Z.of_nat (List.length (Bookmarks.siblingOrders p st')))%Z).
  { apply (dense_bounds _ (Bookmarks.item_order x)) in Hd'; [lia|].
    unfold Bookmarks.siblingOrders. now apply in_map. }
  assert (Hin : In (Bookmarks.b_order b) (Bookmarks.siblingOrders p st')).
  { apply (Permutation_in _ (Permutation_sym Hd')).
    apply in_map_iff. exists (Z.to_nat (Bookmarks.b_order b)).
    split; [lia|]. apply in_seq. lia. }
  rewrite siblingOrders_split in Hin. apply in_app_iff in Hin.
  destruct Hin as [Hin|Hin].
  - apply (NoDup_app_disjoint _ _ (Bookmarks.b_order b) Hn Hin). now apply in_map.
  - apply in_map_iff in Hin. destruct Hin as [y [Ey Hy]].
    apply filter_In in Hy. destruct Hy as [Hy Hyp].
    unfold st' in Hy. simpl in Hy. apply filter_In in Hy. destruct Hy as [Hy Hky].
    assert (HyP : In y BP) by (apply filter_In; auto).
    apply NoDup_app_remove_l in Hn.
    assert (y = b) by (apply (NoDup_map_eq Bookmarks.b_order BP); auto).
    subst y. congruence.
Qed.

(** X26. [handleFileDeleted] does not renumber.  In a group with the orders
    0,1,...,k-1 that loses a bookmark of a deleted file and keeps an
    item of greater order, the orders that are left have a gap: the
    group no longer carries 0,1,...,k'-1. *)
Theorem handleFileDeleted_gap :
  forall files st p b x,
    Bookmarks.denseAt p st ->
    In b (Bookmarks.bookmarks st) ->
    Bookmarks.b_parentId b = p ->
    In (Bookmarks.fileUri b) files ->
    let st' := snd (BookmarkService.handleFileDeleted files st) in
    In x (Bookmarks.getFolderSiblings p st') ->
    (Bookmarks.b_order b < Bookmarks.item_order x)%Z ->
    ~ Bookmarks.denseAt p st'.
Proof.
  intros files st p b x Hd Hb Hp Hf st'.
  destruct (handleFileDeleted_fold files false st) as [Hs _].
  change (st' = Bookmarks.withBookmarks st
                  (filter (fun b => negb (existsb (String.eqb (Bookmarks.fileUri b)) files))
                          (Bookmarks.bookmarks st))) in Hs.
  rewrite Hs. apply removal_gap; auto.
  apply negb_false_iff. apply existsb_exists.
  exists (Bookmarks.fileUri b). split; [exact Hf | apply String.eqb_refl].
Qed.

(** Witness of [handleFileDeleted_gap]. *)
Lemma handleFileDeleted_gap_witness :
  let b := Bookmarks.mkBookmark "k1" "file:///a.js" 1 "" 0 0 0 None None in
  let k2 := Bookmarks.mkBookmark "k2" "file:///b.js" 2 "" 0 0 1 None None in
  let st := Bookmarks.mkStore [b; k2] [] in
  let st' := snd (BookmarkService.handleFileDeleted ["file:///a.js"] st) in
  Bookmarks.denseAt None st /\
  In b (Bookmarks.bookmarks st) /\
  In (Bookmarks.fileUri b) ["file:///a.js"] /\
  In (Bookmarks.IBookmark k2) (Bookmarks.getFolderSiblings None st') /\
  (Bookmarks.b_order b < Bookmarks.item_order (Bookmarks.IBookmark k2))%Z /\
  ~ Bookmarks.denseAt None st'.
Proof.
  intros b k2 st st'.
  assert (Hd : Bookmarks.denseAt None st).
  { unfold Bookmarks.denseAt, Bookmarks.siblingOrders, Bookmarks.getFolderSiblings, dense.
    cbn. apply Permutation_refl. }
  assert (Hb : In b (Bookmarks.bookmarks st)) by (simpl; tauto).
  assert (Hf : In (Bookmarks.fileUri b) ["file:///a.js"]) by (simpl; tauto).
  assert (Hx : In (Bookmarks.IBookmark k2) (Bookmarks.getFolderSiblings None st'))
    by (simpl; tauto).
  assert (Hlt : (Bookmarks.b_order b < Bookmarks.item_order (Bookmarks.IBookmark k2))%Z)
    by (simpl; lia).
  split; [exact Hd|]. split; [exact Hb|]. split; [exact Hf|].
  split; [exact Hx|]. split; [exact Hlt|].
  exact (handleFileDeleted_gap ["file:///a.js"] st None b (Bookmarks.IBookmark k2)
           Hd Hb eq_refl Hf Hx Hlt).
Defined.

(** ** Creating an item and deleting it *)

Lemma insertByOrder_sorted (x : Bookmarks.Item) (l : list Bookmarks.Item) :
  sortedZ (map Bookmarks.item_order l) ->
  sortedZ (map Bookmarks.item_order (Bookmarks.insertByOrder x l)).
Proof.
  induction l as [|y l IH]; intro H; simpl.
  - split; [intros z []|exact I].
  - destruct H as [Hy Hl].
    destruct (Z.leb_spec (Bookmarks.item_order x) (Bookmarks.item_order y)) as [Hle|Hgt].
    + simpl. split; [|split; assumption].
      intros z [<-|Hz]; [exact Hle|]. specialize (Hy z Hz). lia.
    + simpl. split; [|now apply IH].
      intros z Hz. apply in_map_iff in Hz. destruct Hz as [it [<- Hit]].
      apply (Permutation_in _ (insertByOrder_perm x l)) in Hit.
      destruct Hit as [<-|Hit]; [lia|]. apply Hy. now apply in_map.
Qed.

Lemma sortByOrder_sorted (l : list Bookmarks.Item) :
  sortedZ (map Bookmarks.item_order (Bookmarks.sortByOrder l)).
Proof.
  induction l as [|x l IH]; simpl; [exact I|]. now apply insertByOrder_sorted.
Qed.

Lemma sortedZ_seq (k : nat) : forall i, sortedZ (map Z.of_nat (seq i k)).
Proof.
  induction k as [|k IH]; intro i; simpl; [exact I|].
  split; [|apply IH]. intros y Hy. apply in_map_iff in Hy.
  destruct Hy as [j [<- Hj]]. apply in_seq in Hj. lia.
Qed.

(** Two sorted lists with the same elements are equal. *)
Lemma sortedZ_perm_eq (l : list Z) :
  forall l', sortedZ l -> sortedZ l' -> Permutation l l' -> l = l'.
Proof.
  induction l as [|x r IH]; intros l' Hs Hs' Hp.
  - apply Permutation_nil in Hp. now subst.
  - destruct l' as [|x' r'].
    { apply Permutation_sym, Permutation_nil in Hp. discriminate. }
    destruct Hs as [Hx Hr], Hs' as [Hx' Hr'].
    assert (E : x = x').
    { assert (H1 : In x (x' :: r')) by (apply (Permutation_in _ Hp); now left).
      assert (H2 : In x' (x :: r))
        by (apply (Permutation_in _ (Permutation_sym Hp)); now left).
      destruct H1 as [H1|H1]; [congruence|].
      destruct H2 as [H2|H2]; [congruence|].
      specialize (Hx x' H2). specialize (Hx' x H1). lia. }
    subst x'. f_equal. apply IH; auto. exact (Permutation_cons_inv Hp).
Qed.

Lemma store_eq (s s' : Bookmarks.Store) :
  Bookmarks.bookmarks s = Bookmarks.bookmarks s' ->
  Bookmarks.folders s = Bookmarks.folders s' -> s = s'.
Proof. destruct s, s'. simpl. now intros -> ->. Qed.

(** On a group that carries 0,1,...,k-1 already, the normalisation
    writes to every item the order it has. *)
Lemma normalize_dense_id (p : option string) (st : Bookmarks.Store) :
  Bookmarks.uniqueIds st ->
  Bookmarks.denseAt p st ->
  Bookmarks.normalizeSiblings p st = st.
Proof.
  intros Hu Hd. unfold Bookmarks.normalizeSiblings.
  set (sibs := Bookmarks.getFolderSiblings p st).
  set (items := Bookmarks.sortByOrder sibs).
  assert (Hperm : Permutation items sibs) by apply sortByOrder_perm.
  assert (Hn : NoDup (map item_key items)).
  { apply (Permutation_NoDup (l := map item_key sibs)).
    - apply Permutation_map. now apply Permutation_sym.
    - now apply siblings_keys_NoDup. }
  assert (Horders : map Bookmarks.item_order items
                    = map Z.of_nat (seq 0 (List.length items))).
  { apply sortedZ_perm_eq.
    - apply sortByOrder_sorted.
    - apply sortedZ_seq.
    - unfold Bookmarks.denseAt, Bookmarks.siblingOrders, dense in Hd. fold sibs in Hd.
      rewrite length_map in Hd. rewrite (Permutation_length Hperm).
      eapply Permutation_trans; [|exact Hd]. now apply Permutation_map. }
  assert (Hpos : forall x, In x items ->
                           posOrder items 0 (item_key x) (Bookmarks.item_order x)
                           = Bookmarks.item_order x).
  { pose proof (posOrder_indexes items Hn 0 Bookmarks.item_order) as Hi.
    rewrite <- Horders in Hi. intros x Hx.
    exact (proj1 map_ext_in_iff Hi x Hx). }
  assert (Hany : forall x, In x (Bookmarks.getFolderSiblings (Bookmarks.item_parentId x) st) ->
                           posOrder items 0 (item_key x) (Bookmarks.item_order x)
                           = Bookmarks.item_order x).
  { intros x Hx. destruct (optEq (Bookmarks.item_parentId x) p) eqn:E.
    - apply optEq_true in E. rewrite E in Hx. apply Hpos.
      apply (Permutation_in _ (Permutation_sym Hperm)). exact Hx.
    - apply optEq_false in E. apply posOrder_absent. intros it' Hit'.
      destruct (sameKey (item_key x) it') eqn:Ek; [|reflexivity].
      apply sameKey_true in Ek. exfalso. apply E.
      apply (Permutation_in _ Hperm) in Hit'.
      exact (same_key_same_group st _ p x it' Hu Hx Hit' Ek). }
  apply store_eq.
  - rewrite assignOrders_bookmarks.
    rewrite <- (map_id (Bookmarks.bookmarks st)) at 2. apply map_ext_in. intros b Hb.
    pose proof (Hany (Bookmarks.IBookmark b)) as Hx. simpl in Hx.
    rewrite Hx; [apply setBOrder_same|].
    apply item_in_siblings. auto.
  - rewrite assignOrders_folders.
    rewrite <- (map_id (Bookmarks.folders st)) at 2. apply map_ext_in. intros g Hg.
    pose proof (Hany (Bookmarks.IFolder g)) as Hx. simpl in Hx.
    rewrite Hx; [apply setFOrder_same|].
    apply item_in_siblings. auto.
Qed.

(** X27. In a store with unique ids, an item created with a new id and
    deleted right away leaves the store exactly as it was before the
    creation, when the group it was created in carried the orders
    0,1,...,k-1: [deleteBookmark] undoes [addBookmark], and
    [deleteFolder] undoes [addFolder]. *)
Theorem create_then_delete_restores :
  forall trim newId now1 now2 st,
    Bookmarks.uniqueIds st ->
    freshId newId st ->
    (forall uri ln txt,
        Bookmarks.denseAt None st ->
        Bookmarks.deleteBookmark newId
          (snd (Bookmarks.addBookmark trim newId now1 now2 uri ln txt st)) = st) /\
    (forall nm parent fuel,
        Bookmarks.denseAt parent st ->
        childless newId st ->
        parent <> Some newId ->
        1 <= fuel ->
        Bookmarks.deleteFolder fuel newId
          (snd (Bookmarks.addFolder trim newId now1 now2 nm parent st)) = Some st).
Proof.
  intros trim newId now1 now2 st Hu [Hfb Hff]. split.
  - intros uri ln txt Hd. unfold Bookmarks.addBookmark. cbn [snd].
    set (new := Bookmarks.mkBookmark newId uri ln (trim txt) now1 now2
                  (Bookmarks.maxOrder (Bookmarks.getFolderSiblings None st) + 1)%Z
                  None None).
    set (st1 := Bookmarks.withBookmarks st (Bookmarks.bookmarks st ++ [new])).
    assert (Hfind : find (Bookmarks.bHasId newId) (Bookmarks.bookmarks st1) = Some new).
    { apply find_snoc_new.
      - intros a Ha. unfold Bookmarks.bHasId. apply String.eqb_neq.
        intro E. apply Hfb. rewrite <- E. now apply in_map.
      - unfold Bookmarks.bHasId. apply String.eqb_refl. }
    assert (Hback : Bookmarks.withBookmarks st1
                      (filter (fun b => negb (Bookmarks.bHasId newId b))
                              (Bookmarks.bookmarks st1)) = st).
    { apply store_eq; [|reflexivity]. simpl.
      rewrite filter_app. simpl. unfold Bookmarks.bHasId at 2. simpl.
      rewrite String.eqb_refl. simpl. rewrite app_nil_r.
      apply forallb_filter_id. apply forallb_forall. intros a Ha.
      unfold Bookmarks.bHasId. apply negb_true_iff. apply String.eqb_neq.
      intro E. apply Hfb. rewrite <- E. now apply in_map. }
    unfold Bookmarks.deleteBookmark. rewrite Hfind, Hback.
    now apply normalize_dense_id.
  - intros nm parent fuel Hd [Hcb Hcf] Hp Hfuel.
    unfold Bookmarks.addFolder. cbn [snd].
    set (new := Bookmarks.mkFolder newId (trim nm) parent now1 now2
                  (Bookmarks.maxOrder (Bookmarks.getFolderSiblings parent st) + 1)%Z
                  (Some true)).
    set (st1 := Bookmarks.withFolders st (Bookmarks.folders st ++ [new])).
    assert (Hfind : find (Bookmarks.fHasId newId) (Bookmarks.folders st1) = Some new).
    { apply find_snoc_new.
      - intros a Ha. unfold Bookmarks.fHasId. apply String.eqb_neq.
        intro E. apply Hff. rewrite <- E. now apply in_map.
      - unfold Bookmarks.fHasId. apply String.eqb_refl. }
    assert (Hbs : filter (fun b => negb (Bookmarks.bChildOf (Some newId) b))
                         (Bookmarks.bookmarks st) = Bookmarks.bookmarks st).
    { apply forallb_filter_id. apply forallb_forall. intros b Hb.
      apply negb_true_iff. apply optEq_false. now apply Hcb. }
    assert (Hsub : filter (Bookmarks.fChildOf (Some newId)) (Bookmarks.folders st ++ [new])
                   = []).
    { apply filter_none. intros f Hf. apply in_app_iff in Hf.
      apply optEq_false. destruct Hf as [Hf|[<-|[]]]; [now apply Hcf | exact Hp]. }
    assert (Hfs : filter (fun f => negb (Bookmarks.fHasId newId f))
                         (Bookmarks.folders st ++ [new]) = Bookmarks.folders st).
    { rewrite filter_app. simpl. unfold Bookmarks.fHasId at 2. simpl.
      rewrite String.eqb_refl. simpl. rewrite app_nil_r.
      apply forallb_filter_id. apply forallb_forall. intros a Ha.
      unfold Bookmarks.fHasId. apply negb_true_iff. apply String.eqb_neq.
      intro E. apply Hff. rewrite <- E. now apply in_map. }
    assert (Hrec : Bookmarks.deleteFolderRecursive fuel newId st1 = Some st).
    { destruct fuel as [|fuel]; [lia|].
      cbn [Bookmarks.deleteFolderRecursive]. simpl Bookmarks.bookmarks.
      simpl Bookmarks.folders. rewrite Hbs, Hsub. cbn [fold_left].
      f_equal. apply store_eq; simpl; [reflexivity | exact Hfs]. }
    unfold Bookmarks.deleteFolder. rewrite Hfind, Hrec.
    cbn [Bookmarks.f_parentId new]. now rewrite normalize_dense_id.
Qed.

(** Witness of [create_then_delete_restores]. *)
Lemma create_then_delete_restores_witness :
  let st := Bookmarks.mkStore
              [Bookmarks.mkBookmark "k1" "file:///a.js" 1 "" 0 0 1 None None]
              [Bookmarks.mkFolder "f" "F" None 0 0 0 None] in
  Bookmarks.uniqueIds st /\
  freshId "n" st /\
  (forall uri ln txt,
      Bookmarks.denseAt None st ->
      Bookmarks.deleteBookmark "n"
        (snd (Bookmarks.addBookmark (fun s => s) "n" 7 8 uri ln txt st)) = st) /\
  (forall nm parent fuel,
      Bookmarks.denseAt parent st ->
      childless "n" st ->
      parent <> Some "n" ->
      1 <= fuel ->
      Bookmarks.deleteFolder fuel "n"
        (snd (Bookmarks.addFolder (fun s => s) "n" 7 8 nm parent st)) = Some st).
Proof.
  intro st.
  assert (Hu : Bookmarks.uniqueIds st).
  { split; simpl; repeat constructor; simpl; intuition discriminate. }
  assert (Hf : freshId "n" st).
  { split; simpl; intuition discriminate. }
  split; [exact Hu|]. split; [exact Hf|].
  exact (create_then_delete_restores (fun s => s) "n" 7 8 st Hu Hf).
Defined.

(** ** Round trips in the todo store *)

Lemma nth_split2 {A : Type} (l : list A) (k : nat) (a b : A) :
  nth_error l k = Some a -> nth_error l (S k) = Some b ->
  l = firstn k l ++ a :: b :: skipn (S (S k)) l.
Proof.
  revert k. induction l as [|x l IH]; intros [|k] Ha Hb; simpl in *; try discriminate.
  - injection Ha as ->. destruct l as [|y l]; [discriminate|].
    simpl in Hb. now injection Hb as ->.
  - f_equal. now apply IH.
Qed.

Lemma swap_in_context {A : Type} (front back : list A) (a b : A) :
  TodoService.swap (List.length front) (S (List.length front)) (front ++ a :: b :: back)
  = front ++ b :: a :: back /\
  TodoService.swap (S (List.length front)) (List.length front) (front ++ a :: b :: back)
  = front ++ b :: a :: back.
Proof.
  set (l := front ++ a :: b :: back).
  assert (Ha : nth_error l (List.length front) = Some a).
  { unfold l. rewrite nth_error_app2 by lia. now rewrite Nat.sub_diag. }
  assert (Hb : nth_error l (S (List.length front)) = Some b).
  { unfold l. rewrite nth_error_app2 by lia.
    now replace (S (List.length front) - List.length front) with 1 by lia. }
  assert (Hf : firstn (List.length front) l = front).
  { unfold l. rewrite firstn_app, Nat.sub_diag, firstn_all. simpl. apply app_nil_r. }
  assert (Hs : skipn (S (S (List.length front))) l = back).
  { unfold l. rewrite skipn_app, skipn_all2 by lia.
    now replace (S (S (List.length front)) - List.length front) with 2 by lia. }
  destruct (swap_neighbours l (List.length front) a b Ha Hb) as [E1 E2].
  rewrite E1, E2, Hf, Hs. split; reflexivity.
Qed.

(** X28. [moveTodoDown] undoes [moveTodoUp], and [moveTodoUp] undoes a
    [moveTodoDown] that moved the todo over a todo of another id: the
    array is the one before the two calls. *)
Theorem moveTodo_round_trip :
  forall i todos,
    (forall k, findIndex (Todos.hasId i) todos = Some (S k) ->
               TodoService.moveTodoDown i (TodoService.moveTodoUp i todos)
               = map Some todos) /\
    (forall k next,
        findIndex (Todos.hasId i) todos = Some k ->
        nth_error todos (S k) = Some next ->
        Todos.id next <> i ->
        exists r, TodoService.moveTodoDown i todos = map Some r /\
                  TodoService.moveTodoUp i r = todos).
Proof.
  intros i todos. split.
  - intros k E.
    destruct (moveTodoUp_found i todos k E) as [prev [cur [Hprev [Hcur [Hr Hidx]]]]].
    assert (Hk : k < List.length todos)
      by (apply nth_error_Some; congruence).
    pose proof (nth_split2 todos k prev cur Hprev Hcur) as Hsplit.
    remember (firstn k todos) as front eqn:Hfront.
    remember (skipn (S (S k)) todos) as back eqn:Hback.
    assert (Hlen : List.length front = k)
      by (subst front; rewrite length_firstn; lia).
    rewrite Hr in Hidx. rewrite Hr.
    unfold TodoService.moveTodoDown. rewrite Hidx.
    assert (Hlt : S k < List.length (front ++ cur :: prev :: back))
      by (rewrite length_app; simpl; lia).
    destruct (Nat.ltb_spec (S k) (List.length (front ++ cur :: prev :: back))); [|lia].
    f_equal. rewrite <- Hlen.
    rewrite (proj1 (swap_in_context front back cur prev)).
    symmetry. exact Hsplit.
  - intros k next E Hnext Hid.
    destruct (findIndex_some _ _ _ E) as [cur [Hcur [Hp Hlt]]].
    assert (Hk : S k < List.length todos)
      by (apply nth_error_Some; congruence).
    pose proof (nth_split2 todos k cur next Hcur Hnext) as Hsplit.
    pose proof (proj2 (swap_neighbours todos k cur next Hcur Hnext)) as Hswap.
    assert (Hbefore : forall j y, j < k -> nth_error (firstn k todos) j = Some y ->
                                  Todos.hasId i y = false).
    { intros j y Hj Hy. rewrite nth_error_firstn in Hy.
      destruct (Nat.ltb_spec j k); [|lia]. apply (Hlt j y); [lia | exact Hy]. }
    remember (firstn k todos) as front eqn:Hfront.
    remember (skipn (S (S k)) todos) as back eqn:Hback.
    assert (Hlen : List.length front = k)
      by (subst front; rewrite length_firstn; lia).
    exists (front ++ next :: cur :: back). split.
    + unfold TodoService.moveTodoDown. rewrite E.
      destruct (Nat.ltb_spec (S k) (List.length todos)); [|lia].
      now rewrite Hswap.
    + assert (Hidx : findIndex (Todos.hasId i) (front ++ next :: cur :: back)
                     = Some (S k)).
      { apply findIndex_first with (x := cur); [|exact Hp|].
        - rewrite nth_error_app2 by lia. rewrite Hlen.
          now replace (S k - k) with 1 by lia.
        - intros j y Hj Hy. destruct (Nat.eq_dec j k) as [->|Hne].
          + rewrite nth_error_app2 in Hy by lia. rewrite Hlen, Nat.sub_diag in Hy.
            simpl in Hy. injection Hy as <-.
            unfold Todos.hasId. now apply String.eqb_neq.
          + rewrite nth_error_app1 in Hy by lia.
            apply (Hbefore j y); [lia | exact Hy]. }
      unfold TodoService.moveTodoUp. rewrite Hidx. rewrite <- Hlen.
      rewrite (proj2 (swap_in_context front back next cur)).
      symmetry. exact Hsplit.
Qed.


(** * Scenarios of the test suite, evaluated *)

(** 'reorder siblings and change parent via provider APIs': with A, B,
    C at the root and B1 under B, dragging C on B lists the roots as
    A, C, B. *)
Example reorderTodo_scenario_evaluated :
  let t := fun i o p => Todos.mkTodo i i false 0 0 o p in
  let todos := [t "A" 0 None; t "B" 1 None; t "C" 2 None; t "B1" 3 (Some "B")]%Z in
  map Todos.text
      (filter (fun x => negb (truthy (Todos.parentId x)))
              (Todos.reorderTodo "C" "B" todos))
  = ["A"; "C"; "B"].
Proof. vm_compute. reflexivity. Qed.

(** 'complete UI workflow', steps 9 to 11: two todos checked give
    [completed = 2], and unchecked again [completed = 0]. *)
Example toggle_stats_scenario_evaluated :
  let t := fun i o p => Todos.mkTodo i i false 0 0 o p in
  let todos := [t "t0" 0 None; t "t1" 1 None; t "sub" 2 (Some "t1")]%Z in
  let checked := Todos.toggleTodo 2 "t1" (Todos.toggleTodo 1 "t0" todos) in
  let unchecked := Todos.toggleTodo 4 "t1" (Todos.toggleTodo 3 "t0" checked) in
  TodoService.completed (TodoService.getTodoStats checked) = 2%Z /\
  TodoService.completed (TodoService.getTodoStats unchecked) = 0%Z.
Proof. vm_compute. split; reflexivity. Qed.

(** 'renaming a file updates associated bookmarks fileUri' and
    'deleting a file removes associated bookmarks'. *)
Example file_events_scenario_evaluated :
  let bm := fun i u l o => Bookmarks.mkBookmark i u l "" 0 0 o None None in
  let st := Bookmarks.mkStore [bm "b0" "file:///a.js" 0 0]%Z [] in
  let renamed := BookmarkService.handleFileRenamed 9
                   [("file:///a.js", "file:///a-renamed.js")] st in
  let st2 := Bookmarks.mkStore
               [bm "x" "file:///b.js" 0 0; bm "y" "file:///b.js" 1 1]%Z [] in
  let deleted := BookmarkService.handleFileDeleted ["file:///b.js"] st2 in
  fst renamed = true /\
  Bookmarks.getBookmarksForFile "file:///a.js" (Bookmarks.bookmarks (snd renamed)) = [] /\
  map Bookmarks.line
      (Bookmarks.getBookmarksForFile "file:///a-renamed.js"
         (Bookmarks.bookmarks (snd renamed))) = [0%Z] /\
  fst deleted = true /\
  Bookmarks.getBookmarksForFile "file:///b.js" (Bookmarks.bookmarks (snd deleted)) = [].
Proof. vm_compute. repeat split; reflexivity. Qed.

(** * The count ceiling on the creation paths *)

(** X30. The three paths that consult [validateTotalCount] create below
    the ceiling and refuse at it, the store unchanged:
    'vs-codebench.addTodo' with a text entered in the first box,
    [TodosProvider.addSubTodo] once the nesting check has passed, and
    'vs-codebench.addBookmark' on a line that has no bookmark.  Below
    the ceiling the collection gains the new item at its end; from the
    ceiling on, the exact message is shown. *)
Theorem validated_creation_ceiling (trim : string -> string) :
  (forall newId now1 now2 input rest todos,
      input <> "" ->
      (List.length todos < 100 ->
       TodoCommands.addTodo trim newId now1 now2 (Some input :: rest) todos
       = Some ([], todos ++ [Todos.mkTodo newId (trim input) false now1 now2
                               (Z.of_nat (List.length todos)) None])) /\
      (100 <= List.length todos ->
       TodoCommands.addTodo trim newId now1 now2 (Some input :: rest) todos
       = Some (["Total Todo count cannot exceed 100."], todos))) /\
  (forall fuel newId now1 now2 input parentId todos,
      TodoValidator.validateNesting fuel todos (Some parentId) = Some None ->
      (List.length todos < 100 ->
       TodosProvider.addSubTodo trim fuel newId now1 now2 input parentId todos
       = Some (TodosProvider.Added
                 (todos ++ [Todos.mkTodo newId (trim input) false now1 now2
                              (Z.of_nat (List.length todos)) (Some parentId)]))) /\
      (100 <= List.length todos ->
       TodosProvider.addSubTodo trim fuel newId now1 now2 input parentId todos
       = Some (TodosProvider.ErrorShown "Total Todo count cannot exceed 100."))) /\
  (forall newId now1 now2 ed input text st,
      BookmarkCommands.scheme ed = "file" \/ BookmarkCommands.scheme ed = "untitled" ->
      (List.length (Bookmarks.bookmarks st) < 200 ->
       BookmarkCommands.lineAt ed (BookmarkCommands.activeLine ed) = Some text ->
       Bookmarks.getBookmarkForLine (BookmarkCommands.documentUri ed)
         (BookmarkCommands.activeLine ed) (Bookmarks.bookmarks st) = None ->
       exists b,
         BookmarkCommands.addBookmark trim newId now1 now2 (Some ed) (Some input) st
         = BookmarkCommands.Done
             (Bookmarks.mkStore (Bookmarks.bookmarks st ++ [b]) (Bookmarks.folders st)) /\
         Bookmarks.b_id b = newId /\
         Bookmarks.fileUri b = BookmarkCommands.documentUri ed /\
         Bookmarks.line b = BookmarkCommands.activeLine ed) /\
      (200 <= List.length (Bookmarks.bookmarks st) ->
       BookmarkCommands.addBookmark trim newId now1 now2 (Some ed) (Some input) st
       = BookmarkCommands.MessageShown "Total Bookmark count cannot exceed 200.")).
Proof.
  destruct validateTotalCount_ceiling as [Ht1 [Ht0 [Hb1 [Hb0 _]]]].
  split; [|split].
  - intros newId now1 now2 input rest todos Hin.
    apply String.eqb_neq in Hin.
    unfold TodoCommands.addTodo. cbn [TodoCommands.addTodo_loop]. rewrite Hin.
    split; intro H.
    + rewrite (proj2 (Ht0 todos) H). reflexivity.
    + rewrite (proj2 (Ht1 todos) H). reflexivity.
  - intros fuel newId now1 now2 input parentId todos Hn.
    unfold TodosProvider.addSubTodo. rewrite Hn.
    split; intro H.
    + rewrite (proj2 (Ht0 todos) H). reflexivity.
    + rewrite (proj2 (Ht1 todos) H). reflexivity.
  - intros newId now1 now2 ed input text st Hs.
    assert (Es : negb (String.eqb (BookmarkCommands.scheme ed) "file")
                 && negb (String.eqb (BookmarkCommands.scheme ed) "untitled") = false).
    { destruct Hs as [->| ->]; reflexivity. }
    unfold BookmarkCommands.addBookmark. rewrite Es.
    split.
    + intros H Hl Hb. rewrite (proj2 (Hb0 _) H), Hl, Hb.
      eexists. split; [reflexivity|]. cbn. auto.
    + intro H. rewrite (proj2 (Hb1 _) H). reflexivity.
Qed.

(** Witness of [validated_creation_ceiling]: the first todo of an
    empty list, a sub-todo of it, bookmark 200 and bookmark 201. *)
Lemma validated_creation_ceiling_witness :
  let ed := BookmarkCommands.mkEditor "file" "file:///a.js" 500
              (fun _ => Some "const x = 1;") in
  TodoCommands.addTodo (fun s => s) "t1" 1 2 [Some "buy milk"] []
  = Some ([], [Todos.mkTodo "t1" "buy milk" false 1 2 0 None]) /\
  TodosProvider.addSubTodo (fun s => s) 5 "t2" 3 4 "skimmed" "t1"
    [Todos.mkTodo "t1" "buy milk" false 1 2 0 None]
  = Some (TodosProvider.Added
            [Todos.mkTodo "t1" "buy milk" false 1 2 0 None;
             Todos.mkTodo "t2" "skimmed" false 3 4 1 (Some "t1")]) /\
  (exists b,
      BookmarkCommands.addBookmark (fun s => s) "new" 1 2 (Some ed) (Some "note")
        (bookmarksOnLines 199)
      = BookmarkCommands.Done
          (Bookmarks.mkStore (Bookmarks.bookmarks (bookmarksOnLines 199) ++ [b])
             (Bookmarks.folders (bookmarksOnLines 199))) /\
      Bookmarks.b_id b = "new" /\
      Bookmarks.fileUri b = "file:///a.js" /\
      Bookmarks.line b = 500%Z) /\
  BookmarkCommands.addBookmark (fun s => s) "new" 1 2 (Some ed) (Some "note")
    (bookmarksOnLines 200)
  = BookmarkCommands.MessageShown "Total Bookmark count cannot exceed 200.".
Proof.
  intro ed.
  destruct (validated_creation_ceiling (fun s => s)) as [Ha [Hs Hb]].
  assert (Hne : "buy milk" <> "") by discriminate.
  split; [|split; [|split]].
  - apply (proj1 (Ha "t1" 1%Z 2%Z "buy milk" [] [] Hne)). simpl. lia.
  - apply (proj1 (Hs 5 "t2" 3%Z 4%Z "skimmed" "t1"
                    [Todos.mkTodo "t1" "buy milk" false 1 2 0 None] eq_refl)).
    simpl. lia.
  - apply (proj1 (Hb "new" 1%Z 2%Z ed "note" "const x = 1;" (bookmarksOnLines 199)
                    (or_introl eq_refl))).
    + vm_compute. lia.
    + reflexivity.
    + vm_compute. reflexivity.
  - apply (proj2 (Hb "new" 1%Z 2%Z ed "note" "const x = 1;" (bookmarksOnLines 200)
                    (or_introl eq_refl))).
    vm_compute. lia.
Defined.

(** C8. With 200 bookmarks in the store the validator answers with the
    message and 'vs-codebench.addBookmark' refuses with it, while
    'vs-codebench.toggleBookmark' on a line that has no bookmark adds
    bookmark 201 and shows nothing. *)
Theorem toggleBookmark_at_ceiling_evaluated :
  let st := bookmarksOnLines 200 in
  let editor := Some (BookmarkCommands.mkEditor "file" "file:///a.js" 500
                        (fun _ => Some "const x = 1;")) in
  List.length (Bookmarks.bookmarks st) = 200 /\
  Bookmarks.validateTotalCount (Bookmarks.bookmarks st)
  = Some "Total Bookmark count cannot exceed 200." /\
  BookmarkCommands.addBookmark (fun s => s) "new" 1 2 editor (Some "note") st
  = BookmarkCommands.MessageShown "Total Bookmark count cannot exceed 200." /\
  exists st',
    BookmarkCommands.toggleBookmark (fun s => s) "new" 1 2 editor
      BookmarkCommands.NoArgs st = BookmarkCommands.Done st' /\
    List.length (Bookmarks.bookmarks st') = 201 /\
    Bookmarks.getBookmarkForLine "file:///a.js" 500 (Bookmarks.bookmarks st')
    = Some (Bookmarks.mkBookmark "new" "file:///a.js" 500 "const x = 1;" 1 2 200
              None None).
Proof.
  intros st editor.
  split; [vm_compute; reflexivity|].
  split; [vm_compute; reflexivity|].
  split; [vm_compute; reflexivity|].
  eexists. split; [reflexivity|].
  split; vm_compute; reflexivity.
Qed.
